(* ===== verification/_CoqProject ===== *)
-Q . S2P
Prelude.v
Geometry.v
StableSort.v
Solver.v
Api.v
Json.v
Intrinsics.v
RunShot.v
Vision.v
Hough.v
Schema.v
Net.v
Main.v
YoloPreview.v
Capture.v
Generator.v
Render.v
Window.v
Visualize.v
Camera.v
Snap.v
CapTest.v
Pipeline.v
Corners.v
CornerTool.v
CamMan.v
CornerFile.v
Stitch.v
