(* ===== verification/Prelude.v ===== *)
(** * A verification library for the HIWIN_POOL billiard shot planner

    ** The program

    The repository drives a HIWIN robot arm that plays billiards.  A round
    of [src/main/main.py] waits for a TCP frame of the arm controller; on
    ["MOVING"] it photographs the table with [yoloball.capture_balls],
    reads the detections file [CORD_JSON], plans a shot with [run_shot.plan_shot_from_json] (which calls
    [billiard_api.compute_shot], which calls [BilliardSolver.solve]) and
    answers ["100"] and the arm payload, or ["200"] when there is no shot.
    Its parts, leaves first:
    - the geometry kernel and the solver ([src/main/core/solver_core.py]):
      vectors, [angle], the obstruction test [path_clear]; [BilliardSolver]
      sorts the six pockets by (angle, distance), computes the ghost point
      per pocket, tries the direct shot and then the four one-rail mirror
      images, and returns the first feasible plan or [None];
    - the adapter [src/main/core/billiard_api.py]: table, pockets and
      [compute_shot] (heading in degrees, pocket index, rounding);
    - the driver [src/main/run_shot.py]: the JSON file, the confidence
      filter, the choice of cue, target and blockers;
    - the framing of [src/main/communicate/tcp.py] and the client
      [tcp_communicate.py] (connect with retries);
    - the detectors [src/main/vision/yoloball.py] (YOLO boxes, homography,
      pocket and separation filters) and [houghball.py] (Hough circles,
      HSV colour classes), the photo names of [capture.py] and the loop of
      [arm_captrue.py];
    - the random layouts of [src/main/core/ball_generator.py];
    - the pygame views [gui/simulator.py], [cli/shot_cli.py] and
      [gui/visualize.py], which draw a layout and its plan;
    - the calibration tools [src/tools/auto_corners.py], which writes the
      [corner.json] from which [yoloball] builds its homography, and
      [src/tools/test_corner.py], which lets the user drag its corners
      with the mouse and saves them again; [src/tools/cam_man.py], the
      undistorted camera feed that saves [photo_<n:03d>.jpg] on Space;
      the stitching scripts [src/tools/size.py] and [stinch.py]; and the
      preview [src/tools/yolo.py], which draws YOLO's boxes on a photo,
      and [src/tools/cap_test.py], a second YOLO capture that warps the
      photo onto the table and writes the keys the driver reads.

    ** The model

    Python floats are exact reals (Stdlib [Reals]): [norm] is [sqrt] of a
    sum of squares, [acos]/[atan2] are Stdlib's; floating-point rounding
    is not modelled, except in the grid of [Render], whose loop
    accumulates [x += 0.05] and is computed in Rocq's primitive binary64
    [float]s (evaluated by [vm_compute]); the constants ([BALL_R = 0.0125], [EPS = 1e-9], the
    tolerance [1e-4]) are kept as written.  Comparisons are booleans
    ([Rltb], [Rleb], [Reqb]) split by the tactic [rcase]; witnesses are
    evaluated with [lra]/[nra], [reflexivity] and [vm_compute] where the
    data are integers or strings.  A numpy division by zero (NaN) is made
    explicit as [None].  A computation that may raise is a value of the
    monad [py A = exn + A] (this file), with the exceptions the code
    raises or catches.  Ints are [Z], strings Stdlib [string], JSON values
    the inductive [jval] (with Python's [==], [int()], [str()]).

    Files, in dependency order, and the groups of theorems:
    - [Prelude]: [vec] and [geo_scope], boolean comparisons, [first_some]
      (a [for] loop with early [return]), the [py] monad, hints [geo].
    - [Geometry] ([angle], [path_clear] of solver_core.py lines 1-38): the
      projection routine decides exactly the swept-corridor condition
      ([path_clear_spec]), rails included.
    - [StableSort]: [sorted(key=...)] as a stable insertion sort over a
      [KeyOrder] class (sortedness, permutation, stability).
    - [Solver] ([BilliardSolver], lines 41-89): refinement of the abstract
      contract [solve_spec] (first feasible pocket in sort order, direct
      before bank, [None] only when nothing is feasible), safety of direct
      and bank plans, ghost and mirror geometry, and a finding: the bank
      check does not test the reflected leg, and on a concrete layout
      [solve] returns a bank shot whose real second leg is blocked.
    - [Api] ([compute_shot]): totality, heading range, the spec's scenarios.
    - [Json]: the Python values and builtins the driver uses; the
      [int]/[str] round trip; [max(key=)] returns the first maximum.
    - [Intrinsics] ([yoloball._load_intrinsics], the YAML reading of
      [cam_man.py]): [dict.get] with its fallbacks, numpy arrays built
      from nested lists ([nd_of]) and [reshape(3, 3)]; every file
      [cam_man] reads, [yoloball] reads the same ([loaders_agree]), and a
      file without distortion is accepted.
    - [RunShot] ([plan_shot_from_json], [select_balls]): the exact
      selection on a file of detections, error paths, a scenario, and the
      end of the script's [__main__] block ([run_shot_main]: when it
      exits with status 1).
    - [Vision] ([yoloball.detect_and_convert]): [np.linalg.inv] raises
      [LinAlgError] on a singular homography; otherwise the filters keep
      separated centres off the pockets; its records use [x_cm]/[y_cm],
      which the driver rejects, so every such file gives no shot.
    - [Hough] (Modules [HoughBall] for the code, [HoughFacts] for the
      theorems): the files it writes are read as well-formed detections;
      the colour classes; the 40 cm height.
    - [Schema]: the documents between the detectors and the driver as
      types of JSON values ([jty], typing judgment [jtyped], decided by
      [jcheck]) and a small program logic for [py] ([py_spec] with rules
      for bind and the builtins): yoloball's documents have their own type
      ([detect_doc_typed]), on a document of the driver's type the driver
      raises only its own errors, never [KeyError] or [TypeError]
      ([plan_shot_typed_errors]).
    - [Net] ([tcp.py], [tcp_communicate.py]): framing round trip,
      coalesced frames, the retry loop and its bound, and the test loop
      of [tcp.py]'s [__main__] (it sends [{0}] every 3 seconds for ever
      once connected, and exits after 10 seconds otherwise).
    - [Main] ([main.py] as [main_step] and the relation [reachable]): the
      replies to each frame, the counter invariant, a closed peer is kept
      forever, and with the YOLO detector every reply is ["200"].
    - [YoloPreview] ([tools/yolo.py], Module [YoloPreview]): the labels of
      the boxes, [IndexError] for a class outside [class_names] and
      [AttributeError] for a missing photo; its class table and
      [yoloball]'s agree on eight classes of sixteen.
    - [Capture] ([capture.py], [arm_captrue.py]): [get_next_filename]
      never reuses a name, so successive calls of [capture()] on a folder
      of photos keep every photo and add one per shot; the name does not
      depend on the order [os.listdir] lists the folder in (a [Proper]
      instance for [Permutation]); [arm_capture] raises [TypeError] at
      its first call.
    - [Generator] ([generate_layout] over a list of random draws): every
      layout meets the code's constraints, and depends only on the draws
      it consumes.
    - [Render] ([gui/simulator.py], [cli/shot_cli.py], [gui/visualize.py]:
      a round of each drawing loop as the list of pygame calls): no frame
      raises, ["NO  PATH"] exactly when there is no shot, the float grid
      loops stop by their own test after 15 and 8 lines, three of which
      are drawn a pixel off ([draw_grid_lines]), the geometry of the
      dashes, the pixel sizes
      of both demos ([view_pixel_sizes]), and a finding:
      the views draw the path into pockets of a 0.73 m table while the
      plan aims at 0.735 m.
    - [Visualize] ([gui/visualize.py]'s command line and [run_shot]'s
      [--show] branch): the [--blockers] values are paired by
      [zip(l[::2], l[1::2])], a round trip up to a dropped odd value; the
      command line draws what [show] draws; [plan_shot_from_json(..,
      show=True)] returns its plan only once the window is closed, and
      loses it ([None]) when there is no display
      ([plan_shot_show_window]).
    - [Window] (the [while run] loops of the three views, [_render]'s
      [set_mode] and [visualize.show]): over the batches of pygame events,
      each loop draws the frame of its plan once a round and ends exactly
      at the first round holding [QUIT] ([demo_main_quits]); [set_mode]
      raises [pygame.error] (a [RuntimeError]) without a display.
    - [Camera] ([capture_balls] of [yoloball.py] and [houghball.py]): the
      countdowns over an abstract camera run (one key code per round, the
      Esc test on its low byte) and what each capture writes.
    - [Snap] ([yoloball._snap] with its clock, [_draw_preview],
      [_undistort], and [capture_balls] with [Intrinsics]): the loop with
      its clock readings; the seconds a preview shows lie in
      [1 .. wait + 1], [wait + 1] only when the clock has not moved; a
      calibration file the loader rejects raises before the camera opens.
    - [CapTest] ([tools/cap_test.py], Module [CapTest]): the homography
      computed at import, the pocket filter and the records; its files
      have the driver's type ([cap_test_doc_typed]), and its class table
      names the balls as [yolo.py] does, for the weights [yoloball] uses.
    - [Pipeline] ([main.py] on a world of JSON files): [handle_w] runs the
      real capture and reads [CORD_JSON]; it agrees with [Main.main_step]
      on the environment its world gives, and it never answers with a shot planned on the photo just taken (the
      capture writes a relative path, with keys the planner rejects); a
      cancelled countdown leaves the previous file to be planned on.
    - [Corners] ([tools/auto_corners.py], Module [AutoCorners]): the
      whole script over the OpenCV calls; [detect_by_aruco] returns the
      centres of the markers 0 to 3 or raises; [shrink_to_inner] moves the sides of a
      rectangle in by less than the rail thickness; and on a table seen
      turned by 45 degrees the [argmin]/[argmax] ordering repeats a
      corner (numpy's first extremum, [first_best] of [Json]).
    - [CornerTool] ([tools/test_corner.py], Module [AdjustCorners]): the
      script's globals as a state, its mouse callback and its key loop
      over the [waitKey] calls (each the mouse events it dispatches and
      its key), on the files of [Pipeline]; the relation [reachable] of
      its states and the shape invariant: a session never raises, a drag
      moves exactly the nearest corner, what Space saves is loaded back,
      the key read while "Saved!" is shown is lost, and the file it
      writes is not the one [yoloball] reads from the same directory.
    - [CamMan] ([tools/cam_man.py]): [f"{n:03d}"] read back by [int()],
      the names of a session ([photo_000.jpg] first, the image
      [test_corner.py] opens, all distinct), and a finding: each run
      counts from 0 again and overwrites the photos of the previous one.
    - [Stitch] ([tools/size.py], Module [SiftStitch]; [tools/stinch.py],
      Module [FixedStitch]): the canvas of [stitch_images], rounded
      outwards with [np.int32], holds the first photo when the corners
      stay within [2^29] pixels, so that no int32 value wraps; the fixed
      layout of [stinch.py] raises [ValueError] unless the photos are
      960 rows high and fit their slices ([stinch_shapes]).
    - [CornerFile]: the [corner.json] format as the class [CornerWriter]
      (what a writer promises its readers), with the instances of
      [auto_corners.save_json] and of the editor's Space key; the
      readers' lemmas are proved once against the class: the file of the
      corner finder is read by [yoloball._load_homography] as the same
      four points, and opened by the editor as the corners it wrote.

    ** Bounds and fuel

    Loops without a structural measure take fuel: the main loop [run] a
    list of environments (one per round), [connect_loop] the number of
    attempts of the code (its bound is proved), [arm_capture_loop] a
    round count (the first round already raises), the pygame loops the
    list of event batches of their rounds (a list without [QUIT] is a
    window still open), [_snap] the rounds its clock allows (the list ends
    at the first reading past [end]), [digits_rev] the digits
    of [str()] ([N_digits] gives it one more round than the bits of [n],
    enough by [digits_rev_value]), and the generator a
    finite list of draws, where [layout_prefix] shows extra draws change
    nothing; the float grid loops of [Render] get [grid_rounds] rounds
    (the multiples of [0.05] in the range), and [draw_grid_lines] shows
    that on the table drawn their own test stops them there, so more fuel
    changes nothing; the [while True]
    loops of the corner editor and of the camera countdowns run over the
    finite list of [waitKey] results the user and the clock give them,
    and a list that ends before Esc is a session still running; the
    endless test loop of [tcp.py] runs a given number of rounds, and
    [tcp_test_runs] describes every such prefix.  None of
    these bounds hides a behaviour the code has.

    ** Not modelled

    The camera, YOLO inference, OpenCV's Hough transform and homography
    estimation are third-party calls: the model takes their outputs
    (boxes, circles, matrices, HSV statistics) as inputs.  The pygame
    window, fonts and events are I/O: [Render] models the calls a frame
    makes, not their pixels, and [Window] whether [set_mode] finds a
    display and the batches of events each round reads.  [yoloball._load_intrinsics] is modelled
    in [Intrinsics] on the YAML document, with [np.float32] of one scalar
    as a variable (numpy's number parsing); [Camera] keeps the loader and
    [_undistort] as parameters, which [Snap] instantiates with the model
    of [_load_intrinsics] and with [_undistort] over the OpenCV calls
    [getOptimalNewCameraMatrix] and [cv2.undistort] (pixels).
    Argparse is not modelled: the command lines of [run_shot.py] and
    [visualize.py] are taken after parsing.  Of [auto_corners.py] the OpenCV calls
    (thresholding, contours, [approxPolyDP], [minAreaRect], ArUco
    detection) are section variables or inputs, the debug windows are not
    modelled, and a NaN corner (a corner at the centroid) is the value
    [None] instead of a file holding NaN.  The stitching scripts are
    modelled on the shapes and coordinates of the photos, not on their
    pixels; [np.int32] truncates inside the int32 range and gives
    [-2^31] outside it (x86's conversion), the int32 sums wrap, and the
    float32 rounding of the corners is not modelled.
    Of [yolo.py] and [cap_test.py] the windows and sleeps are not
    modelled.  What remains outside the map is imports, docstrings, the
    one-line [__main__] calls of the modules (each a call of a modelled
    function with fixed arguments), the [mkdir] calls that create the
    output folders at import, and the final [cv2.imwrite]/[imshow] of
    [stinch.py]: nothing of it computes a value the model could check. *)

From Stdlib Require Import Reals Lra Psatz List Bool String.
Import ListNotations.
Open Scope R_scope.

(** ** Two-dimensional vectors: the numpy arrays of the code *)

Record vec := Vec { vx : R; vy : R }.

Definition vadd (u v : vec) : vec := Vec (vx u + vx v) (vy u + vy v).
Definition vsub (u v : vec) : vec := Vec (vx u - vx v) (vy u - vy v).
Definition vscale (k : R) (v : vec) : vec := Vec (k * vx v) (k * vy v).
(** elementwise division of numpy, [v / k] *)
Definition vdiv (v : vec) (k : R) : vec := Vec (vx v / k) (vy v / k).
Definition dot (u v : vec) : R := vx u * vx v + vy u * vy v.
Definition norm2 (v : vec) : R := dot v v.

(** [numpy.linalg.norm] of a 2-vector. *)
Definition norm (v : vec) : R := sqrt (norm2 v).

(** [dist = lambda a, b: norm(a - b)] *)
Definition dist (a b : vec) : R := norm (vsub a b).

Declare Scope geo_scope.
Delimit Scope geo_scope with geo.
Infix "+v" := vadd (at level 50, left associativity) : geo_scope.
Infix "-v" := vsub (at level 50, left associativity) : geo_scope.
Infix "*v" := vscale (at level 40, left associativity) : geo_scope.
Open Scope geo_scope.

(** ** Boolean comparisons on reals *)

Definition Rltb (x y : R) : bool := if Rlt_dec x y then true else false.
Definition Rleb (x y : R) : bool := if Rle_dec x y then true else false.

(** Python's [==] on floats. *)
Definition Reqb (x y : R) : bool := if Req_dec_T x y then true else false.

Notation "x <? y" := (Rltb x y) : geo_scope.
Notation "x <=? y" := (Rleb x y) : geo_scope.

(** ** Loops with an early [return] *)

(** [for x in l: r = f(x); if r is not None: return r] followed by
    [return None]. *)
Fixpoint first_some {A B : Type} (f : A -> option B) (l : list A) : option B :=
  match l with
  | [] => None
  | x :: l' => match f x with Some b => Some b | None => first_some f l' end
  end.

(** Equality of points, decided on the coordinates. *)
Definition vec_eq_dec (u v : vec) : {u = v} + {u <> v}.
Proof. decide equality; apply Req_dec_T. Defined.

(** ** Python exceptions *)

(** The exceptions the modelled code raises and catches; a computation
    that may raise is a value of [py A]. *)
Inductive exn :=
| KeyError (key : string)
| StopIteration
| ValueError
| TypeError
| IndexError
| RuntimeError (msg : string)
| OSError
| SocketTimeout
| SystemExit (msg : string)
| AttributeError
| LinAlgError.

Definition py (A : Type) : Type := (exn + A)%type.

Definition ret {A : Type} (a : A) : py A := inr a.
Definition raise {A : Type} (e : exn) : py A := inl e.
Definition bind {A B : Type} (c : py A) (k : A -> py B) : py B :=
  match c with inl e => inl e | inr a => k a end.

Declare Scope py_scope.
Delimit Scope py_scope with py.
Notation "x <- c ;; k" := (bind c (fun x => k))
  (at level 61, c at next level, right associativity) : py_scope.

Lemma Rltb_spec (x y : R) : reflect (x < y) (x <? y).
Proof. unfold Rltb; destruct (Rlt_dec x y); constructor; assumption. Qed.

Lemma Rleb_spec (x y : R) : reflect (x <= y) (x <=? y).
Proof. unfold Rleb; destruct (Rle_dec x y); constructor; assumption. Qed.

Lemma Reqb_spec (x y : R) : reflect (x = y) (Reqb x y).
Proof. unfold Reqb; destruct (Req_dec_T x y); constructor; assumption. Qed.

Lemma Rltb_true (x y : R) : x < y -> (x <? y) = true.
Proof. intros H; destruct (Rltb_spec x y); [reflexivity | contradiction]. Qed.

Lemma Rltb_false (x y : R) : y <= x -> (x <? y) = false.
Proof. intros H; destruct (Rltb_spec x y); [lra | reflexivity]. Qed.

Lemma Rleb_true (x y : R) : x <= y -> (x <=? y) = true.
Proof. intros H; destruct (Rleb_spec x y); [reflexivity | contradiction]. Qed.

Lemma Rleb_false (x y : R) : y < x -> (x <=? y) = false.
Proof. intros H; destruct (Rleb_spec x y); [lra | reflexivity]. Qed.

(** [rcase] splits every real comparison of the goal and the context into
    its two cases, keeping the proposition it decides. *)
Ltac rcase :=
  repeat match goal with
  | |- context [Rltb ?a ?b] => destruct (Rltb_spec a b)
  | |- context [Rleb ?a ?b] => destruct (Rleb_spec a b)
  | |- context [Reqb ?a ?b] => destruct (Reqb_spec a b)
  | H : context [Rltb ?a ?b] |- _ => destruct (Rltb_spec a b)
  | H : context [Rleb ?a ?b] |- _ => destruct (Rleb_spec a b)
  | H : context [Reqb ?a ?b] |- _ => destruct (Reqb_spec a b)
  end.

(** ** Vector algebra *)

Lemma vec_eq (u v : vec) : vx u = vx v -> vy u = vy v -> u = v.
Proof. destruct u, v; simpl; intros -> ->; reflexivity. Qed.

Lemma norm2_nonneg (v : vec) : 0 <= norm2 v.
Proof. unfold norm2, dot; nra. Qed.

Lemma norm_nonneg (v : vec) : 0 <= norm v.
Proof. apply sqrt_pos. Qed.

Lemma norm_sq (v : vec) : norm v * norm v = norm2 v.
Proof. apply sqrt_sqrt, norm2_nonneg. Qed.

Lemma norm2_zero (v : vec) : norm2 v = 0 -> v = Vec 0 0.
Proof.
  destruct v as [x y]; unfold norm2, dot; simpl; intros H.
  apply vec_eq; simpl; nra.
Qed.

Lemma norm_zero_iff (v : vec) : norm v = 0 <-> norm2 v = 0.
Proof.
  split; intros H.
  - rewrite <- norm_sq, H; ring.
  - unfold norm; rewrite H; apply sqrt_0.
Qed.

(** A norm against a non-negative bound is decided on squares. *)
Lemma norm_lt_iff (v : vec) (c : R) : 0 <= c -> norm v < c <-> norm2 v < c * c.
Proof.
  intros Hc; pose proof (norm_nonneg v); pose proof (norm_sq v).
  split; intros Hl; nra.
Qed.

Lemma norm_eq (v : vec) (c : R) : 0 <= c -> c * c = norm2 v -> norm v = c.
Proof. intros Hc Hs; unfold norm; rewrite <- Hs; apply sqrt_square, Hc. Qed.

Lemma norm_gt_of_sq (v : vec) (c : R) : 0 <= c -> c * c < norm2 v -> c < norm v.
Proof.
  intros Hc Hs; destruct (Rlt_or_le c (norm v)) as [H|H]; [exact H|].
  pose proof (norm_sq v); pose proof (norm_nonneg v); nra.
Qed.

Lemma norm_scale (k : R) (v : vec) : 0 <= k -> norm (k *v v) = k * norm v.
Proof.
  intros Hk; unfold norm.
  replace (norm2 (k *v v)) with ((k * k) * norm2 v)
    by (unfold norm2, dot, vscale; simpl; ring).
  rewrite sqrt_mult by (nra || apply norm2_nonneg).
  rewrite sqrt_square by exact Hk; reflexivity.
Qed.

Lemma dist_sym (a b : vec) : dist a b = dist b a.
Proof.
  unfold dist, norm, norm2, dot, vsub; simpl; f_equal; ring.
Qed.

Lemma dist_self (a : vec) : dist a a = 0.
Proof.
  unfold dist, norm, norm2, dot, vsub; simpl.
  replace (_ + _) with 0 by ring; apply sqrt_0.
Qed.

Section FirstSome.
Context {A B : Type} (f : A -> option B).

Lemma first_some_Some (l : list A) (b : B) :
  first_some f l = Some b <->
  exists pre x post, l = pre ++ x :: post /\ f x = Some b /\
                     forall y, In y pre -> f y = None.
Proof.
  split.
  - induction l as [|x l IH]; simpl; [discriminate|].
    destruct (f x) eqn:Hx.
    + intros [= ->]; exists [], x, l; simpl; intuition.
    + intros Hl; destruct (IH Hl) as (pre & y & post & -> & Hy & Hpre).
      exists (x :: pre), y, post; simpl; split; [reflexivity|split; [exact Hy|]].
      intros z [<- | Hz]; auto.
  - intros (pre & x & post & -> & Hx & Hpre).
    induction pre as [|y pre IH]; simpl; [rewrite Hx; reflexivity|].
    rewrite (Hpre y (or_introl eq_refl)); apply IH.
    intros z Hz; apply Hpre; right; exact Hz.
Qed.

Lemma first_some_None (l : list A) :
  first_some f l = None <-> forall x, In x l -> f x = None.
Proof.
  induction l as [|x l IH]; simpl; [intuition|].
  destruct (f x) eqn:Hx; split.
  - discriminate.
  - intros H; rewrite (H x (or_introl eq_refl)) in Hx; discriminate.
  - intros Hl y [<- | Hy]; [exact Hx | apply IH; assumption].
  - intros H; apply IH; intros y Hy; apply H; right; exact Hy.
Qed.

Lemma first_some_In (l : list A) (b : B) :
  first_some f l = Some b -> exists x, In x l /\ f x = Some b.
Proof.
  intros H; apply first_some_Some in H as (pre & x & post & -> & Hx & _).
  exists x; split; [apply in_or_app; right; left; reflexivity | exact Hx].
Qed.

Lemma first_some_complete (l : list A) (x : A) (b : B) :
  In x l -> f x = Some b -> exists b', first_some f l = Some b'.
Proof.
  intros Hin Hx; destruct (first_some f l) as [b'|] eqn:E; [eauto|].
  rewrite first_some_None in E; rewrite (E x Hin) in Hx; discriminate.
Qed.
End FirstSome.

(** The first element of a list that satisfies [P] is unique. *)
Lemma first_occurrence_unique {A : Type} (P : A -> Prop) (l pre1 pre2 post1 post2 : list A)
    (x1 x2 : A) :
  l = pre1 ++ x1 :: post1 -> l = pre2 ++ x2 :: post2 -> P x1 -> P x2 ->
  (forall y, In y pre1 -> ~ P y) -> (forall y, In y pre2 -> ~ P y) ->
  pre1 = pre2 /\ x1 = x2 /\ post1 = post2.
Proof.
  intros -> Heq Hx1 Hx2 Hp1 Hp2; revert pre2 Heq Hp2.
  induction pre1 as [|y pre1 IH]; intros [|z pre2] Heq Hp2; simpl in Heq.
  - injection Heq as -> ->; auto.
  - injection Heq as Hz Ht; exfalso; apply (Hp2 z); [left; reflexivity|].
    rewrite <- Hz; exact Hx1.
  - injection Heq as Hy Ht; exfalso; apply (Hp1 y); [left; reflexivity|].
    rewrite Hy; exact Hx2.
  - injection Heq as Hyz Ht; subst z.
    destruct (IH (fun w Hw => Hp1 w (or_intror Hw)) pre2 Ht
                 (fun w Hw => Hp2 w (or_intror Hw))) as (-> & -> & ->).
    auto.
Qed.

(** Appending to a list whose pairs in order all satisfy [P]. *)
Lemma ForallOrdPairs_snoc {A : Type} (P : A -> A -> Prop) (l : list A) (x : A) :
  ForallOrdPairs P l -> Forall (fun a => P a x) l -> ForallOrdPairs P (l ++ [x]).
Proof.
  induction 1 as [|a l Ha Hl IH]; intros Hx; cbn.
  - repeat constructor.
  - inversion Hx as [|? ? Hax Hlx]; subst; constructor.
    + apply Forall_app; split; [exact Ha | constructor; [exact Hax | constructor]].
    + apply IH, Hlx.
Qed.

(** ** Strings *)

Lemma list_ascii_of_string_app (a b : string) :
  list_ascii_of_string (a ++ b)%string = (list_ascii_of_string a ++ list_ascii_of_string b)%list.
Proof. induction a as [|c a IH]; cbn; [reflexivity | rewrite IH; reflexivity]. Qed.

(** [s ++ a = s ++ b] only when [a = b]. *)
Lemma append_cancel_l (s a b : string) : (s ++ a = s ++ b)%string -> a = b.
Proof. induction s as [|c s IH]; [tauto|]; intros H; injection H; exact IH. Qed.

(** [a ++ s = b ++ s] only when [a = b]. *)
Lemma append_cancel_r (s a b : string) : (a ++ s = b ++ s)%string -> a = b.
Proof.
  intros H; apply (f_equal list_ascii_of_string) in H; rewrite !list_ascii_of_string_app in H.
  apply app_inv_tail in H; rewrite <- (string_of_list_ascii_of_string a), <- (string_of_list_ascii_of_string b), H.
  reflexivity.
Qed.

Create HintDb geo discriminated.
#[export] Hint Resolve norm2_nonneg norm_nonneg Rltb_true Rltb_false
  Rleb_true Rleb_false : geo.
Create Rewrite HintDb geo_rw.
#[export] Hint Rewrite norm_sq dist_self : geo_rw.
