(* ===== verification/Geometry.v ===== *)
(** * Geometry kernel: [angle] and [path_clear]

    Models [src/main/core/solver_core.py], lines 1-38.  A ball of the code is
    a dict [{'id': int, 'pos': array}]: here the record [ball].  The
    [ignore] frozenset of ids is a list of ids.  [path_clear] is translated
    line by line: the zero-length guard, the loop over the balls that
    projects each centre on the segment and clamps the projection, and the
    bounding-box rail test.  Its main theorem, [path_clear_iff], says what
    the routine decides: the segment is long enough, no point of it comes
    nearer than [2*BALL_R - 1e-4] to a ball that is not ignored, and, when
    the rail test is requested, every point of it stays in the rectangle
    inset by [BALL_R - 1e-4]. *)

From Stdlib Require Import Reals Lra Psatz List Bool Arith.
From S2P Require Import Prelude.
Import ListNotations.
Open Scope R_scope.
Open Scope geo_scope.

(** ** Constants (lines 3-4 and the tolerance of lines 27 and 35) *)

Definition BALL_R : R := 0.0125.
Definition EPS : R := 1e-9.

(** The centre-to-centre clearance of line 27. *)
Definition CLEARANCE : R := 2 * BALL_R - 1e-4.

(** ** [angle(u, v)], lines 8-13 *)

Definition angle (u v : vec) : R :=
  let nu := norm u in
  let nv := norm v in
  if (nu <? EPS) || (nv <? EPS) then PI
  else
    let c := dot u v / (nu * nv) in
    acos (Rmax (-1) (Rmin 1 c)).

(** ** Balls and [path_clear], lines 15-38 *)

Record ball := Ball { bid : nat; bpos : vec }.

(** [b['id'] in ignore] *)
Definition ignored (ignore : list nat) (b : ball) : bool :=
  existsb (Nat.eqb (bid b)) ignore.

(** [np.clip(x, lo, hi)] is [minimum(maximum(x, lo), hi)]. *)
Definition clip (x lo hi : R) : R := Rmin (Rmax x lo) hi.

(** Lines 25-27 for one ball: project, clamp, compare. *)
Definition blocks (p1 d : vec) (L : R) (b : ball) : bool :=
  let proj := clip (dot (bpos b -v p1) d) 0 L in
  let close := p1 +v proj *v d in
  dist close (bpos b) <? 2 * BALL_R - 1e-4.

(** The [for b in balls] loop, lines 23-28. *)
Fixpoint balls_clear (p1 d : vec) (L : R) (ignore : list nat)
    (balls : list ball) : bool :=
  match balls with
  | [] => true
  | b :: bs =>
      if ignored ignore b then balls_clear p1 d L ignore bs
      else if blocks p1 d L b then false
      else balls_clear p1 d L ignore bs
  end.

(** The rail test, lines 32-37. *)
Definition rail_clear (p1 p2 : vec) (table : R * R) : bool :=
  let '(W, H) := table in
  let minx := Rmin (vx p1) (vx p2) in
  let maxx := Rmax (vx p1) (vx p2) in
  let miny := Rmin (vy p1) (vy p2) in
  let maxy := Rmax (vy p1) (vy p2) in
  negb ((minx <? BALL_R - 1e-4) || (W - BALL_R + 1e-4 <? maxx) ||
        (miny <? BALL_R - 1e-4) || (H - BALL_R + 1e-4 <? maxy)).

Definition path_clear (p1 p2 : vec) (balls : list ball) (ignore : list nat)
    (rail : bool) (table : option (R * R)) : bool :=
  let v := p2 -v p1 in
  let L := norm v in
  if L <? EPS then false
  else
    let d := vdiv v L in
    if negb (balls_clear p1 d L ignore balls) then false
    else
      match rail, table with
      | true, Some t => rail_clear p1 p2 t
      | _, _ => true
      end.

(** ** The specification of the obstruction test *)

(** The point of parameter [s] on the segment from [p1] to [p2]. *)
Definition seg (p1 p2 : vec) (s : R) : vec := p1 +v s *v (p2 -v p1).

(** No point of the segment comes nearer than the clearance to [q]. *)
Definition corridor_free (p1 p2 q : vec) : Prop :=
  forall s, 0 <= s <= 1 -> CLEARANCE <= dist (seg p1 p2 s) q.

(** The inset rectangle of the rail test, with its tolerance. *)
Definition on_table_tol (W H : R) (p : vec) : Prop :=
  BALL_R - 1e-4 <= vx p <= W - BALL_R + 1e-4 /\
  BALL_R - 1e-4 <= vy p <= H - BALL_R + 1e-4.

(** The parameter of the point of the segment nearest to [q]. *)
Definition nearest_param (p1 p2 q : vec) : R :=
  clip (dot (q -v p1) (p2 -v p1) / norm2 (p2 -v p1)) 0 1.

(** The cosine of the angle, when neither vector is degenerate. *)
Definition cosine (u v : vec) : R := dot u v / (norm u * norm v).

Lemma CLEARANCE_pos : 0 < CLEARANCE.
Proof. unfold CLEARANCE, BALL_R; lra. Qed.

Lemma EPS_pos : 0 < EPS.
Proof. unfold EPS; lra. Qed.

(** *** The clamped projection is the nearest point of the segment *)

Lemma clip_unit (t : R) : 0 <= clip t 0 1 <= 1.
Proof.
  unfold clip; split.
  - apply Rmin_glb; [apply Rmax_r | lra].
  - apply Rmin_r.
Qed.

(** [s |-> s*s*a - 2*s*b] is minimised on [[0, 1]] at the clamped vertex. *)
Lemma clamp_minimizes (a b s : R) :
  0 < a -> 0 <= s <= 1 ->
  let s0 := clip (b / a) 0 1 in
  s0 * s0 * a - 2 * s0 * b <= s * s * a - 2 * s * b.
Proof.
  intros Ha Hs s0; subst s0.
  remember (b / a) as t eqn:Ht.
  assert (Hb : b = t * a) by (subst t; field; lra).
  clear Ht; subst b; unfold clip.
  destruct (Rle_dec t 0) as [Ht|Ht].
  - rewrite Rmax_right, Rmin_left by lra.
    assert (0 <= s * a) by nra; nra.
  - rewrite Rmax_left by lra.
    destruct (Rle_dec t 1) as [Ht1|Ht1].
    + rewrite Rmin_left by lra.
      assert (0 <= (s - t) * (s - t)) by apply Rle_0_sqr.
      assert (0 <= (s - t) * (s - t) * a) by (apply Rmult_le_pos; lra); nra.
    + rewrite Rmin_right by lra.
      assert (0 <= (1 - s) * ((2 * t - s - 1) * a))
        by (apply Rmult_le_pos; [lra | apply Rmult_le_pos; lra]); nra.
Qed.

(** Dividing by the length commutes with the clamp. *)
Lemma clip_scale (x L : R) : 0 < L -> clip x 0 L / L = clip (x / L) 0 1.
Proof.
  intros HL; unfold clip, Rdiv.
  pose proof (Rinv_0_lt_compat L HL) as Hi.
  assert (HLi : L * / L = 1) by (field; lra).
  destruct (Rle_dec x 0) as [Hx|Hx].
  - rewrite !Rmax_right, !Rmin_left by nra; lra.
  - rewrite !Rmax_left by nra.
    destruct (Rle_dec x L) as [HxL|HxL].
    + rewrite !Rmin_left by nra; reflexivity.
    + rewrite !Rmin_right by nra; exact HLi.
Qed.

(** The squared distance from a point of the segment, as a polynomial in
    the parameter. *)
Lemma seg_norm2 (p1 p2 q : vec) (s : R) :
  norm2 (seg p1 p2 s -v q) =
  s * s * norm2 (p2 -v p1) - 2 * s * dot (q -v p1) (p2 -v p1) + norm2 (q -v p1).
Proof. unfold seg, norm2, dot, vadd, vsub, vscale; simpl; ring. Qed.

Lemma nearest_param_unit (p1 p2 q : vec) : 0 <= nearest_param p1 p2 q <= 1.
Proof. apply clip_unit. Qed.

Lemma seg_nearest (p1 p2 q : vec) (s : R) :
  0 < norm2 (p2 -v p1) -> 0 <= s <= 1 ->
  dist (seg p1 p2 (nearest_param p1 p2 q)) q <= dist (seg p1 p2 s) q.
Proof.
  intros Hv Hs; unfold dist, norm; apply sqrt_le_1_alt.
  rewrite !seg_norm2.
  pose proof (clamp_minimizes (norm2 (p2 -v p1)) (dot (q -v p1) (p2 -v p1)) s Hv Hs).
  unfold nearest_param; lra.
Qed.

(** The point [close] of line 26 is the nearest point of the segment. *)
Lemma blocks_close (p1 p2 q : vec) :
  0 < norm (p2 -v p1) ->
  p1 +v clip (dot (q -v p1) (vdiv (p2 -v p1) (norm (p2 -v p1)))) 0
             (norm (p2 -v p1)) *v vdiv (p2 -v p1) (norm (p2 -v p1))
  = seg p1 p2 (nearest_param p1 p2 q).
Proof.
  intros HL; set (L := norm (p2 -v p1)) in *.
  assert (HLL : L * L = norm2 (p2 -v p1)) by apply norm_sq.
  assert (Hd : dot (q -v p1) (vdiv (p2 -v p1) L) = dot (q -v p1) (p2 -v p1) / L)
    by (unfold dot, vdiv; simpl; field; lra).
  assert (Hs : clip (dot (q -v p1) (p2 -v p1) / L) 0 L / L = nearest_param p1 p2 q).
  { rewrite clip_scale by exact HL; unfold nearest_param; rewrite <- HLL.
    f_equal; field; lra. }
  rewrite Hd; unfold seg; rewrite <- Hs.
  apply vec_eq; unfold vdiv, vscale, vadd; simpl; field; lra.
Qed.

(** One ball: the code's test fires exactly when some point of the segment
    is nearer than the clearance to the ball. *)
Lemma blocks_iff (p1 p2 : vec) (b : ball) :
  0 < norm (p2 -v p1) ->
  blocks p1 (vdiv (p2 -v p1) (norm (p2 -v p1))) (norm (p2 -v p1)) b = true <->
  exists s, 0 <= s <= 1 /\ dist (seg p1 p2 s) (bpos b) < CLEARANCE.
Proof.
  intros HL; unfold blocks; rewrite (blocks_close p1 p2 (bpos b) HL).
  assert (Hv : 0 < norm2 (p2 -v p1)) by (rewrite <- norm_sq; nra).
  fold CLEARANCE; split.
  - intros Hb; rcase; [|discriminate].
    exists (nearest_param p1 p2 (bpos b)); split; [apply nearest_param_unit | exact r].
  - intros (s & Hs & Hd).
    pose proof (seg_nearest p1 p2 (bpos b) s Hv Hs).
    apply Rltb_true; lra.
Qed.

Lemma corridor_free_iff (p1 p2 q : vec) :
  corridor_free p1 p2 q <->
  ~ exists s, 0 <= s <= 1 /\ dist (seg p1 p2 s) q < CLEARANCE.
Proof.
  unfold corridor_free; split.
  - intros H (s & Hs & Hd); specialize (H s Hs); lra.
  - intros H s Hs; apply Rnot_lt_le; intros Hd; apply H; eauto.
Qed.

(** The ball loop decides that no ball outside [ignore] touches the corridor. *)
Lemma balls_clear_spec (p1 p2 : vec) (ignore : list nat) (balls : list ball) :
  0 < norm (p2 -v p1) ->
  balls_clear p1 (vdiv (p2 -v p1) (norm (p2 -v p1))) (norm (p2 -v p1)) ignore balls
    = true <->
  forall b, In b balls -> ignored ignore b = false -> corridor_free p1 p2 (bpos b).
Proof.
  intros HL; induction balls as [|b bs IH]; simpl.
  - split; [intros _ b [] | reflexivity].
  - destruct (ignored ignore b) eqn:Hi; [|destruct (blocks _ _ _ b) eqn:Hb].
    + rewrite IH; split.
      * intros H c [<- | Hc] Hic; [congruence | auto].
      * intros H c Hc Hic; apply H; auto.
    + split; [discriminate|].
      intros H; apply (blocks_iff p1 p2 b HL) in Hb.
      exfalso; apply (proj1 (corridor_free_iff _ _ _) (H b (or_introl eq_refl) Hi)), Hb.
    + rewrite IH; split.
      * intros H c [<- | Hc] Hic; [|auto].
        apply corridor_free_iff; intros Hex.
        apply (blocks_iff p1 p2 b HL) in Hex; congruence.
      * intros H c Hc Hic; apply H; auto.
Qed.

(** Splitting the [Rmin]/[Rmax] of the bounding box. *)
Ltac minmax :=
  unfold Rmin, Rmax in *; repeat destruct Rle_dec.

Lemma seg_0 (p1 p2 : vec) : seg p1 p2 0 = p1.
Proof. apply vec_eq; unfold seg, vadd, vscale, vsub; simpl; ring. Qed.

Lemma seg_1 (p1 p2 : vec) : seg p1 p2 1 = p2.
Proof. apply vec_eq; unfold seg, vadd, vscale, vsub; simpl; ring. Qed.

(** The bounding-box test is exact for a segment: it accepts exactly the
    segments that stay inside the inset rectangle. *)
Lemma rail_clear_iff (p1 p2 : vec) (W H : R) :
  rail_clear p1 p2 (W, H) = true <->
  forall s, 0 <= s <= 1 -> on_table_tol W H (seg p1 p2 s).
Proof.
  unfold rail_clear, on_table_tol; split.
  - intros Hr s Hs; unfold seg, vadd, vscale, vsub; simpl.
    minmax; rcase; simpl in Hr; try discriminate; repeat split; nra.
  - intros Hall.
    destruct (Hall 0 ltac:(lra)) as [Hx1 Hy1]; destruct (Hall 1 ltac:(lra)) as [Hx2 Hy2].
    rewrite seg_0 in Hx1, Hy1; rewrite seg_1 in Hx2, Hy2.
    minmax; rcase; simpl; reflexivity || lra.
Qed.

(** ** The main theorem of the kernel *)

Lemma path_clear_iff (p1 p2 : vec) (balls : list ball) (ignore : list nat)
    (rail : bool) (table : option (R * R)) :
  path_clear p1 p2 balls ignore rail table = true <->
  EPS <= norm (p2 -v p1) /\
  (forall b, In b balls -> ignored ignore b = false -> corridor_free p1 p2 (bpos b)) /\
  (rail = true -> forall W H, table = Some (W, H) ->
     forall s, 0 <= s <= 1 -> on_table_tol W H (seg p1 p2 s)).
Proof.
  unfold path_clear; cbv zeta; pose proof EPS_pos as HE.
  destruct (Rltb_spec (norm (p2 -v p1)) EPS) as [Hs|Hl].
  - split; [discriminate | intros [? _]; lra].
  - assert (HL : 0 < norm (p2 -v p1)) by lra.
    assert (HLe : EPS <= norm (p2 -v p1)) by lra.
    destruct (balls_clear _ _ _ ignore balls) eqn:Hb; simpl.
    + rewrite (balls_clear_spec p1 p2 ignore balls HL) in Hb.
      destruct rail; [destruct table as [[W H]|]|].
      * rewrite rail_clear_iff; split.
        -- intros Hr; refine (conj HLe (conj Hb _)); intros _ W' H' [= <- <-]; exact Hr.
        -- intros (_ & _ & Hr); apply Hr; reflexivity.
      * split; [intros _; refine (conj HLe (conj Hb _)); discriminate | reflexivity].
      * split; [intros _; refine (conj HLe (conj Hb _)); discriminate | reflexivity].
    + split; [discriminate|].
      intros (_ & Hball & _).
      rewrite <- (balls_clear_spec p1 p2 ignore balls HL) in Hball; congruence.
Qed.

(** ** Consequences for the obstruction test *)

Lemma seg_rev (p1 p2 : vec) (s : R) : seg p2 p1 s = seg p1 p2 (1 - s).
Proof. apply vec_eq; unfold seg, vadd, vscale, vsub; simpl; ring. Qed.

Lemma norm_vsub_sym (p1 p2 : vec) : norm (p2 -v p1) = norm (p1 -v p2).
Proof. exact (dist_sym p2 p1). Qed.

Lemma corridor_free_sym (p1 p2 q : vec) :
  corridor_free p1 p2 q -> corridor_free p2 p1 q.
Proof. intros H s Hs; rewrite seg_rev; apply H; lra. Qed.

(** reversing a segment does not change the answer of [path_clear]. *)
Lemma path_clear_sym (p1 p2 : vec) (balls : list ball) (ignore : list nat)
    (rail : bool) (table : option (R * R)) :
  path_clear p1 p2 balls ignore rail table =
  path_clear p2 p1 balls ignore rail table.
Proof.
  apply Bool.eq_iff_eq_true; rewrite !path_clear_iff, norm_vsub_sym.
  split; intros (Hl & Hb & Hr); (split; [exact Hl | split]);
    [intros b Hin Hi; apply corridor_free_sym; auto
    | intros Ht W H Heq s Hs; rewrite seg_rev; apply (Hr Ht W H Heq); lra
    | intros b Hin Hi; apply corridor_free_sym; auto
    | intros Ht W H Heq s Hs; rewrite seg_rev; apply (Hr Ht W H Heq); lra].
Qed.

(** A ball whose centre lies on the segment blocks it. *)
Lemma center_on_segment_blocks (p1 p2 : vec) (balls : list ball)
    (ignore : list nat) (rail : bool) (table : option (R * R)) (b : ball) (s : R) :
  In b balls -> ignored ignore b = false -> 0 <= s <= 1 ->
  bpos b = seg p1 p2 s ->
  path_clear p1 p2 balls ignore rail table = false.
Proof.
  intros Hin Hi Hs Hpos.
  destruct (path_clear _ _ _ _ _ _) eqn:E; [|reflexivity].
  apply path_clear_iff in E as (_ & Hb & _).
  specialize (Hb b Hin Hi s Hs); rewrite Hpos, dist_self in Hb.
  pose proof CLEARANCE_pos; lra.
Qed.

(** a segment shorter than [EPS] is never clear (line 19), even on an
    empty table. *)
Lemma path_clear_short (p1 p2 : vec) (balls : list ball) (ignore : list nat)
    (rail : bool) (table : option (R * R)) :
  norm (p2 -v p1) < EPS -> path_clear p1 p2 balls ignore rail table = false.
Proof. intros H; unfold path_clear; cbv zeta; rewrite Rltb_true by exact H; reflexivity. Qed.

(** Concrete clearances are checked on squares. *)
Lemma norm_ge_of_sq (v : vec) (c : R) : 0 <= c -> c * c <= norm2 v -> c <= norm v.
Proof.
  intros Hc Hs; destruct (Rle_or_lt c (norm v)) as [H|H]; [exact H|].
  apply norm_lt_iff in H; [lra | exact Hc].
Qed.

Lemma corridor_free_of_sq (p1 p2 q : vec) :
  (forall s, 0 <= s <= 1 -> CLEARANCE * CLEARANCE <= norm2 (seg p1 p2 s -v q)) ->
  corridor_free p1 p2 q.
Proof.
  intros H s Hs; apply norm_ge_of_sq; [pose proof CLEARANCE_pos; lra | apply H, Hs].
Qed.

(** ** The angle between two vectors *)

Lemma cauchy_schwarz (u v : vec) :
  - (norm u * norm v) <= dot u v <= norm u * norm v.
Proof.
  pose proof (norm_sq u); pose proof (norm_sq v).
  pose proof (norm_nonneg u); pose proof (norm_nonneg v).
  assert (Hl : dot u v * dot u v <= norm2 u * norm2 v).
  { unfold norm2, dot; destruct u as [a b], v as [c d]; simpl.
    assert (0 <= (a * d - b * c) * (a * d - b * c)) by apply Rle_0_sqr; nra. }
  assert (0 <= norm u * norm v) by nra.
  split; nra.
Qed.

(** [angle] returns a value in [[0, pi]], the degenerate case
    included. *)
Lemma angle_range (u v : vec) : 0 <= angle u v <= PI.
Proof.
  unfold angle; cbv zeta.
  destruct (_ || _); [pose proof PI_RGT_0; lra | apply acos_bound].
Qed.

Lemma cosine_range (u v : vec) :
  0 < norm u -> 0 < norm v -> -1 <= cosine u v <= 1.
Proof.
  intros Hu Hv; unfold cosine.
  pose proof (cauchy_schwarz u v) as Hc.
  assert (HP : 0 < norm u * norm v) by nra.
  pose proof (Rinv_0_lt_compat _ HP) as Hi.
  assert (norm u * norm v * / (norm u * norm v) = 1) by (field; lra).
  unfold Rdiv; split; nra.
Qed.

(** Away from the [EPS] guard the clamp of line 13 is inactive. *)
Lemma angle_acos (u v : vec) :
  EPS <= norm u -> EPS <= norm v -> angle u v = acos (cosine u v).
Proof.
  intros Hu Hv; pose proof EPS_pos.
  unfold angle; cbv zeta; rewrite !Rltb_false by lra; simpl.
  destruct (cosine_range u v ltac:(lra) ltac:(lra)) as [H1 H2].
  fold (cosine u v); rewrite Rmin_right, Rmax_right by lra; reflexivity.
Qed.

Lemma angle_degenerate (u v : vec) :
  norm u < EPS \/ norm v < EPS -> angle u v = PI.
Proof.
  intros [H | H]; unfold angle; cbv zeta; rewrite (Rltb_true _ _ H);
    [reflexivity | rewrite orb_true_r; reflexivity].
Qed.

Lemma acos_decreasing (x y : R) :
  -1 <= x -> y <= 1 -> x < y -> acos y < acos x.
Proof.
  intros Hx Hy Hxy.
  apply cos_decreasing_0; try apply acos_bound.
  rewrite !cos_acos by lra; exact Hxy.
Qed.

Lemma acos_lt_iff (x y : R) :
  -1 <= x <= 1 -> -1 <= y <= 1 -> acos x < acos y <-> y < x.
Proof.
  intros Hx Hy; split.
  - intros H; destruct (Rlt_or_le y x) as [Hl|Hl]; [exact Hl|].
    destruct (Rle_lt_or_eq_dec x y Hl) as [Hlt | ->]; [|lra].
    pose proof (acos_decreasing x y ltac:(lra) ltac:(lra) Hlt); lra.
  - intros H; apply acos_decreasing; lra.
Qed.

Lemma acos_inj (x y : R) :
  -1 <= x <= 1 -> -1 <= y <= 1 -> acos x = acos y -> x = y.
Proof. intros Hx Hy H; rewrite <- (cos_acos x Hx), <- (cos_acos y Hy), H; reflexivity. Qed.

(** away from the [EPS] guard, ordering by [angle] is ordering by
    decreasing cosine: the sort key of the pockets compares the cosines of
    the code's [np.dot(u, v) / (nu * nv)]. *)
Lemma angle_lt_iff (u v w : vec) :
  EPS <= norm u -> EPS <= norm v -> EPS <= norm w ->
  angle u v < angle u w <-> cosine u w < cosine u v.
Proof.
  intros Hu Hv Hw; pose proof EPS_pos.
  rewrite !angle_acos by assumption.
  apply acos_lt_iff; apply cosine_range; lra.
Qed.

Lemma angle_eq_iff (u v w : vec) :
  EPS <= norm u -> EPS <= norm v -> EPS <= norm w ->
  angle u v = angle u w <-> cosine u v = cosine u w.
Proof.
  intros Hu Hv Hw; pose proof EPS_pos.
  rewrite !angle_acos by assumption; split; [|intros ->; reflexivity].
  apply acos_inj; apply cosine_range; lra.
Qed.

(** The rectangle is convex: a segment between two points on the table
    stays on the table. *)
Lemma on_table_tol_seg (W H : R) (p1 p2 : vec) (s : R) :
  on_table_tol W H p1 -> on_table_tol W H p2 -> 0 <= s <= 1 ->
  on_table_tol W H (seg p1 p2 s).
Proof.
  unfold on_table_tol, seg, vadd, vscale, vsub; simpl.
  intros (Hx1 & Hy1) (Hx2 & Hy2) Hs; repeat split; nra.
Qed.

(** An angle of zero: the vectors point the same way. *)
Lemma angle_zero (u w : vec) :
  EPS <= norm u -> EPS <= norm w -> dot u w = norm u * norm w -> angle u w = 0.
Proof.
  intros Hu Hw Hd; pose proof EPS_pos; rewrite angle_acos by assumption.
  unfold cosine; rewrite Hd, Rdiv_diag by nra; apply acos_1.
Qed.

(** A positive angle: the vectors do not point the same way. *)
Lemma angle_pos (u w : vec) :
  EPS <= norm u -> EPS <= norm w -> dot u w < norm u * norm w -> 0 < angle u w.
Proof.
  intros Hu Hw Hd; pose proof EPS_pos; rewrite angle_acos by assumption.
  rewrite <- acos_1; apply acos_decreasing; [apply cosine_range; lra | lra|].
  unfold cosine; assert (HP : 0 < norm u * norm w) by nra.
  pose proof (Rinv_0_lt_compat _ HP) as Hi.
  assert (norm u * norm w * / (norm u * norm w) = 1) by (field; lra).
  unfold Rdiv; nra.
Qed.

(** A segment with no ball in the way and both ends on the table is clear,
    rails included. *)
Lemma free_table_clear (p1 p2 : vec) (balls : list ball) (ignore : list nat)
    (W H : R) :
  (forall b, In b balls -> ignored ignore b = true) ->
  EPS <= norm (p2 -v p1) -> on_table_tol W H p1 -> on_table_tol W H p2 ->
  path_clear p1 p2 balls ignore true (Some (W, H)) = true.
Proof.
  intros Hb Hl H1 H2; apply path_clear_iff; split; [exact Hl | split].
  - intros b Hin Hi; rewrite (Hb b Hin) in Hi; discriminate.
  - intros _ W' H' [= <- <-] s Hs; apply on_table_tol_seg; assumption.
Qed.

(** ** Properties of the kernel *)

(** C2: [path_clear] decides the swept-corridor condition: it answers
    [True] exactly when the segment is at least [EPS] long, no ball outside
    [ignore] has its centre nearer than [2*BALL_R - 1e-4] to any point of
    the segment, and, when the rail test is requested on a table, every
    point of the segment lies in the rectangle inset by [BALL_R - 1e-4]. *)
Theorem path_clear_spec (p1 p2 : vec) (balls : list ball) (ignore : list nat)
    (rail : bool) (table : option (R * R)) :
  path_clear p1 p2 balls ignore rail table = true <->
  EPS <= norm (p2 -v p1) /\
  (forall b, In b balls -> ignored ignore b = false -> corridor_free p1 p2 (bpos b)) /\
  (rail = true -> forall W H, table = Some (W, H) ->
     forall s, 0 <= s <= 1 -> on_table_tol W H (seg p1 p2 s)).
Proof. apply path_clear_iff. Qed.

(** the rail test on the bounding box of the segment (lines 32-37) is
    exact, not only conservative: it accepts a segment exactly when every
    point of it stays in the inset rectangle. *)
Theorem rail_clear_spec (p1 p2 : vec) (W H : R) :
  rail_clear p1 p2 (W, H) = true <->
  forall s, 0 <= s <= 1 -> on_table_tol W H (seg p1 p2 s).
Proof. apply rail_clear_iff. Qed.

(** a ball that is not ignored and whose centre lies on the segment
    (the spec's "obstacle at the midpoint") makes [path_clear] answer
    [False]. *)
Theorem path_clear_center_on_segment (p1 p2 : vec) (balls : list ball)
    (ignore : list nat) (rail : bool) (table : option (R * R)) (b : ball) (s : R) :
  In b balls -> ignored ignore b = false -> 0 <= s <= 1 ->
  bpos b = seg p1 p2 s ->
  path_clear p1 p2 balls ignore rail table = false.
Proof. apply center_on_segment_blocks. Qed.

Lemma path_clear_center_on_segment_witness :
  In (Ball 2 (Vec 0.2 0.1)) [Ball 2 (Vec 0.2 0.1)] /\
  ignored [0%nat; 1%nat] (Ball 2 (Vec 0.2 0.1)) = false /\ 0 <= 1 / 2 <= 1 /\
  bpos (Ball 2 (Vec 0.2 0.1)) = seg (Vec 0.1 0.1) (Vec 0.3 0.1) (1 / 2) /\
  path_clear (Vec 0.1 0.1) (Vec 0.3 0.1) [Ball 2 (Vec 0.2 0.1)] [0%nat; 1%nat]
    true (Some (0.735, 0.375)) = false.
Proof.
  assert (Hm : bpos (Ball 2 (Vec 0.2 0.1)) = seg (Vec 0.1 0.1) (Vec 0.3 0.1) (1 / 2))
    by (apply vec_eq; unfold seg, vadd, vscale, vsub; simpl; lra).
  split; [left; reflexivity | split; [reflexivity | split; [lra | split; [exact Hm|]]]].
  apply (path_clear_center_on_segment _ _ _ _ _ _ (Ball 2 (Vec 0.2 0.1)) (1 / 2));
    [left; reflexivity | reflexivity | lra | exact Hm].
Defined.

(** with every ball ignored (or none), a segment at least [EPS] long
    between two points of the inset table is clear, rail test included: the
    spec's "clearance boundary" property. *)
Theorem path_clear_free_table (p1 p2 : vec) (balls : list ball) (ignore : list nat)
    (W H : R) :
  (forall b, In b balls -> ignored ignore b = true) ->
  EPS <= norm (p2 -v p1) -> on_table_tol W H p1 -> on_table_tol W H p2 ->
  path_clear p1 p2 balls ignore true (Some (W, H)) = true.
Proof. apply free_table_clear. Qed.

Lemma path_clear_free_table_witness :
  (forall b, In b [Ball 0 (Vec 0.1 0.1)] -> ignored [0%nat; 1%nat] b = true) /\
  EPS <= norm (Vec 0.3 0.1 -v Vec 0.1 0.1) /\
  on_table_tol 0.735 0.375 (Vec 0.1 0.1) /\ on_table_tol 0.735 0.375 (Vec 0.3 0.1) /\
  path_clear (Vec 0.1 0.1) (Vec 0.3 0.1) [Ball 0 (Vec 0.1 0.1)] [0%nat; 1%nat]
    true (Some (0.735, 0.375)) = true.
Proof.
  assert (Hb : forall b, In b [Ball 0 (Vec 0.1 0.1)] -> ignored [0%nat; 1%nat] b = true)
    by (intros b [<- | []]; reflexivity).
  assert (Hl : EPS <= norm (Vec 0.3 0.1 -v Vec 0.1 0.1))
    by (apply norm_ge_of_sq; unfold EPS, norm2, dot, vsub; simpl; lra).
  assert (H1 : on_table_tol 0.735 0.375 (Vec 0.1 0.1)) by (unfold on_table_tol, BALL_R; simpl; lra).
  assert (H2 : on_table_tol 0.735 0.375 (Vec 0.3 0.1)) by (unfold on_table_tol, BALL_R; simpl; lra).
  repeat (split; [assumption|]).
  apply path_clear_free_table; assumption.
Defined.

Lemma path_clear_short_witness :
  norm (Vec 0.1 0.1 -v Vec 0.1 0.1) < EPS /\
  path_clear (Vec 0.1 0.1) (Vec 0.1 0.1) [Ball 2 (Vec 0.5 0.2)] [0%nat; 1%nat] true
    (Some (0.735, 0.375)) = false.
Proof.
  assert (Hn : norm (Vec 0.1 0.1 -v Vec 0.1 0.1) < EPS).
  { rewrite (norm_eq _ 0); [unfold EPS; lra | lra | unfold norm2, dot, vsub; simpl; lra]. }
  split; [exact Hn | apply path_clear_short, Hn].
Defined.

Lemma angle_lt_iff_witness :
  EPS <= norm (Vec 1 0) /\ EPS <= norm (Vec 1 0) /\ EPS <= norm (Vec 0 1) /\
  (angle (Vec 1 0) (Vec 1 0) < angle (Vec 1 0) (Vec 0 1) <->
   cosine (Vec 1 0) (Vec 0 1) < cosine (Vec 1 0) (Vec 1 0)).
Proof.
  assert (H1 : EPS <= norm (Vec 1 0))
    by (apply norm_ge_of_sq; unfold EPS, norm2, dot; simpl; lra).
  assert (H2 : EPS <= norm (Vec 0 1))
    by (apply norm_ge_of_sq; unfold EPS, norm2, dot; simpl; lra).
  split; [exact H1 | split; [exact H1 | split; [exact H2|]]].
  apply angle_lt_iff; assumption.
Defined.
