(* ===== verification/StableSort.v ===== *)
(** * Python's [sorted(xs, key=f)]

    [BilliardSolver.solve] orders the pockets with
    [sorted(self.pockets, key=lambda pk: (angle(...), dist(...)))]
    ([src/main/core/solver_core.py], lines 53-55).  Python's sort is stable
    and compares keys with [<] only.  The interface [KeyOrder] states what the
    sort needs of [<] (a strict weak order); the instance [tuple_order] is
    Python's lexicographic [<] on pairs of floats.  [sort_by_key] is a stable
    insertion sort: its result is sorted, a permutation of the input, and
    keeps the input order of elements with equal keys, which determines
    the order Python's Timsort gives. *)

From Stdlib Require Import Reals Lra List Bool Sorted Permutation.
From S2P Require Import Prelude.
Import ListNotations.
Open Scope R_scope.

(** ** The interface: a strict weak order on keys *)

Class KeyOrder (K : Type) := {
  key_ltb : K -> K -> bool;
  key_ltb_irrefl : forall a, key_ltb a a = false;
  key_ltb_trans : forall a b c,
    key_ltb a b = true -> key_ltb b c = true -> key_ltb a c = true;
  key_ltb_connected : forall a b c,
    key_ltb a c = true -> key_ltb a b = true \/ key_ltb b c = true
}.

(** Neither key is below the other. *)
Definition key_eqv {K} `{KeyOrder K} (a b : K) : bool :=
  negb (key_ltb a b) && negb (key_ltb b a).

(** ** Python's [<] on pairs [(angle, dist)] *)

(** [(a1, d1) < (a2, d2)]: the first components decide unless they are
    equal ([==]), then the second ones. *)
Definition tuple_ltb (p q : R * R) : bool :=
  let '(a1, d1) := p in
  let '(a2, d2) := q in
  if Reqb a1 a2 then d1 <? d2 else a1 <? a2.

#[export] Instance tuple_order : KeyOrder (R * R) := {
  key_ltb := tuple_ltb;
  key_ltb_irrefl := ltac:(intros [a d]; simpl; rcase; lra || reflexivity);
  key_ltb_trans := ltac:(intros [a1 d1] [a2 d2] [a3 d3]; simpl;
                         rcase; subst; try discriminate; try reflexivity; lra);
  key_ltb_connected := ltac:(intros [a1 d1] [a2 d2] [a3 d3]; simpl;
                             rcase; subst; try discriminate; auto; lra)
}.

(** ** The stable insertion sort *)

Section Sort.
Context {A K : Type} `{KeyOrder K} (key : A -> K).

(** [x] goes before the first [y] whose key is not below its own. *)
Fixpoint insert (x : A) (l : list A) : list A :=
  match l with
  | [] => [x]
  | y :: l' => if key_ltb (key y) (key x) then y :: insert x l' else x :: y :: l'
  end.

Fixpoint sort_by_key (l : list A) : list A :=
  match l with
  | [] => []
  | x :: l' => insert x (sort_by_key l')
  end.

(** The order of the output: [x] may precede [y] when [y]'s key is not
    below [x]'s. *)
Definition key_le (x y : A) : Prop := key_ltb (key y) (key x) = false.

(** The elements of one equivalence class of keys. *)
Definition in_class (k : K) (x : A) : bool := key_eqv (key x) k.

Lemma key_le_total (x y : A) : key_le x y \/ key_le y x.
Proof.
  unfold key_le; destruct (key_ltb (key y) (key x)) eqn:E1; [|auto].
  right; destruct (key_ltb (key x) (key y)) eqn:E2; [|reflexivity].
  pose proof (key_ltb_trans _ _ _ E1 E2); rewrite key_ltb_irrefl in *; discriminate.
Qed.

Lemma key_le_trans (x y z : A) : key_le x y -> key_le y z -> key_le x z.
Proof.
  unfold key_le; intros Hxy Hyz.
  destruct (key_ltb (key z) (key x)) eqn:E; [|reflexivity].
  destruct (key_ltb_connected _ (key y) _ E); congruence.
Qed.

Lemma key_eqv_trans (a b c : K) :
  key_eqv a b = true -> key_eqv b c = true -> key_eqv a c = true.
Proof.
  unfold key_eqv; rewrite !andb_true_iff, !negb_true_iff.
  intros [Hab Hba] [Hbc Hcb]; split.
  - destruct (key_ltb a c) eqn:E; [|reflexivity].
    destruct (key_ltb_connected _ b _ E); congruence.
  - destruct (key_ltb c a) eqn:E; [|reflexivity].
    destruct (key_ltb_connected _ b _ E); congruence.
Qed.

Lemma key_eqv_sym (a b : K) : key_eqv a b = key_eqv b a.
Proof. unfold key_eqv; apply andb_comm. Qed.

Lemma key_eqv_refl (a : K) : key_eqv a a = true.
Proof. unfold key_eqv; rewrite key_ltb_irrefl; reflexivity. Qed.

Lemma insert_perm (x : A) (l : list A) : Permutation (x :: l) (insert x l).
Proof.
  induction l as [|y l IH]; simpl; [reflexivity|].
  destruct (key_ltb (key y) (key x)); [|reflexivity].
  rewrite perm_swap; constructor; exact IH.
Qed.

Lemma sort_perm (l : list A) : Permutation l (sort_by_key l).
Proof.
  induction l as [|x l IH]; simpl; [reflexivity|].
  rewrite <- insert_perm; constructor; exact IH.
Qed.

Lemma insert_sorted (x : A) (l : list A) :
  Sorted key_le l -> Sorted key_le (insert x l).
Proof.
  induction 1 as [|y l Hl IH Hhd]; simpl; [repeat constructor|].
  destruct (key_ltb (key y) (key x)) eqn:E.
  - constructor; [exact IH|].
    destruct l as [|z l]; simpl; [constructor; unfold key_le; simpl|].
    + destruct (key_le_total x y) as [H'|H']; [|exact H'].
      unfold key_le in H'; congruence.
    + inversion Hhd; subst.
      destruct (key_ltb (key z) (key x)); constructor; [assumption|].
      destruct (key_le_total x y) as [H'|H']; [|exact H'].
      unfold key_le in H'; congruence.
  - repeat constructor; assumption.
Qed.

Lemma sort_strongly_sorted (l : list A) : StronglySorted key_le (sort_by_key l).
Proof.
  apply Sorted_StronglySorted; [exact key_le_trans|].
  induction l as [|x l IH]; simpl; [constructor | apply insert_sorted, IH].
Qed.

(** Inserting [x] keeps the order of [x]'s key class: [x] only passes
    elements whose keys are below its own. *)
Lemma filter_insert (k : K) (x : A) (l : list A) :
  filter (in_class k) (insert x l) =
  if in_class k x then x :: filter (in_class k) l else filter (in_class k) l.
Proof.
  induction l as [|y l IH]; simpl; [reflexivity|].
  destruct (key_ltb (key y) (key x)) eqn:E; simpl.
  - rewrite IH; destruct (in_class k x) eqn:Hx, (in_class k y) eqn:Hy;
      try reflexivity.
    unfold in_class in *; rewrite key_eqv_sym in Hx.
    pose proof (key_eqv_trans _ _ _ Hy Hx) as Hyx.
    unfold key_eqv in Hyx; rewrite E in Hyx; discriminate.
  - destruct (in_class k x); reflexivity.
Qed.

(** Stability: in every class of equal keys the input order is kept. *)
Lemma sort_keeps_classes (k : K) (l : list A) :
  filter (in_class k) (sort_by_key l) = filter (in_class k) l.
Proof.
  induction l as [|x l IH]; simpl; [reflexivity|].
  rewrite filter_insert, IH; reflexivity.
Qed.

Lemma in_class_self (x : A) : in_class (key x) x = true.
Proof. apply key_eqv_refl. Qed.

Lemma filters_nil (l : list A) :
  (forall k, filter (in_class k) l = []) -> l = [].
Proof.
  destruct l as [|x l]; [reflexivity|]; intros Hf.
  specialize (Hf (key x)); simpl in Hf; rewrite in_class_self in Hf; discriminate.
Qed.

Lemma key_le_antisym (x y : A) :
  key_le x y -> key_le y x -> forall k, in_class k x = in_class k y.
Proof.
  unfold key_le, in_class; intros Hxy Hyx k.
  assert (Hxy' : key_eqv (key x) (key y) = true)
    by (unfold key_eqv; rewrite Hxy, Hyx; reflexivity).
  destruct (key_eqv (key x) k) eqn:E1, (key_eqv (key y) k) eqn:E2; try reflexivity.
  - rewrite key_eqv_sym in Hxy'; rewrite (key_eqv_trans _ _ _ Hxy' E1) in E2; discriminate.
  - rewrite (key_eqv_trans _ _ _ Hxy' E2) in E1; discriminate.
Qed.

Lemma in_filter_self (x : A) (l : list A) :
  In x (filter (in_class (key x)) (x :: l)).
Proof. simpl; rewrite in_class_self; left; reflexivity. Qed.

Lemma head_le (x y : A) (t : list A) :
  StronglySorted key_le (x :: t) -> In y (x :: t) -> key_le x y.
Proof.
  intros S [<- | Hy]; [apply key_ltb_irrefl|].
  apply StronglySorted_inv in S as [_ F]; rewrite Forall_forall in F; auto.
Qed.

(** Two sorted lists with the same elements in every key class, in the
    same order, are equal. *)
Lemma sorted_filters_unique (l1 l2 : list A) :
  StronglySorted key_le l1 -> StronglySorted key_le l2 ->
  (forall k, filter (in_class k) l1 = filter (in_class k) l2) -> l1 = l2.
Proof.
  revert l2; induction l1 as [|x1 t1 IH]; intros l2 S1 S2 Hf.
  - symmetry; apply filters_nil; intros k; rewrite <- Hf; reflexivity.
  - destruct l2 as [|x2 t2].
    + apply filters_nil; exact Hf.
    + assert (Hin2 : In x2 (x1 :: t1)).
      { pose proof (in_filter_self x2 t2) as Hi; rewrite <- Hf in Hi.
        apply filter_In in Hi; tauto. }
      assert (Hin1 : In x1 (x2 :: t2)).
      { pose proof (in_filter_self x1 t1) as Hi; rewrite Hf in Hi.
        apply filter_In in Hi; tauto. }
      pose proof (key_le_antisym _ _ (head_le _ _ _ S1 Hin2) (head_le _ _ _ S2 Hin1))
        as Hc.
      assert (Hx : x1 = x2).
      { specialize (Hf (key x1)); simpl in Hf.
        rewrite <- (Hc (key x1)), in_class_self in Hf; injection Hf; auto. }
      subst x2; apply StronglySorted_inv in S1 as [S1 _];
        apply StronglySorted_inv in S2 as [S2 _].
      f_equal; apply IH; [exact S1 | exact S2|].
      intros k; specialize (Hf k); simpl in Hf.
      destruct (in_class k x1); [injection Hf; auto | exact Hf].
Qed.

(** An element whose key is strictly below all others comes first. *)
Lemma sort_head_min (eq_dec : forall a b : A, {a = b} + {a <> b})
    (l : list A) (x : A) :
  In x l -> (forall y, In y l -> y <> x -> key_ltb (key x) (key y) = true) ->
  exists t, sort_by_key l = x :: t.
Proof.
  intros Hx Hmin; pose proof (sort_perm l) as P; pose proof (sort_strongly_sorted l) as S.
  destruct (sort_by_key l) as [|h t] eqn:E.
  - apply Permutation_sym, Permutation_nil in P; subst l; destruct Hx.
  - exists t; f_equal; destruct (eq_dec h x) as [->|Hne]; [reflexivity|].
    assert (Hh : In h l) by (apply (Permutation_in h (Permutation_sym P)); left; reflexivity).
    assert (Hxt : In x (h :: t)) by (apply (Permutation_in x P); exact Hx).
    pose proof (head_le _ _ _ S Hxt) as Hle; unfold key_le in Hle.
    rewrite (Hmin h Hh Hne) in Hle; discriminate.
Qed.

(** [sort_by_key] returns a permutation of its input, sorted by key. *)
Theorem sort_correct (l : list A) :
  Permutation l (sort_by_key l) /\ StronglySorted key_le (sort_by_key l).
Proof. split; [apply sort_perm | apply sort_strongly_sorted]. Qed.

(** [sort_by_key] is stable: within every class of equal keys the
    elements keep their input order. *)
Theorem sort_stable (k : K) (l : list A) :
  filter (in_class k) (sort_by_key l) = filter (in_class k) l.
Proof. apply sort_keeps_classes. Qed.
End Sort.
