(* ===== verification/Solver.v ===== *)
(** * The shot solver: [BilliardSolver]

    Models [src/main/core/solver_core.py], lines 41-89.  The solver object
    ([__init__]) is the record [solver] of the table size and the pocket
    list.  [solve] is translated as the code composes it: the ball list with
    ids 0 (cue), 1 (target), 2.. (obstacles), the pocket order of
    [StableSort], and the loop over the pockets, whose body is [try_pocket]:
    skip a pocket whose ghost point is outside, return the direct plan when
    both legs are clear, else return the first mirror image whose legs are
    clear.  A plan is the dict the code returns; [None] is [None].

    The theorems: the ghost-ball geometry and the mirror round trip, the
    abstract contract [solve_spec] (the plan is feasible, no pocket earlier in
    the order has a feasible shot, the direct shot is preferred, the mirrors
    are tried in order, and [None] means no shot at all) with the refinement
    theorem [solve_meets_spec], and the safety of a returned plan stated on the
    geometry of [Geometry.path_clear_iff]. *)

From Stdlib Require Import Reals Lra Psatz List Bool Arith Permutation.
From S2P Require Import Prelude Geometry StableSort.
Import ListNotations.
Open Scope R_scope.
Open Scope geo_scope.

(** ** State and data *)

(** [BilliardSolver(table_size, pockets)], lines 43-45. *)
Record solver := Solver { W : R; H : R; pockets : list vec }.

(** The dict returned by [solve]: [{'type': 'direct', 'pocket', 'ghost'}] or
    [{'type': 'bank-1', 'pocket', 'ghost', 'rail_pt'}]. *)
Inductive plan :=
| Direct (pocket ghost : vec)
| Bank1 (pocket ghost rail_pt : vec).

Definition plan_pocket (p : plan) : vec :=
  match p with Direct pk _ => pk | Bank1 pk _ _ => pk end.

(** ** The private helpers, lines 78-89 *)

(** [_ghost(T, P)]: [v = T - P; v /= norm(v); return T + v * 2*BALL_R].
    When [T = P] numpy divides [0/0] and the ghost point is NaN, which
    [_inside] rejects; the model returns [None] there. *)
Definition ghost (T P : vec) : option vec :=
  let v := T -v P in
  let n := norm v in
  if Reqb n 0 then None
  else Some (T +v (2 * BALL_R) *v vdiv v n).

(** [_inside(p)] *)
Definition inside (s : solver) (p : vec) : bool :=
  (BALL_R <=? vx p) && (vx p <=? W s - BALL_R) &&
  (BALL_R <=? vy p) && (vy p <=? H s - BALL_R).

(** [_mirror(G)]: the images across the rails [x = 0], [x = W], [y = 0],
    [y = H], in this order. *)
Definition mirror (s : solver) (G : vec) : list vec :=
  [Vec (- vx G) (vy G); Vec (2 * W s - vx G) (vy G);
   Vec (vx G) (- vy G); Vec (vx G) (2 * H s - vy G)].

(** ** [solve(cue, tgt, others)], lines 48-75 *)

(** Lines 49-50: ids 0 and 1, then [enumerate(others)] from 2. *)
Definition mk_balls (cue tgt : vec) (others : list vec) : list ball :=
  Ball 0 cue :: Ball 1 tgt ::
  map (fun '(i, p) => Ball (i + 2) p) (combine (seq 0 (length others)) others).

(** The sort key of line 54. *)
Definition pocket_key (cue tgt : vec) (pk : vec) : R * R :=
  (angle (tgt -v cue) (pk -v tgt), dist pk tgt).

(** Lines 52-55. *)
Definition pocket_order (s : solver) (cue tgt : vec) : list vec :=
  sort_by_key (pocket_key cue tgt) (pockets s).

(** Lines 61-63: the cue leg, with the rail test. *)
Definition cue_leg_clear (s : solver) (cue G : vec) (balls : list ball) : bool :=
  path_clear cue G balls [0%nat; 1%nat] true (Some (W s, H s)).

(** Line 64: the target leg, all balls but the target. *)
Definition target_leg_clear (tgt pk : vec) (balls : list ball) : bool :=
  path_clear tgt pk balls [1%nat] false None.

(** Lines 70-72 for one mirror image [R]. *)
Definition try_mirror (cue G pk : vec) (balls : list ball) (ok_TP : bool)
    (R : vec) : option plan :=
  let ok_CR := path_clear cue R balls [0%nat; 1%nat] false None in
  let ok_RG := path_clear R G balls [0%nat; 1%nat] false None in
  if ok_CR && ok_RG && ok_TP then Some (Bank1 pk G R) else None.

(** The body of the pocket loop, lines 58-74. *)
Definition try_pocket (s : solver) (cue tgt : vec) (balls : list ball)
    (pk : vec) : option plan :=
  match ghost tgt pk with
  | None => None
  | Some G =>
      if negb (inside s G) then None
      else
        let ok_CG := cue_leg_clear s cue G balls in
        let ok_TP := target_leg_clear tgt pk balls in
        if ok_CG && ok_TP then Some (Direct pk G)
        else first_some (try_mirror cue G pk balls ok_TP) (mirror s G)
  end.

Definition solve (s : solver) (cue tgt : vec) (others : list vec) : option plan :=
  let balls := mk_balls cue tgt others in
  first_some (try_pocket s cue tgt balls) (pocket_order s cue tgt).

(** ** The contract of [solve] *)

Section Contract.
Variables (s : solver) (cue tgt : vec) (others : list vec).

Definition balls_of : list ball := mk_balls cue tgt others.

(** A direct shot into [pk] with ghost point [G] (lines 58-67). *)
Definition direct_ok (pk G : vec) : Prop :=
  ghost tgt pk = Some G /\ inside s G = true /\
  cue_leg_clear s cue G balls_of = true /\
  target_leg_clear tgt pk balls_of = true.

(** A one-rail shot into [pk] through the mirror image [R] (lines 69-74). *)
Definition bank_ok (pk G R : vec) : Prop :=
  ghost tgt pk = Some G /\ inside s G = true /\ In R (mirror s G) /\
  path_clear cue R balls_of [0%nat; 1%nat] false None = true /\
  path_clear R G balls_of [0%nat; 1%nat] false None = true /\
  target_leg_clear tgt pk balls_of = true.

Definition pocket_feasible (pk : vec) : Prop :=
  (exists G, direct_ok pk G) \/ (exists G R, bank_ok pk G R).

(** What a plan promises for its pocket: a direct plan is a direct shot;
    a bank plan is a bank shot, the direct shot into that pocket is
    infeasible, and no mirror image tried before [R] works. *)
Definition plan_ok (p : plan) : Prop :=
  match p with
  | Direct pk G => direct_ok pk G
  | Bank1 pk G R =>
      bank_ok pk G R /\ ~ (exists G', direct_ok pk G') /\
      exists mpre mpost, mirror s G = mpre ++ R :: mpost /\
                         forall R', In R' mpre -> ~ bank_ok pk G R'
  end.

(** The abstract specification: the first feasible pocket in the sort
    order is chosen, and [None] means that no pocket is feasible. *)
Definition solve_spec (res : option plan) : Prop :=
  match res with
  | None => forall pk, In pk (pockets s) -> ~ pocket_feasible pk
  | Some p =>
      plan_ok p /\
      exists pre post, pocket_order s cue tgt = pre ++ plan_pocket p :: post /\
                       forall pk, In pk pre -> ~ pocket_feasible pk
  end.

End Contract.

(** ** The ghost ball *)

(** [_ghost] fails (numpy's NaN, rejected by [_inside]) exactly when
    the target sits on the pocket. *)
Lemma ghost_None (T P : vec) : ghost T P = None <-> T = P.
Proof.
  unfold ghost; cbv zeta; destruct (Reqb_spec (norm (T -v P)) 0) as [Hz|Hz];
    split; try discriminate; intros HTP.
  - apply norm_zero_iff, norm2_zero in Hz.
    destruct T, P; unfold vsub in Hz; simpl in Hz; injection Hz as E1 E2.
    apply vec_eq; simpl; lra.
  - reflexivity.
  - subst P; exfalso; apply Hz, norm_zero_iff.
    unfold norm2, dot, vsub; simpl; ring.
Qed.

Lemma ghost_eq (T P G : vec) :
  ghost T P = Some G ->
  0 < norm (T -v P) /\ G = T +v (2 * BALL_R / norm (T -v P)) *v (T -v P).
Proof.
  unfold ghost; cbv zeta; destruct (Reqb_spec (norm (T -v P)) 0) as [Hz|Hz];
    [discriminate|]; intros [= <-].
  pose proof (norm_nonneg (T -v P)); split; [lra|].
  apply vec_eq; unfold vadd, vscale, vdiv, vsub; simpl; field; exact Hz.
Qed.

(** The ghost point is two radii from the target, on the far side of the
    pocket: the target lies strictly between the ghost point and the
    pocket. *)
Lemma ghost_dist_between (T P G : vec) :
  ghost T P = Some G ->
  dist G T = 2 * BALL_R /\
  exists lam, 0 < lam < 1 /\ T = G +v lam *v (P -v G).
Proof.
  intros Hg; apply ghost_eq in Hg as [Hn ->].
  set (n := norm (T -v P)) in *.
  assert (HR : 0 < BALL_R) by (unfold BALL_R; lra).
  split.
  - unfold dist.
    replace (T +v (2 * BALL_R / n) *v (T -v P) -v T)
      with ((2 * BALL_R / n) *v (T -v P))
      by (apply vec_eq; unfold vadd, vscale, vsub; simpl; ring).
    rewrite norm_scale by (apply Rlt_le, Rdiv_lt_0_compat; lra).
    fold n; field; lra.
  - exists (2 * BALL_R / (n + 2 * BALL_R)); split.
    + split; [apply Rdiv_lt_0_compat; lra|].
      apply Rmult_lt_reg_r with (n + 2 * BALL_R); [lra|].
      unfold Rdiv; rewrite Rmult_assoc, Rinv_l by lra; lra.
    + apply vec_eq; unfold vadd, vscale, vsub; simpl; field; lra.
Qed.

(** ** The mirror images *)

(** round trip: reflecting a mirror image back across its own rail
    gives the ghost point again. *)
Lemma mirror_roundtrip (s : solver) (G : vec) (i : nat) :
  (i < 4)%nat ->
  nth i (mirror s (nth i (mirror s G) G)) G = G.
Proof.
  intros Hi; destruct G as [x y].
  do 4 (destruct i as [|i]; [apply vec_eq; simpl; ring|]); lia.
Qed.

(** each image is the reflection across a rail line: the midpoint of the
    ghost point and its image lies on [x = 0], [x = W], [y = 0] or [y = H],
    and the other coordinate is unchanged. *)
Lemma mirror_rails (s : solver) (G : vec) :
  map (fun R => ((vx G + vx R) / 2, (vy G + vy R) / 2)) (mirror s G) =
  [(0, vy G); (W s, vy G); (vx G, 0); (vx G, H s)].
Proof.
  destruct G as [x y]; simpl.
  repeat f_equal; field.
Qed.

Section ContractLemmas.
Variables (s : solver) (cue tgt : vec) (others : list vec).

Lemma try_mirror_Some (G pk R : vec) (ok : bool) (p : plan) :
  try_mirror cue G pk (balls_of cue tgt others) ok R = Some p ->
  p = Bank1 pk G R /\
  path_clear cue R (balls_of cue tgt others) [0%nat; 1%nat] false None = true /\
  path_clear R G (balls_of cue tgt others) [0%nat; 1%nat] false None = true /\ ok = true.
Proof.
  unfold try_mirror; cbv zeta.
  destruct (path_clear cue R _ _ _ _), (path_clear R G _ _ _ _), ok;
    simpl; try discriminate.
  intros [= <-]; auto.
Qed.

Lemma try_mirror_bank_ok (G pk R : vec) :
  ghost tgt pk = Some G -> inside s G = true -> In R (mirror s G) ->
  try_mirror cue G pk (balls_of cue tgt others) true R = None -> ~ bank_ok s cue tgt others pk G R.
Proof.
  intros Hg Hi HR Hn (_ & _ & _ & H1 & H2 & H3).
  unfold try_mirror in Hn; rewrite H1, H2 in Hn; discriminate.
Qed.

(** A pocket whose loop body finds nothing has no feasible shot. *)
Lemma try_pocket_None (pk : vec) :
  try_pocket s cue tgt (balls_of cue tgt others) pk = None -> ~ pocket_feasible s cue tgt others pk.
Proof.
  unfold try_pocket; intros Hn [(G & Hg & Hi & Hc & Ht) | (G & R & Hg & Hi & HR & H1 & H2 & Ht)];
    rewrite Hg, Hi in Hn; cbn [negb] in Hn.
  - rewrite Hc, Ht in Hn; discriminate.
  - destruct (_ && _); [discriminate|].
    destruct (first_some_complete
                (try_mirror cue G pk (balls_of cue tgt others) (target_leg_clear tgt pk (balls_of cue tgt others)))
                (mirror s G) R (Bank1 pk G R) HR) as [p Hp].
    + unfold try_mirror; rewrite H1, H2, Ht; reflexivity.
    + congruence.
Qed.

(** What the loop body returns is a plan for its pocket that keeps the
    promises of [plan_ok]. *)
Lemma try_pocket_Some (pk : vec) (p : plan) :
  try_pocket s cue tgt (balls_of cue tgt others) pk = Some p -> plan_pocket p = pk /\ plan_ok s cue tgt others p.
Proof.
  unfold try_pocket; destruct (ghost tgt pk) as [G|] eqn:Hg; [|discriminate].
  destruct (inside s G) eqn:Hi; cbn [negb]; [|discriminate].
  destruct (cue_leg_clear s cue G (balls_of cue tgt others)) eqn:Hc,
    (target_leg_clear tgt pk (balls_of cue tgt others)) eqn:Ht; cbn [andb].
  1: intros [= <-]; split; [reflexivity | repeat split; assumption].
  all: intros Hf; pose proof Hf as Hf';
    apply first_some_Some in Hf as (mpre & R & mpost & Hm & HR & Hpre);
    apply try_mirror_Some in HR as (-> & H1 & H2 & H3); try discriminate H3.
  split; [reflexivity|]; split; [|split].
  - repeat split; auto; rewrite Hm; apply in_or_app; right; left; reflexivity.
  - intros (G' & Hg' & _ & Hc' & _); rewrite Hg in Hg'; injection Hg' as <-; congruence.
  - exists mpre, mpost; split; [exact Hm|].
    intros R' HR'; apply try_mirror_bank_ok;
      [exact Hg | exact Hi | rewrite Hm; apply in_or_app; left; exact HR'
      | apply Hpre, HR'].
Qed.
End ContractLemmas.

Lemma pocket_order_perm (s : solver) (cue tgt : vec) :
  Permutation (pockets s) (pocket_order s cue tgt).
Proof. apply sort_perm. Qed.

Lemma plan_ok_feasible (s : solver) (cue tgt : vec) (others : list vec) (p : plan) :
  plan_ok s cue tgt others p -> pocket_feasible s cue tgt others (plan_pocket p).
Proof.
  destruct p as [pk G | pk G R]; simpl; [intros H; left; eauto|].
  intros (Hb & _); right; eauto.
Qed.

(** ** Refinement: [solve] meets its contract *)

Theorem solve_meets_spec (s : solver) (cue tgt : vec) (others : list vec) :
  solve_spec s cue tgt others (solve s cue tgt others).
Proof.
  unfold solve_spec, solve; cbv zeta; fold (balls_of cue tgt others).
  destruct (first_some _ _) as [p|] eqn:E.
  - apply first_some_Some in E as (pre & pk & post & Ho & Hp & Hpre).
    apply try_pocket_Some in Hp as [Hpk Hok]; split; [exact Hok|].
    exists pre, post; rewrite Hpk; split; [exact Ho|].
    intros pk' Hin; apply try_pocket_None, Hpre, Hin.
  - rewrite first_some_None in E; intros pk Hin; apply try_pocket_None, E.
    apply (Permutation_in pk (pocket_order_perm s cue tgt)), Hin.
Qed.

(** the contract determines the result: two results that both meet
    [solve_spec] are equal, so [solve] is the only function that meets it. *)
Theorem solve_spec_unique (s : solver) (cue tgt : vec) (others : list vec)
    (r1 r2 : option plan) :
  solve_spec s cue tgt others r1 -> solve_spec s cue tgt others r2 -> r1 = r2.
Proof.
  assert (Hin : forall p pre post, pocket_order s cue tgt = pre ++ plan_pocket p :: post ->
            In (plan_pocket p) (pockets s)).
  { intros p pre post Ho; apply (Permutation_in _ (Permutation_sym (pocket_order_perm s cue tgt))).
    rewrite Ho; apply in_or_app; right; left; reflexivity. }
  destruct r1 as [p1|], r2 as [p2|]; simpl; try reflexivity.
  - intros (Hok1 & pre1 & post1 & Ho1 & Hp1) (Hok2 & pre2 & post2 & Ho2 & Hp2).
    destruct (first_occurrence_unique _ _ _ _ _ _ _ _ Ho1 Ho2
                (plan_ok_feasible _ _ _ _ _ Hok1) (plan_ok_feasible _ _ _ _ _ Hok2)
                Hp1 Hp2) as (_ & Hpk & _).
    f_equal; destruct p1 as [pk1 G1 | pk1 G1 R1], p2 as [pk2 G2 | pk2 G2 R2];
      simpl in Hpk, Hok1, Hok2; subst pk2.
    + destruct Hok1 as [Hg1 _], Hok2 as [Hg2 _]; congruence.
    + destruct Hok2 as (_ & Hnd & _); exfalso; eauto.
    + destruct Hok1 as (_ & Hnd & _); exfalso; eauto.
    + destruct Hok1 as (Hb1 & _ & m1 & m1' & Hm1 & Hq1),
        Hok2 as (Hb2 & _ & m2 & m2' & Hm2 & Hq2).
      assert (G2 = G1) by (destruct Hb1 as [Hg1 _], Hb2 as [Hg2 _]; congruence).
      subst G2.
      destruct (first_occurrence_unique (bank_ok s cue tgt others pk1 G1) _ _ _ _ _ _ _
                  Hm1 Hm2 Hb1 Hb2 Hq1 Hq2) as (_ & -> & _); reflexivity.
  - intros (Hok & pre & post & Ho & _) Hnone.
    exact (False_ind _ (Hnone _ (Hin _ _ _ Ho) (plan_ok_feasible _ _ _ _ _ Hok))).
  - intros Hnone (Hok & pre & post & Ho & _).
    exact (False_ind _ (Hnone _ (Hin _ _ _ Ho) (plan_ok_feasible _ _ _ _ _ Hok))).
Qed.

(** ** Safety of a returned plan *)

Lemma in_combine_seq {A : Type} (x : A) (l : list A) (k : nat) :
  In x l -> exists i, In (i, x) (combine (seq k (length l)) l).
Proof.
  revert k; induction l as [|y l IH]; intros k Hin; [destruct Hin|].
  destruct Hin as [<- | Hin]; simpl.
  - exists k; left; reflexivity.
  - destruct (IH (S k) Hin) as [i Hi]; exists i; right; exact Hi.
Qed.

(** Every obstacle is a ball of the list, with an id of at least 2. *)
Lemma mk_balls_obstacle (cue tgt p : vec) (others : list vec) :
  In p others -> exists i, In (Ball (i + 2) p) (mk_balls cue tgt others).
Proof.
  intros Hin; destruct (in_combine_seq p others 0 Hin) as [i Hi].
  exists i; right; right; apply in_map_iff; exists (i, p); split; [reflexivity | exact Hi].
Qed.

Lemma ignored_obstacle (ign : list nat) (i : nat) (p : vec) :
  (forall n, In n ign -> (n < 2)%nat) -> ignored ign (Ball (i + 2) p) = false.
Proof.
  intros Hign; unfold ignored; simpl.
  destruct (existsb _ ign) eqn:E; [|reflexivity].
  apply existsb_exists in E as (n & Hn & Heq); apply Nat.eqb_eq in Heq.
  specialize (Hign n Hn); lia.
Qed.

(** A clear leg keeps its corridor free of every obstacle. *)
Lemma clear_obstacle (cue tgt p1 p2 p : vec) (others : list vec) (ign : list nat)
    (rail : bool) (tbl : option (R * R)) :
  path_clear p1 p2 (mk_balls cue tgt others) ign rail tbl = true ->
  (forall n, In n ign -> (n < 2)%nat) -> In p others -> corridor_free p1 p2 p.
Proof.
  intros Hc Hign Hin; apply path_clear_iff in Hc as (_ & Hb & _).
  destruct (mk_balls_obstacle cue tgt p others Hin) as [i Hi].
  exact (Hb _ Hi (ignored_obstacle ign i p Hign)).
Qed.

Lemma ign_01 : forall n, In n [0%nat; 1%nat] -> (n < 2)%nat.
Proof. intros n [<- | [<- | []]]; lia. Qed.

Lemma ign_1 : forall n, In n [1%nat] -> (n < 2)%nat.
Proof. intros n [<- | []]; lia. Qed.

(** The target leg also keeps the cue ball out of the corridor. *)
Lemma target_leg_cue (cue tgt pk : vec) (others : list vec) :
  target_leg_clear tgt pk (mk_balls cue tgt others) = true -> corridor_free tgt pk cue.
Proof.
  unfold target_leg_clear; intros Hc; apply path_clear_iff in Hc as (_ & Hb & _).
  exact (Hb (Ball 0 cue) (or_introl eq_refl) eq_refl).
Qed.

Lemma solve_plan_ok (s : solver) (cue tgt : vec) (others : list vec) (p : plan) :
  solve s cue tgt others = Some p ->
  plan_ok s cue tgt others p /\ In (plan_pocket p) (pockets s).
Proof.
  intros Hs; pose proof (solve_meets_spec s cue tgt others) as Hr; rewrite Hs in Hr.
  destruct Hr as (Hok & pre & post & Ho & _); split; [exact Hok|].
  apply (Permutation_in _ (Permutation_sym (pocket_order_perm s cue tgt))).
  rewrite Ho; apply in_or_app; right; left; reflexivity.
Qed.

(** C3: a direct plan: the pocket is a pocket of the table, the ghost point is
    on the table two radii behind the target, the cue ball's path to it
    stays inside the rails and misses every obstacle, and the target's path
    to the pocket misses every obstacle and the cue ball. *)
Theorem solve_direct_safe (s : solver) (cue tgt : vec) (others : list vec) (pk G : vec) :
  solve s cue tgt others = Some (Direct pk G) ->
  In pk (pockets s) /\ inside s G = true /\ dist G tgt = 2 * BALL_R /\
  (forall t, 0 <= t <= 1 -> on_table_tol (W s) (H s) (seg cue G t)) /\
  corridor_free tgt pk cue /\
  (forall p, In p others -> corridor_free cue G p /\ corridor_free tgt pk p).
Proof.
  intros Hs; apply solve_plan_ok in Hs as ((Hg & Hi & Hc & Ht) & Hin); simpl in Hin.
  split; [exact Hin | split; [exact Hi | split; [apply (proj1 (ghost_dist_between _ _ _ Hg)) | split]]].
  - unfold cue_leg_clear in Hc; apply path_clear_iff in Hc as (_ & _ & Hr).
    apply (Hr eq_refl); reflexivity.
  - split; [apply (target_leg_cue cue tgt pk others Ht)|].
    intros p Hp; split; [eapply clear_obstacle; [exact Hc | exact ign_01 | exact Hp]|].
    eapply clear_obstacle; [exact Ht | exact ign_1 | exact Hp].
Qed.

(** C4: a bank plan: [R] is one of the four mirror images of the ghost point,
    the legs cue->R and R->ghost miss every obstacle, the target's path
    misses every obstacle and the cue ball, and the direct shot into the
    same pocket was not possible. *)
Theorem solve_bank_safe (s : solver) (cue tgt : vec) (others : list vec) (pk G R : vec) :
  solve s cue tgt others = Some (Bank1 pk G R) ->
  In pk (pockets s) /\ inside s G = true /\ dist G tgt = 2 * BALL_R /\
  In R (mirror s G) /\ cue_leg_clear s cue G (mk_balls cue tgt others) = false /\
  corridor_free tgt pk cue /\
  (forall p, In p others ->
     corridor_free cue R p /\ corridor_free R G p /\ corridor_free tgt pk p).
Proof.
  intros Hs; apply solve_plan_ok in Hs as (((Hg & Hi & HR & H1 & H2 & Ht) & Hnd & _) & Hin).
  simpl in Hin; split; [exact Hin | split; [exact Hi | split; [apply (proj1 (ghost_dist_between _ _ _ Hg))|]]].
  split; [exact HR | split].
  - destruct (cue_leg_clear s cue G _) eqn:Hc; [|reflexivity].
    exfalso; apply Hnd; exists G; repeat split; assumption.
  - split; [apply (target_leg_cue cue tgt pk others Ht)|].
    intros p Hp; repeat split; eapply clear_obstacle; eauto using ign_01, ign_1.
Qed.

(** ** What the bank test checks *)

(** ** A bank shot on a one-pocket table *)

(** The cue ball, an obstacle and the target on the line [y = 0.1], the
    pocket at (0.5, 0.1): the obstacle blocks the direct shot, the mirror
    images across [x = 0] and [x = W] are blocked too, the image across
    [y = 0] works. *)
Local Abbreviation sb := (Solver 0.735 0.375 [Vec 0.5 0.1]).
Local Abbreviation cueb := (Vec 0.1 0.1).
Local Abbreviation tgtb := (Vec 0.3 0.1).
Local Abbreviation obsb := (Vec 0.2 0.1).
Local Abbreviation Gb := (Vec 0.275 0.1).

Lemma bank_scenario_ghost : ghost tgtb (Vec 0.5 0.1) = Some Gb.
Proof.
  unfold ghost; cbv zeta.
  rewrite (norm_eq _ 0.2) by (lra || (unfold norm2, dot, vsub; simpl; lra)).
  destruct (Reqb_spec 0.2 0) as [E|_]; [lra|].
  f_equal; apply vec_eq; unfold vadd, vscale, vdiv, vsub, BALL_R; simpl; lra.
Qed.

(** The obstacle lies on the segment from [p1] to [p2]. *)
Lemma bank_scenario_blocked (extra : list vec) (p1 p2 : vec) (ign : list nat) (rail : bool)
    (tbl : option (R * R)) (s : R) :
  (forall n, In n ign -> (n < 2)%nat) -> 0 <= s <= 1 -> obsb = seg p1 p2 s ->
  path_clear p1 p2 (mk_balls cueb tgtb (obsb :: extra)) ign rail tbl = false.
Proof.
  intros Hign Hs Hpos; apply (center_on_segment_blocks _ _ _ _ _ _ (Ball 2 obsb) s);
    [right; right; left; reflexivity | apply (ignored_obstacle ign 0 obsb Hign)
    | exact Hs | exact Hpos].
Qed.

(** The scenario with more balls that leave the target's leg and the
    bottom-rail bank clear: [solve] still finds that bank shot. *)
Lemma bank_scenario_solve_with (extra : list vec) :
  let balls := mk_balls cueb tgtb (obsb :: extra) in
  target_leg_clear tgtb (Vec 0.5 0.1) balls = true ->
  path_clear cueb (Vec 0.275 (Ropp 0.1)) balls [0%nat; 1%nat] false None = true ->
  path_clear (Vec 0.275 (Ropp 0.1)) Gb balls [0%nat; 1%nat] false None = true ->
  solve sb cueb tgtb (obsb :: extra) = Some (Bank1 (Vec 0.5 0.1) Gb (Vec 0.275 (Ropp 0.1))).
Proof.
  intros balls Ht H1 H2.
  unfold solve, pocket_order; cbn [sort_by_key insert pockets first_some].
  unfold try_pocket; rewrite bank_scenario_ghost.
  assert (Hi : inside sb Gb = true) by (unfold inside, BALL_R; simpl; rcase; lra || reflexivity).
  rewrite Hi; cbn [negb].
  assert (Hc : cue_leg_clear sb cueb Gb balls = false).
  { apply (bank_scenario_blocked _ _ _ _ _ _ (4 / 7)); [exact ign_01 | lra|].
    apply vec_eq; unfold seg, vadd, vscale, vsub; simpl; lra. }
  fold balls; rewrite Hc, Ht; cbn [andb mirror first_some W H vx vy].
  unfold try_mirror; cbv zeta.
  rewrite (bank_scenario_blocked extra (Vec (Ropp 0.275) 0.1) Gb _ _ _ (19 / 22) ign_01);
    [| lra | apply vec_eq; unfold seg, vadd, vscale, vsub; simpl; lra].
  rewrite (bank_scenario_blocked extra cueb (Vec (2 * 0.735 - 0.275) 0.1) _ _ _ (20 / 219) ign_01);
    [| lra | apply vec_eq; unfold seg, vadd, vscale, vsub; simpl; lra].
  rewrite andb_false_r; cbn [andb].
  fold balls; rewrite H1, H2; reflexivity.
Qed.

Lemma bank_scenario_solve :
  solve sb cueb tgtb [obsb] = Some (Bank1 (Vec 0.5 0.1) Gb (Vec 0.275 (Ropp 0.1))).
Proof.
  assert (HC : CLEARANCE * CLEARANCE < 0.001) by (unfold CLEARANCE, BALL_R; lra).
  assert (HE : EPS * EPS < 0.001) by (unfold EPS; lra).
  pose proof EPS_pos as HE0.
  apply bank_scenario_solve_with.
  - apply path_clear_iff; split; [|split; [|discriminate]].
    + apply norm_ge_of_sq; [lra | unfold norm2, dot, vsub; simpl; lra].
    + intros b [<- | [<- | [<- | []]]]; [| discriminate |]; intros _;
        apply corridor_free_of_sq; intros t Htt;
        unfold seg, norm2, dot, vsub, vadd, vscale; simpl; nra.
  - apply path_clear_iff; split; [|split; [|discriminate]].
    + apply norm_ge_of_sq; [lra | unfold norm2, dot, vsub; simpl; lra].
    + intros b [<- | [<- | [<- | []]]]; try discriminate; intros _.
      apply corridor_free_of_sq; intros t Htt.
      unfold seg, norm2, dot, vsub, vadd, vscale; simpl.
      assert (0 <= (t - 0.25) * (t - 0.25)) by apply Rle_0_sqr; nra.
  - apply path_clear_iff; split; [|split; [|discriminate]].
    + apply norm_ge_of_sq; [lra | unfold norm2, dot, vsub; simpl; lra].
    + intros b [<- | [<- | [<- | []]]]; try discriminate; intros _.
      apply corridor_free_of_sq; intros t Htt.
      unfold seg, norm2, dot, vsub, vadd, vscale; simpl.
      assert (0 <= (0.2 * t - 0.2) * (0.2 * t - 0.2)) by apply Rle_0_sqr; nra.
Qed.

(** C8: the bank test checks the legs cue->R and R->G, where [R] is the
    mirror image of the ghost point behind the rail, while the ball
    really travels cue->C and C->G, where [C] is the point where cue->R
    meets the rail.  On a table with one pocket at (0.5, 0.1), the cue
    ball at (0.1, 0.1), the target at (0.3, 0.1) and obstacles at
    (0.2, 0.1) and (0.2225, 0.04), [solve] returns the bank shot off the
    bottom rail through [R = (0.275, -0.1)], although its real second leg
    from [C = (0.1875, 0)] to the ghost point runs through the second
    obstacle. *)
Theorem bank_check_misses_reflected_leg :
  let balls := mk_balls cueb tgtb [obsb; Vec 0.2225 0.04] in
  let Rp := Vec 0.275 (Ropp 0.1) in
  let C := Vec 0.1875 0 in
  solve sb cueb tgtb [obsb; Vec 0.2225 0.04] = Some (Bank1 (Vec 0.5 0.1) Gb Rp) /\
  Rp = nth 2 (mirror sb Gb) Gb /\ C = seg cueb Rp (1 / 2) /\ vy C = 0 /\
  path_clear C Gb balls [0%nat; 1%nat] false None = false.
Proof.
  intros balls Rp C.
  assert (HC : CLEARANCE * CLEARANCE < 0.001) by (unfold CLEARANCE, BALL_R; lra).
  assert (HC' : CLEARANCE * CLEARANCE < 0.00063) by (unfold CLEARANCE, BALL_R; lra).
  assert (HE : EPS * EPS < 0.001) by (unfold EPS; lra).
  pose proof EPS_pos as HE0.
  split; [apply bank_scenario_solve_with|].
  - apply path_clear_iff; split; [|split; [|discriminate]].
    + apply norm_ge_of_sq; [lra | unfold norm2, dot, vsub; simpl; lra].
    + intros b [<- | [<- | [<- | [<- | []]]]]; [| discriminate | |]; intros _;
        apply corridor_free_of_sq; intros t Htt;
        unfold seg, norm2, dot, vsub, vadd, vscale; simpl; nra.
  - apply path_clear_iff; split; [|split; [|discriminate]].
    + apply norm_ge_of_sq; [lra | unfold norm2, dot, vsub; simpl; lra].
    + intros b [<- | [<- | [<- | [<- | []]]]]; try discriminate; intros _;
        apply corridor_free_of_sq; intros t Htt;
        unfold seg, norm2, dot, vsub, vadd, vscale; simpl.
      * assert (0 <= (t - 0.25) * (t - 0.25)) by apply Rle_0_sqr; nra.
      * assert (0 <= (t - 0.47) * (t - 0.47)) by apply Rle_0_sqr; nra.
  - apply path_clear_iff; split; [|split; [|discriminate]].
    + apply norm_ge_of_sq; [lra | unfold norm2, dot, vsub; simpl; lra].
    + intros b [<- | [<- | [<- | [<- | []]]]]; try discriminate; intros _;
        apply corridor_free_of_sq; intros t Htt;
        unfold seg, norm2, dot, vsub, vadd, vscale; simpl.
      * assert (0 <= (0.2 * t - 0.2) * (0.2 * t - 0.2)) by apply Rle_0_sqr; nra.
      * assert (0 <= (0.2 * t - 0.14) * (0.2 * t - 0.14)) by apply Rle_0_sqr; nra.
  - split; [apply vec_eq; cbn; lra|].
    split; [apply vec_eq; unfold seg, vadd, vscale, vsub; simpl; lra|].
    split; [reflexivity|].
    apply (center_on_segment_blocks _ _ _ _ _ _ (Ball 3 (Vec 0.2225 0.04)) 0.4);
      [right; right; right; left; reflexivity | reflexivity | lra |].
    apply vec_eq; unfold seg, vadd, vscale, vsub; simpl; lra.
Qed.


(** ** Properties of the solver *)

(** C1: refinement: [solve] meets the abstract contract [solve_spec] (the
    plan is feasible for its pocket, no pocket earlier in the (angle,
    distance) order is feasible, a bank plan is returned only when the direct
    shot into that pocket is infeasible and with the first working mirror
    image, and [None] only when no pocket of the table is feasible). *)
Theorem solve_refines (s : solver) (cue tgt : vec) (others : list vec) :
  solve_spec s cue tgt others (solve s cue tgt others).
Proof. apply solve_meets_spec. Qed.

(** the ghost point is [2*BALL_R] from the target, and the target lies
    strictly between the ghost point and the pocket. *)
Theorem ghost_geometry (T P G : vec) :
  ghost T P = Some G ->
  dist G T = 2 * BALL_R /\
  exists lam, 0 < lam < 1 /\ T = G +v lam *v (P -v G).
Proof. apply ghost_dist_between. Qed.

Lemma ghost_geometry_witness :
  ghost tgtb (Vec 0.5 0.1) = Some Gb /\
  dist Gb tgtb = 2 * BALL_R /\
  exists lam, 0 < lam < 1 /\ tgtb = Gb +v lam *v (Vec 0.5 0.1 -v Gb).
Proof. split; [exact bank_scenario_ghost | apply ghost_geometry, bank_scenario_ghost]. Defined.

Lemma solve_spec_unique_witness :
  solve_spec sb cueb tgtb [obsb] (solve sb cueb tgtb [obsb]) /\
  solve_spec sb cueb tgtb [obsb] (Some (Bank1 (Vec 0.5 0.1) Gb (Vec 0.275 (Ropp 0.1)))) /\
  solve sb cueb tgtb [obsb] = Some (Bank1 (Vec 0.5 0.1) Gb (Vec 0.275 (Ropp 0.1))).
Proof.
  assert (H1 := solve_meets_spec sb cueb tgtb [obsb]).
  assert (H2 : solve_spec sb cueb tgtb [obsb]
                 (Some (Bank1 (Vec 0.5 0.1) Gb (Vec 0.275 (Ropp 0.1)))))
    by (rewrite <- bank_scenario_solve; exact H1).
  split; [exact H1 | split; [exact H2|]].
  apply (solve_spec_unique sb cueb tgtb [obsb]); assumption.
Defined.

Lemma solve_bank_safe_witness :
  solve sb cueb tgtb [obsb] = Some (Bank1 (Vec 0.5 0.1) Gb (Vec 0.275 (Ropp 0.1))) /\
  In (Vec 0.5 0.1) (pockets sb) /\ inside sb Gb = true /\ dist Gb tgtb = 2 * BALL_R /\
  In (Vec 0.275 (Ropp 0.1)) (mirror sb Gb) /\
  cue_leg_clear sb cueb Gb (mk_balls cueb tgtb [obsb]) = false /\
  corridor_free tgtb (Vec 0.5 0.1) cueb /\
  (forall p, In p [obsb] ->
     corridor_free cueb (Vec 0.275 (Ropp 0.1)) p /\ corridor_free (Vec 0.275 (Ropp 0.1)) Gb p /\
     corridor_free tgtb (Vec 0.5 0.1) p).
Proof.
  split; [exact bank_scenario_solve|].
  apply solve_bank_safe, bank_scenario_solve.
Defined.

Lemma mirror_roundtrip_witness :
  (2 < 4)%nat /\ nth 2 (mirror sb (nth 2 (mirror sb Gb) Gb)) Gb = Gb.
Proof. split; [lia | apply mirror_roundtrip; lia]. Defined.
