(* ===== verification/Api.v ===== *)
(** * The shot-plan adapter: [billiard_api.compute_shot]

    Models [src/main/core/billiard_api.py].  The module fixes the table
    [TABLE = (0.735, 0.375)] and its six pockets [POCKETS] (four corners and
    the middles of the long rails) and builds one solver [_solver].
    [compute_shot] runs the solver and turns its plan into the result dict:
    the aiming heading [round(degrees(atan2(v_y, v_x)), 2)], the index of the
    pocket ([next(...)] over [np.allclose]), the ghost point rounded to four
    decimals and, for a bank shot, the mirror point rounded likewise.

    [atan2] is C's [atan2] on exact reals (signed zeros are not modelled);
    [round(x, n)] is Python's rounding of the exact value to [n] decimals,
    ties to even.  [next] raises [StopIteration] when no pocket matches:
    [compute_shot] is a [py] computation. *)

From Stdlib Require Import Reals Lra Psatz List Bool Arith ZArith.
From S2P Require Import Prelude Geometry StableSort Solver.
Import ListNotations.
Open Scope R_scope.
Open Scope geo_scope.

(** ** Module constants, lines 4-12 *)

Definition TABLE : R * R := (0.735, 0.375).

Definition POCKETS : list vec :=
  [Vec 0 0; Vec (fst TABLE / 2) 0; Vec (fst TABLE) 0;
   Vec 0 (snd TABLE); Vec (fst TABLE / 2) (snd TABLE); Vec (fst TABLE) (snd TABLE)].

Definition _solver : solver := Solver (fst TABLE) (snd TABLE) POCKETS.

(** ** The numeric helpers *)

(** [math.atan2(y, x)], with its range [(-pi, pi]]. *)
Definition atan2 (y x : R) : R :=
  if 0 <? x then atan (y / x)
  else if x <? 0 then
    (if 0 <=? y then atan (y / x) + PI else atan (y / x) - PI)
  else if 0 <? y then PI / 2
  else if y <? 0 then - (PI / 2)
  else 0.

(** [math.degrees] *)
Definition degrees (x : R) : R := x * 180 / PI.

(** The integer nearest to [y], ties to the even one. *)
Definition round_half_even (y : R) : Z :=
  let f := Int_part y in
  let d := y - IZR f in
  if d <? / 2 then f
  else if / 2 <? d then (f + 1)%Z
  else if Z.even f then f else (f + 1)%Z.

(** [round(x, n)] *)
Definition py_round (x : R) (n : nat) : R :=
  IZR (round_half_even (x * 10 ^ n)) / 10 ^ n.

(** [np.allclose(a, b)]: [|a - b| <= atol + rtol * |b|] componentwise, with
    [rtol = 1e-5] and [atol = 1e-8]. *)
Definition allclose (a b : vec) : bool :=
  (Rabs (vx a - vx b) <=? 1e-8 + 1e-5 * Rabs (vx b)) &&
  (Rabs (vy a - vy b) <=? 1e-8 + 1e-5 * Rabs (vy b)).

(** [next(i for i, x in enumerate(l) if f(x))] *)
Fixpoint find_index {A : Type} (f : A -> bool) (l : list A) (i : nat) : py nat :=
  match l with
  | [] => raise StopIteration
  | x :: l' => if f x then ret i else find_index f l' (S i)
  end.

(** ** [compute_shot], lines 14-42 *)

Inductive shot_type := TDirect | TBank1.

(** The result dict [{'type', 'pocket_id', 'ghost', 'angle_deg'}] with
    ['rail_pt'] for a bank shot. *)
Record shot := Shot {
  stype : shot_type;
  pocket_id : nat;
  ghost_xy : R * R;
  angle_deg : R;
  rail_xy : option (R * R)
}.

Definition round_pt (p : vec) : R * R := (py_round (vx p) 4, py_round (vy p) 4).

(** The aiming vector of lines 24-29: to the ghost point or to the mirror
    point. *)
Definition aim (cue : vec) (p : plan) : vec :=
  match p with
  | Direct _ G => G -v cue
  | Bank1 _ _ R => R -v cue
  end.

Definition plan_ghost (p : plan) : vec :=
  match p with Direct _ G => G | Bank1 _ G _ => G end.

Definition compute_shot (cue target : vec) (blockers : list vec) : py (option shot) :=
  match solve _solver cue target blockers with
  | None => ret None
  | Some p =>
      let v := aim cue p in
      let angle_deg := py_round (degrees (atan2 (vy v) (vx v))) 2 in
      (pk_id <- find_index (fun pk => allclose pk (plan_pocket p)) POCKETS 0 ;;
       ret (Some {| stype := match p with Direct _ _ => TDirect | Bank1 _ _ _ => TBank1 end;
                    pocket_id := pk_id;
                    ghost_xy := round_pt (plan_ghost p);
                    angle_deg := angle_deg;
                    rail_xy := match p with
                               | Direct _ _ => None
                               | Bank1 _ _ R => Some (round_pt R)
                               end |}))%py
  end.

(** ** Rounding *)

Lemma Int_part_bounds (y : R) : IZR (Int_part y) <= y < IZR (Int_part y) + 1.
Proof. destruct (base_Int_part y); lra. Qed.

(** The rounded integer is within one half of [y]. *)
Lemma round_half_even_err (y : R) : Rabs (IZR (round_half_even y) - y) <= / 2.
Proof.
  unfold round_half_even; pose proof (Int_part_bounds y).
  rewrite ?plus_IZR; rcase; [| |destruct (Z.even _)]; rewrite ?plus_IZR;
    apply Rabs_le; lra.
Qed.

Lemma round_half_even_IZR (z : Z) : round_half_even (IZR z) = z.
Proof.
  unfold round_half_even.
  rewrite <- (Int_part_spec (IZR z) z) by lra.
  rewrite Rminus_diag, Rltb_true by lra; reflexivity.
Qed.

Lemma pow10_pos (n : nat) : 0 < 10 ^ n.
Proof. apply pow_lt; lra. Qed.

(** [round(x, n)] is within half a unit of the [n]-th decimal of [x]. *)
Lemma round_err (x : R) (n : nat) : Rabs (py_round x n - x) <= / 2 * / 10 ^ n.
Proof.
  unfold py_round; pose proof (pow10_pos n) as Hp.
  pose proof (round_half_even_err (x * 10 ^ n)) as He.
  replace (IZR (round_half_even (x * 10 ^ n)) / 10 ^ n - x)
    with ((IZR (round_half_even (x * 10 ^ n)) - x * 10 ^ n) * / 10 ^ n) by (field; lra).
  rewrite Rabs_mult, (Rabs_right (/ 10 ^ n)) by (apply Rle_ge, Rlt_le, Rinv_0_lt_compat, Hp).
  apply Rmult_le_compat_r; [apply Rlt_le, Rinv_0_lt_compat, Hp | exact He].
Qed.

(** A number with [n] decimals is its own rounding. *)
Lemma py_round_decimal (z : Z) (n : nat) : py_round (IZR z / 10 ^ n) n = IZR z / 10 ^ n.
Proof.
  unfold py_round; pose proof (pow10_pos n).
  replace (IZR z / 10 ^ n * 10 ^ n) with (IZR z) by (field; lra).
  rewrite round_half_even_IZR; reflexivity.
Qed.

(** round trip: rounding an already rounded value changes nothing. *)
Lemma py_round_idem (x : R) (n : nat) : py_round (py_round x n) n = py_round x n.
Proof. unfold py_round at 2; apply py_round_decimal. Qed.

(** ** The heading *)

Lemma atan_sign (t : R) : (t <= 0 -> atan t <= 0) /\ (0 < t -> 0 < atan t).
Proof.
  split; intros Ht.
  - destruct (Rle_lt_or_eq_dec _ _ Ht) as [Hl | ->]; [|rewrite atan_0; lra].
    pose proof (atan_increasing t 0 Hl) as Ha; rewrite atan_0 in Ha; lra.
  - pose proof (atan_increasing 0 t Ht) as Ha; rewrite atan_0 in Ha; lra.
Qed.

Lemma atan2_range (y x : R) : - PI < atan2 y x <= PI.
Proof.
  unfold atan2; pose proof PI_RGT_0.
  pose proof (atan_bound (y / x)) as [Hl Hh].
  destruct (atan_sign (y / x)) as [Hn Hp].
  destruct (Rltb_spec 0 x) as [Hx|Hx]; [lra|].
  destruct (Rltb_spec x 0) as [Hx'|Hx']; [|rcase; lra].
  pose proof (Rinv_lt_0_compat x Hx') as Hi.
  destruct (Rleb_spec 0 y) as [Hy|Hy].
  - assert (Hq : y / x <= 0) by (unfold Rdiv; nra); specialize (Hn Hq); lra.
  - assert (Hq : 0 < y / x) by (unfold Rdiv; nra); specialize (Hp Hq); lra.
Qed.

Lemma degrees_range (y x : R) : -180 < degrees (atan2 y x) <= 180.
Proof.
  unfold degrees; pose proof (atan2_range y x) as [Hl Hh]; pose proof PI_RGT_0.
  set (k := 180 / PI).
  assert (Hk : 0 < k) by (apply Rdiv_lt_0_compat; lra).
  assert (E1 : atan2 y x * 180 / PI = atan2 y x * k) by (unfold k; field; lra).
  assert (E2 : PI * k = 180) by (unfold k; field; lra).
  rewrite E1; split; nra.
Qed.

(** Rounding to an integer stays within integer bounds. *)
Lemma round_half_even_bounds (y : R) (m M : Z) :
  IZR m <= y <= IZR M -> (m <= round_half_even y <= M)%Z.
Proof.
  intros [Hm HM]; unfold round_half_even; pose proof (Int_part_bounds y) as [Hf1 Hf2].
  assert (H1 : (m <= Int_part y)%Z).
  { apply Z.lt_succ_r; apply lt_IZR; rewrite succ_IZR; lra. }
  assert (H2 : (Int_part y <= M)%Z) by (apply le_IZR; lra).
  cbv zeta; rcase; [lia| |].
  - assert (Int_part y <> M) by (intros E; subst M; lra); lia.
  - destruct (Z.even _); [lia|].
    assert (Int_part y <> M) by (intros E; subst M; lra); lia.
Qed.

(** The heading sent to the arm lies in [[-180, 180]] degrees. *)
Lemma heading_bounds (y x : R) :
  -180 <= py_round (degrees (atan2 y x)) 2 <= 180.
Proof.
  pose proof (degrees_range y x) as [Hl Hh]; unfold py_round.
  set (z := round_half_even (degrees (atan2 y x) * 10 ^ 2)).
  assert (Hb : (-18000 <= z <= 18000)%Z) by (apply round_half_even_bounds; simpl; lra).
  destruct Hb as [Hb1 Hb2]; apply IZR_le in Hb1; apply IZR_le in Hb2.
  replace (10 ^ 2) with 100 by (simpl; lra); split; lra.
Qed.

(** ** The pocket index *)

Lemma allclose_refl (p : vec) : allclose p p = true.
Proof.
  unfold allclose; rewrite !Rminus_diag, Rabs_R0.
  pose proof (Rabs_pos (vx p)); pose proof (Rabs_pos (vy p)).
  rewrite !Rleb_true by lra; reflexivity.
Qed.

Lemma find_index_found {A : Type} (f : A -> bool) (l : list A) (k : nat) (x : A) :
  In x l -> f x = true -> exists i, find_index f l k = inr i.
Proof.
  revert k; induction l as [|y l IH]; intros k Hin Hx; [destruct Hin|].
  simpl; destruct (f y) eqn:Hy; [eexists; reflexivity|].
  destruct Hin as [-> | Hin]; [congruence | apply IH; assumption].
Qed.

Lemma find_index_nth {A : Type} (f : A -> bool) (l : list A) (d : A) (k i : nat) :
  (i < length l)%nat -> (forall j, (j < length l)%nat -> f (nth j l d) = Nat.eqb j i) ->
  find_index f l k = inr (k + i)%nat.
Proof.
  revert k i; induction l as [|y l IH]; intros k i Hi Hf; simpl in Hi; [lia|].
  simpl; pose proof (Hf 0%nat ltac:(simpl; lia)) as H0; simpl in H0; rewrite H0.
  destruct i as [|i]; [rewrite Nat.add_0_r; reflexivity|].
  replace (k + S i)%nat with (S k + i)%nat by lia.
  apply IH; [lia|]; intros j Hj; apply (Hf (S j)); simpl; lia.
Qed.

Ltac rabs :=
  unfold Rabs; repeat match goal with |- context [Rcase_abs ?a] => destruct (Rcase_abs a) end.

(** The six pockets are pairwise apart beyond the tolerance of
    [np.allclose]: the lookup finds each pocket at its own index. *)
Lemma pockets_apart (i j : nat) :
  (i < 6)%nat -> (j < 6)%nat ->
  allclose (nth j POCKETS (Vec 0 0)) (nth i POCKETS (Vec 0 0)) = Nat.eqb j i.
Proof.
  intros Hi Hj; unfold POCKETS, TABLE, allclose; simpl fst; simpl snd.
  do 6 (destruct i as [|i]; [do 6 (destruct j as [|j]; [simpl; rabs; rcase; simpl; lra || reflexivity|]); lia|]).
  lia.
Qed.

(** The pocket of a plan is found at its own index. *)
Lemma pocket_lookup (pk : vec) :
  In pk POCKETS ->
  exists i, (i < 6)%nat /\ nth i POCKETS (Vec 0 0) = pk /\
            find_index (fun q => allclose q pk) POCKETS 0 = inr i.
Proof.
  intros Hin; destruct (In_nth POCKETS pk (Vec 0 0) Hin) as (i & Hi & Hn).
  exists i; split; [exact Hi | split; [exact Hn|]].
  rewrite <- Hn; apply (find_index_nth _ _ (Vec 0 0) 0 i Hi).
  intros j Hj; apply pockets_apart; assumption.
Qed.

Lemma solve_pocket_in (cue tgt : vec) (blockers : list vec) (p : plan) :
  solve _solver cue tgt blockers = Some p -> In (plan_pocket p) POCKETS.
Proof. intros Hs; apply (solve_plan_ok _ _ _ _ _ Hs). Qed.

(** The [next] over the pockets finds the pocket of every plan. *)
Lemma compute_shot_returns (cue tgt : vec) (blockers : list vec) :
  exists r, compute_shot cue tgt blockers = inr r.
Proof.
  unfold compute_shot; destruct (solve _solver cue tgt blockers) as [p|] eqn:Hs;
    [|eexists; reflexivity].
  destruct (pocket_lookup _ (solve_pocket_in _ _ _ _ Hs)) as (i & _ & _ & Hf).
  cbv zeta; rewrite Hf; eexists; reflexivity.
Qed.

(** The heading of any shot [compute_shot] returns is in [[-180, 180]]. *)
Lemma compute_shot_angle_bounds (cue tgt : vec) (blockers : list vec) (r : shot) :
  compute_shot cue tgt blockers = inr (Some r) -> -180 <= angle_deg r <= 180.
Proof.
  unfold compute_shot; intros H; destruct (solve _solver cue tgt blockers) as [p|];
    [|discriminate].
  destruct (find_index (fun pk => allclose pk (plan_pocket p)) POCKETS 0); cbn in H;
    [discriminate|].
  injection H as <-; apply heading_bounds.
Qed.

(** C24: [compute_shot] never raises: the [next] over the pockets always
    finds the pocket of the plan. *)
Theorem compute_shot_total (cue tgt : vec) (blockers : list vec) :
  exists r, compute_shot cue tgt blockers = inr r.
Proof.
  exact (compute_shot_returns cue tgt blockers).
Qed.

(** what a result of [compute_shot] says: the solver found a plan, the
    pocket index names the plan's pocket, the emitted ghost point is the
    plan's within the rounding to four decimals, the heading is in
    [[-180, 180]], and a mirror point is emitted exactly for a bank shot. *)
Theorem compute_shot_some (cue tgt : vec) (blockers : list vec) (r : shot) :
  compute_shot cue tgt blockers = inr (Some r) ->
  exists p, solve _solver cue tgt blockers = Some p /\
    nth (pocket_id r) POCKETS (Vec 0 0) = plan_pocket p /\
    Rabs (fst (ghost_xy r) - vx (plan_ghost p)) <= 5e-5 /\
    Rabs (snd (ghost_xy r) - vy (plan_ghost p)) <= 5e-5 /\
    -180 <= angle_deg r <= 180 /\
    (rail_xy r = None <-> stype r = TDirect).
Proof.
  unfold compute_shot; destruct (solve _solver cue tgt blockers) as [p|] eqn:Hs;
    [|discriminate].
  destruct (pocket_lookup _ (solve_pocket_in _ _ _ _ Hs)) as (i & _ & Hn & Hf).
  cbv zeta; rewrite Hf; simpl; intros [= <-]; exists p; simpl.
  pose proof (round_err (vx (plan_ghost p)) 4) as Ex.
  pose proof (round_err (vy (plan_ghost p)) 4) as Ey.
  replace (/ 2 * / 10 ^ 4) with 5e-5 in Ex, Ey by (simpl; lra).
  split; [reflexivity | split; [exact Hn | split; [exact Ex | split; [exact Ey |]]]].
  split; [apply heading_bounds|].
  destruct p; simpl; split; congruence.
Qed.

(** [compute_shot] returns [None] exactly when the solver finds no
    plan, and never raises on the way. *)
Theorem compute_shot_none (cue tgt : vec) (blockers : list vec) :
  compute_shot cue tgt blockers = inr None <-> solve _solver cue tgt blockers = None.
Proof.
  unfold compute_shot; destruct (solve _solver cue tgt blockers) as [p|] eqn:Hs;
    [|split; reflexivity].
  destruct (pocket_lookup _ (solve_pocket_in _ _ _ _ Hs)) as (i & _ & _ & Hf).
  cbv zeta; rewrite Hf; simpl; split; discriminate.
Qed.

(** ** An end-to-end run on the table of the module *)

(** The cue ball straight behind the target, in line with the pocket in
    the middle of the rail [y = 0]. *)
Local Abbreviation cue0 := (Vec 0.3675 0.3).
Local Abbreviation tgt0 := (Vec 0.3675 0.1).
Local Abbreviation P1 := (Vec (fst TABLE / 2) 0).
Local Abbreviation G0 := (Vec 0.3675 0.125).

Lemma scenario_pocket_first :
  exists rest, pocket_order _solver cue0 tgt0 = P1 :: rest.
Proof.
  apply (sort_head_min _ vec_eq_dec); [simpl; tauto|].
  assert (HE : EPS * EPS < 0.001) by (unfold EPS; lra).
  assert (Hu : norm (tgt0 -v cue0) = 0.2)
    by (apply norm_eq; [lra | unfold norm2, dot, vsub; simpl; lra]).
  assert (H0 : angle (tgt0 -v cue0) (P1 -v tgt0) = 0).
  { apply angle_zero; [rewrite Hu; unfold EPS; lra | |].
    - apply norm_ge_of_sq; [unfold EPS; lra | unfold norm2, dot, vsub, TABLE; simpl; lra].
    - rewrite Hu, (norm_eq _ 0.1); [unfold dot, vsub, TABLE; simpl; lra | lra |].
      unfold norm2, dot, vsub, TABLE; simpl; lra. }
  intros y Hy Hne; unfold pocket_key; change (@key_ltb _ tuple_order) with tuple_ltb.
  rewrite H0.
  assert (Hp : 0 < angle (tgt0 -v cue0) (y -v tgt0)).
  { apply angle_pos; [rewrite Hu; unfold EPS; lra | |].
    - apply norm_ge_of_sq; [unfold EPS; lra|].
      unfold POCKETS, TABLE in Hy; simpl in Hy.
      destruct Hy as [<- | [<- | [<- | [<- | [<- | [<- | []]]]]]];
        unfold norm2, dot, vsub; simpl; lra.
    - assert (Hw : 0.1 < norm (y -v tgt0)).
      { apply norm_gt_of_sq; [lra|].
        unfold POCKETS, TABLE in Hy; simpl in Hy.
        destruct Hy as [<- | [<- | [<- | [<- | [<- | [<- | []]]]]]];
          unfold norm2, dot, vsub; simpl; try lra.
        exfalso; apply Hne; reflexivity. }
      rewrite Hu; set (nw := norm (y -v tgt0)) in *; clearbody nw.
      unfold POCKETS, TABLE in Hy; simpl in Hy.
      destruct Hy as [<- | [<- | [<- | [<- | [<- | [<- | []]]]]]];
        unfold dot, vsub; simpl; lra. }
  unfold tuple_ltb; rcase; lra || reflexivity.
Qed.

Lemma scenario_ghost : ghost tgt0 P1 = Some G0.
Proof.
  unfold ghost; cbv zeta.
  rewrite (norm_eq _ 0.1) by (lra || (unfold norm2, dot, vsub, TABLE; simpl; lra)).
  destruct (Reqb_spec 0.1 0) as [E|_]; [lra|].
  f_equal; apply vec_eq; unfold vadd, vscale, vdiv, vsub, TABLE, BALL_R; simpl; lra.
Qed.

Lemma scenario_direct_ok : direct_ok _solver cue0 tgt0 [] P1 G0.
Proof.
  assert (HE : EPS < 0.01) by (unfold EPS; lra).
  assert (HE2 : EPS * EPS < 0.001) by (unfold EPS; lra).
  pose proof EPS_pos as HE0.
  split; [exact scenario_ghost | split; [|split]].
  - unfold inside, _solver, TABLE, BALL_R; simpl; rcase; lra || reflexivity.
  - apply free_table_clear.
    + intros b [<- | [<- | []]]; reflexivity.
    + apply norm_ge_of_sq; [lra | unfold norm2, dot, vsub; simpl; lra].
    + unfold on_table_tol, BALL_R; simpl; lra.
    + unfold on_table_tol, BALL_R; simpl; lra.
  - apply path_clear_iff; split; [|split; [|discriminate]].
    + apply norm_ge_of_sq; [lra | unfold norm2, dot, vsub, TABLE; simpl; lra].
    + intros b [<- | [<- | []]]; [|discriminate]; intros _.
      apply corridor_free_of_sq; intros t Ht.
      unfold seg, norm2, dot, vsub, vadd, vscale, TABLE, CLEARANCE, BALL_R; simpl; nra.
Qed.

Lemma scenario_solve : solve _solver cue0 tgt0 [] = Some (Direct P1 G0).
Proof.
  unfold solve; cbv zeta; destruct scenario_pocket_first as [rest ->].
  cbn [first_some]; unfold try_pocket; rewrite scenario_ghost.
  destruct scenario_direct_ok as (_ & Hi & Hc & Ht).
  fold (balls_of cue0 tgt0 []); rewrite Hi, Hc, Ht; reflexivity.
Qed.

Lemma scenario_heading : py_round (degrees (atan2 (0.125 - 0.3) (0.3675 - 0.3675))) 2 = -90.
Proof.
  assert (Ha : atan2 (0.125 - 0.3) (0.3675 - 0.3675) = - (PI / 2))
    by (unfold atan2; rcase; lra || reflexivity).
  rewrite Ha; unfold degrees; pose proof PI_RGT_0.
  replace (- (PI / 2) * 180 / PI) with (IZR (-9000) / 10 ^ 2) by (simpl; field; lra).
  rewrite py_round_decimal; simpl; lra.
Qed.

Lemma scenario_compute_shot :
  compute_shot cue0 tgt0 [] = inr (Some (Shot TDirect 1 (0.3675, 0.125) (-90) None)).
Proof.
  unfold compute_shot; rewrite scenario_solve; cbv zeta.
  assert (Hf : find_index (fun pk => allclose pk P1) POCKETS 0 = inr 1%nat).
  { apply (find_index_nth _ _ (Vec 0 0) 0 1); [simpl; lia|].
    intros j Hj; apply (pockets_apart 1 j); [lia | exact Hj]. }
  cbn [plan_pocket]; rewrite Hf; cbn [bind ret].
  unfold aim, plan_ghost, round_pt; cbn [vx vy vsub].
  rewrite scenario_heading.
  replace 0.3675 with (IZR 3675 / 10 ^ 4) by (simpl; lra).
  replace 0.125 with (IZR 1250 / 10 ^ 4) by (simpl; lra).
  rewrite !py_round_decimal; reflexivity.
Qed.

(** ** Properties of the adapter *)

(** the spec's first scenario run on the module's table: cue ball at
    (0.3675, 0.3), target at (0.3675, 0.1), no blocker.  [compute_shot]
    returns a direct shot into pocket 1 (the middle of the rail [y = 0]),
    ghost point (0.3675, 0.125) and heading -90 degrees. *)
Theorem compute_shot_scenario_direct :
  compute_shot cue0 tgt0 [] = inr (Some (Shot TDirect 1 (0.3675, 0.125) (-90) None)).
Proof. exact scenario_compute_shot. Qed.

Lemma compute_shot_some_witness :
  compute_shot cue0 tgt0 [] = inr (Some (Shot TDirect 1 (0.3675, 0.125) (-90) None)) /\
  exists p, solve _solver cue0 tgt0 [] = Some p /\
    nth 1 POCKETS (Vec 0 0) = plan_pocket p /\
    Rabs (0.3675 - vx (plan_ghost p)) <= 5e-5 /\
    Rabs (0.125 - vy (plan_ghost p)) <= 5e-5 /\
    -180 <= -90 <= 180 /\ (@None (R * R) = None <-> TDirect = TDirect).
Proof.
  split; [exact scenario_compute_shot|].
  exact (compute_shot_some cue0 tgt0 [] _ scenario_compute_shot).
Defined.

(** the heading [round(degrees(atan2(y, x)), 2)] lies in [[-180, 180]]. *)
Theorem py_round_heading (y x : R) :
  -180 <= py_round (degrees (atan2 y x)) 2 <= 180.
Proof. apply heading_bounds. Qed.

(** [round(x, n)] is within half a unit of the [n]-th decimal of [x]. *)
Theorem py_round_err (x : R) (n : nat) : Rabs (py_round x n - x) <= / 2 * / 10 ^ n.
Proof. apply round_err. Qed.

(** the six pockets of [POCKETS] are pairwise apart beyond the
    tolerance of [np.allclose], so the [next] of line 34 maps each pocket to
    its own index. *)
Theorem pockets_allclose (i j : nat) :
  (i < 6)%nat -> (j < 6)%nat ->
  allclose (nth j POCKETS (Vec 0 0)) (nth i POCKETS (Vec 0 0)) = Nat.eqb j i.
Proof. apply pockets_apart. Qed.

Lemma pockets_allclose_witness :
  (1 < 6)%nat /\ (4 < 6)%nat /\
  allclose (nth 4 POCKETS (Vec 0 0)) (nth 1 POCKETS (Vec 0 0)) = false.
Proof. split; [lia | split; [lia | apply (pockets_allclose 1 4); lia]]. Defined.

(** ** Witnesses of the solver's properties on the module's table *)

Lemma solve_direct_safe_witness :
  solve _solver cue0 tgt0 [] = Some (Direct P1 G0) /\
  In P1 (pockets _solver) /\ inside _solver G0 = true /\ dist G0 tgt0 = 2 * BALL_R /\
  (forall t, 0 <= t <= 1 -> on_table_tol (W _solver) (H _solver) (seg cue0 G0 t)) /\
  corridor_free tgt0 P1 cue0 /\
  (forall p, In p [] -> corridor_free cue0 G0 p /\ corridor_free tgt0 P1 p).
Proof. split; [exact scenario_solve | apply solve_direct_safe, scenario_solve]. Defined.
