(* ===== verification/Json.v ===== *)
(** * Python values read from JSON

    [run_shot.plan_shot_from_json] works on what [json.load] returns: dicts,
    lists, strings, numbers, booleans and [None].  This file models those
    values ([jval]) and the Python operations the driver applies to them:
    subscription [d[k]] (with [KeyError] and [TypeError]), the comparisons
    [>=] and [>] between numbers (a [bool] counts as [0]/[1], anything else
    raises [TypeError]), equality [==] (numeric across [int]/[float]/[bool],
    dicts compared as mappings), iteration, [int(s)] on a string and [str(n)]
    on an integer, [str.lower], and the builtins [next], [max] and [min]
    with a [key] over a generator with a filter, each with its first-match
    and first-extremum behaviour and its exceptions.  A JSON number is a
    real number (the model of a Python float); a dict is the list of its
    items in insertion order, keys pairwise distinct as [json.load] builds
    it. *)

From Stdlib Require Import Reals Lra List Bool String Ascii ZArith NArith Lia.
From S2P Require Import Prelude.
Import ListNotations.
Open Scope R_scope.
#[local] Set Warnings "-register-all".

Inductive jval :=
| JNull
| JBool (b : bool)
| JNum (r : R)
| JStr (s : string)
| JArr (l : list jval)
| JObj (kv : list (string * jval)).

(** The value bound to [k] in the items of a dict. *)
Fixpoint assoc (k : string) (kv : list (string * jval)) : option jval :=
  match kv with
  | [] => None
  | (k', v) :: r => if String.eqb k k' then Some v else assoc k r
  end.

(** [d[k]] for a string key: only a dict supports it. *)
Definition getitem (d : jval) (k : string) : py jval :=
  match d with
  | JObj kv => match assoc k kv with Some v => ret v | None => raise (KeyError k) end
  | _ => raise TypeError
  end.

(** The numeric value of an [int], [float] or [bool]. *)
Definition num_of (v : jval) : option R :=
  match v with
  | JNum r => Some r
  | JBool b => Some (if b then 1 else 0)
  | _ => None
  end.

(** [v >= c] for a float constant [c]. *)
Definition py_ge_num (v : jval) (c : R) : py bool :=
  match num_of v with
  | Some r => ret (c <=? r)%geo
  | None => raise TypeError
  end.

(** [a > b] between two values: numbers numerically, strings by code
    points; any other pair raises [TypeError]. *)
Definition py_gt (a b : jval) : py bool :=
  match a, b with
  | JStr s, JStr t => ret (String.ltb t s)
  | _, _ =>
      match num_of a, num_of b with
      | Some x, Some y => ret (y <? x)%geo
      | _, _ => raise TypeError
      end
  end.

(** [a == b]: numbers compare numerically across [int], [float] and
    [bool]; lists elementwise; dicts as mappings (same number of keys,
    every key of [a] bound in [b] to an equal value); values of different
    kinds are unequal.  [==] never raises on these values. *)
Fixpoint py_eqb (a b : jval) {struct a} : bool :=
  match a, b with
  | JNull, JNull => true
  | (JBool _ | JNum _), (JBool _ | JNum _) =>
      match num_of a, num_of b with Some x, Some y => Reqb x y | _, _ => false end
  | JStr s, JStr t => String.eqb s t
  | JArr l, JArr m =>
      (fix go (l m : list jval) : bool :=
         match l, m with
         | [], [] => true
         | x :: l', y :: m' => py_eqb x y && go l' m'
         | _, _ => false
         end) l m
  | JObj ka, JObj kb =>
      Nat.eqb (List.length ka) (List.length kb) &&
      (fix go (ka : list (string * jval)) : bool :=
         match ka with
         | [] => true
         | (k, v) :: r =>
             match assoc k kb with Some w => py_eqb v w && go r | None => false end
         end) ka
  | _, _ => false
  end.

(** [for x in v]: a list gives its elements, a dict its keys, a string its
    characters; other values are not iterable. *)
Definition py_iter (v : jval) : py (list jval) :=
  match v with
  | JArr l => ret l
  | JObj kv => ret (map (fun '(k, _) => JStr k) kv)
  | JStr s => ret (map (fun c => JStr (String c EmptyString)) (list_ascii_of_string s))
  | _ => raise TypeError
  end.

(** [[x for x in l if p(x)]]. *)
Fixpoint py_filter {A : Type} (p : A -> py bool) (l : list A) : py (list A) :=
  match l with
  | [] => ret []
  | x :: r =>
      (b <- p x ;; r' <- py_filter p r ;; ret (if b then x :: r' else r'))%py
  end.

(** [next(x for x in l if p(x), d)]: the first element passing [p], or
    [d] when there is none ([None] below: [next] without default raises
    [StopIteration]). *)
Fixpoint py_next {A : Type} (p : A -> py bool) (l : list A) : py (option A) :=
  match l with
  | [] => ret None
  | x :: r => (b <- p x ;; if b then ret (Some x) else py_next p r)%py
  end.

Definition py_next_raise {A : Type} (p : A -> py bool) (l : list A) : py A :=
  (o <- py_next p l ;;
   match o with Some x => ret x | None => raise StopIteration end)%py.

(** [max((x for x in l if p(x)), key=key)] and its [min] twin: the
    generator is consumed element by element, the key of each element
    that passes the filter is computed when it is produced, and the
    current best is replaced only when [better] (Python's [>] for [max],
    [<] for [min]) holds of the new key against the best key, so the first
    of several extremal elements wins.  An empty generator raises
    [ValueError]. *)
Fixpoint py_best_loop {A K : Type} (better : K -> K -> py bool) (p : A -> py bool)
    (key : A -> py K) (best : option (A * K)) (l : list A) : py (option (A * K)) :=
  match l with
  | [] => ret best
  | x :: r =>
      (b <- p x ;;
       if b then
         (k <- key x ;;
          match best with
          | None => py_best_loop better p key (Some (x, k)) r
          | Some (y, ky) =>
              (c <- better k ky ;;
               py_best_loop better p key (if c then Some (x, k) else Some (y, ky)) r)
          end)
       else py_best_loop better p key best r)%py
  end.

Definition py_best {A K : Type} (better : K -> K -> py bool) (p : A -> py bool)
    (key : A -> py K) (l : list A) : py A :=
  (o <- py_best_loop better p key None l ;;
   match o with Some (x, _) => ret x | None => raise ValueError end)%py.

(** ** [int(s)] and [str(n)] *)

Definition is_digit (c : ascii) : bool :=
  let n := nat_of_ascii c in (48 <=? n)%nat && (n <=? 57)%nat.

Definition digit_val (c : ascii) : N := N.of_nat (nat_of_ascii c - 48).

(** The white space [int()] skips around a literal (the ASCII characters
    for which Python's [str.isspace] holds: tab to carriage return, the
    separators [\x1c]-[\x1f] and the space). *)
Definition is_space (c : ascii) : bool :=
  let n := nat_of_ascii c in
  (n =? 32)%nat || ((9 <=? n)%nat && (n <=? 13)%nat) || ((28 <=? n)%nat && (n <=? 31)%nat).

Fixpoint lstrip (l : list ascii) : list ascii :=
  match l with
  | c :: r => if is_space c then lstrip r else l
  | [] => []
  end.

Definition strip (l : list ascii) : list ascii := rev (lstrip (rev (lstrip l))).

(** The digits of an integer literal, with single underscores allowed
    between digits; [prev] says that the previous character was a digit. *)
Fixpoint parse_digits (acc : N) (prev : bool) (l : list ascii) : option N :=
  match l with
  | [] => if prev then Some acc else None
  | c :: r =>
      if is_digit c then parse_digits (acc * 10 + digit_val c)%N true r
      else if (Ascii.eqb c "_" && prev)%bool then parse_digits acc false r
      else None
  end.

(** [int(s)] for a string [s]: surrounding white space, an optional sign,
    then decimal digits; anything else raises [ValueError]. *)
Definition py_int_of_string (s : string) : py Z :=
  let l := strip (list_ascii_of_string s) in
  let r := match l with
           | c :: d =>
               if Ascii.eqb c "-" then option_map (fun n => Z.opp (Z.of_N n)) (parse_digits 0 false d)
               else if Ascii.eqb c "+" then option_map Z.of_N (parse_digits 0 false d)
               else option_map Z.of_N (parse_digits 0 false l)
           | [] => None
           end in
  match r with Some z => ret z | None => raise ValueError end.

Definition ascii_digit (d : N) : ascii := ascii_of_nat (48 + N.to_nat d).

(** The decimal digits of [n], least significant first; [fuel] bounds the
    number of digits. *)
Fixpoint digits_rev (fuel : nat) (n : N) : list ascii :=
  match fuel with
  | O => []
  | S f => ascii_digit (n mod 10) :: (if (n <? 10)%N then [] else digits_rev f (n / 10))
  end.

Definition N_digits (n : N) : list ascii := rev (digits_rev (S (N.size_nat n)) n).

(** [str(z)] for an integer. *)
Definition py_str_Z (z : Z) : string :=
  string_of_list_ascii
    (if (z <? 0)%Z then "-"%char :: N_digits (Z.abs_N z) else N_digits (Z.to_N z)).

(** [str.lower] on ASCII text. *)
Definition lower_ascii (c : ascii) : ascii :=
  let n := nat_of_ascii c in
  if (65 <=? n)%nat && (n <=? 90)%nat then ascii_of_nat (n + 32) else c.

Definition py_lower (s : string) : string :=
  string_of_list_ascii (map lower_ascii (list_ascii_of_string s)).

(** [int(x)] of a float: truncation toward zero. *)
Definition py_trunc (r : R) : Z := if Rle_dec 0 r then Int_part r else Z.opp (Int_part (- r)).

(** [int(v)] of a JSON value: a string is parsed, a float truncated
    toward zero, a [bool] is [0] or [1]; anything else raises [TypeError]. *)
Definition py_int (v : jval) : py Z :=
  match v with
  | JStr s => py_int_of_string s
  | JNum r => ret (py_trunc r)
  | JBool b => ret (if b then 1%Z else 0%Z)
  | _ => raise TypeError
  end.

(** ** Lemmas *)

(** [int()] is monotone at the bounds: below a non-negative [n], above a
    non-positive [n]. *)
Lemma trunc_le (x : R) (n : Z) : (0 <= n)%Z -> x <= IZR n -> (py_trunc x <= n)%Z.
Proof.
  intros Hn Hx; unfold py_trunc; destruct (Rle_dec 0 x) as [H0|H0].
  - destruct (base_Int_part x) as [H1 _]; apply le_IZR; lra.
  - destruct (base_Int_part (- x)) as [_ H2].
    assert (0 <= Int_part (- x))%Z by (apply Z.lt_succ_r, lt_IZR; rewrite succ_IZR; lra); lia.
Qed.

Lemma trunc_ge_neg (x : R) (n : Z) : (n <= 0)%Z -> IZR n <= x -> (n <= py_trunc x)%Z.
Proof.
  intros Hn Hx; unfold py_trunc; destruct (Rle_dec 0 x) as [H0|H0].
  - destruct (base_Int_part x) as [_ H2].
    assert (0 <= Int_part x)%Z by (apply Z.lt_succ_r, lt_IZR; rewrite succ_IZR; lra); lia.
  - destruct (base_Int_part (- x)) as [H1 _].
    assert (Int_part (- x) <= - n)%Z by (apply le_IZR; rewrite opp_IZR; lra); lia.
Qed.


(** [int(str(n))] *)

Lemma ascii_digit_nat (d : N) : (d < 10)%N -> nat_of_ascii (ascii_digit d) = (48 + N.to_nat d)%nat.
Proof.
  intros Hd; unfold ascii_digit; apply nat_ascii_embedding.
  assert (N.to_nat d < 10)%nat by lia.
  lia.
Qed.

Lemma ascii_digit_is_digit (d : N) : (d < 10)%N -> is_digit (ascii_digit d) = true.
Proof.
  intros Hd; unfold is_digit; rewrite ascii_digit_nat by exact Hd.
  assert (N.to_nat d < 10)%nat by lia.
  apply andb_true_intro; split; apply Nat.leb_le; lia.
Qed.

Lemma digit_val_ascii_digit (d : N) : (d < 10)%N -> digit_val (ascii_digit d) = d.
Proof.
  intros Hd; unfold digit_val; rewrite ascii_digit_nat by exact Hd.
  replace (48 + N.to_nat d - 48)%nat with (N.to_nat d) by lia; apply N2Nat.id.
Qed.

Definition digit_step (acc : N) (c : ascii) : N := (acc * 10 + digit_val c)%N.

Lemma parse_digits_all (l : list ascii) (acc : N) (prev : bool) :
  Forall (fun c => is_digit c = true) l -> l <> [] ->
  parse_digits acc prev l = Some (fold_left digit_step l acc).
Proof.
  revert acc prev; induction l as [|c l IH]; intros acc prev Hd Hne; [congruence|].
  inversion Hd as [|? ? Hc Hl]; subst; cbn [parse_digits fold_left]; rewrite Hc.
  destruct l as [|c' l']; [reflexivity|]; apply IH; [exact Hl|discriminate].
Qed.

Lemma digits_rev_digits (f : nat) (n : N) :
  Forall (fun c => is_digit c = true) (digits_rev f n).
Proof.
  revert n; induction f as [|f IH]; intros n; cbn [digits_rev]; [constructor|].
  constructor; [apply ascii_digit_is_digit, N.mod_lt; discriminate|].
  destruct (n <? 10)%N; [constructor | apply IH].
Qed.

Lemma digits_rev_value (f : nat) (n : N) :
  (n < 10 ^ N.of_nat f)%N -> fold_left digit_step (rev (digits_rev f n)) 0%N = n.
Proof.
  revert n; induction f as [|f IH]; intros n Hn.
  - cbn in Hn |- *; lia.
  - cbn [digits_rev]; assert (Hm : (n mod 10 < 10)%N) by (apply N.mod_lt; discriminate).
    destruct (N.ltb_spec n 10) as [Hlt|Hge].
    + cbn [rev app fold_left]; unfold digit_step; rewrite digit_val_ascii_digit by exact Hm.
      rewrite N.mod_small by exact Hlt; lia.
    + assert (Hq : (n / 10 < 10 ^ N.of_nat f)%N).
      { apply N.Div0.div_lt_upper_bound.
        rewrite Nat2N.inj_succ, N.pow_succ_r' in Hn; exact Hn. }
      cbn [rev]; rewrite fold_left_app; cbn [fold_left]; unfold digit_step at 1.
      rewrite IH by exact Hq; rewrite digit_val_ascii_digit by exact Hm.
      symmetry; rewrite (N.div_mod n 10) at 1 by discriminate; lia.
Qed.

Lemma pos_size_bound (p : positive) : (N.pos p < 10 ^ N.of_nat (S (Pos.size_nat p)))%N.
Proof.
  induction p as [p IH|p IH|]; [| |cbn; lia];
    cbn [Pos.size_nat]; rewrite (Nat2N.inj_succ (S _)), N.pow_succ_r';
    lia.
Qed.

Lemma N_size_bound (n : N) : (n < 10 ^ N.of_nat (S (N.size_nat n)))%N.
Proof. destruct n as [|p]; [cbn; lia | apply pos_size_bound]. Qed.

Lemma N_digits_shape (n : N) :
  N_digits n <> [] /\ Forall (fun c => is_digit c = true) (N_digits n).
Proof.
  unfold N_digits; split.
  - cbn [digits_rev rev]; intros H; apply app_eq_nil in H; destruct H as [_ H]; discriminate.
  - apply Forall_rev, digits_rev_digits.
Qed.

Lemma parse_N_digits (n : N) : parse_digits 0 false (N_digits n) = Some n.
Proof.
  destruct (N_digits_shape n) as [Hne Hd]; rewrite parse_digits_all by assumption.
  unfold N_digits; rewrite digits_rev_value; [reflexivity | apply N_size_bound].
Qed.

Lemma digit_not_space (c : ascii) : is_digit c = true -> is_space c = false.
Proof.
  unfold is_digit, is_space; intros H; apply andb_prop in H; destruct H as [H1 H2].
  apply Nat.leb_le in H1, H2.
  destruct (Nat.eqb_spec (nat_of_ascii c) 32), (Nat.leb_spec 9 (nat_of_ascii c)),
    (Nat.leb_spec (nat_of_ascii c) 13), (Nat.leb_spec 28 (nat_of_ascii c)),
    (Nat.leb_spec (nat_of_ascii c) 31); cbn; lia.
Qed.

Lemma digit_not_sign (c : ascii) :
  is_digit c = true -> Ascii.eqb c "-" = false /\ Ascii.eqb c "+" = false.
Proof.
  intros H; split; destruct (Ascii.eqb_spec c "-"), (Ascii.eqb_spec c "+");
    subst; try reflexivity; discriminate.
Qed.

Lemma lstrip_nospace (l : list ascii) :
  Forall (fun c => is_space c = false) l -> lstrip l = l.
Proof. destruct l as [|c l]; intros H; [reflexivity|]; inversion H; subst; cbn; now rewrite H2. Qed.

Lemma strip_nospace (l : list ascii) :
  Forall (fun c => is_space c = false) l -> strip l = l.
Proof.
  intros H; unfold strip; rewrite (lstrip_nospace l H), lstrip_nospace;
    [apply rev_involutive | apply Forall_rev, H].
Qed.

Lemma N_digits_nospace (n : N) : Forall (fun c => is_space c = false) (N_digits n).
Proof.
  destruct (N_digits_shape n) as [_ Hd]; eapply Forall_impl; [|exact Hd].
  intros c; apply digit_not_space.
Qed.

(** Python's [max] and [min] with a key and a filter *)

(** [x] is the first element of [l] with an extremal key: every element
    before it is beaten by it, none after it beats it. *)
Definition first_best {A K : Type} (better : K -> K -> bool) (key : A -> K)
    (l : list A) (x : A) : Prop :=
  exists pre post, l = pre ++ x :: post /\
    Forall (fun y => better (key x) (key y) = true) pre /\
    Forall (fun y => better (key y) (key x) = false) post.

Section Best.
(** The pure shadow of a run of [py_best] over the list [l0]: on [l0] the
    filter, the key and the comparison do not raise, and the comparison
    is a strict weak order on the keys met. *)
Context {A K : Type} (better : K -> K -> bool) (pb : A -> bool) (key : A -> K).
Context (bt : K -> K -> py bool) (p : A -> py bool) (k : A -> py K) (l0 : list A).
Hypothesis p_pure : forall x, In x l0 -> p x = ret (pb x).
Hypothesis k_pure : forall x, In x l0 -> pb x = true -> k x = ret (key x).
Hypothesis bt_pure : forall x y, In x l0 -> In y l0 -> pb x = true -> pb y = true ->
  bt (key x) (key y) = ret (better (key x) (key y)).
Hypothesis better_asym : forall x y, In x l0 -> In y l0 ->
  better (key x) (key y) = true -> better (key y) (key x) = false.
Hypothesis better_weak : forall x y z, In x l0 -> In y l0 -> In z l0 ->
  better (key x) (key y) = true -> better (key z) (key y) = false ->
  better (key x) (key z) = true.

Definition best_step (best : option (A * K)) (x : A) : option (A * K) :=
  match best with
  | None => Some (x, key x)
  | Some (y, ky) => if better (key x) ky then Some (x, key x) else Some (y, ky)
  end.

Lemma py_best_loop_pure (best : option (A * K)) (l : list A) :
  incl l l0 ->
  (forall y ky, best = Some (y, ky) -> In y l0 /\ pb y = true /\ ky = key y) ->
  py_best_loop bt p k best l = ret (fold_left best_step (filter pb l) best).
Proof.
  revert best; induction l as [|x l IH]; intros best Hl Hb; [reflexivity|].
  assert (Hx : In x l0) by (apply Hl; left; reflexivity).
  assert (Hl' : incl l l0) by (intros y Hy; apply Hl; right; exact Hy).
  cbn; rewrite (p_pure x Hx); cbn; destruct (pb x) eqn:Hpx; cbn; [|apply IH; assumption].
  rewrite (k_pure x Hx Hpx); cbn; destruct best as [[y ky]|]; cbn.
  - destruct (Hb y ky eq_refl) as [Hy [Hpy ->]].
    rewrite (bt_pure x y Hx Hy Hpx Hpy); cbn.
    apply IH; [exact Hl'|]; intros w kw Hw; destruct (better (key x) (key y));
      injection Hw as <- <-; auto.
  - apply IH; [exact Hl'|]; intros w kw Hw; injection Hw as <- <-; auto.
Qed.

Lemma fold_best_Some (l : list A) (q : A * K) :
  fold_left best_step l (Some q) <> None.
Proof.
  revert q; induction l as [|x l IH]; intros [y ky]; cbn; [discriminate|].
  destruct (better (key x) ky); apply IH.
Qed.

Lemma best_step_spec (l : list A) (x : A) (kx : K) :
  incl l l0 -> fold_left best_step l None = Some (x, kx) ->
  kx = key x /\ first_best better key l x.
Proof.
  revert x kx; induction l as [|z l IH] using rev_ind; intros x kx Hl H; [discriminate|].
  assert (Hl' : incl l l0) by (intros y Hy; apply Hl, in_or_app; left; exact Hy).
  assert (Hz : In z l0) by (apply Hl, in_or_app; right; left; reflexivity).
  rewrite fold_left_app in H; cbn in H.
  destruct (fold_left best_step l None) as [[y ky]|] eqn:E.
  - destruct (IH y ky Hl' eq_refl) as [-> [pre [post [Hl0 [Hpre Hpost]]]]]; cbn in H.
    assert (Hy : In y l0) by (apply Hl'; rewrite Hl0; apply in_or_app; right; left; reflexivity).
    assert (Hin : forall w, In w pre \/ In w post -> In w l0)
      by (intros w [Hw|Hw]; apply Hl'; rewrite Hl0; apply in_or_app; [left|right; right]; exact Hw).
    destruct (better (key z) (key y)) eqn:Hb; injection H as <- <-; split; try reflexivity.
    + exists l, []; split; [reflexivity| split; [|constructor]].
      rewrite Hl0; apply Forall_app; split; [|constructor; [exact Hb|]].
      * apply Forall_forall; intros w Hw; apply (better_weak z y w); auto.
        apply better_asym; auto; exact (proj1 (Forall_forall _ _) Hpre w Hw).
      * apply Forall_forall; intros w Hw.
        apply (better_weak z y w); auto; exact (proj1 (Forall_forall _ _) Hpost w Hw).
    + exists pre, (post ++ [z]); rewrite Hl0; split; [rewrite <- app_assoc; reflexivity|].
      split; [exact Hpre | apply Forall_app; split; [exact Hpost | constructor; [exact Hb | constructor]]].
  - destruct l as [|w l]; [|exfalso; cbn in E; exact (fold_best_Some _ _ E)].
    injection H as <- <-; split; [reflexivity|]; exists [], []; repeat constructor.
Qed.

Lemma first_best_unique (l : list A) (x x' : A) :
  incl l l0 -> first_best better key l x -> first_best better key l x' -> x = x'.
Proof.
  intros Hl [pre [post [E [Hpre Hpost]]]] [pre' [post' [E' [Hpre' Hpost']]]].
  assert (Hx : In x l0) by (apply Hl; rewrite E; apply in_or_app; right; left; reflexivity).
  assert (Hx' : In x' l0) by (apply Hl; rewrite E'; apply in_or_app; right; left; reflexivity).
  rewrite E in E'; apply app_eq_app in E'; destruct E' as [m [[-> H]|[-> H]]];
    destruct m as [|y m]; cbn in H; injection H as <- H; try reflexivity; exfalso.
  - assert (B1 : better (key x) (key x') = true)
      by (apply (proj1 (Forall_forall _ _) Hpre), in_or_app; right; left; reflexivity).
    assert (B2 : better (key x) (key x') = false)
      by (apply (proj1 (Forall_forall _ _) Hpost'); rewrite H; apply in_or_app; right; left; reflexivity).
    congruence.
  - assert (B1 : better (key x') (key x) = true)
      by (apply (proj1 (Forall_forall _ _) Hpre'), in_or_app; right; left; reflexivity).
    assert (B2 : better (key x') (key x) = false)
      by (apply (proj1 (Forall_forall _ _) Hpost); rewrite H; apply in_or_app; right; left; reflexivity).
    congruence.
Qed.

Lemma filter_incl_self (l : list A) : incl (filter pb l) l.
Proof. intros y Hy; apply filter_In in Hy; apply Hy. Qed.

(** [max]/[min] with a key over [l0] returns the first element of the
    filtered list with an extremal key, and raises [ValueError] when the
    filter keeps nothing. *)
Lemma py_best_pure (x : A) :
  py_best bt p k l0 = ret x <-> first_best better key (filter pb l0) x.
Proof.
  unfold py_best; rewrite py_best_loop_pure by (try apply incl_refl; discriminate); cbn.
  destruct (fold_left best_step (filter pb l0) None) as [[y ky]|] eqn:E.
  - destruct (best_step_spec _ y ky (filter_incl_self l0) E) as [_ Hy]; cbn; split.
    + intros H; injection H as <-; exact Hy.
    + intros Hx; f_equal; apply (first_best_unique (filter pb l0)); auto using filter_incl_self.
  - cbn; split; [discriminate|]; intros [pre [post [Hf _]]].
    destruct (filter pb l0) as [|w l] eqn:F;
      [destruct pre; discriminate | cbn in E; destruct (fold_best_Some _ _ E)].
Qed.

Lemma py_best_empty : filter pb l0 = [] -> py_best bt p k l0 = raise ValueError.
Proof.
  intros F; unfold py_best; rewrite py_best_loop_pure by (try apply incl_refl; discriminate).
  rewrite F; reflexivity.
Qed.

End Best.

(** ** Filters and [next] *)

(** The truth of a predicate that did not raise. *)
Definition py_true (c : py bool) : bool := match c with inr true => true | _ => false end.

Lemma py_filter_ok {A : Type} (p : A -> py bool) (l fl : list A) :
  py_filter p l = ret fl ->
  fl = filter (fun x => py_true (p x)) l /\ forall x, In x l -> exists b, p x = ret b.
Proof.
  revert fl; induction l as [|x l IH]; intros fl H; cbn in H.
  - injection H as <-; split; [reflexivity | intros x []].
  - destruct (p x) as [e|b] eqn:Hp; [discriminate|]; cbn in H.
    destruct (py_filter p l) as [e|fl'] eqn:Hf; [discriminate|]; cbn in H.
    injection H as <-; destruct (IH fl' eq_refl) as [-> Hall]; split.
    + cbn; rewrite Hp; destruct b; reflexivity.
    + intros y [<-|Hy]; [exists b; exact Hp | apply Hall, Hy].
Qed.

Lemma py_filter_pure {A : Type} (pb : A -> bool) (l : list A) :
  py_filter (fun x => ret (pb x)) l = ret (filter pb l).
Proof. induction l as [|x l IH]; [reflexivity|]; cbn; rewrite IH; reflexivity. Qed.

Lemma py_next_ok {A : Type} (p : A -> py bool) (l : list A) (x : A) :
  py_next p l = ret (Some x) ->
  exists pre post, l = pre ++ x :: post /\ p x = ret true /\
    Forall (fun y => p y = ret false) pre.
Proof.
  induction l as [|y l IH]; cbn; [discriminate|].
  destruct (p y) as [e|[|]] eqn:Hp; cbn; [discriminate| |].
  - intros H; injection H as <-; exists [], l; auto.
  - intros H; destruct (IH H) as [pre [post [-> [Hx Hpre]]]].
    exists (y :: pre), post; auto.
Qed.

Lemma py_next_None {A : Type} (p : A -> py bool) (l : list A) :
  py_next p l = ret None -> Forall (fun y => p y = ret false) l.
Proof.
  induction l as [|y l IH]; cbn; [constructor|].
  destruct (p y) as [e|[|]] eqn:Hp; cbn; [discriminate|discriminate|].
  intros H; constructor; [exact Hp | apply IH, H].
Qed.

Lemma py_next_pure {A : Type} (pb : A -> bool) (l : list A) :
  py_next (fun x => ret (pb x)) l = ret (find pb l).
Proof. induction l as [|x l IH]; [reflexivity|]; cbn; destruct (pb x); auto. Qed.

Lemma py_next_raise_ok {A : Type} (p : A -> py bool) (l : list A) (x : A) :
  py_next_raise p l = ret x -> In x l /\ p x = ret true.
Proof.
  unfold py_next_raise; destruct (py_next p l) as [e|[y|]] eqn:E; cbn; try discriminate.
  intros H; injection H as <-; destruct (py_next_ok p l y E) as [pre [post [-> [Hy _]]]].
  split; [apply in_or_app; right; left; reflexivity | exact Hy].
Qed.

(** Whatever [max]/[min] returns is an element of the input that passed
    the filter. *)
Lemma py_best_loop_in {A K : Type} (bt : K -> K -> py bool) (p : A -> py bool)
    (k : A -> py K) (best : option (A * K)) (l : list A) (y : A) (ky : K) :
  py_best_loop bt p k best l = ret (Some (y, ky)) ->
  (best = Some (y, ky)) \/ (In y l /\ p y = ret true).
Proof.
  revert best; induction l as [|x l IH]; intros best H; cbn in H; [injection H; auto|].
  destruct (p x) as [e|[|]] eqn:Hp; cbn in H; [discriminate| |].
  - destruct (k x) as [e|kx]; cbn in H; [discriminate|].
    destruct best as [[z kz]|].
    + destruct (bt kx kz) as [e|[|]]; cbn in H; [discriminate| |];
        destruct (IH _ H) as [E|[Hy Hpy]]; try (injection E as <- <-); auto 6 with datatypes.
    + destruct (IH _ H) as [E|[Hy Hpy]]; [injection E as <- <-|]; auto 6 with datatypes.
  - destruct (IH _ H) as [E|[Hy Hpy]]; auto with datatypes.
Qed.

Lemma py_best_in {A K : Type} (bt : K -> K -> py bool) (p : A -> py bool)
    (k : A -> py K) (l : list A) (y : A) :
  py_best bt p k l = ret y -> In y l /\ p y = ret true.
Proof.
  unfold py_best; destruct (py_best_loop bt p k None l) as [e|[[z kz]|]] eqn:E; cbn;
    try discriminate.
  intros H; injection H as <-; destruct (py_best_loop_in _ _ _ _ _ _ _ E) as [C|C];
    [discriminate | exact C].
Qed.

(** [int(str(n)) == n]. *)
Lemma int_of_str_Z (z : Z) : py_int_of_string (py_str_Z z) = ret z.
Proof.
  unfold py_int_of_string, py_str_Z.
  destruct (Z.ltb_spec z 0) as [Hz|Hz]; rewrite list_ascii_of_string_of_list_ascii.
  - rewrite strip_nospace by (constructor; [reflexivity | apply N_digits_nospace]).
    cbn [Ascii.eqb]; cbn -[N_digits parse_digits]; rewrite parse_N_digits; cbn; f_equal; lia.
  - rewrite strip_nospace by apply N_digits_nospace.
    destruct (N_digits_shape (Z.to_N z)) as [Hne Hd].
    destruct (N_digits (Z.to_N z)) as [|c d] eqn:E; [congruence|].
    inversion Hd as [|? ? Hc _]; subst; destruct (digit_not_sign c Hc) as [-> ->].
    rewrite <- E, parse_N_digits; cbn; f_equal; lia.
Qed.

Lemma py_str_Z_inj (a b : Z) : py_str_Z a = py_str_Z b -> a = b.
Proof.
  intros H; apply (f_equal py_int_of_string) in H; rewrite !int_of_str_Z in H.
  injection H; auto.
Qed.

Lemma py_str_Z_eqb (a b : Z) : String.eqb (py_str_Z a) (py_str_Z b) = Z.eqb a b.
Proof.
  destruct (String.eqb_spec (py_str_Z a) (py_str_Z b)) as [H|H];
    destruct (Z.eqb_spec a b) as [H'|H']; subst; auto.
  exfalso; apply H', py_str_Z_inj, H.
Qed.

(** [first_best] through an injective map. *)
Lemma first_best_map {A B K : Type} (better : K -> K -> bool) (key : B -> K)
    (key' : A -> K) (f : A -> B) (l : list A) (x : A) :
  (forall a b, f a = f b -> a = b) -> (forall a, key (f a) = key' a) ->
  first_best better key (map f l) (f x) <-> first_best better key' l x.
Proof.
  intros Hinj Hk; split.
  - intros [pre [post [E [Hpre Hpost]]]].
    apply map_eq_app in E; destruct E as [pre' [r [-> [<- E]]]].
    apply map_eq_cons in E; destruct E as [y [post' [-> [Hy <-]]]].
    apply Hinj in Hy; subst y; exists pre', post'; split; [reflexivity|].
    rewrite Forall_map in Hpre, Hpost; split.
    + eapply Forall_impl; [|exact Hpre]; intros a; rewrite !Hk; auto.
    + eapply Forall_impl; [|exact Hpost]; intros a; rewrite !Hk; auto.
  - intros [pre [post [-> [Hpre Hpost]]]]; exists (map f pre), (map f post).
    rewrite map_app; split; [reflexivity|]; rewrite !Forall_map; split.
    + eapply Forall_impl; [|exact Hpre]; intros a; rewrite !Hk; auto.
    + eapply Forall_impl; [|exact Hpost]; intros a; rewrite !Hk; auto.
Qed.

(** ** Properties *)

(** round trip: [int(str(n)) == n] for every Python integer [n]: the
    decimal text [str] prints (a minus sign for a negative number, no
    leading zeros) is read back by [int] to the same number. *)
Theorem py_int_str_roundtrip (z : Z) : py_int_of_string (py_str_Z z) = ret z.
Proof. apply int_of_str_Z. Qed.
