(* ===== verification/Intrinsics.v ===== *)
(** * Reading the camera calibration ([src/main/vision/yoloball.py]
      [_load_intrinsics], [src/tools/cam_man.py] lines 7-11)

    Both read the YAML file of the calibration with [yaml.safe_load] and
    build the camera matrix [K] ([np.array(.., dtype=np.float32)
    .reshape(3, 3)]) and the distortion [D] ([np.array(..)]).  [cam_man]
    takes [data["K"]] and [data["D"]]; [yoloball] looks the matrix up
    under ["camera_matrix"] then ["K"], the distortion under
    ["distortion_coefficients"], ["dist_coeff"] then ["D"], with
    [dict.get], and takes the ["data"] entry of a value that is a dict (the
    layout OpenCV's [FileStorage] writes).  The YAML document is a [jval]
    (mappings, sequences and scalars).  [np.array] on nested lists is
    [nd_of]: a list of arrays of one shape is an array, other lists raise
    [ValueError], a scalar is converted by [f32] ([np.float32] of one
    value, a variable of the section: numpy's parsing of numbers and
    strings is not modelled).  [reshape(3, 3)] needs nine entries. *)

From Stdlib Require Import Reals List Bool String ZArith Lia.
From S2P Require Import Prelude Json.
Import ListNotations.
Open Scope R_scope.
Local Open Scope string_scope.
#[local] Set Warnings "-register-all".

(** A numpy array: a scalar or a list of arrays. *)
Inductive nd := NLeaf (x : R) | NArr (l : list nd).

Fixpoint nd_shape (a : nd) : list nat :=
  match a with
  | NLeaf _ => []
  | NArr l => List.length l :: match l with [] => [] | x :: _ => nd_shape x end
  end.

Fixpoint nd_flat (a : nd) : list R :=
  match a with NLeaf x => [x] | NArr l => flat_map nd_flat l end.

Definition nat_list_eqb (a b : list nat) : bool :=
  (Nat.eqb (List.length a) (List.length b) && forallb (fun '(x, y) => Nat.eqb x y) (combine a b))%bool.

(** The elements of a list all have the shape of the first. *)
Definition homogeneous (xs : list nd) : bool :=
  match xs with
  | [] => true
  | x :: r => forallb (fun y => nat_list_eqb (nd_shape y) (nd_shape x)) r
  end.

(** [d.get(k, default)]: only a mapping has [get]. *)
Definition py_get (d : jval) (k : string) (default : jval) : py jval :=
  match d with
  | JObj kv => match assoc k kv with Some v => ret v | None => ret default end
  | _ => raise AttributeError
  end.

(** [if isinstance(M, dict): M = M['data']] (lines 72 and 75). *)
Definition unwrap_data (M : jval) : py jval :=
  match M with JObj _ => getitem M "data" | _ => ret M end.

Section Intrinsics.
Variable f32 : jval -> py R.

(** [np.array(v, dtype=np.float32)]. *)
Fixpoint nd_of (v : jval) : py nd :=
  match v with
  | JArr l =>
      (xs <- (fix go (l : list jval) : py (list nd) :=
                match l with
                | [] => ret []
                | x :: r => (a <- nd_of x ;; r' <- go r ;; ret (a :: r'))%py
                end) l ;;
       if homogeneous xs then ret (NArr xs) else raise ValueError)%py
  | _ => (x <- f32 v ;; ret (NLeaf x))%py
  end.

(** [.reshape(3, 3)]: the nine entries, row by row. *)
Definition reshape33 (a : nd) : py (list R) :=
  if Nat.eqb (List.length (nd_flat a)) 9 then ret (nd_flat a) else raise ValueError.

(** [_load_intrinsics(p)] on the document [yaml.safe_load] returns
    (lines 69-77). *)
Definition load_intrinsics_doc (d : jval) : py (list R * nd) :=
  (k <- py_get d "K" JNull ;;
   M <- py_get d "camera_matrix" k ;;
   M' <- unwrap_data M ;;
   Ka <- nd_of M' ;;
   K <- reshape33 Ka ;;
   d3 <- py_get d "D" JNull ;;
   d2 <- py_get d "dist_coeff" d3 ;;
   D_ <- py_get d "distortion_coefficients" d2 ;;
   D_' <- unwrap_data D_ ;;
   D <- nd_of D_' ;;
   ret (K, D))%py.

Definition load_intrinsics (doc : py jval) : py (list R * nd) :=
  (d <- doc ;; load_intrinsics_doc d)%py.

(** [cam_man.py] lines 7-11. *)
Definition cam_man_calib (doc : py jval) : py (list R * nd) :=
  (d <- doc ;;
   k <- getitem d "K" ;; Ka <- nd_of k ;; K <- reshape33 Ka ;;
   dd <- getitem d "D" ;; D <- nd_of dd ;;
   ret (K, D))%py.

End Intrinsics.

(** ** Lemmas *)

Section Facts.
Variable f32 : jval -> py R.
(** [np.float32] of a dict raises ([float()] does not take a dict). *)
Hypothesis f32_obj : forall kv, exists e, f32 (JObj kv) = raise e.

Lemma nd_of_not_obj (v : jval) (a : nd) : nd_of f32 v = ret a -> forall kv, v <> JObj kv.
Proof. intros H kv ->; destruct (f32_obj kv) as [e He]; cbn in H; rewrite He in H; discriminate. Qed.

Lemma unwrap_not_obj (v : jval) : (forall kv, v <> JObj kv) -> unwrap_data v = ret v.
Proof. destruct v; try reflexivity; intros H; exfalso; eapply H; reflexivity. Qed.

Lemma getitem_obj (kv : list (string * jval)) (k : string) (v : jval) :
  getitem (JObj kv) k = ret v -> assoc k kv = Some v.
Proof. cbn; destruct (assoc k kv); [intros [= ->]; reflexivity | discriminate]. Qed.

End Facts.

(** ** Properties *)

(** C15: every calibration file [cam_man.py] reads, [yoloball] reads the
    same: when [cam_man] gets [K] and [D] from [data["K"]] and
    [data["D"]], [_load_intrinsics] returns the same matrix and
    distortion, provided the file has none of the keys [yoloball] prefers
    (["camera_matrix"], ["distortion_coefficients"], ["dist_coeff"]). *)
Theorem loaders_agree (f32 : jval -> py R) (kv : list (string * jval)) (r : list R * nd) :
  (forall kv', exists e, f32 (JObj kv') = raise e) ->
  assoc "camera_matrix" kv = None -> assoc "distortion_coefficients" kv = None ->
  assoc "dist_coeff" kv = None ->
  cam_man_calib f32 (ret (JObj kv)) = ret r -> load_intrinsics f32 (ret (JObj kv)) = ret r.
Proof.
  intros Hf Hcm Hdc Hd; unfold cam_man_calib, load_intrinsics, load_intrinsics_doc; cbn [bind ret].
  destruct (getitem (JObj kv) "K") as [e|k] eqn:Ek; [discriminate|]; cbn [bind].
  destruct (nd_of f32 k) as [e|Ka] eqn:Ea; [discriminate|]; cbn [bind].
  destruct (reshape33 Ka) as [e|K] eqn:EK; [discriminate|]; cbn [bind].
  destruct (getitem (JObj kv) "D") as [e|dd] eqn:Ed; [discriminate|]; cbn [bind].
  destruct (nd_of f32 dd) as [e|D] eqn:ED; [discriminate|]; cbn [bind].
  intros Hr; cbn [py_get]; rewrite (getitem_obj _ _ _ Ek), Hcm, (getitem_obj _ _ _ Ed), Hd, Hdc.
  cbn [bind ret]; rewrite (unwrap_not_obj _ (nd_of_not_obj f32 Hf _ _ Ea)); cbn [bind ret]; rewrite Ea; cbn [bind].
  rewrite EK; cbn [bind]; rewrite (unwrap_not_obj _ (nd_of_not_obj f32 Hf _ _ ED)); cbn [bind ret]; rewrite ED; exact Hr.
Qed.

(** [_load_intrinsics] raises [AttributeError] on a document that is not
    a mapping (an empty file, a list), [ValueError] when the matrix found
    has not nine entries, and accepts a file without any distortion key:
    the distortion is then [np.array(None)], a scalar, and the error, if
    any, comes from OpenCV later. *)
Theorem load_intrinsics_cases (f32 : jval -> py R) (kv : list (string * jval)) (M : jval) (a : nd) (x : R) :
  (forall v, (forall kv', v <> JObj kv') -> load_intrinsics_doc f32 v = raise AttributeError) /\
  (py_get (JObj kv) "camera_matrix" (match assoc "K" kv with Some k => k | None => JNull end) = ret M ->
   (forall kv', M <> JObj kv') -> nd_of f32 M = ret a ->
   (List.length (nd_flat a) <> 9%nat -> load_intrinsics_doc f32 (JObj kv) = raise ValueError) /\
   (List.length (nd_flat a) = 9%nat ->
    assoc "D" kv = None -> assoc "dist_coeff" kv = None -> assoc "distortion_coefficients" kv = None ->
    f32 JNull = ret x -> load_intrinsics_doc f32 (JObj kv) = ret (nd_flat a, NLeaf x))).
Proof.
  split.
  - intros v Hv; destruct v; try reflexivity; exfalso; eapply Hv; reflexivity.
  - intros HM HMo Ha; unfold load_intrinsics_doc.
    assert (Hk : py_get (JObj kv) "K" JNull = ret (match assoc "K" kv with Some k => k | None => JNull end))
      by (cbn; destruct (assoc "K" kv); reflexivity).
    rewrite Hk; cbn [bind ret]; rewrite HM; cbn [bind ret]; rewrite (unwrap_not_obj _ HMo); cbn [bind ret]; rewrite Ha; cbn [bind ret].
    unfold reshape33; split.
    + intros H9; apply Nat.eqb_neq in H9; rewrite H9; reflexivity.
    + intros H9 HD Hdc Hdcs Hx; rewrite H9; cbn [Nat.eqb bind ret py_get].
      rewrite HD, Hdc, Hdcs; cbn [bind ret unwrap_data nd_of]; rewrite Hx; reflexivity.
Qed.

(** The [np.float32] of the witnesses: numbers only. *)
Definition f32_num (v : jval) : py R := match v with JNum r => ret r | _ => raise TypeError end.

Local Abbreviation calib_doc :=
  [("K", JArr (map JNum [1; 0; 0; 0; 1; 0; 0; 0; 1])); ("D", JArr (map JNum [0; 0; 0; 0; 0]))].

Lemma loaders_agree_witness :
  cam_man_calib f32_num (ret (JObj calib_doc)) =
    ret ([1; 0; 0; 0; 1; 0; 0; 0; 1], NArr (map NLeaf [0; 0; 0; 0; 0])) /\
  load_intrinsics f32_num (ret (JObj calib_doc)) =
    ret ([1; 0; 0; 0; 1; 0; 0; 0; 1], NArr (map NLeaf [0; 0; 0; 0; 0])).
Proof.
  assert (H : cam_man_calib f32_num (ret (JObj calib_doc)) =
                ret ([1; 0; 0; 0; 1; 0; 0; 0; 1], NArr (map NLeaf [0; 0; 0; 0; 0]))) by reflexivity.
  split; [exact H|].
  exact (loaders_agree f32_num calib_doc _ (fun kv => ex_intro _ TypeError eq_refl)
           eq_refl eq_refl eq_refl H).
Defined.
