(* ===== verification/RunShot.v ===== *)
(** * The detection-to-shot driver ([src/main/run_shot.py])

    [plan_shot_from_json] reads the detector's JSON, keeps the balls of
    confidence at least [0.30], takes the first ball of type ["0"] as the
    cue ball, picks the target (highest confidence, smallest number, or a
    given number), treats every other ball as a blocker, converts
    centimetres to metres and calls [compute_shot]; every exception on the
    way is caught and turned into [None].  The model threads the Python
    exceptions through the [py] monad of [Prelude] ([select_balls],
    [plan_shot_body]) and catches them in [plan_shot_from_json]; the file
    read and [json.load] are the input [doc : py jval] (a failing read is
    an exception value).  The [--show] window of [gui.visualize] is not
    modelled.  [cli_target] is the argument parsing of the script's
    [__main__] block. *)

From Stdlib Require Import Reals Lra List Bool String Ascii ZArith Lia.
From S2P Require Import Prelude Geometry Solver Api Json.
Import ListNotations.
Open Scope R_scope.

(** The [target_id] argument: [None], a string (["min"] or a number as
    text) or an [int]. *)
Inductive target_arg :=
| TargetNone
| TargetStr (s : string)
| TargetInt (n : Z).

(** [x / 100.0] of a JSON value. *)
Definition div100 (v : jval) : py R :=
  match num_of v with Some r => ret (r / 100) | None => raise TypeError end.

(** [cm2m(x_cm, y_cm)]. *)
Definition cm2m (x_cm y_cm : jval) : py vec :=
  (x <- div100 x_cm ;; y <- div100 y_cm ;; ret (Vec x y))%py.

(** [cm2m(b["cx_cm"], b["cy_cm"])]. *)
Definition ball_xy (b : jval) : py vec :=
  (x <- getitem b "cx_cm" ;; y <- getitem b "cy_cm" ;; cm2m x y)%py.

(** [b["conf"] >= 0.30]. *)
Definition confident (b : jval) : py bool :=
  (c <- getitem b "conf" ;; py_ge_num c 0.30)%py.

(** [b["type"] == s]. *)
Definition type_is (s : string) (b : jval) : py bool :=
  (t <- getitem b "type" ;; ret (py_eqb t (JStr s)))%py.

(** [b["type"] != "0"]. *)
Definition not_cue (b : jval) : py bool :=
  (t <- getitem b "type" ;; ret (negb (py_eqb t (JStr "0"))))%py.

(** [str(target_id)] in the last branch (an [int] or a string other than
    ["min"]). *)
Definition target_str (t : target_arg) : string :=
  match t with
  | TargetStr s => s
  | TargetInt n => py_str_Z n
  | TargetNone => "None"
  end.

(** [target_id == "min"]. *)
Definition is_min (t : target_arg) : bool :=
  match t with TargetStr s => String.eqb s "min" | _ => false end.

(** The target logic, lines 59-67. *)
Definition pick_target (t : target_arg) (balls : list jval) : py jval :=
  match t with
  | TargetNone => py_best py_gt not_cue (fun b => getitem b "conf") balls
  | _ =>
      if is_min t then
        py_best (fun a b => ret (a <? b)%Z) not_cue
          (fun b => (v <- getitem b "type" ;; py_int v)%py) balls
      else
        (o <- py_next (type_is (target_str t)) balls ;;
         match o with
         | Some b => ret b
         | None => raise (RuntimeError "target not found")
         end)%py
  end.

(** [[f(x) for x in l]] for an [f] that may raise. *)
Fixpoint py_map {A B : Type} (f : A -> py B) (l : list A) : py (list B) :=
  match l with
  | [] => ret []
  | x :: r => (y <- f x ;; r' <- py_map f r ;; ret (y :: r'))%py
  end.

(** Lines 48-69: the balls of the file, the confidence filter, the cue
    ball, the target and the blockers ([b not in (cue_b, tgt_b)] compares
    with [==]). *)
Definition select_balls (doc : py jval) (t : target_arg) : py (jval * jval * list jval) :=
  (d <- doc ;;
   raw <- getitem d "balls" ;;
   items <- py_iter raw ;;
   balls <- py_filter confident items ;;
   match balls with
   | [] => raise (RuntimeError "no ball with conf >= 0.30")
   | _ =>
       cue_b <- py_next_raise (type_is "0") balls ;;
       tgt_b <- pick_target t balls ;;
       ret (cue_b, tgt_b, filter (fun b => negb (py_eqb b cue_b || py_eqb b tgt_b)) balls)
   end)%py.

(** The body of the [try] block, lines 46-84. *)
Definition plan_shot_body (doc : py jval) (t : target_arg) : py (R * vec) :=
  (sel <- select_balls doc t ;;
   let '(cue_b, tgt_b, blk_bs) := sel in
   cue_xy <- ball_xy cue_b ;;
   target <- ball_xy tgt_b ;;
   blocks <- py_map ball_xy blk_bs ;;
   info <- compute_shot cue_xy target blocks ;;
   match info with
   | None => raise (RuntimeError "no feasible path")
   | Some sh => ret (angle_deg sh, cue_xy)
   end)%py.

(** [plan_shot_from_json]: the [except Exception] turns every error into
    [None]. *)
Definition plan_shot_from_json (doc : py jval) (t : target_arg) : option (R * vec) :=
  match plan_shot_body doc t with
  | inl _ => None
  | inr r => Some r
  end.

(** The target argument of the command line (lines 99-109): [None] when
    the script exits with status 1. *)
Definition cli_target (arg : option string) : option target_arg :=
  match arg with
  | None => Some TargetNone
  | Some s =>
      if String.eqb (py_lower s) "min" then Some (TargetStr "min")
      else match py_int_of_string s with
           | inr n => Some (TargetInt n)
           | inl _ => None
           end
  end.

(** How the script ends (lines 99-120): [exit(1)] after the message of
    line 108, ["→ None"], or the heading and the cue position. *)
Inductive run_shot_out :=
| Exit1
| PrintNone
| PrintResult (angle : R) (cue : vec).

(** The [__main__] block after [parse_args]: the optional [id]
    argument and the file [json.load] reads. *)
Definition run_shot_main (id : option string) (doc : py jval) : run_shot_out :=
  match cli_target id with
  | None => Exit1
  | Some t =>
      match plan_shot_from_json doc t with
      | None => PrintNone
      | Some (a, c) => PrintResult a c
      end
  end.

(** ** Well-formed input

    A detection in the format [plan_shot_from_json] reads: the ball number
    as text under ["type"], the confidence under ["conf"] and the centre in
    centimetres under ["cx_cm"]/["cy_cm"]; [det_doc] is the file's object
    with its ["balls"] list.  Used to state what the driver selects. *)
Record detection := Det { dnum : Z; dconf : R; dx : R; dy : R }.

Definition det_json (d : detection) : jval :=
  JObj [("type"%string, JStr (py_str_Z (dnum d))); ("conf"%string, JNum (dconf d));
        ("cx_cm"%string, JNum (dx d)); ("cy_cm"%string, JNum (dy d))].

Definition det_doc (ds : list detection) : jval := JObj [("balls"%string, JArr (map det_json ds))].

(** Field-wise equality of detections, which is Python's [==] on their
    dicts. *)
Definition det_eqb (a b : detection) : bool :=
  Z.eqb (dnum a) (dnum b) && Reqb (dconf a) (dconf b) && Reqb (dx a) (dx b) &&
  Reqb (dy a) (dy b).

(** The confident detections, in file order. *)
Definition confident_dets (ds : list detection) : list detection :=
  filter (fun d => (0.30 <=? dconf d)%geo) ds.

(** ** Lemmas *)

Lemma py_true_ret (c : py bool) : py_true c = true -> c = ret true.
Proof. destruct c as [e|[|]]; cbn; intros H; first [reflexivity | discriminate H]. Qed.

Lemma pick_target_in (t : target_arg) (balls : list jval) (tgt : jval) :
  pick_target t balls = ret tgt -> In tgt balls.
Proof.
  assert (Hn : forall s, py_next (type_is s) balls = ret (Some tgt) -> In tgt balls).
  { intros s E; destruct (py_next_ok _ _ _ E) as [pre [post [-> _]]].
    apply in_or_app; right; left; reflexivity. }
  intros H; destruct t as [|s|n]; cbn [pick_target] in H;
    [exact (proj1 (py_best_in _ _ _ _ _ H))|..];
    (destruct (is_min _); [exact (proj1 (py_best_in _ _ _ _ _ H))|]);
    destruct (py_next _ balls) as [e|[b|]] eqn:E; cbn in H; try discriminate;
    injection H as ->; exact (Hn _ E).
Qed.

(** What a successful selection has read: the cue and the target balls
    are confident balls of the file, the cue ball has type ["0"], and the
    blockers are the other confident balls. *)
Lemma select_balls_ok (doc : py jval) (t : target_arg) (cue tgt : jval) (blk : list jval) :
  select_balls doc t = ret (cue, tgt, blk) ->
  exists d raw items balls, doc = ret d /\ getitem d "balls" = ret raw /\
    py_iter raw = ret items /\ py_filter confident items = ret balls /\
    balls = filter (fun b => py_true (confident b)) items /\
    In cue balls /\ type_is "0" cue = ret true /\
    pick_target t balls = ret tgt /\ In tgt balls /\
    blk = filter (fun b => negb (py_eqb b cue || py_eqb b tgt)) balls.
Proof.
  unfold select_balls; intros H.
  destruct doc as [e|d]; cbn [bind] in H; [discriminate|].
  destruct (getitem d "balls") as [e|raw] eqn:E1; cbn [bind] in H; [discriminate|].
  destruct (py_iter raw) as [e|items] eqn:E2; cbn [bind] in H; [discriminate|].
  destruct (py_filter confident items) as [e|balls] eqn:E3; cbn [bind] in H; [discriminate|].
  destruct balls as [|b bs]; [discriminate|].
  destruct (py_next_raise (type_is "0") (b :: bs)) as [e|c] eqn:E4; cbn [bind] in H;
    [discriminate|].
  destruct (pick_target t (b :: bs)) as [e|g] eqn:E5; cbn [bind] in H; [discriminate|].
  injection H as <- <- <-.
  destruct (py_filter_ok _ _ _ E3) as [Hf _].
  destruct (py_next_raise_ok _ _ _ E4) as [Hc Hc0].
  exists d, raw, items, (b :: bs); repeat split; auto.
  apply (pick_target_in t); exact E5.
Qed.

Lemma in_confident (items balls : list jval) (b : jval) :
  balls = filter (fun b => py_true (confident b)) items -> In b balls ->
  In b items /\ confident b = ret true.
Proof.
  intros -> Hb; apply filter_In in Hb; destruct Hb as [Hb Hc].
  split; [exact Hb | apply py_true_ret, Hc].
Qed.

(** What a successful run has computed. *)
Lemma plan_shot_body_ok (doc : py jval) (t : target_arg) (a : R) (c : vec) :
  plan_shot_body doc t = ret (a, c) ->
  exists cue tgt blk target blocks sh,
    select_balls doc t = ret (cue, tgt, blk) /\ ball_xy cue = ret c /\
    ball_xy tgt = ret target /\ py_map ball_xy blk = ret blocks /\
    compute_shot c target blocks = ret (Some sh) /\ a = angle_deg sh.
Proof.
  unfold plan_shot_body; intros H.
  destruct (select_balls doc t) as [e|[[cue tgt] blk]] eqn:E0; cbn [bind] in H; [discriminate|].
  destruct (ball_xy cue) as [e|c'] eqn:E1; cbn [bind] in H; [discriminate|].
  destruct (ball_xy tgt) as [e|target] eqn:E2; cbn [bind] in H; [discriminate|].
  destruct (py_map ball_xy blk) as [e|blocks] eqn:E3; cbn [bind] in H; [discriminate|].
  destruct (compute_shot c' target blocks) as [e|[sh|]] eqn:E4; cbn [bind] in H;
    try discriminate.
  injection H as <- <-; exists cue, tgt, blk, target, blocks, sh; auto 7.
Qed.

(** Each step of the driver on a well-formed detection. *)
Lemma str_is_zero (n : Z) : String.eqb (py_str_Z n) "0" = Z.eqb n 0.
Proof. change "0"%string with (py_str_Z 0); apply py_str_Z_eqb. Qed.

Lemma confident_det (d : detection) : confident (det_json d) = ret (0.30 <=? dconf d)%geo.
Proof. reflexivity. Qed.

Lemma type_is_det (s : string) (d : detection) :
  type_is s (det_json d) = ret (String.eqb (py_str_Z (dnum d)) s).
Proof. reflexivity. Qed.

Lemma not_cue_det (d : detection) : not_cue (det_json d) = ret (negb (Z.eqb (dnum d) 0)).
Proof. unfold not_cue; cbn -[py_str_Z]; rewrite str_is_zero; reflexivity. Qed.

Lemma type_int_det (d : detection) :
  (v <- getitem (det_json d) "type" ;; py_int v)%py = ret (dnum d).
Proof. cbn -[py_str_Z py_int_of_string]; apply int_of_str_Z. Qed.

Lemma ball_xy_det (d : detection) : ball_xy (det_json d) = ret (Vec (dx d / 100) (dy d / 100)).
Proof. reflexivity. Qed.

Lemma py_eqb_det (a b : detection) : py_eqb (det_json a) (det_json b) = det_eqb a b.
Proof.
  unfold det_eqb; cbn -[py_str_Z Reqb]; rewrite py_str_Z_eqb.
  destruct (Z.eqb _ _), (Reqb (dconf a) _), (Reqb (dx a) _), (Reqb (dy a) _); reflexivity.
Qed.

Lemma det_json_inj (a b : detection) : det_json a = det_json b -> a = b.
Proof.
  destruct a, b; cbn; intros H; injection H as H1 H2 H3 H4.
  apply py_str_Z_inj in H1; subst; reflexivity.
Qed.

Lemma filter_map_comm {A B : Type} (f : A -> B) (p : B -> bool) (l : list A) :
  filter p (map f l) = map f (filter (fun a => p (f a)) l).
Proof. induction l as [|a l IH]; cbn; [|destruct (p (f a)); cbn]; rewrite ?IH; reflexivity. Qed.

Lemma py_filter_confident_dets (ds : list detection) :
  py_filter confident (map det_json ds) = ret (map det_json (confident_dets ds)).
Proof.
  induction ds as [|d ds IH]; [reflexivity|]; cbn [map py_filter].
  rewrite confident_det, IH; cbn; unfold confident_dets; cbn.
  destruct (0.30 <=? dconf d)%geo; reflexivity.
Qed.

Lemma py_next_type_dets (s : string) (ds : list detection) :
  py_next (type_is s) (map det_json ds) =
  ret (option_map det_json (find (fun d => String.eqb (py_str_Z (dnum d)) s) ds)).
Proof.
  induction ds as [|d ds IH]; [reflexivity|]; cbn [map py_next find].
  rewrite type_is_det; cbn [bind ret]; destruct (String.eqb _ s); [reflexivity|exact IH].
Qed.

(** The blockers of a run on well-formed detections. *)
Lemma blockers_dets (ds : list detection) (dc dt : detection) :
  filter (fun b => negb (py_eqb b (det_json dc) || py_eqb b (det_json dt))) (map det_json ds)
  = map det_json (filter (fun d => negb (det_eqb d dc || det_eqb d dt)) ds).
Proof. rewrite filter_map_comm; f_equal; apply filter_ext; intros d; rewrite !py_eqb_det; reflexivity. Qed.

(** The number of a ball as the [min] key computes it ([0] where [int]
    raises, which the lemmas below never meet). *)
Definition type_num (b : jval) : Z :=
  match (v <- getitem b "type" ;; py_int v)%py with inr z => z | inl _ => 0%Z end.

Lemma filter_not_cue_dets (l : list detection) :
  filter (fun b => py_true (not_cue b)) (map det_json l) =
  map det_json (filter (fun d => negb (Z.eqb (dnum d) 0)) l).
Proof.
  rewrite filter_map_comm; f_equal; apply filter_ext; intros d; rewrite not_cue_det.
  destruct (negb _); reflexivity.
Qed.

Lemma first_best_in {A K : Type} (better : K -> K -> bool) (key : A -> K) (l : list A) (x : A) :
  first_best better key l x -> In x l.
Proof. intros [pre [post [-> _]]]; apply in_or_app; right; left; reflexivity. Qed.

(** The [min] mode on well-formed detections: the first detection of
    smallest number among those that are not the cue ball. *)
Lemma pick_min_dets (l : list detection) (x : jval) :
  pick_target (TargetStr "min") (map det_json l) = ret x <->
  exists dt, x = det_json dt /\
    first_best Z.ltb dnum (filter (fun d => negb (Z.eqb (dnum d) 0)) l) dt.
Proof.
  cbn [pick_target is_min String.eqb].
  assert (Hin : forall b, In b (map det_json l) -> exists d, b = det_json d)
    by (intros b Hb; apply in_map_iff in Hb; destruct Hb as [d [<- _]]; eauto).
  rewrite (py_best_pure Z.ltb (fun b => py_true (not_cue b)) type_num
             (fun a b => ret (a <? b)%Z) not_cue
             (fun b => (v <- getitem b "type" ;; py_int v)%py) (map det_json l)).
  - rewrite filter_not_cue_dets; split.
    + intros Hb; destruct (Hin x) as [dt ->].
      { apply first_best_in in Hb; rewrite <- filter_not_cue_dets in Hb.
        apply filter_In in Hb; apply Hb. }
      exists dt; split; [reflexivity|].
      apply (first_best_map _ type_num dnum det_json); [exact det_json_inj| |exact Hb].
      intros d; unfold type_num; rewrite type_int_det; reflexivity.
    + intros [dt [-> Hb]].
      apply (first_best_map _ type_num dnum det_json); [exact det_json_inj| |exact Hb].
      intros d; unfold type_num; rewrite type_int_det; reflexivity.
  - intros b Hb; destruct (Hin b Hb) as [d ->]; rewrite not_cue_det; destruct (negb _); reflexivity.
  - intros b Hb _; destruct (Hin b Hb) as [d ->]; unfold type_num; rewrite type_int_det; reflexivity.
  - reflexivity.
  - intros a b _ _ H; apply Z.ltb_lt in H; apply Z.ltb_ge; lia.
  - intros a b c _ _ _ H1 H2; apply Z.ltb_lt in H1; apply Z.ltb_ge in H2; apply Z.ltb_lt; lia.
Qed.

Lemma find_num_dets (n : Z) (l : list detection) :
  find (fun d => String.eqb (py_str_Z (dnum d)) (py_str_Z n)) l = find (fun d => Z.eqb (dnum d) n) l.
Proof. induction l as [|d l IH]; cbn; [reflexivity|]; rewrite py_str_Z_eqb, IH; reflexivity. Qed.

Lemma find_cue_dets (l : list detection) :
  find (fun d => String.eqb (py_str_Z (dnum d)) "0") l = find (fun d => Z.eqb (dnum d) 0) l.
Proof. exact (find_num_dets 0 l). Qed.

(** A run of the selection on a file of well-formed detections. *)
Lemma select_balls_dets (ds : list detection) (t : target_arg) :
  select_balls (ret (det_doc ds)) t =
  match confident_dets ds with
  | [] => raise (RuntimeError "no ball with conf >= 0.30")
  | _ =>
      (cue_b <- match find (fun d => Z.eqb (dnum d) 0) (confident_dets ds) with
                | Some dc => ret (det_json dc)
                | None => raise StopIteration
                end ;;
       tgt_b <- pick_target t (map det_json (confident_dets ds)) ;;
       ret (cue_b, tgt_b,
            filter (fun b => negb (py_eqb b cue_b || py_eqb b tgt_b))
              (map det_json (confident_dets ds))))%py
  end.
Proof.
  unfold select_balls;
    cbn -[py_filter confident det_json py_next_raise pick_target filter py_eqb map].
  rewrite py_filter_confident_dets; cbn [bind ret].
  remember (confident_dets ds) as cs eqn:E; destruct cs as [|d l]; [reflexivity|].
  unfold py_next_raise; rewrite py_next_type_dets, find_cue_dets.
  destruct (find _ (d :: l)); reflexivity.
Qed.

Lemma select_dets_iff (ds : list detection) (t : target_arg) (cue tgt : jval) (blk : list jval) :
  select_balls (ret (det_doc ds)) t = ret (cue, tgt, blk) <->
  exists dc, find (fun d => Z.eqb (dnum d) 0) (confident_dets ds) = Some dc /\
    cue = det_json dc /\ pick_target t (map det_json (confident_dets ds)) = ret tgt /\
    blk = filter (fun b => negb (py_eqb b cue || py_eqb b tgt)) (map det_json (confident_dets ds)).
Proof.
  rewrite select_balls_dets.
  destruct (confident_dets ds) as [|d0 l] eqn:E.
  - split; [discriminate|]; intros [dc [F _]]; discriminate.
  - rewrite <- E; destruct (find _ (confident_dets ds)) as [dc|] eqn:F; cbn [bind ret].
    + destruct (pick_target t _) as [e|g] eqn:P; cbn [bind ret]; split.
      * discriminate.
      * intros [dc' [F' [_ [P' _]]]]; unfold ret in *; congruence.
      * intros H; injection H as <- <- <-; exists dc; auto.
      * intros [dc' [F' [-> [P' ->]]]]; injection F' as <-; injection P' as <-; reflexivity.
    + split; [discriminate|]; intros [dc [F' _]]; discriminate.
Qed.

Lemma pick_int_dets (n : Z) (l : list detection) (x : jval) :
  pick_target (TargetInt n) (map det_json l) = ret x <->
  exists dt, find (fun d => Z.eqb (dnum d) n) l = Some dt /\ x = det_json dt.
Proof.
  cbn [pick_target is_min target_str]; rewrite py_next_type_dets, find_num_dets.
  destruct (find _ l) as [dt|]; cbn; split.
  - intros H; injection H as <-; eauto.
  - intros [dt' [H ->]]; injection H as ->; reflexivity.
  - discriminate.
  - intros [dt' [H _]]; discriminate.
Qed.

Lemma str_not_min (n : Z) : String.eqb (py_lower (py_str_Z n)) "min" = false.
Proof.
  destruct (String.eqb_spec (py_lower (py_str_Z n)) "min") as [H|H]; [exfalso|reflexivity].
  assert (Hl : forall l, Forall (fun c => is_digit c = true \/ c = "-"%char) l ->
            map lower_ascii l = l).
  { induction l as [|c l IH]; intros Hf; [reflexivity|]; inversion Hf as [|? ? Hc Hr]; subst.
    cbn; rewrite IH by exact Hr; f_equal.
    destruct Hc as [Hc| ->]; [|reflexivity]; unfold lower_ascii, is_digit in *.
    apply andb_prop in Hc; destruct Hc as [H1 H2]; apply Nat.leb_le in H1, H2.
    destruct (Nat.leb_spec 65 (nat_of_ascii c)); cbn; [|reflexivity].
    destruct (Nat.leb_spec (nat_of_ascii c) 90); [lia|reflexivity]. }
  assert (Hd : forall m, Forall (fun c => is_digit c = true \/ c = "-"%char) (N_digits m))
    by (intros m; eapply Forall_impl; [|exact (proj2 (N_digits_shape m))]; auto).
  unfold py_lower, py_str_Z in H; rewrite list_ascii_of_string_of_list_ascii in H.
  rewrite Hl in H by (destruct (n <? 0)%Z; [constructor; [right; reflexivity|]|]; apply Hd).
  apply (f_equal py_int_of_string) in H; fold (py_str_Z n) in H.
  rewrite int_of_str_Z in H; discriminate.
Qed.

(** Reading the cue ball's centre raises when no ball has ["cx_cm"]. *)
Lemma plan_shot_missing_cx_cm (doc : py jval) (t : target_arg) :
  (forall d raw items b, doc = ret d -> getitem d "balls" = ret raw ->
     py_iter raw = ret items -> In b items -> exists e, getitem b "cx_cm" = raise e) ->
  plan_shot_from_json doc t = None.
Proof.
  intros Hk; unfold plan_shot_from_json.
  destruct (plan_shot_body doc t) as [e|[a c]] eqn:B; [reflexivity|exfalso].
  destruct (plan_shot_body_ok _ _ _ _ B) as [cue [tgt [blk [target [blocks [sh
    [S [Hc _]]]]]]]].
  destruct (select_balls_ok _ _ _ _ _ S) as [d [raw [items [balls
    [Hd [Hr [Hi [_ [Hb [Hin _]]]]]]]]]].
  destruct (in_confident _ _ _ Hb Hin) as [Hitem _].
  destruct (Hk d raw items cue Hd Hr Hi Hitem) as [e He].
  unfold ball_xy in Hc; rewrite He in Hc; discriminate.
Qed.

(** A detector file of the spec's first scenario in the format the driver
    reads: the cue ball at (36.75, 30) cm, ball 3 at (36.75, 10) cm, and a
    ball 5 of confidence 0.2 that the filter drops. *)
Local Abbreviation ds0 :=
  [Det 0 0.9 36.75 30; Det 3 0.8 36.75 10; Det 5 0.2 10 10].

Lemma scenario_confident :
  confident_dets ds0 = [Det 0 0.9 36.75 30; Det 3 0.8 36.75 10].
Proof.
  unfold confident_dets; cbn [filter dconf].
  rewrite (Rleb_true 0.30 0.9), (Rleb_true 0.30 0.8), (Rleb_false 0.30 0.2) by lra.
  reflexivity.
Qed.

Lemma scenario_select :
  select_balls (ret (det_doc ds0)) (TargetStr "min") =
  ret (det_json (Det 0 0.9 36.75 30), det_json (Det 3 0.8 36.75 10), []).
Proof.
  apply select_dets_iff; rewrite scenario_confident.
  exists (Det 0 0.9 36.75 30); split; [reflexivity|]; split; [reflexivity|]; split.
  - apply pick_min_dets; exists (Det 3 0.8 36.75 10); split; [reflexivity|].
    exists [], []; repeat constructor.
  - cbn [map filter]; rewrite !py_eqb_det; unfold det_eqb; cbn [dnum dconf dx dy Z.eqb].
    destruct (Reqb_spec 0.9 0.9), (Reqb_spec 36.75 36.75), (Reqb_spec 30 30),
      (Reqb_spec 0.8 0.8), (Reqb_spec 10 10); try lra; reflexivity.
Qed.

Lemma scenario_plan_shot :
  plan_shot_body (ret (det_doc ds0)) (TargetStr "min") = ret (-90, Vec 0.3675 0.3).
Proof.
  unfold plan_shot_body; rewrite scenario_select; cbn [bind ret].
  rewrite !ball_xy_det; cbn [bind ret py_map dx dy].
  replace (36.75 / 100) with 0.3675 by lra; replace (30 / 100) with 0.3 by lra;
    replace (10 / 100) with 0.1 by lra.
  rewrite scenario_compute_shot; reflexivity.
Qed.

(** ** Properties *)

(** C9: in the [min] mode [main.py] uses, on a file of well-formed
    detections the driver selects as cue ball the first confident ball of
    number 0, as target the first confident ball of smallest number among
    the others, and as blockers every other confident ball that is not
    equal (as a dict) to the cue or the target ball; it fails when there
    is no confident cue ball or no other confident ball. *)
Theorem select_min_dets (ds : list detection) (cue tgt : jval) (blk : list jval) :
  select_balls (ret (det_doc ds)) (TargetStr "min") = ret (cue, tgt, blk) <->
  exists dc dt,
    find (fun d => Z.eqb (dnum d) 0) (confident_dets ds) = Some dc /\
    first_best Z.ltb dnum (filter (fun d => negb (Z.eqb (dnum d) 0)) (confident_dets ds)) dt /\
    cue = det_json dc /\ tgt = det_json dt /\
    blk = map det_json (filter (fun d => negb (det_eqb d dc || det_eqb d dt)) (confident_dets ds)).
Proof.
  rewrite select_dets_iff; split.
  - intros [dc [F [-> [P ->]]]]; apply pick_min_dets in P; destruct P as [dt [-> Hb]].
    exists dc, dt; rewrite blockers_dets; auto.
  - intros [dc [dt [F [Hb [-> [-> ->]]]]]]; exists dc; rewrite blockers_dets.
    repeat split; auto; apply pick_min_dets; eauto.
Qed.

(** with a ball number [n] as target, the target is the first
    confident ball whose number is [n] (compared as the text [str(n)]). *)
Theorem select_int_dets (ds : list detection) (n : Z) (cue tgt : jval) (blk : list jval) :
  select_balls (ret (det_doc ds)) (TargetInt n) = ret (cue, tgt, blk) <->
  exists dc dt,
    find (fun d => Z.eqb (dnum d) 0) (confident_dets ds) = Some dc /\
    find (fun d => Z.eqb (dnum d) n) (confident_dets ds) = Some dt /\
    cue = det_json dc /\ tgt = det_json dt /\
    blk = map det_json (filter (fun d => negb (det_eqb d dc || det_eqb d dt)) (confident_dets ds)).
Proof.
  rewrite select_dets_iff; split.
  - intros [dc [F [-> [P ->]]]]; apply pick_int_dets in P; destruct P as [dt [Ft ->]].
    exists dc, dt; rewrite blockers_dets; auto.
  - intros [dc [dt [F [Ft [-> [-> ->]]]]]]; exists dc; rewrite blockers_dets.
    repeat split; auto; apply pick_int_dets; eauto.
Qed.

(** C12: what a successful run returns: the position [c] in metres of a
    ball of the file that has type ["0"] and confidence at least [0.30],
    the balls [select_balls] chose, and the heading [angle_deg] of the
    shot [compute_shot] found from [c] to the chosen target past the
    other chosen balls, which lies in [[-180, 180]]. *)
Theorem plan_shot_cue_confident (doc : py jval) (t : target_arg) (a : R) (c : vec) :
  plan_shot_from_json doc t = Some (a, c) ->
  exists d raw items cue conf r,
    doc = ret d /\ getitem d "balls" = ret raw /\ py_iter raw = ret items /\
    In cue items /\ getitem cue "conf" = ret conf /\ num_of conf = Some r /\ 0.30 <= r /\
    type_is "0" cue = ret true /\ ball_xy cue = ret c /\
    exists tgt blk target blocks sh,
      select_balls doc t = ret (cue, tgt, blk) /\ ball_xy tgt = ret target /\
      py_map ball_xy blk = ret blocks /\ compute_shot c target blocks = ret (Some sh) /\
      a = angle_deg sh /\ -180 <= a <= 180.
Proof.
  unfold plan_shot_from_json; destruct (plan_shot_body doc t) as [e|[a' c']] eqn:B;
    intros H; [discriminate|]; injection H as <- <-.
  destruct (plan_shot_body_ok _ _ _ _ B) as [cue [tgt [blk [target [blocks [sh
    [S [Hc [Ht [Hbl [Hs ->]]]]]]]]]]].
  destruct (select_balls_ok _ _ _ _ _ S) as [d [raw [items [balls
    [-> [Hr [Hi [_ [Hb [Hin [H0 _]]]]]]]]]]].
  destruct (in_confident _ _ _ Hb Hin) as [Hitem Hconf].
  unfold confident, py_ge_num in Hconf; destruct (getitem cue "conf") as [e|conf] eqn:Ec;
    [discriminate|]; cbn [bind] in Hconf.
  destruct (num_of conf) as [r|] eqn:En; [|discriminate]; injection Hconf as Hle.
  assert (Hr0 : 0.30 <= r) by (destruct (Rleb_spec 0.30 r); [assumption|discriminate]).
  pose proof (compute_shot_angle_bounds _ _ _ _ Hs).
  exists d, raw, items, cue, conf, r; do 9 (split; [first [assumption | reflexivity]|]).
  exists tgt, blk, target, blocks, sh; repeat split; first [assumption | reflexivity | lra].
Qed.

(** a run needs the centre under ["cx_cm"]: when no ball of the file
    has that key, [plan_shot_from_json] returns [None] whatever the target
    argument, because reading the cue ball's centre raises. *)
Theorem plan_shot_needs_cx_cm (doc : py jval) (t : target_arg) :
  (forall d raw items b, doc = ret d -> getitem d "balls" = ret raw ->
     py_iter raw = ret items -> In b items -> exists e, getitem b "cx_cm" = raise e) ->
  plan_shot_from_json doc t = None.
Proof. apply plan_shot_missing_cx_cm. Qed.

(** the command-line argument [str(n)] of a ball number is read back
    as the target [n] (it is never taken for ["min"], whatever its case). *)
Theorem cli_target_number (n : Z) :
  cli_target (Some (py_str_Z n)) = Some (TargetInt n).
Proof. cbn [cli_target]; rewrite str_not_min, int_of_str_Z; reflexivity. Qed.

(** the script stops with [exit(1)] exactly when the [id] argument
    is neither ["min"] in some case (["MIN"] and ["Min"] select the
    smallest ball too) nor a text [int()] accepts; otherwise it plans on
    the file and prints the result or ["→ None"]. *)
Theorem run_shot_main_exit (s : string) (doc : py jval) :
  (run_shot_main (Some s) doc = Exit1 <->
   py_lower s <> "min"%string /\ exists e, py_int_of_string s = raise e) /\
  (run_shot_main (Some s) doc = PrintNone ->
   exists t, cli_target (Some s) = Some t /\ plan_shot_from_json doc t = None).
Proof.
  unfold run_shot_main; cbn [cli_target]; split.
  - destruct (String.eqb_spec (py_lower s) "min"%string) as [Hm|Hm];
      [|destruct (py_int_of_string s) as [e|n]].
    + destruct (plan_shot_from_json doc _) as [[a c]|];
        (split; [intros H; discriminate H | intros [H _]; contradiction]).
    + split; [intros _; split; [exact Hm | exists e; reflexivity] | reflexivity].
    + destruct (plan_shot_from_json doc _) as [[a c]|];
        (split; [intros H; discriminate H | intros [_ [e He]]; discriminate He]).
  - destruct (String.eqb (py_lower s) "min"%string); [|destruct (py_int_of_string s) as [e|n]];
      [| intros H; discriminate H |];
      match goal with |- context [plan_shot_from_json doc ?t] =>
        destruct (plan_shot_from_json doc t) as [[a c]|] eqn:E; [intros H; discriminate H|];
        intros _; exists t; split; [reflexivity | exact E] end.
Qed.

(** end to end on the spec's first scenario in centimetres: the
    driver keeps the two confident balls, aims the cue ball at ball 3 and
    returns the heading [-90] degrees with the cue position in metres. *)
Theorem plan_shot_scenario :
  plan_shot_from_json (ret (det_doc ds0)) (TargetStr "min") = Some (-90, Vec 0.3675 0.3).
Proof. unfold plan_shot_from_json; rewrite scenario_plan_shot; reflexivity. Qed.

Lemma plan_shot_cue_confident_witness :
  plan_shot_from_json (ret (det_doc ds0)) (TargetStr "min") = Some (-90, Vec 0.3675 0.3) /\
  exists d raw items cue conf r,
    ret (det_doc ds0) = ret d /\ getitem d "balls" = ret raw /\ py_iter raw = ret items /\
    In cue items /\ getitem cue "conf" = ret conf /\ num_of conf = Some r /\ 0.30 <= r /\
    type_is "0" cue = ret true /\ ball_xy cue = ret (Vec 0.3675 0.3) /\
    exists tgt blk target blocks sh,
      select_balls (ret (det_doc ds0)) (TargetStr "min") = ret (cue, tgt, blk) /\
      ball_xy tgt = ret target /\ py_map ball_xy blk = ret blocks /\
      compute_shot (Vec 0.3675 0.3) target blocks = ret (Some sh) /\
      -90 = angle_deg sh /\ -180 <= -90 <= 180.
Proof.
  assert (H : plan_shot_from_json (ret (det_doc ds0)) (TargetStr "min") = Some (-90, Vec 0.3675 0.3))
    by (unfold plan_shot_from_json; rewrite scenario_plan_shot; reflexivity).
  split; [exact H | exact (plan_shot_cue_confident _ _ _ _ H)].
Defined.

(** The file [capture_balls] writes for one detection (see [Vision]): the
    centre is under ["x_cm"]/["y_cm"]. *)
Lemma plan_shot_needs_cx_cm_witness :
  plan_shot_from_json
    (ret (JObj [("balls"%string, JArr [JObj [("type"%string, JStr "0"); ("conf"%string, JNum 0.9);
                                             ("x_cm"%string, JNum 36.75); ("y_cm"%string, JNum 30)]])]))
    (TargetStr "min") = None.
Proof.
  apply plan_shot_needs_cx_cm; intros d raw items b Hd Hr Hi Hb.
  injection Hd as <-; cbn in Hr; injection Hr as <-; cbn in Hi; injection Hi as <-.
  destruct Hb as [<-|[]]; exists (KeyError "cx_cm"); reflexivity.
Defined.

Lemma run_shot_main_exit_witness :
  run_shot_main (Some "abc"%string) (ret (det_doc ds0)) = Exit1 /\
  (py_lower "abc"%string <> "min"%string /\ exists e, py_int_of_string "abc"%string = raise e).
Proof.
  split; [reflexivity|].
  exact (proj1 (proj1 (run_shot_main_exit "abc"%string (ret (det_doc ds0)))) eq_refl).
Defined.
