(* ===== verification/Vision.v ===== *)
(** * The detector's post-processing ([src/main/vision/yoloball.py])

    [capture_balls] grabs a frame, runs YOLO and hands the boxes to
    [_detect_and_convert], which keeps a box unless its pixel centre lies
    in a pocket circle or too near an already kept centre, converts the
    centre to centimetres with the homography [H] and writes one dict per
    kept ball into [cords.json].  The camera, YOLO and OpenCV drawing are
    not modelled: the detections are the input ([raw_det]), and
    [np.linalg.inv], [cv2.perspectiveTransform] and the pixel-to-cm map are
    written out on a 3x3 matrix record.  The boxes are sorted by decreasing
    confidence with Python's stable [sorted(..., reverse=True)], which is
    the stable sort of [StableSort] for the order [>] on floats.

    The file [capture_balls] writes stores the centre under ["x_cm"] and
    ["y_cm"], while [run_shot.plan_shot_from_json] reads ["cx_cm"] and
    ["cy_cm"]: [detector_output_rejected] shows that the driver returns
    [None] on every file the detector writes. *)

From Stdlib Require Import Reals Lra List Bool String ZArith Lia.
From S2P Require Import Prelude StableSort Api Json RunShot.
Import ListNotations.
Open Scope R_scope.

(** ** Constants (lines 19-27) *)

Definition POCKET_R_PX : R := 50.
Definition TABLE_W_CM : R := 73.5.
Definition TABLE_H_CM : R := 37.5.
Definition MIN_SEP_CM : R := 1.0.
Definition CLASS_NAMES : list string :=
  ["2"; "2"; "2"; "3"; "3"; "14"; "6"; "3"; "5"; "2"; "4"; "3"; "3"; "0"; "1"; "1"]%string.

(** ** Homographies *)

Record mat3 := Mat3 {
  m00 : R; m01 : R; m02 : R;
  m10 : R; m11 : R; m12 : R;
  m20 : R; m21 : R; m22 : R }.

(** [H @ [x, y, 1]] followed by the division by the third coordinate:
    [px2cm] (line 127) and [cv2.perspectiveTransform] of one point. *)
Definition hom_apply (M : mat3) (p : R * R) : R * R :=
  let '(x, y) := p in
  let v0 := m00 M * x + m01 M * y + m02 M in
  let v1 := m10 M * x + m11 M * y + m12 M in
  let v2 := m20 M * x + m21 M * y + m22 M in
  (v0 / v2, v1 / v2).

Definition det3 (M : mat3) : R :=
  m00 M * (m11 M * m22 M - m12 M * m21 M) - m01 M * (m10 M * m22 M - m12 M * m20 M)
  + m02 M * (m10 M * m21 M - m11 M * m20 M).

(** [np.linalg.inv] of a 3x3 matrix (line 109): the adjugate over the
    determinant, and [numpy.linalg.LinAlgError] ("Singular matrix") when
    the determinant is zero. *)
Definition inv3 (M : mat3) : py mat3 :=
  let d := det3 M in
  if Reqb d 0 then raise LinAlgError
  else ret (Mat3 ((m11 M * m22 M - m12 M * m21 M) / d) ((m02 M * m21 M - m01 M * m22 M) / d)
       ((m01 M * m12 M - m02 M * m11 M) / d)
       ((m12 M * m20 M - m10 M * m22 M) / d) ((m00 M * m22 M - m02 M * m20 M) / d)
       ((m02 M * m10 M - m00 M * m12 M) / d)
       ((m10 M * m21 M - m11 M * m20 M) / d) ((m01 M * m20 M - m00 M * m21 M) / d)
       ((m00 M * m11 M - m01 M * m10 M) / d)).

(** ** The pockets and the separation threshold in pixels (lines 108-131) *)

Definition pmid (p q : R * R) : R * R := ((fst p + fst q) / 2, (snd p + snd q) / 2).

(** The four table corners in pixels, mapped back through [H_inv]
    (lines 111-112), and the six pockets: the corners and the midpoints of
    the long rails (line 116). *)
Definition px_corners (Hinv : mat3) : list (R * R) :=
  map (hom_apply Hinv)
    [(0, 0); (TABLE_W_CM, 0); (TABLE_W_CM, TABLE_H_CM); (0, TABLE_H_CM)].

Definition pockets_px (Hinv : mat3) : list (R * R) :=
  match px_corners Hinv with
  | [tl; tr; br; bl] => [tl; tr; br; bl; pmid tl tr; pmid bl br]
  | _ => []
  end.

Definition pdist (p q : R * R) : R := norm (Vec (fst p - fst q) (snd p - snd q)).

(** [min_sep_px = MIN_SEP_CM*(table_px_w/TABLE_W_CM + table_px_h/TABLE_H_CM)/2]. *)
Definition min_sep_px (Hinv : mat3) : R :=
  match px_corners Hinv with
  | [tl; tr; br; bl] =>
      MIN_SEP_CM * (pdist tr tl / TABLE_W_CM + pdist bl tl / TABLE_H_CM) / 2
  | _ => 0
  end.

(** ** The detections *)

(** One YOLO box: corners [x1, y1, x2, y2], class and confidence. *)
Record raw_det := RawDet { bx1 : R; by1 : R; bx2 : R; by2 : R; rcls : R; rconf : R }.

(** [sorted(zip(...), key=lambda x: float(x[2]), reverse=True)]: a stable
    sort for the order [>] on floats. *)
#[export] Instance desc_order : KeyOrder R := {
  key_ltb := fun a b => (b <? a)%geo;
  key_ltb_irrefl := ltac:(intros a; cbv beta; rcase; lra || reflexivity);
  key_ltb_trans := ltac:(intros a b c; cbv beta; rcase; try discriminate; try reflexivity; lra);
  key_ltb_connected := ltac:(intros a b c; cbv beta; rcase; try discriminate; auto; lra)
}.

Definition sort_dets (ds : list raw_det) : list raw_det := sort_by_key rconf ds.

(** [cx, cy = (x1+x2)//2, (y1+y2)//2] after [map(int, box)]. *)
Definition center (d : raw_det) : Z * Z :=
  (Z.div (py_trunc (bx1 d) + py_trunc (bx2 d)) 2, Z.div (py_trunc (by1 d) + py_trunc (by2 d)) 2).

Definition sq (x : R) : R := x * x.

(** [any((cx-px)**2+(cy-py)**2 <= POCKET_R_PX**2 for px,py in pockets)]. *)
Definition in_pocket (pockets : list (R * R)) (c : Z * Z) : bool :=
  existsb (fun p => (sq (IZR (fst c) - fst p) + sq (IZR (snd c) - snd p) <=? sq POCKET_R_PX)%geo)
    pockets.

(** [any((cx-x0)**2+(cy-y0)**2 < min_sep_px**2 for x0,y0 in centers)]. *)
Definition too_close (sep : R) (centers : list (Z * Z)) (c : Z * Z) : bool :=
  existsb (fun c0 => (IZR ((fst c - fst c0) ^ 2 + (snd c - snd c0) ^ 2) <? sq sep)%geo) centers.

(** [CLASS_NAMES[int(cls)]], with Python's negative indices. *)
Definition class_name (cls : R) : py string :=
  let i := py_trunc cls in
  let n := Z.of_nat (List.length CLASS_NAMES) in
  let j := if (i <? 0)%Z then (i + n)%Z else i in
  if ((0 <=? j) && (j <? n))%Z then
    match nth_error CLASS_NAMES (Z.to_nat j) with Some s => ret s | None => raise IndexError end
  else raise IndexError.

(** The dict appended for a kept ball (line 143). *)
Definition ball_record (name : string) (conf : R) (xy : R * R) : jval :=
  JObj [("type"%string, JStr name); ("conf"%string, JNum (py_round conf 3));
        ("x_cm"%string, JNum (py_round (fst xy) 2)); ("y_cm"%string, JNum (py_round (snd xy) 2))].

(** The loop of lines 134-145 with its two accumulators [balls] and
    [centers]. *)
Fixpoint detect_loop (H : mat3) (pockets : list (R * R)) (sep : R) (ds : list raw_det)
    (balls : list jval) (centers : list (Z * Z)) : py (list jval * list (Z * Z)) :=
  match ds with
  | [] => ret (balls, centers)
  | d :: r =>
      let c := center d in
      if in_pocket pockets c then detect_loop H pockets sep r balls centers
      else if too_close sep centers c then detect_loop H pockets sep r balls centers
      else
        (name <- class_name (rcls d) ;;
         let xy := hom_apply H (IZR (fst c), IZR (snd c)) in
         detect_loop H pockets sep r (balls ++ [ball_record name (rconf d) xy])
           (centers ++ [c]))%py
  end.

(** [_detect_and_convert] without the drawing: the document written to
    [cords.json]. *)
Definition detect_and_convert (H : mat3) (ts : string) (ds : list raw_det) : py jval :=
  (Hinv <- inv3 H ;;
   res <- detect_loop H (pockets_px Hinv) (min_sep_px Hinv) (sort_dets ds) [] [] ;;
   ret (JObj [("timestamp"%string, JStr ts); ("balls"%string, JArr (fst res))]))%py.

(** ** Lemmas *)

Definition is_record (b : jval) : Prop := exists n c xy, b = ball_record n c xy.

Definition sqdistZ (a b : Z * Z) : Z := ((fst a - fst b) ^ 2 + (snd a - snd b) ^ 2)%Z.

(** What the loop accumulates: only ball records, one centre per ball,
    no centre in a pocket circle, and every centre at least [sep] away
    from the centres kept before it. *)
Definition loop_inv (pockets : list (R * R)) (sep : R)
    (balls : list jval) (centers : list (Z * Z)) : Prop :=
  Forall is_record balls /\ List.length balls = List.length centers /\
  Forall (fun c => in_pocket pockets c = false) centers /\
  ForallOrdPairs (fun a b => sq sep <= IZR (sqdistZ b a)) centers.

Lemma too_close_false (sep : R) (centers : list (Z * Z)) (c : Z * Z) :
  too_close sep centers c = false -> Forall (fun a => sq sep <= IZR (sqdistZ c a)) centers.
Proof.
  unfold too_close; intros H; apply Forall_forall; intros a Ha.
  assert (Hf : (IZR ((fst c - fst a) ^ 2 + (snd c - snd a) ^ 2) <? sq sep)%geo = false).
  { destruct (existsb_exists (fun c0 => (IZR ((fst c - fst c0) ^ 2 + (snd c - snd c0) ^ 2)
                                           <? sq sep)%geo) centers) as [_ Hx].
    destruct (IZR _ <? sq sep)%geo eqn:E; [|reflexivity].
    rewrite Hx in H; [discriminate | exists a; auto]. }
  unfold sqdistZ; destruct (Rltb_spec (IZR ((fst c - fst a) ^ 2 + (snd c - snd a) ^ 2)) (sq sep));
    [discriminate | lra].
Qed.

Lemma detect_loop_inv (H : mat3) (pockets : list (R * R)) (sep : R) (ds : list raw_det)
    (balls balls' : list jval) (centers centers' : list (Z * Z)) :
  loop_inv pockets sep balls centers ->
  detect_loop H pockets sep ds balls centers = ret (balls', centers') ->
  loop_inv pockets sep balls' centers'.
Proof.
  revert balls centers; induction ds as [|d ds IH]; intros balls centers Hinv Hl; cbn [detect_loop] in Hl.
  - injection Hl as <- <-; exact Hinv.
  - destruct (in_pocket pockets (center d)) eqn:Hp; [exact (IH _ _ Hinv Hl)|].
    destruct (too_close sep centers (center d)) eqn:Hc; [exact (IH _ _ Hinv Hl)|].
    destruct (class_name (rcls d)) as [e|name]; cbn [bind] in Hl; [discriminate|].
    eapply IH; [|exact Hl]; destruct Hinv as [Hr [Hlen [Hpk Hsep]]]; repeat split.
    + apply Forall_app; split; [exact Hr | constructor; [eexists _, _, _; reflexivity | constructor]].
    + rewrite !length_app, Hlen; reflexivity.
    + apply Forall_app; split; [exact Hpk | constructor; [exact Hp | constructor]].
    + apply ForallOrdPairs_snoc; [exact Hsep | apply too_close_false, Hc].
Qed.

Lemma record_no_cx_cm (b : jval) : is_record b -> getitem b "cx_cm" = raise (KeyError "cx_cm").
Proof. intros [n [c [xy ->]]]; reflexivity. Qed.

(** Every file the detector writes holds only ball records. *)
Lemma detect_records (H : mat3) (ts : string) (ds : list raw_det) (doc : jval) :
  detect_and_convert H ts ds = ret doc ->
  exists Hinv balls centers, inv3 H = ret Hinv /\
    doc = JObj [("timestamp"%string, JStr ts); ("balls"%string, JArr balls)] /\
    loop_inv (pockets_px Hinv) (min_sep_px Hinv) balls centers.
Proof.
  unfold detect_and_convert; intros E.
  destruct (inv3 H) as [e|Hinv]; cbn [bind] in E; [discriminate|].
  destruct (detect_loop H _ _ (sort_dets ds) [] []) as [e|[balls centers]] eqn:L;
    cbn [bind] in E; [discriminate|]; injection E as <-.
  exists Hinv, balls, centers; split; [reflexivity|]; split; [reflexivity|].
  refine (detect_loop_inv _ _ _ _ _ _ _ _ _ L).
  repeat split; constructor.
Qed.

(** The driver fails on the detector's files. *)
Lemma detector_doc_rejected (H : mat3) (ts : string) (ds : list raw_det) (doc : jval)
    (t : target_arg) :
  detect_and_convert H ts ds = ret doc -> plan_shot_from_json (ret doc) t = None.
Proof.
  intros E; destruct (detect_records H ts ds doc E) as [Hinv [balls [centers [_ [-> [Hr _]]]]]].
  apply plan_shot_missing_cx_cm; intros d raw items b Hd Hraw Hi Hb.
  injection Hd as <-; injection Hraw as <-; injection Hi as <-.
  exists (KeyError "cx_cm"); apply record_no_cx_cm.
  exact (proj1 (Forall_forall _ _) Hr b Hb).
Qed.

(** ** Properties *)

(** C5: the driver rejects every file the detector writes: whatever the
    homography, the detections and the target argument, the balls of
    [cords.json] carry their centre under ["x_cm"]/["y_cm"], reading
    ["cx_cm"] raises [KeyError], and [plan_shot_from_json] returns [None]
    (so [main.py] always answers ["200"]). *)
Theorem detector_output_rejected (H : mat3) (ts : string) (ds : list raw_det) (doc : jval)
    (t : target_arg) :
  detect_and_convert H ts ds = ret doc -> plan_shot_from_json (ret doc) t = None.
Proof. apply detector_doc_rejected. Qed.

(** C27: the detector's filter: a file is written only when [H] is
    invertible, and then it has one centre per written ball, no centre
    within [POCKET_R_PX] of a pocket (mapped through [H^-1]), and any two
    kept centres at least [min_sep_px] apart. *)
Theorem detect_separated (H : mat3) (ts : string) (ds : list raw_det) (doc : jval) :
  detect_and_convert H ts ds = ret doc ->
  exists Hinv balls centers, inv3 H = ret Hinv /\
    doc = JObj [("timestamp"%string, JStr ts); ("balls"%string, JArr balls)] /\
    List.length balls = List.length centers /\
    Forall (fun c => in_pocket (pockets_px Hinv) c = false) centers /\
    ForallOrdPairs (fun a b => sq (min_sep_px Hinv) <= IZR (sqdistZ b a)) centers.
Proof.
  intros E; destruct (detect_records H ts ds doc E) as [Hinv [balls [centers [Hi [-> [_ [Hl [Hp Hs]]]]]]]].
  exists Hinv, balls, centers; auto.
Qed.

Local Abbreviation H10 := (Mat3 0.1 0 0 0 0.1 0 0 0 1).

Lemma detect_empty :
  detect_and_convert H10 "20250101_000000" [] =
  ret (JObj [("timestamp"%string, JStr "20250101_000000"); ("balls"%string, JArr [])]).
Proof.
  unfold detect_and_convert, inv3; destruct (Reqb_spec (det3 H10) 0) as [E|_]; [|reflexivity].
  unfold det3 in E; cbn [m00 m01 m02 m10 m11 m12 m20 m21 m22] in E; lra.
Qed.

Lemma detector_output_rejected_witness :
  detect_and_convert H10 "20250101_000000" [] =
    ret (JObj [("timestamp"%string, JStr "20250101_000000"); ("balls"%string, JArr [])]) /\
  plan_shot_from_json
    (ret (JObj [("timestamp"%string, JStr "20250101_000000"); ("balls"%string, JArr [])]))
    (TargetStr "min") = None.
Proof. split; [exact detect_empty | exact (detector_output_rejected _ _ _ _ _ detect_empty)]. Defined.

Lemma detect_separated_witness :
  exists Hinv balls centers, inv3 H10 = ret Hinv /\
    JObj [("timestamp"%string, JStr "20250101_000000"); ("balls"%string, JArr [])] =
      JObj [("timestamp"%string, JStr "20250101_000000"); ("balls"%string, JArr balls)] /\
    List.length balls = List.length centers /\
    Forall (fun c => in_pocket (pockets_px Hinv) c = false) centers /\
    ForallOrdPairs (fun a b => sq (min_sep_px Hinv) <= IZR (sqdistZ b a)) centers.
Proof. exact (detect_separated _ _ _ _ detect_empty). Defined.
