(* ===== verification/Hough.v ===== *)
(** * The Hough-circle detector ([src/main/vision/houghball.py])

    The second detector of the repository finds balls with
    [cv2.HoughCircles], drops circles in a pocket, names each ball from
    the mean HSV colour and the share of white pixels in its disc
    ([classify_ball]), and writes the centre in centimetres by a linear
    scale under ["cx_cm"]/["cy_cm"], the keys [run_shot] reads.  The
    camera, the blur and the circle transform are not modelled: the
    circles and the colour statistics of each disc are the input.  The
    module [HoughBall] keeps the file's constants apart from those of
    [yoloball.py] ([Vision]), which have the same names and other values. *)

From Stdlib Require Import Reals Lra List Bool String ZArith Lia.
From S2P Require Import Prelude Api Json RunShot.
Import ListNotations.
Open Scope R_scope.

Local Open Scope string_scope.

Module HoughBall.

(** ** Constants (lines 19-43) *)

Definition TABLE_W_CM : R := 73.
Definition TABLE_H_CM : R := 40.
Definition POCKET_R_PX : Z := 70.
Definition POCKET_OFFSET_PX : Z := 75.

(** [COLOR_RANGES], in the dict's order: name, lower and upper HSV bounds. *)
Definition COLOR_RANGES : list (string * (R * R * R) * (R * R * R)) :=
  [("yellow", (20, 80, 80), (35, 255, 255));
   ("blue", (90, 80, 80), (120, 255, 255));
   ("red1", (0, 80, 80), (10, 255, 255));
   ("red2", (170, 80, 80), (180, 255, 255));
   ("purple", (130, 60, 60), (150, 255, 255));
   ("orange", (10, 100, 100), (20, 255, 255));
   ("green", (40, 60, 60), (80, 255, 255));
   ("maroon", (160, 70, 40), (175, 255, 180));
   ("black", (0, 0, 0), (180, 255, 60))]%string.

(** [COLOR_TO_BALL[base]]: the solid and the striped ball of a colour. *)
Definition COLOR_TO_BALL (base : string) : py (string * string) :=
  if String.eqb base "yellow" then ret ("1", "9")
  else if String.eqb base "blue" then ret ("2", "10")
  else if String.eqb base "red" then ret ("3", "11")
  else if String.eqb base "purple" then ret ("4", "12")
  else if String.eqb base "orange" then ret ("5", "13")
  else if String.eqb base "green" then ret ("6", "14")
  else if String.eqb base "maroon" then ret ("7", "15")
  else raise (KeyError base).

(** ** [classify_ball] (lines 46-60) *)

(** What [classify_ball] computes from the pixels of a disc: their number,
    the mean hue, saturation and value, and the share of white pixels
    ([v > 200] and [s < 25]). *)
Record hsv_stats := Stats { npix : nat; mh : R; ms : R; mv : R; white_ratio : R }.

Definition in_range (lo x hi : R) : bool := (lo <=? x)%geo && (x <=? hi)%geo.

(** One entry of the [for name, (lo, hi) in COLOR_RANGES.items()] loop:
    [None] to go on with the next entry. *)
Definition try_color (st : hsv_stats) (entry : string * (R * R * R) * (R * R * R))
    : option (py string) :=
  let '(name, (l0, l1, l2), (u0, u1, u2)) := entry in
  let base := if String.prefix "red" name then "red"%string else name in
  let hue_ok := if (l0 <=? u0)%geo then in_range l0 (mh st) u0
                else ((l0 <=? mh st)%geo || (mh st <=? u0)%geo) in
  if negb hue_ok || negb (in_range l1 (ms st) u1 && in_range l2 (mv st) u2) then None
  else if String.eqb base "black" then Some (ret "8"%string)
  else Some (p <- COLOR_TO_BALL base ;;
             let '(solid, stripe) := p in
             ret (if (0.25 <? white_ratio st)%geo then stripe else solid))%py.

Fixpoint first_color (st : hsv_stats) (l : list (string * (R * R * R) * (R * R * R)))
    : py (option string) :=
  match l with
  | [] => ret None
  | e :: r =>
      match try_color st e with
      | Some res => (s <- res ;; ret (Some s))%py
      | None => first_color st r
      end
  end.

Definition classify_ball (st : hsv_stats) : py (option string) :=
  if Nat.eqb (npix st) 0 then ret None
  else if (0.7 <? white_ratio st)%geo then ret (Some "0"%string)
  else if ((mv st <? 70)%geo && (ms st <? 60)%geo)%bool then ret (Some "8"%string)
  else first_color st COLOR_RANGES.

(** ** The scan (lines 70-122) *)

(** The six pocket centres in pixels for an image of [W_img] by [H_img]. *)
Definition pockets (W_img H_img : Z) : list (Z * Z) :=
  [(POCKET_OFFSET_PX, POCKET_OFFSET_PX);
   (W_img - POCKET_OFFSET_PX, POCKET_OFFSET_PX);
   (W_img - POCKET_OFFSET_PX, H_img - POCKET_OFFSET_PX);
   (POCKET_OFFSET_PX, H_img - POCKET_OFFSET_PX);
   (W_img / 2, POCKET_OFFSET_PX / 2);
   (W_img / 2, H_img - POCKET_OFFSET_PX / 2)]%Z.

Definition in_pocket (W_img H_img : Z) (cx cy : Z) : bool :=
  existsb (fun p => ((cx - fst p) ^ 2 + (cy - snd p) ^ 2 <=? POCKET_R_PX ^ 2)%Z)
    (pockets W_img H_img).

(** The dict appended for a ball (lines 113-122): [x_cm = cx / scale_x]
    with [scale_x = W_img / TABLE_W_CM], and likewise for [y]. *)
Definition hough_record (W_img H_img : Z) (ball_id : string) (cx cy : Z) : jval :=
  let x_cm := IZR cx / (IZR W_img / TABLE_W_CM) in
  let y_cm := IZR cy / (IZR H_img / TABLE_H_CM) in
  JObj [("type"%string, JStr ball_id); ("conf"%string, JNum 1.0);
        ("cx_cm"%string, JNum (py_round x_cm 2)); ("cy_cm"%string, JNum (py_round y_cm 2))].

(** The loop over the circles [(cx, cy, r)]; [stats] gives the colour
    statistics of the disc of each circle. *)
Fixpoint scan (W_img H_img : Z) (stats : Z * Z * Z -> hsv_stats) (circles : list (Z * Z * Z))
    : py (list jval) :=
  match circles with
  | [] => ret []
  | c :: rest =>
      let '(cx, cy, r) := c in
      if in_pocket W_img H_img cx cy then scan W_img H_img stats rest
      else
        (id <- classify_ball (stats c) ;;
         match id with
         | None => scan W_img H_img stats rest
         | Some ball_id =>
             (tl <- scan W_img H_img stats rest ;;
              ret (hough_record W_img H_img ball_id cx cy :: tl))
         end)%py
  end.

(** The document written to [CORDS.json] (line 133). *)
Definition hough_doc (W_img H_img : Z) (stats : Z * Z * Z -> hsv_stats)
    (circles : list (Z * Z * Z)) (ts : string) : py jval :=
  (balls <- scan W_img H_img stats circles ;;
   ret (JObj [("timestamp"%string, JStr ts); ("balls"%string, JArr balls)]))%py.

End HoughBall.

Module HoughFacts.
Import HoughBall.

(** ** Lemmas *)

(** The ball numbers a detector may write. *)
Definition ball_number (s : string) : Prop := exists n, (0 <= n <= 15)%Z /\ s = py_str_Z n.

Ltac ball_id :=
  let try_n n := (exists n; split; [lia | reflexivity]) in
  first [ try_n 1%Z | try_n 2%Z | try_n 3%Z | try_n 4%Z | try_n 5%Z | try_n 6%Z
        | try_n 7%Z | try_n 8%Z | try_n 9%Z | try_n 10%Z | try_n 11%Z | try_n 12%Z
        | try_n 13%Z | try_n 14%Z | try_n 15%Z | try_n 0%Z ].

Lemma try_color_id (st : hsv_stats) (e : string * (R * R * R) * (R * R * R)) :
  In e COLOR_RANGES ->
  try_color st e = None \/
  exists s, try_color st e = Some (ret s) /\ ball_number s /\ s <> "0".
Proof.
  intros He; repeat destruct He as [<-|He]; try destruct He; unfold try_color;
    cbn [String.prefix String.eqb Ascii.ascii_dec Ascii.eqb Bool.eqb];
    destruct (negb _ || negb _); [left; reflexivity | | left; reflexivity | | left; reflexivity | |
      left; reflexivity | | left; reflexivity | | left; reflexivity | | left; reflexivity | |
      left; reflexivity | | left; reflexivity | ]; right; cbn;
    try (destruct (0.25 <? white_ratio st)%geo);
    eexists; (split; [reflexivity | split; [ball_id | discriminate]]).
Qed.

Lemma first_color_id (st : hsv_stats) (l : list (string * (R * R * R) * (R * R * R))) :
  incl l COLOR_RANGES ->
  first_color st l = ret None \/
  exists s, first_color st l = ret (Some s) /\ ball_number s /\ s <> "0".
Proof.
  induction l as [|e l IH]; intros Hl; [left; reflexivity|]; cbn [first_color].
  destruct (try_color_id st e (Hl e (or_introl eq_refl))) as [-> | [s [-> Hs]]].
  - apply IH; intros x Hx; apply Hl; right; exact Hx.
  - right; exists s; auto.
Qed.

Lemma classify_id (st : hsv_stats) :
  classify_ball st = ret None \/ exists s, classify_ball st = ret (Some s) /\ ball_number s.
Proof.
  unfold classify_ball; destruct (Nat.eqb (npix st) 0); [left; reflexivity|].
  destruct (0.7 <? white_ratio st)%geo; [right; eexists; split; [reflexivity | ball_id]|].
  destruct ((mv st <? 70)%geo && (ms st <? 60)%geo)%bool; [right; eexists; split; [reflexivity | ball_id]|].
  destruct (first_color_id st COLOR_RANGES (incl_refl _)) as [H|[s [H [Hs _]]]]; [left | right];
    eauto.
Qed.

Lemma select_balls_same (d1 d2 : jval) (t : target_arg) :
  getitem d1 "balls" = getitem d2 "balls" -> select_balls (ret d1) t = select_balls (ret d2) t.
Proof. intros H; unfold select_balls; cbn [bind ret]; rewrite H; reflexivity. Qed.

Lemma plan_shot_same (d1 d2 : jval) (t : target_arg) :
  getitem d1 "balls" = getitem d2 "balls" ->
  plan_shot_from_json (ret d1) t = plan_shot_from_json (ret d2) t.
Proof.
  intros H; unfold plan_shot_from_json, plan_shot_body; rewrite (select_balls_same d1 d2 t H).
  reflexivity.
Qed.

Lemma hough_record_det (W_img H_img : Z) (n : Z) (cx cy : Z) :
  hough_record W_img H_img (py_str_Z n) cx cy =
  det_json (Det n 1.0 (py_round (IZR cx / (IZR W_img / TABLE_W_CM)) 2)
                      (py_round (IZR cy / (IZR H_img / TABLE_H_CM)) 2)).
Proof. reflexivity. Qed.

(** Every ball the scan writes is a well-formed detection of confidence
    [1.0] with a ball number. *)
Lemma scan_dets (W_img H_img : Z) (stats : Z * Z * Z -> hsv_stats) (circles : list (Z * Z * Z)) :
  exists ds, scan W_img H_img stats circles = ret (map det_json ds) /\
    Forall (fun d => (0 <= dnum d <= 15)%Z /\ dconf d = 1.0) ds.
Proof.
  induction circles as [|[[cx cy] r] rest IH]; [exists []; split; [reflexivity | constructor]|].
  destruct IH as [ds [Hs Hf]]; cbn [scan].
  destruct (in_pocket W_img H_img cx cy); [exists ds; auto|].
  destruct (classify_id (stats (cx, cy, r))) as [E|[s [E [n [Hn ->]]]]]; rewrite E; cbn [bind ret];
    [exists ds; auto|].
  rewrite Hs; cbn [bind ret].
  exists (Det n 1.0 (py_round (IZR cx / (IZR W_img / TABLE_W_CM)) 2)
                  (py_round (IZR cy / (IZR H_img / TABLE_H_CM)) 2) :: ds).
  split; [reflexivity | constructor; [cbn; auto | exact Hf]].
Qed.

(** ** Properties *)

(** C10: the driver reads the Hough detector's files: every file
    [houghball.capture_balls] writes is the timestamp and the records
    [det_json] of a list of detections of confidence [1.0] with ball
    numbers 0 to 15, under the keys [cx_cm]/[cy_cm] the driver reads, and
    [plan_shot_from_json] treats it as that list (the timestamp is not
    read), so the selection of [select_min_dets] applies to it. *)
Theorem hough_doc_accepted (W_img H_img : Z) (stats : Z * Z * Z -> hsv_stats)
    (circles : list (Z * Z * Z)) (ts : string) (t : target_arg) :
  exists ds,
    hough_doc W_img H_img stats circles ts =
      ret (JObj [("timestamp"%string, JStr ts); ("balls"%string, JArr (map det_json ds))]) /\
    Forall (fun d => (0 <= dnum d <= 15)%Z /\ dconf d = 1.0) ds /\
    plan_shot_from_json (hough_doc W_img H_img stats circles ts) t =
      plan_shot_from_json (ret (det_doc ds)) t.
Proof.
  destruct (scan_dets W_img H_img stats circles) as [ds [Hs Hf]].
  exists ds; unfold hough_doc; rewrite Hs; split; [reflexivity | split; [exact Hf|]].
  apply plan_shot_same; reflexivity.
Qed.

(** [classify_ball] names the cue ball exactly when the disc has
    pixels and more than 70% of them are white; every other name it gives
    is a ball number from 1 to 15, and it never raises. *)
Theorem classify_cue_iff (st : hsv_stats) :
  (classify_ball st = ret (Some "0") <-> npix st <> 0%nat /\ 0.7 < white_ratio st) /\
  (classify_ball st = ret None \/ exists s, classify_ball st = ret (Some s) /\ ball_number s).
Proof.
  split; [|apply classify_id].
  unfold classify_ball; destruct (Nat.eqb_spec (npix st) 0) as [H0|H0];
    [split; [discriminate | intros [H _]; contradiction]|].
  destruct (Rltb_spec 0.7 (white_ratio st)) as [Hw|Hw]; [split; auto|].
  split; [|intros [_ H]; lra].
  destruct ((mv st <? 70)%geo && (ms st <? 60)%geo)%bool; [discriminate|].
  destruct (first_color_id st COLOR_RANGES (incl_refl _)) as [H|[s [H [_ Hs]]]]; rewrite H;
    [discriminate | intros E; injection E as E; contradiction].
Qed.

(** the Hough detector scales [y] by a table 40 cm high while the
    solver's table ([billiard_api.TABLE]) is 37.5 cm high: a ball seen on
    the bottom row of the image is written 40 cm from the top rail, off
    the solver's table. *)
Theorem hough_bottom_row (W_img H_img : Z) (ball_id : string) (cx : Z) :
  (0 < H_img)%Z ->
  getitem (hough_record W_img H_img ball_id cx H_img) "cy_cm" = ret (JNum 40) /\
  snd TABLE * 100 < 40.
Proof.
  intros Hh; split; [|unfold TABLE; cbn; lra].
  assert (H0 : 0 < IZR H_img) by (apply IZR_lt; exact Hh).
  cbn [hough_record getitem assoc String.eqb Ascii.eqb Bool.eqb]; unfold TABLE_H_CM.
  replace (IZR H_img / (IZR H_img / 40)) with (IZR 4000 / 10 ^ 2) by (cbn; field; lra).
  rewrite py_round_decimal; f_equal; f_equal; cbn; lra.
Qed.

End HoughFacts.

Module HoughWitness.
Import HoughBall HoughFacts.

Lemma hough_bottom_row_witness :
  getitem (hough_record 1280 720 "3" 640 720) "cy_cm" = ret (JNum 40) /\ snd TABLE * 100 < 40.
Proof. exact (hough_bottom_row 1280 720 "3" 640 ltac:(lia)). Defined.

End HoughWitness.
