(* ===== verification/Schema.v ===== *)
(** * The JSON documents exchanged by the detectors and the driver

    [yoloball.capture_balls] and [houghball.capture_balls] write a JSON
    document of detected balls, and [run_shot.plan_shot_from_json] reads
    one.  Nothing in the code states the format: this file states it as
    types of JSON values ([jty], with open records as in [json.load]'s
    dicts, which may hold more keys than the reader looks at), with a
    typing judgment [jtyped] and an executable checker [jcheck] that
    decides it.  [yolo_doc_ty] is what [_detect_and_convert] writes,
    [shot_doc_ty] what the driver reads; on a document of [shot_doc_ty]
    the driver never raises [KeyError] or [TypeError]: it fails only for
    the reasons the code raises on purpose ([RuntimeError]), a missing
    cue ball ([StopIteration] from [next]) or a missing candidate target
    ([ValueError] from [max]/[min]).  The proofs go through a small
    program logic for the [py] monad ([py_spec]). *)

From Stdlib Require Import Reals Lra List Bool String ZArith Lia.
From S2P Require Import Prelude Geometry Solver Api Json RunShot Vision Hough.
Import ListNotations.
Open Scope R_scope.
Local Open Scope string_scope.
#[local] Set Warnings "-register-all".

(** ** Types of JSON values *)

Inductive jty :=
| TAny
| TNum
| TStr
| TIntStr
| TArr (t : jty)
| TObj (fs : list (string * jty)).

(** [v : t]: [TNum] a number, [TStr] a string, [TIntStr] a string that
    [int()] accepts, [TArr t] a list of [t], [TObj fs] a dict binding each
    key of [fs] to a value of its type (other keys allowed). *)
Inductive jtyped : jval -> jty -> Prop :=
| ty_any v : jtyped v TAny
| ty_num r : jtyped (JNum r) TNum
| ty_str s : jtyped (JStr s) TStr
| ty_intstr s n : py_int_of_string s = ret n -> jtyped (JStr s) TIntStr
| ty_arr l t : Forall (fun v => jtyped v t) l -> jtyped (JArr l) (TArr t)
| ty_obj kv fs :
    Forall (fun kt => exists v, assoc (fst kt) kv = Some v /\ jtyped v (snd kt)) fs ->
    jtyped (JObj kv) (TObj fs).

Fixpoint jcheck (t : jty) (v : jval) {struct t} : bool :=
  match t, v with
  | TAny, _ => true
  | TNum, JNum _ => true
  | TStr, JStr _ => true
  | TIntStr, JStr s => match py_int_of_string s with inr _ => true | inl _ => false end
  | TArr t', JArr l => forallb (jcheck t') l
  | TObj fs, JObj kv =>
      (fix go (fs : list (string * jty)) : bool :=
         match fs with
         | [] => true
         | (k, t') :: r => match assoc k kv with Some w => jcheck t' w && go r | None => false end
         end) fs
  | _, _ => false
  end.

(** Induction on types, through the fields of records. *)
Definition jty_ind' (P : jty -> Prop) (fany : P TAny) (fnum : P TNum) (fstr : P TStr)
    (fint : P TIntStr) (farr : forall t, P t -> P (TArr t))
    (fobj : forall fs, Forall (fun kt => P (snd kt)) fs -> P (TObj fs)) : forall t, P t :=
  fix F (t : jty) : P t :=
    match t with
    | TAny => fany
    | TNum => fnum
    | TStr => fstr
    | TIntStr => fint
    | TArr t' => farr t' (F t')
    | TObj fs =>
        fobj fs ((fix G (fs : list (string * jty)) : Forall (fun kt => P (snd kt)) fs :=
                    match fs with
                    | [] => Forall_nil _
                    | kt :: r => Forall_cons kt (F (snd kt)) (G r)
                    end) fs)
    end.

(** ** The documents *)

(** A ball as [plan_shot_from_json] reads it (lines 51-74). *)
Definition shot_ball_ty : jty :=
  TObj [("type", TIntStr); ("conf", TNum); ("cx_cm", TNum); ("cy_cm", TNum)].
Definition shot_doc_ty : jty := TObj [("balls", TArr shot_ball_ty)].

(** A ball as [yoloball._detect_and_convert] writes it (line 143). *)
Definition yolo_ball_ty : jty :=
  TObj [("type", TIntStr); ("conf", TNum); ("x_cm", TNum); ("y_cm", TNum)].
Definition yolo_doc_ty : jty := TObj [("timestamp", TStr); ("balls", TArr yolo_ball_ty)].

(** The errors [plan_shot_from_json] is written to fail with. *)
Definition driver_error (e : exn) : bool :=
  match e with RuntimeError _ | StopIteration | ValueError => true | _ => false end.

(** ** A program logic for [py] *)

(** [c] returns a value satisfying [Q], or raises an exception satisfying
    [E]. *)
Definition py_spec {A : Type} (E : exn -> Prop) (Q : A -> Prop) (c : py A) : Prop :=
  match c with inl e => E e | inr x => Q x end.

(** ** Lemmas *)

Lemma jcheck_spec (t : jty) (v : jval) : jcheck t v = true <-> jtyped v t.
Proof.
  revert v; induction t as [| | | |t IH|fs IH] using jty_ind'; intros v; split.
  - intros _; constructor.
  - reflexivity.
  - destruct v; try discriminate; constructor.
  - intros H; inversion H; reflexivity.
  - destruct v; try discriminate; constructor.
  - intros H; inversion H; reflexivity.
  - destruct v; try discriminate; cbn; destruct (py_int_of_string s) eqn:E; [discriminate|].
    intros _; econstructor; exact E.
  - intros H; inversion H as [| | |s n E| |]; subst; cbn; rewrite E; reflexivity.
  - destruct v; try discriminate; intros H; constructor; apply Forall_forall; intros w Hw.
    apply IH, (proj1 (forallb_forall _ _) H _ Hw).
  - intros H; inversion H as [| | | |l t' Hl|]; subst; cbn; apply forallb_forall.
    intros w Hw; apply IH; rewrite Forall_forall in Hl; auto.
  - destruct v as [| | | | |kv]; try discriminate; intros H; constructor.
    induction IH as [|[k t] fs Ht _ IHfs]; [constructor|]; cbn in H.
    destruct (assoc k kv) as [w|] eqn:E; [|discriminate].
    apply andb_prop in H as [H1 H2]; constructor; [exists w; split; [exact E | apply Ht, H1]|].
    apply IHfs, H2.
  - intros H; inversion H as [| | | | |kv fs' Hv]; subst; cbn; clear H.
    induction IH as [|[k t] fs Ht _ IHfs]; [reflexivity|].
    inversion Hv as [|? ? [w [E Hw]] Hr]; subst; cbn in E |- *; rewrite E.
    apply andb_true_intro; split; [apply Ht, Hw | apply IHfs, Hr].
Qed.

(** *** Rules of the program logic *)

Section Rules.
Context (E : exn -> Prop).

Lemma py_spec_ret {A : Type} (Q : A -> Prop) (x : A) : Q x -> py_spec E Q (ret x).
Proof. exact (fun H => H). Qed.

Lemma py_spec_raise {A : Type} (Q : A -> Prop) (e : exn) : E e -> py_spec E Q (raise e).
Proof. exact (fun H => H). Qed.

Lemma py_spec_bind {A B : Type} (Q : A -> Prop) (R : B -> Prop) (c : py A) (k : A -> py B) :
  py_spec E Q c -> (forall x, Q x -> py_spec E R (k x)) -> py_spec E R (bind c k).
Proof. destruct c; cbn; auto. Qed.

Lemma py_spec_weaken {A : Type} (Q Q' : A -> Prop) (c : py A) :
  (forall x, Q x -> Q' x) -> py_spec E Q c -> py_spec E Q' c.
Proof. destruct c; cbn; auto. Qed.

(** The builtins over a list of values of [P], for tests and keys that
    only raise exceptions of [E] on them. *)
Context {A : Type} (P : A -> Prop).

Lemma py_filter_spec (p : A -> py bool) (l : list A) :
  (forall x, P x -> py_spec E (fun _ => True) (p x)) -> Forall P l ->
  py_spec E (Forall P) (py_filter p l).
Proof.
  intros Hp; induction 1 as [|x l Hx Hl IH]; cbn [py_filter]; [constructor|].
  apply (py_spec_bind _ _ _ _ (Hp x Hx)); intros b _.
  apply (py_spec_bind _ _ _ _ IH); intros l' Hl'.
  destruct b; apply py_spec_ret; auto.
Qed.

Lemma py_next_spec (p : A -> py bool) (l : list A) :
  (forall x, P x -> py_spec E (fun _ => True) (p x)) -> Forall P l ->
  py_spec E (fun o => forall x, o = Some x -> P x) (py_next p l).
Proof.
  intros Hp; induction 1 as [|x l Hx Hl IH]; cbn [py_next]; [discriminate|].
  apply (py_spec_bind _ _ _ _ (Hp x Hx)); intros [|] _; [|exact IH].
  apply py_spec_ret; intros y [= <-]; exact Hx.
Qed.

Lemma py_best_spec {K : Type} (Kp : K -> Prop) (better : K -> K -> py bool)
    (p : A -> py bool) (key : A -> py K) (l : list A) :
  (forall x, P x -> py_spec E (fun _ => True) (p x)) ->
  (forall x, P x -> py_spec E Kp (key x)) ->
  (forall a b, Kp a -> Kp b -> py_spec E (fun _ => True) (better a b)) ->
  E ValueError -> Forall P l -> py_spec E P (py_best better p key l).
Proof.
  intros Hp Hk Hb Hv Hl; unfold py_best.
  apply (py_spec_bind (fun o => match o with Some (y, ky) => P y /\ Kp ky | None => True end));
    [|intros [[y ky]|] Hy; [apply py_spec_ret, Hy | exact Hv]].
  enough (Hloop : forall best, match best with Some (y, ky) => P y /\ Kp ky | None => True end ->
    py_spec E (fun o => match o with Some (y, ky) => P y /\ Kp ky | None => True end)
      (py_best_loop better p key best l)) by exact (Hloop None I).
  induction Hl as [|x l Hx Hl IH]; intros best Hbest; cbn [py_best_loop]; [exact Hbest|].
  apply (py_spec_bind _ _ _ _ (Hp x Hx)); intros [|] _; [|apply IH, Hbest].
  apply (py_spec_bind _ _ _ _ (Hk x Hx)); intros k Hkx.
  destruct best as [[y ky]|]; [|apply IH; auto].
  apply (py_spec_bind _ _ _ _ (Hb k ky Hkx (proj2 Hbest))); intros [|] _; apply IH; tauto.
Qed.

Lemma py_map_spec {B : Type} (Q : B -> Prop) (f : A -> py B) (l : list A) :
  (forall x, P x -> py_spec E Q (f x)) -> Forall P l -> py_spec E (Forall Q) (py_map f l).
Proof.
  intros Hf; induction 1 as [|x l Hx Hl IH]; cbn [py_map]; [constructor|].
  apply (py_spec_bind _ _ _ _ (Hf x Hx)); intros y Hy.
  apply (py_spec_bind _ _ _ _ IH); intros l' Hl'; apply py_spec_ret; constructor; assumption.
Qed.

End Rules.

(** *** Typed values *)

Lemma field_typed (v : jval) (fs : list (string * jty)) (k : string) (t : jty) :
  jtyped v (TObj fs) -> In (k, t) fs -> exists w, getitem v k = ret w /\ jtyped w t.
Proof.
  intros H Hin; inversion H as [| | | | |kv ? Hf]; subst; rewrite Forall_forall in Hf.
  destruct (Hf _ Hin) as [w [Ew Hw]]; exists w; cbn [getitem fst snd] in *; rewrite Ew; auto.
Qed.

Ltac field_of H k t :=
  let w := fresh "w" in let Ew := fresh "Ew" in let Hw := fresh "Hw" in
  destruct (field_typed _ _ k t H) as [w [Ew Hw]]; [cbn; tauto | inversion Hw; subst].

Lemma shot_ball_fields (b : jval) : jtyped b shot_ball_ty ->
  (exists s n, getitem b "type" = ret (JStr s) /\ py_int_of_string s = ret n) /\
  (exists c, getitem b "conf" = ret (JNum c)) /\
  (exists x, getitem b "cx_cm" = ret (JNum x)) /\ (exists y, getitem b "cy_cm" = ret (JNum y)).
Proof.
  intros Hb; field_of Hb "type" TIntStr; field_of Hb "conf" TNum;
    field_of Hb "cx_cm" TNum; field_of Hb "cy_cm" TNum; repeat split; eauto.
Qed.

Section Typed.
Context (E : exn -> Prop).
Hypothesis E_runtime : forall m, E (RuntimeError m).
Hypothesis E_stop : E StopIteration.
Hypothesis E_value : E ValueError.

Local Abbreviation typed_ball b := (jtyped b shot_ball_ty).

Lemma confident_typed (b : jval) : typed_ball b -> py_spec E (fun _ => True) (confident b).
Proof. intros Hb; destruct (shot_ball_fields b Hb) as [_ [[c Hc] _]]; unfold confident; rewrite Hc; exact I. Qed.

Lemma type_is_typed (s : string) (b : jval) : typed_ball b -> py_spec E (fun _ => True) (type_is s b).
Proof. intros Hb; destruct (shot_ball_fields b Hb) as [[t [n [Ht _]]] _]; unfold type_is; rewrite Ht; exact I. Qed.

Lemma not_cue_typed (b : jval) : typed_ball b -> py_spec E (fun _ => True) (not_cue b).
Proof. intros Hb; destruct (shot_ball_fields b Hb) as [[t [n [Ht _]]] _]; unfold not_cue; rewrite Ht; exact I. Qed.

Lemma ball_xy_typed (b : jval) : typed_ball b -> py_spec E (fun _ => True) (ball_xy b).
Proof.
  intros Hb; destruct (shot_ball_fields b Hb) as [_ [_ [[x Hx] [y Hy]]]].
  unfold ball_xy; rewrite Hx, Hy; exact I.
Qed.

Lemma pick_target_typed (t : target_arg) (balls : list jval) :
  Forall (fun b => typed_ball b) balls -> py_spec E (fun b => typed_ball b) (pick_target t balls).
Proof.
  intros Hl; assert (Hbest : forall K (Kp : K -> Prop) better key,
    (forall b, typed_ball b -> py_spec E Kp (key b)) ->
    (forall a b, Kp a -> Kp b -> py_spec E (fun _ => True) (better a b)) ->
    py_spec E (fun b => typed_ball b) (py_best better not_cue key balls))
    by (intros; apply py_best_spec with (Kp := Kp); auto using not_cue_typed).
  assert (Hnext : py_spec E (fun b => typed_ball b)
    (o <- py_next (type_is (target_str t)) balls ;;
     match o with Some b => ret b | None => raise (RuntimeError "target not found") end)%py).
  { apply (py_spec_bind _ _ _ _ _ (py_next_spec _ _ _ _ (type_is_typed _) Hl)).
    intros [b|] Hb; [apply Hb; reflexivity | apply E_runtime]. }
  assert (Hmin : py_spec E (fun b => typed_ball b)
    (py_best (fun a b => ret (a <? b)%Z) not_cue
       (fun b => (v <- getitem b "type" ;; py_int v)%py) balls)).
  { apply (Hbest Z (fun _ => True)); [|intros; exact I].
    intros b Hb; destruct (shot_ball_fields b Hb) as [[s [n [Ht Hn]]] _]; rewrite Ht; cbn [bind ret py_int].
    rewrite Hn; exact I. }
  destruct t as [|s|n]; unfold pick_target; [| destruct (is_min (TargetStr s)) | ]; auto.
  apply (Hbest jval (fun k => exists c, k = JNum c)).
  - intros b Hb; destruct (shot_ball_fields b Hb) as [_ [[c Hc] _]]; rewrite Hc; exists c; reflexivity.
  - intros a b [x ->] [y ->]; exact I.
Qed.

Lemma select_balls_typed (d : jval) (t : target_arg) : jtyped d shot_doc_ty ->
  py_spec E (fun '(c, tg, blk) => typed_ball c /\ typed_ball tg /\ Forall (fun b => typed_ball b) blk)
    (select_balls (ret d) t).
Proof.
  intros Hd; unfold select_balls; cbn [bind ret].
  destruct (field_typed _ _ "balls" (TArr shot_ball_ty) Hd) as [w [-> Hw]]; [left; reflexivity|].
  inversion Hw as [| | | |l ? Hl|]; subst; cbn [bind py_iter ret].
  apply (py_spec_bind _ _ _ _ _ (py_filter_spec _ _ _ _ confident_typed Hl)); intros balls Hb.
  destruct balls as [|b0 r]; [apply E_runtime|]; unfold py_next_raise.
  apply (py_spec_bind E (fun c => typed_ball c)).
  { apply (py_spec_bind _ _ _ _ _ (py_next_spec _ _ _ _ (type_is_typed "0") Hb)).
    intros [c|] Hc; [apply py_spec_ret, Hc; reflexivity | apply E_stop]. }
  intros c Hc; apply (py_spec_bind _ _ _ _ _ (pick_target_typed t _ Hb)); intros tg Htg.
  apply py_spec_ret; repeat split; auto.
  apply Forall_forall; intros x Hx; apply filter_In in Hx; rewrite Forall_forall in Hb; apply Hb, Hx.
Qed.

Lemma plan_shot_body_typed (d : jval) (t : target_arg) :
  jtyped d shot_doc_ty -> py_spec E (fun _ => True) (plan_shot_body (ret d) t).
Proof.
  intros Hd; unfold plan_shot_body.
  apply (py_spec_bind _ _ _ _ _ (select_balls_typed d t Hd)); intros [[c tg] blk] [Hc [Htg Hblk]].
  apply (py_spec_bind _ _ _ _ _ (ball_xy_typed c Hc)); intros cue_xy _.
  apply (py_spec_bind _ _ _ _ _ (ball_xy_typed tg Htg)); intros target _.
  apply (py_spec_bind _ _ _ _ _ (py_map_spec _ _ _ _ _ ball_xy_typed Hblk)); intros blocks _.
  destruct (compute_shot_returns cue_xy target blocks) as [[sh|] ->]; cbn [bind];
    [exact I | apply E_runtime].
Qed.

End Typed.

(** *** The detectors' documents *)

Lemma class_name_int (c : R) (s : string) :
  class_name c = ret s -> exists n, py_int_of_string s = ret n.
Proof.
  unfold class_name; destruct (_ && _)%bool; [|discriminate].
  destruct (nth_error CLASS_NAMES _) as [s'|] eqn:E; [intros [= <-] | discriminate].
  apply nth_error_In in E; revert s' E; apply Forall_forall.
  repeat constructor; eexists; reflexivity.
Qed.

Lemma ball_record_typed (name : string) (conf : R) (xy : R * R) (n : Z) :
  py_int_of_string name = ret n -> jtyped (ball_record name conf xy) yolo_ball_ty.
Proof. intros Hn; apply jcheck_spec; cbn -[py_int_of_string]; rewrite Hn; reflexivity. Qed.

Lemma detect_loop_typed (H : mat3) (pockets : list (R * R)) (sep : R) (ds : list raw_det)
    (balls : list jval) (centers : list (Z * Z)) :
  Forall (fun b => jtyped b yolo_ball_ty) balls ->
  py_spec (fun _ => True) (fun res => Forall (fun b => jtyped b yolo_ball_ty) (fst res))
    (detect_loop H pockets sep ds balls centers).
Proof.
  revert balls centers; induction ds as [|d ds IH]; intros balls centers Hb; cbn [detect_loop];
    [exact Hb|].
  destruct (in_pocket _ _); [apply IH, Hb|]; destruct (too_close _ _ _); [apply IH, Hb|].
  destruct (class_name (rcls d)) as [e|name] eqn:Ec; [exact I|]; cbn [bind]; apply IH.
  destruct (class_name_int _ _ Ec) as [n Hn].
  apply Forall_app; split; [exact Hb | constructor; [eapply ball_record_typed, Hn | constructor]].
Qed.

Lemma det_json_typed (d : detection) : jtyped (det_json d) shot_ball_ty.
Proof. apply jcheck_spec; cbn -[py_int_of_string py_str_Z]; rewrite int_of_str_Z; reflexivity. Qed.

Lemma det_doc_typed (ts : string) (ds : list detection) :
  jtyped (JObj [("timestamp", JStr ts); ("balls", JArr (map det_json ds))]) shot_doc_ty.
Proof.
  constructor; constructor; [|constructor]; eexists; split; [reflexivity|].
  constructor; apply Forall_forall; intros b Hb; apply in_map_iff in Hb as [d [<- _]].
  apply det_json_typed.
Qed.

Lemma driver_error_spec (e : exn) : driver_error e = true ->
  (exists m, e = RuntimeError m) \/ e = StopIteration \/ e = ValueError.
Proof. destruct e; cbn; try discriminate; eauto. Qed.

(** ** Properties *)

(** C14: every document [yoloball._detect_and_convert] returns has the
    type [yolo_doc_ty]: a timestamp string and a list of dicts whose
    ["type"] is a ball number [int()] accepts (an entry of [CLASS_NAMES])
    and whose ["conf"], ["x_cm"] and ["y_cm"] are numbers. *)
Theorem detect_doc_typed (H : mat3) (ts : string) (ds : list raw_det) (doc : jval) :
  detect_and_convert H ts ds = ret doc -> jtyped doc yolo_doc_ty.
Proof.
  unfold detect_and_convert; intros E.
  destruct (inv3 H) as [e|Hinv]; cbn [bind] in E; [discriminate|].
  pose proof (detect_loop_typed H (pockets_px Hinv) (min_sep_px Hinv) (sort_dets ds) [] [] (Forall_nil _)) as Ht.
  destruct (detect_loop _ _ _ _ _ _) as [e|res]; cbn [bind] in E; [discriminate|].
  injection E as <-; constructor; constructor; [|constructor; [|constructor]];
    eexists; (split; [reflexivity | constructor]); exact Ht.
Qed.

(** C13: type safety of the driver: on a document of type [shot_doc_ty]
    (a ["balls"] list of dicts with an integer ["type"] string and numeric
    ["conf"], ["cx_cm"], ["cy_cm"]), the body of [plan_shot_from_json]
    never raises [KeyError] or [TypeError]: an exception it raises is a
    [RuntimeError] of the code, the [StopIteration] of [next] when there is
    no confident cue ball, or the [ValueError] of [max]/[min] when there is
    no confident other ball. *)
Theorem plan_shot_typed_errors (d : jval) (t : target_arg) (e : exn) :
  jtyped d shot_doc_ty -> plan_shot_body (ret d) t = raise e ->
  (exists m, e = RuntimeError m) \/ e = StopIteration \/ e = ValueError.
Proof.
  intros Hd He; apply driver_error_spec.
  pose proof (plan_shot_body_typed (fun e => driver_error e = true)
    (fun _ => eq_refl) eq_refl eq_refl d t Hd) as Hs.
  rewrite He in Hs; exact Hs.
Qed.

Local Abbreviation H10 := (Mat3 0.1 0 0 0 0.1 0 0 0 1).

Lemma detect_doc_typed_witness :
  detect_and_convert H10 "20250101_000000" [] =
    ret (JObj [("timestamp", JStr "20250101_000000"); ("balls", JArr [])]) /\
  jtyped (JObj [("timestamp", JStr "20250101_000000"); ("balls", JArr [])]) yolo_doc_ty.
Proof. split; [exact detect_empty | apply (detect_doc_typed H10 "20250101_000000" []); exact detect_empty]. Defined.

Lemma plan_shot_typed_errors_witness :
  jtyped (det_doc []) shot_doc_ty /\
  plan_shot_body (ret (det_doc [])) TargetNone = raise (RuntimeError "no ball with conf >= 0.30") /\
  ((exists m, RuntimeError "no ball with conf >= 0.30" = RuntimeError m) \/
   RuntimeError "no ball with conf >= 0.30" = StopIteration \/
   RuntimeError "no ball with conf >= 0.30" = ValueError).
Proof.
  assert (Ht : jtyped (det_doc []) shot_doc_ty) by (apply jcheck_spec; reflexivity).
  split; [exact Ht | split; [reflexivity | apply (plan_shot_typed_errors (det_doc []) TargetNone); [exact Ht | reflexivity]]].
Defined.
