(* ===== verification/Net.v ===== *)
(** * Messaging with the arm controller ([src/main/communicate/tcp.py],
      [src/main/communicate/tcp_communicate.py])

    A message on the wire is its payload in braces, [{payload}].  The
    model keeps the state of one connected socket as a record: the bytes
    that have arrived and not been read ([rx]), whether the peer still
    keeps the connection open, and the bytes written so far ([tx]).
    [recv(n)] returns at most [n] of the arrived bytes, [b""] once the
    peer has closed and nothing is left, and raises [socket.timeout] when
    nothing has arrived on an open connection (the 2-second timeout of
    [main.py]).  Bytes are ASCII characters, so [decode("utf-8")] is the
    identity on them; multi-byte UTF-8 is not modelled.  A connection
    attempt of [create_connection] or [connect] succeeds or fails as the
    environment decides: the outcomes are the input of the model. *)

From Stdlib Require Import List Bool String Ascii Arith Lia.
From S2P Require Import Prelude.
Import ListNotations.
Open Scope string_scope.

Record sock := Sock { rx : string; peer_open : bool; tx : string }.

(** [f"{{{payload}}}"]. *)
Definition frame (payload : string) : string := "{" ++ payload ++ "}".

(** [send_message]: [sock.sendall(message.encode("utf-8"))]. *)
Definition send_message (s : sock) (payload : string) : sock :=
  {| rx := rx s; peer_open := peer_open s; tx := tx s ++ frame payload |}.

(** [sock.recv(bufsize)]. *)
Definition recv (bufsize : nat) (s : sock) : py (string * sock) :=
  match rx s with
  | EmptyString => if peer_open s then raise SocketTimeout else ret ("", s)
  | _ => ret (substring 0 bufsize (rx s),
              {| rx := substring bufsize (length (rx s) - bufsize) (rx s);
                 peer_open := peer_open s; tx := tx s |})
  end.

Definition starts_with (p s : string) : bool := String.prefix p s.

Definition ends_with (p s : string) : bool :=
  (length p <=? length s)%nat &&
  String.eqb (substring (length s - length p) (length p) s) p.

(** [text[1:-1]]. *)
Definition strip_ends (t : string) : string := substring 1 (length t - 2) t.

(** [receive_message(sock, bufsize=1024, strip_braces=True)]: [None] on an
    empty read. *)
Definition receive_message (s : sock) : py (option string * sock) :=
  (r <- recv 1024 s ;;
   let '(data, s') := r in
   match data with
   | EmptyString => ret (None, s')
   | _ =>
       let text := data in
       ret (Some (if starts_with "{" text && ends_with "}" text then strip_ends text else text), s')
   end)%py.

(** [create_connection(host, port, max_retries=3, retry_delay=5)]: the
    attempts [1..max_retries] in order, the first that connects wins; after
    a failed attempt other than the last the function sleeps [retry_delay]
    seconds.  [ok k] is the outcome of attempt [k]; the result is the
    number of the attempt that connected and the seconds slept. *)
Fixpoint create_connection_from (ok : nat -> bool) (max_retries retry_delay : nat)
    (attempt fuel : nat) : option nat * nat :=
  match fuel with
  | O => (None, 0)
  | S fuel' =>
      if ok attempt then (Some attempt, 0)
      else
        let '(r, slept) := create_connection_from ok max_retries retry_delay (S attempt) fuel' in
        (r, (if Nat.ltb attempt max_retries then retry_delay else 0) + slept)
  end%nat.

(** [for attempt in range(1, max_retries + 1)]: [max_retries] rounds
    starting at attempt [1]. *)
Definition create_connection (ok : nat -> bool) (max_retries retry_delay : nat) : option nat * nat :=
  create_connection_from ok max_retries retry_delay 1 max_retries.

(** [str.strip("{}")]: drop braces at both ends. *)
Fixpoint lstrip_braces (l : list ascii) : list ascii :=
  match l with
  | c :: r => if (Ascii.eqb c "{" || Ascii.eqb c "}")%bool then lstrip_braces r else l
  | [] => []
  end.

Definition strip_braces (t : string) : string :=
  string_of_list_ascii (rev (lstrip_braces (rev (lstrip_braces (list_ascii_of_string t))))).

(** One attempt of [tcp_communicate.connect]: the connection fails; or it
    connects, sends, and [recv] raises; or the server answers with the
    bytes given (empty when the server closed without answering). *)
Inductive attempt := AConnFail | ARecvFail | AReply (data : string).

(** [connect(HOST, PORT, input)]: at most [MAX_RETRIES = 3] attempts; a
    failed one counts and sleeps [RETRY_DELAY = 5] seconds before the next;
    a connected one sends [{input}] and returns the answer stripped of
    braces, or leaves the loop with [None] when the answer is empty.  The
    result is the answer, the messages sent and the seconds slept. *)
Fixpoint connect_loop (outcome : nat -> attempt) (input : string) (attempt_no fuel : nat)
    : option string * list string * nat :=
  match fuel with
  | O => (None, [], 0%nat)
  | S fuel' =>
      if (attempt_no <? 3)%nat then
        match outcome attempt_no with
        | AReply data =>
            if String.eqb data "" then (None, [frame input], 0%nat)
            else (Some (strip_braces data), [frame input], 0%nat)
        | AConnFail =>
            let attempt' := S attempt_no in
            let '(r, sent, slept) := connect_loop outcome input attempt' fuel' in
            (r, sent, ((if (attempt' <? 3)%nat then 5 else 0) + slept)%nat)
        | ARecvFail =>
            let attempt' := S attempt_no in
            let '(r, sent, slept) := connect_loop outcome input attempt' fuel' in
            (r, frame input :: sent, ((if (attempt' <? 3)%nat then 5 else 0) + slept)%nat)
        end
      else (None, [], 0%nat)
  end.

Definition connect (outcome : nat -> attempt) (input : string) : option string * list string * nat :=
  connect_loop outcome input 0 3.





(** ** Lemmas *)

Lemma substring_nil (n : nat) (s : string) : substring n 0 s = "".
Proof. revert s; induction n as [|n IH]; intros [|c s]; cbn; auto. Qed.

Lemma substring_all (n : nat) (s : string) : (length s <= n)%nat -> substring 0 n s = s.
Proof.
  revert n; induction s as [|c s IH]; intros n Hn; destruct n as [|n]; cbn in *; auto; [lia|].
  rewrite IH by lia; reflexivity.
Qed.

Lemma substring_app_r (a b : string) (n m : nat) :
  substring (length a + n) m (a ++ b) = substring n m b.
Proof. induction a as [|c a IH]; cbn; auto. Qed.

Lemma substring_app_l (a b : string) : substring 0 (length a) (a ++ b) = a.
Proof. induction a as [|c a IH]; cbn; [destruct b; reflexivity | rewrite IH; reflexivity]. Qed.

Lemma str_length_app (a b : string) : length (a ++ b) = (length a + length b)%nat.
Proof. induction a as [|c a IH]; cbn; auto. Qed.

Lemma str_app_assoc (a b c : string) : a ++ (b ++ c) = (a ++ b) ++ c.
Proof. induction a as [|x a IH]; cbn; [reflexivity | rewrite IH; reflexivity]. Qed.

Lemma length_frame (p : string) : length (frame p) = (length p + 2)%nat.
Proof. unfold frame; cbn; rewrite str_length_app; cbn; lia. Qed.

Lemma frame_ends (p : string) : ends_with "}" (frame p) = true.
Proof.
  unfold ends_with; rewrite length_frame; cbn [length].
  replace (length p + 2 - 1)%nat with (length ("{" ++ p) + 0)%nat
    by (cbn; lia).
  unfold frame; rewrite str_app_assoc, substring_app_r.
  rewrite (proj2 (Nat.leb_le 1 (length p + 2))) by lia; reflexivity.
Qed.

Lemma frame_strip (p : string) : strip_ends (frame p) = p.
Proof.
  unfold strip_ends; rewrite length_frame; replace (length p + 2 - 2)%nat with (length p) by lia.
  unfold frame; cbn [substring append]; apply substring_app_l.
Qed.

Lemma frame_starts (p : string) : starts_with "{" (frame p) = true.
Proof. unfold starts_with, frame; cbn; destruct (p ++ "}"); reflexivity. Qed.

Lemma recv_all (n : nat) (s : sock) :
  rx s <> "" -> (length (rx s) <= n)%nat ->
  recv n s = ret (rx s, {| rx := ""; peer_open := peer_open s; tx := tx s |}).
Proof.
  intros Hne Hn; unfold recv; destruct s as [r po t]; cbn [rx peer_open tx] in *.
  destruct r as [|c r]; [congruence|].
  rewrite substring_all by exact Hn.
  replace (length (String c r) - n)%nat with 0%nat by lia; rewrite substring_nil; reflexivity.
Qed.

(** The seconds [create_connection] sleeps when every attempt fails. *)
Lemma create_connection_from_fail (ok : nat -> bool) (m d a f : nat) :
  (forall k, (a <= k < a + f)%nat -> ok k = false) ->
  create_connection_from ok m d a f =
    (None, (d * (List.length (filter (fun k => Nat.ltb k m) (seq a f))))%nat).
Proof.
  revert a; induction f as [|f IH]; intros a Hf; cbn [create_connection_from seq];
    [cbn; rewrite Nat.mul_0_r; reflexivity|].
  rewrite Hf by lia; rewrite IH by (intros k Hk; apply Hf; lia).
  cbn [filter]; destruct (Nat.ltb a m); cbn [List.length]; f_equal; lia.
Qed.

Lemma create_connection_from_first (ok : nat -> bool) (m d a f k : nat) :
  (a <= k < a + f)%nat -> ok k = true -> (forall j, (a <= j < k)%nat -> ok j = false) ->
  create_connection_from ok m d a f =
    (Some k, (d * (List.length (filter (fun j => Nat.ltb j m) (seq a (k - a)))))%nat).
Proof.
  revert a; induction f as [|f IH]; intros a Hk Hok Hbefore; [lia|];
    cbn [create_connection_from].
  destruct (Nat.eq_dec a k) as [<-|Hne].
  - rewrite Hok, Nat.sub_diag; cbn; rewrite Nat.mul_0_r; reflexivity.
  - rewrite Hbefore by lia.
    rewrite (IH (S a)); [| lia | exact Hok | intros j Hj; apply Hbefore; lia].
    replace (k - a)%nat with (S (k - S a)) by lia; cbn [seq filter].
    destruct (Nat.ltb a m); cbn [List.length]; f_equal; lia.
Qed.

Lemma count_below_all (m a n : nat) :
  (a + n <= m)%nat -> List.length (filter (fun j => Nat.ltb j m) (seq a n)) = n.
Proof.
  revert a; induction n as [|n IH]; intros a H; [reflexivity|]; cbn [seq filter].
  rewrite (proj2 (Nat.ltb_lt a m)) by lia; cbn; rewrite IH by lia; reflexivity.
Qed.

Lemma count_below_last (m : nat) :
  (1 <= m)%nat -> List.length (filter (fun j => Nat.ltb j m) (seq 1 m)) = (m - 1)%nat.
Proof.
  intros Hm; destruct m as [|m]; [lia|].
  rewrite seq_S, filter_app, length_app, count_below_all by lia.
  cbn [filter]; rewrite (proj2 (Nat.ltb_ge (1 + m) (S m))) by lia; cbn; lia.
Qed.

Lemma connect_loop_bound (o : nat -> attempt) (input : string) (f a : nat)
    (r : option string) (sent : list string) (slept : nat) :
  (a + f = 3)%nat -> connect_loop o input a f = (r, sent, slept) ->
  (List.length sent <= f /\ slept <= 5 * (f - 1))%nat.
Proof.
  revert a r sent slept; induction f as [|f IH]; intros a r sent slept Ha E; cbn [connect_loop] in E.
  - injection E as <- <- <-; cbn; lia.
  - rewrite (proj2 (Nat.ltb_lt a 3)) in E by lia.
    destruct (o a) as [| |data].
    + destruct (connect_loop o input (S a) f) as [[r' sent'] slept'] eqn:E'.
      injection E as <- <- <-; destruct (IH (S a) r' sent' slept' ltac:(lia) E') as [H1 H2].
      destruct (Nat.ltb_spec (S a) 3); cbn; lia.
    + destruct (connect_loop o input (S a) f) as [[r' sent'] slept'] eqn:E'.
      injection E as <- <- <-; destruct (IH (S a) r' sent' slept' ltac:(lia) E') as [H1 H2].
      destruct (Nat.ltb_spec (S a) 3); cbn; lia.
    + destruct (String.eqb data ""); injection E as <- <- <-; cbn; lia.
Qed.

(** Reading one whole frame. *)
Lemma receive_frame (p : string) (r : sock) :
  (length p + 2 <= 1024)%nat -> rx r = frame p ->
  receive_message r = ret (Some p, {| rx := ""; peer_open := peer_open r; tx := tx r |}).
Proof.
  intros Hp Hr; unfold receive_message.
  rewrite recv_all; [| rewrite Hr; unfold frame; discriminate | rewrite Hr, length_frame; lia].
  rewrite Hr; cbn [bind ret].
  destruct (frame p) as [|a s'] eqn:F; [unfold frame in F; discriminate|].
  rewrite <- F, frame_starts, frame_ends, frame_strip; reflexivity.
Qed.

(** ** Properties *)

(** C23: round trip of the framing: a payload of at most 1022 bytes
    written by [send_message] on a fresh socket is read back by one
    [receive_message] at the other end as itself, braces inside the payload
    included, and leaves nothing unread. *)
Theorem receive_frame_roundtrip (p : string) (s r : sock) :
  (length p + 2 <= 1024)%nat -> tx s = "" -> rx r = tx (send_message s p) ->
  receive_message r =
    ret (Some p, {| rx := ""; peer_open := peer_open r; tx := tx r |}).
Proof.
  intros Hp Hs Hr; apply receive_frame; [exact Hp|].
  rewrite Hr; cbn [send_message tx]; rewrite Hs; reflexivity.
Qed.

(** the framing does not delimit messages: when two frames have
    arrived before the read, one [receive_message] returns both joined,
    here ["MOVING}{EXIT"], which [main.py] does not recognise as
    ["MOVING"]. *)
Theorem receive_coalesced :
  receive_message {| rx := frame "MOVING" ++ frame "EXIT"; peer_open := true; tx := "" |} =
    ret (Some "MOVING}{EXIT", {| rx := ""; peer_open := true; tx := "" |}).
Proof. reflexivity. Qed.

(** [create_connection] returns the first attempt that connects and
    has slept [retry_delay] seconds after each failed one; when all
    [max_retries] attempts fail it returns [None] after sleeping between
    them only ([max_retries - 1] times). *)
Theorem create_connection_spec (ok : nat -> bool) (max_retries retry_delay : nat) :
  (forall k, 1 <= k <= max_retries -> ok k = true ->
     (forall j, 1 <= j < k -> ok j = false) ->
     create_connection ok max_retries retry_delay = (Some k, Nat.mul retry_delay (k - 1))) /\
  (1 <= max_retries -> (forall k, 1 <= k <= max_retries -> ok k = false) ->
     create_connection ok max_retries retry_delay = (None, Nat.mul retry_delay (max_retries - 1))).
Proof.
  unfold create_connection; split.
  - intros k Hk Hok Hb; rewrite (create_connection_from_first _ _ _ _ _ k) by (auto; lia).
    rewrite count_below_all by lia; reflexivity.
  - intros Hm Hf; rewrite create_connection_from_fail by (intros k Hk; apply Hf; lia).
    rewrite count_below_last by exact Hm; reflexivity.
Qed.

(** [tcp_communicate.connect] ends after at most three attempts: it
    sends at most three messages and sleeps at most 10 seconds. *)
Theorem connect_bounded (o : nat -> attempt) (input : string) :
  let '(_, sent, slept) := connect o input in
  (List.length sent <= 3 /\ slept <= 10)%nat.
Proof.
  unfold connect; destruct (connect_loop o input 0 3) as [[r sent] slept] eqn:E.
  destruct (connect_loop_bound o input 3 0 r sent slept eq_refl E); lia.
Qed.




Lemma receive_frame_roundtrip_witness :
  receive_message {| rx := "{MOVING}"; peer_open := true; tx := "" |} =
    ret (Some "MOVING", {| rx := ""; peer_open := true; tx := "" |}).
Proof.
  exact (receive_frame_roundtrip "MOVING" {| rx := ""; peer_open := true; tx := "" |}
           {| rx := "{MOVING}"; peer_open := true; tx := "" |}
           ltac:(cbn; lia) eq_refl eq_refl).
Defined.

Lemma create_connection_spec_witness :
  create_connection (fun k => Nat.eqb k 2) 3 5 = (Some 2, 5)%nat.
Proof.
  exact (proj1 (create_connection_spec (fun k => Nat.eqb k 2) 3 5) 2
           ltac:(lia) eq_refl ltac:(intros j Hj; apply Nat.eqb_neq; lia)).
Defined.

