(* ===== verification/Main.v ===== *)
(** * The arm-controller event loop ([src/main/main.py])

    [main.py] keeps a connection to the arm controller and answers its
    commands: on ["MOVING"] it captures the table, plans a shot on the
    detector's file with [plan_shot_from_json(CORD_JSON, 'min')] and
    replies ["100"] followed by the payload ["angle, x, y"] for the arm,
    or ["200"] when there is no shot; on ["EXIT"] it closes the connection
    and reconnects after 5 seconds.  The state of the loop is the socket
    (or [None]) and the counter [dots] of the waiting animation
    ([mstate]).  One turn of the [while True] loop is [main_step]; what
    the outside world does during a turn (the outcomes of the connection
    attempts, the socket a successful attempt yields, whether the camera
    capture raises, and the file the planner then reads) is the turn's
    environment [menv].  [reachable] is the set of states the loop can be
    in, by rule induction over the turns.  Printing and the real time of
    the sleeps are not modelled; the seconds slept are returned.
    [Pipeline] runs the same loop on a world of files with the real
    capture and shows that this environment is a sound abstraction of it. *)

From Stdlib Require Import Reals Lra List Bool String ZArith Lia.
From S2P Require Import Prelude Api Json RunShot Vision Net.
Import ListNotations.
Open Scope R_scope.

(** ** The arm payload *)

(** [f"{x:.2f}"]: sign, integer part and two decimals of the value
    rounded half to even (a negative value that rounds to zero keeps its
    sign, as Python prints [-0.00]). *)
Definition fmt2 (x : R) : string :=
  let k := round_half_even (Rabs x * 100) in
  ((if (x <? 0)%geo then "-" else "") ++ py_str_Z (k / 100) ++ "." ++
   py_str_Z ((k mod 100) / 10) ++ py_str_Z (k mod 10))%string.

(** Lines 50-60: [arm_angle = -angle], [arm_x = round(cue_xy[0] * 1000, 2)],
    [arm_y = round(375 - cue_xy[1] * 1000, 2)] and the payload. *)
Definition arm_payload (angle : R) (cue : vec) : string :=
  let arm_angle := - angle in
  let arm_x := py_round (vx cue * 1000) 2 in
  let arm_y := py_round (375 - vy cue * 1000) 2 in
  (fmt2 arm_angle ++ ", " ++ fmt2 arm_x ++ ", " ++ fmt2 arm_y)%string.

(** ** The loop *)

Record mstate := MState { msock : option sock; dots : nat }.

Record menv := MEnv {
  conn_ok : nat -> bool;   (* attempt [k] of [create_connection] connects *)
  fresh : sock;            (* the socket it then returns *)
  cap_ok : bool;           (* [capture_balls] returns instead of raising *)
  cords : py jval          (* what [json.load] gives on [CORD_JSON] *)
}.

(** The [try] block of lines 28-85 on a connected socket. *)
Definition handle (e : menv) (s : sock) (d : nat) : mstate * nat :=
  match receive_message s with
  | inl SocketTimeout => (MState (Some s) ((d + 1) mod 4), 0%nat)
  | inl _ => (MState None d, 5%nat)
  | inr (None, s') => (MState (Some s') ((d + 1) mod 4), 0%nat)
  | inr (Some msg, s') =>
      if String.eqb msg "MOVING" then
        if cap_ok e then
          match plan_shot_from_json (cords e) (TargetStr "min") with
          | None => (MState (Some (send_message s' "200")) d, 0%nat)
          | Some (angle, cue_xy) =>
              (MState (Some (send_message (send_message s' "100") (arm_payload angle cue_xy))) d,
               0%nat)
          end
        else (MState None d, 5%nat)
      else if String.eqb msg "EXIT" then (MState None d, 5%nat)
      else (MState (Some s') d, 0%nat)
  end.

(** One turn of [while True] (lines 18-85): connect first when there is
    no socket ([create_connection] with its 3 attempts 5 seconds apart,
    then 5 more seconds when all fail), then the [try] block in the same
    turn. *)
Definition main_step (e : menv) (st : mstate) : mstate * nat :=
  match msock st with
  | Some s => handle e s (dots st)
  | None =>
      match create_connection (conn_ok e) 3 5 with
      | (None, t) => (MState None (dots st), (t + 5)%nat)
      | (Some _, t) => let '(st', t') := handle e (fresh e) (dots st) in (st', (t + t')%nat)
      end
  end.

(** The state after the turns [es]. *)
Fixpoint run (es : list menv) (st : mstate) : mstate :=
  match es with
  | [] => st
  | e :: es' => run es' (fst (main_step e st))
  end.

(** The states of the loop: [sock = None], [dots = 0] before the first
    turn, and whatever a turn makes of a state. *)
Inductive reachable : mstate -> Prop :=
| reach_init : reachable (MState None 0)
| reach_step (e : menv) (st : mstate) : reachable st -> reachable (fst (main_step e st)).

(** ** Lemmas *)

Lemma handle_dots (e : menv) (s : sock) (d : nat) :
  dots (fst (handle e s d)) = d \/ dots (fst (handle e s d)) = ((d + 1) mod 4)%nat.
Proof.
  unfold handle; destruct (receive_message s) as [[]|[[msg|] s']]; cbn; auto.
  destruct (String.eqb msg "MOVING"); [destruct (cap_ok e);
    [destruct (plan_shot_from_json (cords e) (TargetStr "min")) as [[a c]|]|]|
    destruct (String.eqb msg "EXIT")]; cbn; auto.
Qed.

Lemma main_step_dots (e : menv) (st : mstate) :
  dots (fst (main_step e st)) = dots st \/
  dots (fst (main_step e st)) = ((dots st + 1) mod 4)%nat.
Proof.
  unfold main_step; destruct (msock st) as [s|]; [apply handle_dots|].
  destruct (create_connection (conn_ok e) 3 5) as [[k|] t]; [|cbn; auto].
  destruct (handle e (fresh e) (dots st)) as [st' t'] eqn:E; cbn.
  pose proof (handle_dots e (fresh e) (dots st)) as H; rewrite E in H; exact H.
Qed.

(** A connection the peer has closed, with nothing left to read. *)
Lemma handle_dead (e : menv) (s : sock) (d : nat) :
  rx s = ""%string -> peer_open s = false ->
  handle e s d = (MState (Some s) ((d + 1) mod 4), 0%nat).
Proof.
  intros Hr Ho; unfold handle, receive_message, recv; rewrite Hr, Ho; cbn [bind ret].
  destruct s; cbn in *; subst; reflexivity.
Qed.

(** The reply to a ["MOVING"] frame when the capture returns. *)
Lemma handle_moving (e : menv) (s : sock) (d : nat) :
  rx s = frame "MOVING" -> cap_ok e = true ->
  handle e s d =
  (MState (Some {| rx := ""; peer_open := peer_open s;
                   tx := tx s ++ match plan_shot_from_json (cords e) (TargetStr "min") with
                                 | None => frame "200"
                                 | Some (angle, cue_xy) => frame "100" ++ frame (arm_payload angle cue_xy)
                                 end |}) d, 0%nat).
Proof.
  intros Hr Hc; unfold handle; rewrite (receive_frame "MOVING" s) by (auto; cbn; lia).
  cbn [String.eqb Ascii.eqb Bool.eqb]; rewrite Hc.
  destruct (plan_shot_from_json (cords e) (TargetStr "min")) as [[a c]|];
    unfold send_message; cbn [rx tx peer_open]; rewrite ?str_app_assoc; reflexivity.
Qed.

(** [f"{x:.2f}"] of a non-negative value with at most two decimals. *)
Lemma fmt2_cents (k : Z) :
  (0 <= k)%Z ->
  fmt2 (IZR k / 100) =
  (py_str_Z (k / 100) ++ "." ++ py_str_Z ((k mod 100) / 10) ++ py_str_Z (k mod 10))%string.
Proof.
  intros Hk; assert (H0 : 0 <= IZR k) by (apply IZR_le; exact Hk).
  unfold fmt2; rewrite Rabs_pos_eq by lra.
  replace (IZR k / 100 * 100) with (IZR k) by field.
  rewrite round_half_even_IZR, Rltb_false by lra; reflexivity.
Qed.

(** [round(x, 2)] of a value with at most two decimals. *)
Lemma py_round_cents (x : R) (k : Z) : x * 100 = IZR k -> py_round x 2 = IZR k / 100.
Proof.
  intros Hx; unfold py_round; replace (10 ^ 2) with 100 by (cbn; lra).
  rewrite Hx, round_half_even_IZR; reflexivity.
Qed.

Lemma run_dead (s : sock) (es : list menv) (d : nat) :
  rx s = ""%string -> peer_open s = false ->
  exists d', run es (MState (Some s) d) = MState (Some s) d'.
Proof.
  intros Hr Ho; revert d; induction es as [|e es IH]; intros d; [eexists; reflexivity|].
  cbn [run main_step msock dots]; rewrite handle_dead by assumption; apply IH.
Qed.

Lemma reachable_dots (st : mstate) : reachable st -> (dots st < 4)%nat.
Proof.
  induction 1 as [|e st Hst IH]; cbn; [lia|].
  destruct (main_step_dots e st) as [-> | ->]; [exact IH | apply Nat.mod_upper_bound; lia].
Qed.

Lemma handle_exit (e : menv) (s : sock) (d : nat) :
  rx s = frame "EXIT" -> handle e s d = (MState None d, 5%nat).
Proof.
  intros Hr; unfold handle; rewrite (receive_frame "EXIT" s) by (auto; cbn; lia); reflexivity.
Qed.

(** ** Properties *)

(** the counter of the waiting animation stays below 4 in every
    state the loop reaches. *)
Theorem reachable_dots_bound (st : mstate) : reachable st -> (dots st < 4)%nat.
Proof. apply reachable_dots. Qed.

(** C7: when the arm controller closes the connection without sending
    ["EXIT"], every later [recv] returns [b""], [receive_message] returns
    [None], which the loop takes for "no data yet": it keeps the dead
    socket forever, never reconnects and never sends again. *)
Theorem dead_peer_never_reconnects (s : sock) (es : list menv) (d : nat) :
  rx s = ""%string -> peer_open s = false ->
  exists d', run es (MState (Some s) d) = MState (Some s) d'.
Proof. apply run_dead. Qed.


(** C6: composed with the detector: when the file read after the capture
    is one [capture_balls] wrote, the reply to ["MOVING"] is always
    ["{200}"] (no shot), whatever the table shows. *)
Theorem detector_reply_200 (e : menv) (s : sock) (d : nat) (H : mat3) (ts : string)
    (ds : list raw_det) (doc : jval) :
  rx s = frame "MOVING" -> cap_ok e = true -> cords e = ret doc ->
  detect_and_convert H ts ds = ret doc ->
  main_step e (MState (Some s) d) =
  (MState (Some {| rx := ""; peer_open := peer_open s; tx := tx s ++ frame "200" |}) d, 0%nat).
Proof.
  intros Hr Hc Hd Hdet; cbn [main_step msock dots]; rewrite handle_moving by assumption.
  rewrite Hd, (detector_doc_rejected H ts ds doc _ Hdet); reflexivity.
Qed.

(** on ["EXIT"] the loop drops the connection and sleeps 5 seconds
    before it reconnects. *)
Theorem exit_reconnects (e : menv) (s : sock) (d : nat) :
  rx s = frame "EXIT" -> main_step e (MState (Some s) d) = (MState None d, 5%nat).
Proof. intros Hr; apply handle_exit, Hr. Qed.

(** the payload for the spec's first scenario: heading [-90] degrees
    and cue ball at [(0.3675, 0.3)] m give the arm the angle [90.00] and
    the position [(367.50, 75.00)] mm, with [y] measured from the bottom
    rail. *)
Theorem payload_scenario : arm_payload (-90) (Vec 0.3675 0.3) = "90.00, 367.50, 75.00"%string.
Proof.
  unfold arm_payload; cbn [vx vy].
  rewrite (py_round_cents _ 36750), (py_round_cents _ 7500) by lra.
  replace (- -90) with (IZR 9000 / 100) by lra.
  rewrite !fmt2_cents by lia; reflexivity.
Qed.

Lemma reachable_dots_bound_witness : reachable (MState None 0) /\ (dots (MState None 0) < 4)%nat.
Proof. split; [constructor | exact (reachable_dots_bound _ reach_init)]. Defined.

Lemma dead_peer_never_reconnects_witness :
  exists d', run [] (MState (Some {| rx := ""; peer_open := false; tx := "{100}" |}) 1) =
             MState (Some {| rx := ""; peer_open := false; tx := "{100}" |}) d'.
Proof. exact (dead_peer_never_reconnects {| rx := ""; peer_open := false; tx := "{100}" |} [] 1 eq_refl eq_refl). Defined.

Local Abbreviation s_moving := {| rx := "{MOVING}"; peer_open := true; tx := "" |}.
Local Abbreviation e_scn := (MEnv (fun _ => true) s_moving true (ret (det_doc
  [Det 0 0.9 36.75 30; Det 3 0.8 36.75 10; Det 5 0.2 10 10]))).


Local Abbreviation H10 := (Mat3 0.1 0 0 0 0.1 0 0 0 1).
Local Abbreviation empty_doc :=
  (JObj [("timestamp"%string, JStr "20250101_000000"); ("balls"%string, JArr [])]).

Lemma detector_reply_200_witness :
  main_step (MEnv (fun _ => true) s_moving true (ret empty_doc)) (MState (Some s_moving) 0) =
  (MState (Some {| rx := ""; peer_open := true; tx := "" ++ frame "200" |}) 0, 0%nat).
Proof.
  exact (detector_reply_200 (MEnv (fun _ => true) s_moving true (ret empty_doc)) s_moving 0
           H10 "20250101_000000" [] empty_doc eq_refl eq_refl eq_refl detect_empty).
Defined.

Lemma exit_reconnects_witness :
  main_step e_scn (MState (Some {| rx := "{EXIT}"; peer_open := true; tx := "" |}) 2) =
  (MState None 2, 5%nat).
Proof. exact (exit_reconnects e_scn {| rx := "{EXIT}"; peer_open := true; tx := "" |} 2 eq_refl). Defined.
