(* ===== verification/YoloPreview.v ===== *)
(** * The YOLO preview script ([src/tools/yolo.py])

    [yolo.py] reads one photo, runs the YOLO model [best.pt] on it and
    draws each box with a label [f"{class_names[cls_id]} {conf:.2f}"]
    before showing the window.  The photo read ([cv2.imread], [None] for
    a missing file) and the model's boxes are the variables of the
    section [Preview]; the drawing is the list of rectangles and labels
    the loop of lines 26-34 makes ([draw]), and the window is not
    modelled.  A missing photo raises [AttributeError] at [img.shape]
    (line 19); a class index outside [class_names] raises [IndexError].
    [class_names] names the balls of its classes; the detector of
    [yoloball.py] gives the same sixteen class indices ball numbers of
    its own ([Vision.CLASS_NAMES]), and [tables_agree_at] computes the
    indices where the two tables name the same ball. *)

From Stdlib Require Import Reals Lra List Bool String Ascii ZArith Lia.
From S2P Require Import Prelude Json Vision Main.
Import ListNotations.
Open Scope R_scope.

Module YoloPreview.

(** [class_names] (lines 10-14). *)
Definition class_names : list string :=
  ["black_8"; "blue_10"; "blue_2"; "dred_15"; "dred_7"; "green_14"; "green_6";
   "orange_13"; "orange_5"; "purple_12"; "purple_4"; "red_11"; "red_3";
   "white"; "yellow_1"; "yellow_9"]%string.

Definition image_path : string := "./captured_images/table7.jpg".

(** [l[i]] for an [int] index, with Python's negative indices. *)
Definition py_list_index {A : Type} (l : list A) (i : Z) : py A :=
  let n := Z.of_nat (List.length l) in
  let j := if (i <? 0)%Z then (i + n)%Z else i in
  if ((0 <=? j) && (j <? n))%Z then
    match nth_error l (Z.to_nat j) with Some x => ret x | None => raise IndexError end
  else raise IndexError.

(** A box of [results.boxes]: its class, confidence and corners. *)
Record box := Box { cls : R; conf : R; bx1 : R; by1 : R; bx2 : R; by2 : R }.

Inductive draw :=
| Rect (p q : Z * Z)
| Label (s : string) (at_ : Z * Z).

(** One round of the loop (lines 27-34). *)
Definition box_draws (b : box) : py (list draw) :=
  let cls_id := py_trunc (cls b) in
  let x1 := py_trunc (bx1 b) in let y1 := py_trunc (by1 b) in
  let x2 := py_trunc (bx2 b) in let y2 := py_trunc (by2 b) in
  (name <- py_list_index class_names cls_id ;;
   let label := (name ++ " " ++ fmt2 (conf b))%string in
   ret [Rect (x1, y1) (x2, y2); Label label (x1, (y1 - 5)%Z)])%py.

(** [for i in range(len(boxes))] (line 26). *)
Fixpoint boxes_draws (bs : list box) : py (list draw) :=
  match bs with
  | [] => ret []
  | b :: r => (d <- box_draws b ;; ds <- boxes_draws r ;; ret (d ++ ds))%py
  end.

Section Preview.
Variable img : Type.
Variable model : img -> list box.

(** The script (lines 17-34): [img.shape] on the result of [imread]. *)
Definition yolo_preview (read : option img) : py (list draw) :=
  match read with
  | None => raise AttributeError
  | Some im => boxes_draws (model im)
  end.
End Preview.

(** The ball a label of [class_names] names: the number after ['_'], and
    [0] for the cue ball ["white"]. *)
Fixpoint after_underscore (l : list ascii) : list ascii :=
  match l with [] => [] | c :: r => if Ascii.eqb c "_"%char then r else after_underscore r end.

Definition label_ball (s : string) : option Z :=
  if String.eqb s "white" then Some 0%Z
  else match py_int_of_string (string_of_list_ascii (after_underscore (list_ascii_of_string s))) with
       | inr n => Some n
       | inl _ => None
       end.

(** Class [k] is the same ball for both tables. *)
Definition tables_agree_at (k : nat) : bool :=
  match nth_error class_names k, nth_error CLASS_NAMES k with
  | Some a, Some b =>
      match label_ball a, py_int_of_string b with
      | Some n, inr m => Z.eqb n m
      | _, _ => false
      end
  | _, _ => false
  end.

Definition valid_cls (b : box) : Prop := (-16 <= py_trunc (cls b) < 16)%Z.

(** ** Lemmas *)

Lemma py_list_index_ok {A : Type} (l : list A) (i : Z) :
  (- Z.of_nat (List.length l) <= i < Z.of_nat (List.length l))%Z ->
  exists x, py_list_index l i = ret x.
Proof.
  intros Hi; unfold py_list_index.
  set (j := if (i <? 0)%Z then (i + Z.of_nat (List.length l))%Z else i).
  assert (Hj : (0 <= j < Z.of_nat (List.length l))%Z) by (unfold j; destruct (Z.ltb_spec i 0); lia).
  replace ((0 <=? j) && (j <? Z.of_nat (List.length l)))%Z with true
    by (symmetry; apply andb_true_intro; split; [apply Z.leb_le | apply Z.ltb_lt]; lia).
  destruct (nth_error l (Z.to_nat j)) as [x|] eqn:E; [exists x; reflexivity|].
  apply nth_error_None in E; lia.
Qed.

Lemma py_list_index_err {A : Type} (l : list A) (i : Z) :
  ~ (- Z.of_nat (List.length l) <= i < Z.of_nat (List.length l))%Z ->
  py_list_index l i = raise IndexError.
Proof.
  intros Hi; unfold py_list_index.
  replace ((0 <=? _) && (_ <? Z.of_nat (List.length l)))%Z with false; [reflexivity|].
  symmetry; apply andb_false_iff; destruct (Z.ltb_spec i 0);
    [destruct (Z.leb_spec 0 (i + Z.of_nat (List.length l))); [right; apply Z.ltb_ge | left]; lia
    | right; apply Z.ltb_ge; lia].
Qed.

Lemma valid_cls_dec (b : box) : {valid_cls b} + {~ valid_cls b}.
Proof.
  unfold valid_cls; destruct (Z_le_gt_dec (-16) (py_trunc (cls b))), (Z_lt_ge_dec (py_trunc (cls b)) 16);
    [left; lia | right; lia ..].
Defined.

(** [yoloball]'s [class_name] is the same indexing on its own table. *)
Lemma class_name_index (c : R) : class_name c = py_list_index CLASS_NAMES (py_trunc c).
Proof. reflexivity. Qed.

Lemma box_draws_spec (b : box) :
  (valid_cls b -> exists ds, box_draws b = ret ds /\ List.length ds = 2%nat) /\
  (~ valid_cls b -> box_draws b = raise IndexError).
Proof.
  unfold box_draws, valid_cls; split; intros H.
  - destruct (py_list_index_ok class_names (py_trunc (cls b)) H) as [x ->]; eexists; split;
      reflexivity.
  - rewrite py_list_index_err by exact H; reflexivity.
Qed.

(** ** Properties *)

(** [yolo.py] raises [AttributeError] when the photo is missing, and
    on a photo it draws one rectangle and one label per box exactly when
    every class index [int(cls)] is an index of [class_names] (from -16 to
    15); otherwise it raises [IndexError] at the first box whose index is
    not. *)
Theorem preview_errors (img : Type) (model : img -> list box) (im : img) :
  yolo_preview img model None = raise AttributeError /\
  (Forall valid_cls (model im) ->
     exists ds, yolo_preview img model (Some im) = ret ds /\
       List.length ds = (2 * List.length (model im))%nat) /\
  (~ Forall valid_cls (model im) -> yolo_preview img model (Some im) = raise IndexError).
Proof.
  split; [reflexivity|]; cbn [yolo_preview]; generalize (model im) as bs; intros bs.
  split.
  - induction 1 as [|b bs Hb Hbs [ds [Hd Hl]]]; [exists []; split; reflexivity|].
    destruct (proj1 (box_draws_spec b) Hb) as [d [Hd1 Hl1]]; cbn [boxes_draws].
    rewrite Hd1, Hd; eexists; split; [reflexivity|]; rewrite length_app; cbn [List.length]; lia.
  - induction bs as [|b bs IH]; intros Hn; [exfalso; apply Hn; constructor|]; cbn [boxes_draws].
    destruct (valid_cls_dec b) as [Hb|Hb]; [|rewrite (proj2 (box_draws_spec b) Hb); reflexivity].
    destruct (proj1 (box_draws_spec b) Hb) as [d [-> _]]; cbn [bind].
    rewrite IH; [reflexivity | intros Hf; apply Hn; constructor; assumption].
Qed.

(** The two class tables name the same ball for eight of the sixteen
    classes only: [yolo.py]'s class 0 is ["black_8"] where [yoloball.py]
    writes ball ["2"], and likewise for classes 1, 3, 4, 7, 9, 11 and 15. *)
Theorem class_tables_agree : filter tables_agree_at (seq 0 16) = [2; 5; 6; 8; 10; 12; 13; 14]%nat.
Proof. vm_compute; reflexivity. Qed.

Lemma preview_errors_witness :
  yolo_preview unit (fun _ => [Box 13.0 0.91 10 20 30 40]) None = raise AttributeError /\
  (Forall valid_cls [Box 13.0 0.91 10 20 30 40] ->
     exists ds, yolo_preview unit (fun _ => [Box 13.0 0.91 10 20 30 40]) (Some tt) = ret ds /\
       List.length ds = (2 * List.length [Box 13.0 0.91 10 20 30 40])%nat) /\
  (~ Forall valid_cls [Box 13.0 0.91 10 20 30 40] ->
     yolo_preview unit (fun _ => [Box 13.0 0.91 10 20 30 40]) (Some tt) = raise IndexError).
Proof. exact (preview_errors unit (fun _ => [Box 13.0 0.91 10 20 30 40]) tt). Defined.

End YoloPreview.
