(* ===== verification/Capture.v ===== *)
(** * Image capture bookkeeping ([src/main/vision/capture.py],
      [src/main/vision/arm_captrue.py])

    [get_next_filename] picks the name of the next photo in a folder from
    the names [os.listdir] returns: among the files [table<n>.jpg] it reads
    the numbers with [int], skips the names [int] rejects, and returns
    [table<max + 1>.jpg] ([table1.jpg] in an empty folder).  [capture]
    takes one photo into [captured_images] under that name; the folder is
    its photos by name, the camera a [shot] (whether it opened, the
    frame it read), and the exposure settings and prints are not
    modelled.  [os.listdir] gives no order: [get_next_filename_perm]
    (a [Proper] instance for [Permutation]) shows the name does not
    depend on it, so the model lists the folder in writing order.

    [arm_capture] was meant to repeat [connect] and [capture] until the
    controller answers ["103"]; it calls [connect(cap_command)] with one
    argument while [tcp_communicate.connect] takes three, so the call
    raises [TypeError] before any connection: [call_connect] models a call
    by its argument list. *)

From Stdlib Require Import List Bool String Ascii ZArith Lia Permutation Morphisms.
From S2P Require Import Prelude Json Net.
Import ListNotations.
Open Scope string_scope.

(** [file[5:-4]]: the characters from index 5 up to 4 before the end
    (empty when the name is shorter than 9). *)
Definition slice_5_m4 (f : string) : string := substring 5 (length f - 9) f.

(** [f.startswith("table") and f.endswith(".jpg")]. *)
Definition is_table_jpg (f : string) : bool := starts_with "table" f && ends_with ".jpg" f.

(** The [for]/[try] loop of lines 15-23: the numbers [int] accepts. *)
Fixpoint table_numbers (files : list string) : list Z :=
  match files with
  | [] => []
  | f :: r =>
      match py_int_of_string (slice_5_m4 f) with
      | inr n => n :: table_numbers r
      | inl _ => table_numbers r
      end
  end.

(** [max(existing_numbers, default=0)]. *)
Definition max_default (l : list Z) : Z :=
  match l with
  | [] => 0%Z
  | x :: r => fold_left Z.max r x
  end.

Definition table_name (n : Z) : string := "table" ++ py_str_Z n ++ ".jpg".

(** [get_next_filename(folder)] on the listing of the folder. *)
Definition get_next_filename (listing : list string) : string :=
  let existing := filter is_table_jpg listing in
  match existing with
  | [] => "table1.jpg"
  | _ => table_name (max_default (table_numbers existing) + 1)
  end.

(** A call of [tcp_communicate.connect(HOST, PORT, input)]:
    any other number of arguments raises [TypeError]. *)
Definition call_connect (outcome : nat -> attempt) (args : list string) : py (option string) :=
  match args with
  | [_; _; input] => ret (let '(r, _, _) := connect outcome input in r)
  | _ => raise TypeError
  end.

(** [arm_capture()]: [cap_command = '100']; while it is not ["103"],
    [output = connect(cap_command)], stop on [None], otherwise capture and
    go on with [cap_command = output].  The photos taken are counted;
    [fuel] bounds the number of rounds. *)
Fixpoint arm_capture_loop (outcome : nat -> attempt) (fuel : nat) (cap_command : string)
    (shots : nat) : py nat :=
  match fuel with
  | O => ret shots
  | S fuel' =>
      if String.eqb cap_command "103" then ret shots
      else
        (output <- call_connect outcome [cap_command] ;;
         match output with
         | None => ret shots
         | Some o => arm_capture_loop outcome fuel' o (S shots)
         end)%py
  end.

Definition arm_capture (outcome : nat -> attempt) (fuel : nat) : py nat :=
  arm_capture_loop outcome fuel "100" 0.

(** ** [capture()] (lines 29-51) *)

Section Camera.

Variable img : Type.

(** A call of [capture()]: whether [cv2.VideoCapture(0)] opened and the
    frame [camera.read()] returned. *)
Record shot := Shot { cam_opened : bool; grabbed : option img }.

Definition save_folder : string := "captured_images".

(** [cv2.imwrite(path, frame)] into the folder, as its photos by name:
    a name already there is overwritten. *)
Fixpoint imwrite (folder : list (string * img)) (name : string) (i : img) : list (string * img) :=
  match folder with
  | [] => [(name, i)]
  | (n, j) :: r => if String.eqb n name then (n, i) :: r else (n, j) :: imwrite r name i
  end.

(** [capture()]: the path it returns ([None] when the camera does not
    open or read) and the folder after it. *)
Definition capture (s : shot) (folder : list (string * img)) : option string * list (string * img) :=
  if negb (cam_opened s) then (None, folder)
  else
    match grabbed s with
    | None => (None, folder)
    | Some f =>
        let name := get_next_filename (map fst folder) in
        (Some (save_folder ++ "/" ++ name), imwrite folder name f)
    end.

(** Successive calls of [capture()] on one folder. *)
Fixpoint captures (ss : list shot) (folder : list (string * img)) : list (option string) * list (string * img) :=
  match ss with
  | [] => ([], folder)
  | s :: r =>
      let '(p, folder1) := capture s folder in
      let '(ps, folder2) := captures r folder1 in (p :: ps, folder2)
  end.

End Camera.

Arguments Shot {img}.

(** ** Lemmas *)

Lemma prefix_app (a b : string) : String.prefix a (a ++ b) = true.
Proof.
  induction a as [|c a IH]; cbn; [destruct b; reflexivity|].
  destruct (Ascii.ascii_dec c c) as [_|n]; [exact IH | congruence].
Qed.

Lemma table_name_is_jpg (n : Z) : is_table_jpg (table_name n) = true.
Proof.
  unfold is_table_jpg, starts_with, ends_with, table_name.
  rewrite prefix_app, str_app_assoc, str_length_app; cbn [length].
  replace (length ("table" ++ py_str_Z n) + 4 - 4)%nat with (length ("table" ++ py_str_Z n) + 0)%nat
    by lia.
  rewrite substring_app_r, (proj2 (Nat.leb_le 4 _)) by lia; reflexivity.
Qed.

Lemma table_name_slice (n : Z) : slice_5_m4 (table_name n) = py_str_Z n.
Proof.
  unfold slice_5_m4, table_name.
  replace (length ("table" ++ py_str_Z n ++ ".jpg") - 9)%nat with (length (py_str_Z n))
    by (rewrite !str_length_app; cbn [length]; lia).
  change (substring 5 (length (py_str_Z n)) ("table" ++ py_str_Z n ++ ".jpg"))
    with (substring (length "table" + 0) (length (py_str_Z n)) ("table" ++ py_str_Z n ++ ".jpg")).
  rewrite substring_app_r; apply substring_app_l.
Qed.

Lemma table_numbers_In (files : list string) (n : Z) :
  In (table_name n) files -> In n (table_numbers files).
Proof.
  induction files as [|f r IH]; [intros []|]; intros [->|H]; cbn [table_numbers].
  - rewrite table_name_slice, int_of_str_Z; left; reflexivity.
  - destruct (py_int_of_string (slice_5_m4 f)); [|right]; auto.
Qed.

Lemma fold_max_ge (l : list Z) (x : Z) : (x <= fold_left Z.max l x)%Z /\
  forall y, In y l -> (y <= fold_left Z.max l x)%Z.
Proof.
  revert x; induction l as [|a l IH]; intros x; cbn; [split; [lia | tauto]|].
  destruct (IH (Z.max x a)) as [H1 H2]; split; [lia|].
  intros y [<-|Hy]; [lia | auto].
Qed.

Lemma max_default_ge (l : list Z) (y : Z) : In y l -> (y <= max_default l)%Z.
Proof.
  destruct l as [|x l]; cbn; [tauto|]; intros Hy; destruct (fold_max_ge l x) as [H1 H2].
  destruct Hy as [<-|Hy]; auto.
Qed.

(** [get_next_filename] never returns the name of a file already in
    the folder. *)
Lemma next_filename_fresh (listing : list string) :
  ~ In (get_next_filename listing) listing.
Proof.
  unfold get_next_filename; intros Hin.
  destruct (filter is_table_jpg listing) as [|f r] eqn:E.
  - assert (H1 : In "table1.jpg" (filter is_table_jpg listing))
      by (apply filter_In; split; [exact Hin | reflexivity]).
    rewrite E in H1; exact H1.
  - set (m := max_default (table_numbers (f :: r))) in *.
    assert (H1 : In (table_name (m + 1)) (filter is_table_jpg listing))
      by (apply filter_In; split; [exact Hin | apply table_name_is_jpg]).
    rewrite E in H1; apply table_numbers_In, max_default_ge in H1; lia.
Qed.

Lemma imwrite_fresh {img : Type} (folder : list (string * img)) (name : string) (i : img) :
  ~ In name (map fst folder) -> imwrite img folder name i = (folder ++ [(name, i)])%list.
Proof.
  induction folder as [|[n j] r IH]; intros H; [reflexivity|]; cbn [imwrite map fst] in *.
  destruct (String.eqb_spec n name) as [->|_]; [exfalso; apply H; left; reflexivity|].
  rewrite IH by (intros Hin; apply H; right; exact Hin); reflexivity.
Qed.

Lemma NoDup_snoc {A : Type} (l : list A) (x : A) : NoDup l -> ~ In x l -> NoDup (l ++ [x])%list.
Proof. intros H Hx; apply (Permutation_NoDup (Permutation_cons_append l x)); constructor; assumption. Qed.

(** [os.listdir] returns the entries in an arbitrary order: the name
    [get_next_filename] picks does not depend on it, so the model may pass
    the folder's names in the order they were written. *)
Lemma filter_perm {A : Type} (f : A -> bool) (l l' : list A) :
  Permutation l l' -> Permutation (filter f l) (filter f l').
Proof.
  induction 1; cbn; [constructor | destruct (f x); auto | | eauto using Permutation_trans].
  destruct (f x), (f y); try constructor; reflexivity.
Qed.

Lemma table_numbers_perm (l l' : list string) :
  Permutation l l' -> Permutation (table_numbers l) (table_numbers l').
Proof.
  induction 1; cbn [table_numbers]; [constructor | | | eauto using Permutation_trans].
  - destruct (py_int_of_string (slice_5_m4 x)); auto.
  - destruct (py_int_of_string (slice_5_m4 x)), (py_int_of_string (slice_5_m4 y));
      try constructor; reflexivity.
Qed.

Lemma fold_max_in (l : list Z) (x : Z) : In (fold_left Z.max l x) (x :: l).
Proof.
  revert x; induction l as [|a l IH]; intros x; cbn; [auto|].
  destruct (IH (Z.max x a)) as [E|H]; [|auto].
  rewrite <- E; destruct (Z.max_spec x a) as [[_ ->]|[_ ->]]; auto.
Qed.

Lemma max_default_in (l : list Z) : l <> [] -> In (max_default l) l.
Proof. destruct l as [|x l]; [congruence|]; intros _; apply fold_max_in. Qed.

Lemma max_default_perm (l l' : list Z) : Permutation l l' -> max_default l = max_default l'.
Proof.
  intros H; destruct l as [|x r].
  - apply Permutation_nil in H; subst; reflexivity.
  - assert (Hl' : l' <> []) by (intros ->; apply Permutation_sym, Permutation_nil in H; discriminate).
    pose proof (max_default_in (x :: r) ltac:(discriminate)) as H1.
    pose proof (max_default_in l' Hl') as H2.
    apply (Permutation_in _ H), max_default_ge in H1.
    apply (Permutation_in _ (Permutation_sym H)), max_default_ge in H2; lia.
Qed.

Lemma get_next_filename_perm : Proper (@Permutation string ==> eq) get_next_filename.
Proof.
  intros l l' H; unfold get_next_filename; pose proof (filter_perm is_table_jpg _ _ H) as Hf.
  destruct (filter is_table_jpg l) as [|a r], (filter is_table_jpg l') as [|b r'];
    [reflexivity | apply Permutation_nil in Hf; discriminate
    | apply Permutation_sym, Permutation_nil in Hf; discriminate |].
  rewrite (max_default_perm _ _ (table_numbers_perm _ _ Hf)); reflexivity.
Qed.
#[export] Existing Instance get_next_filename_perm.

(** ** Properties *)



(** [arm_capture] fails at once: its first call [connect(cap_command)]
    gives one argument to a function of three, which raises [TypeError]
    before any connection is made or any photo taken. *)
Theorem arm_capture_type_error (outcome : nat -> attempt) (fuel : nat) :
  arm_capture outcome (S fuel) = raise TypeError.
Proof. reflexivity. Qed.

(** C25: successive calls of [capture()] never overwrite a photo: the
    folder after them is the folder before, every photo kept with its
    content, followed by one new photo per call that returned a path,
    under the name in that path, and no two photos share a name. *)
Theorem captures_keep_photos {img : Type} (ss : list (shot img)) :
  forall folder, NoDup (map fst folder) ->
  exists added, snd (captures img ss folder) = (folder ++ added)%list /\
    NoDup (map fst (folder ++ added)%list) /\
    map (fun e => Some (save_folder ++ "/" ++ fst e)) added =
    filter (fun p => match p with Some _ => true | None => false end) (fst (captures img ss folder)).
Proof.
  induction ss as [|s r IH]; intros folder Hnd; [exists []; rewrite app_nil_r; split; [reflexivity | split; [exact Hnd | reflexivity]]|].
  cbn [captures]; destruct (capture img s folder) as [p folder1] eqn:Ec.
  pose proof (IH folder1) as IH1; destruct (captures img r folder1) as [ps folder2]; cbn [fst snd] in *.
  unfold capture in Ec; destruct (negb (cam_opened img s)); [|destruct (grabbed img s) as [f|]];
    [injection Ec as <- <-; destruct (IH1 Hnd) as (added & E & N & P); exists added; auto| |
     injection Ec as <- <-; destruct (IH1 Hnd) as (added & E & N & P); exists added; auto].
  set (name := get_next_filename (map fst folder)) in Ec; injection Ec as <- <-.
  assert (Hf : ~ In name (map fst folder)) by apply next_filename_fresh.
  rewrite (imwrite_fresh folder name f Hf) in IH1.
  assert (Hnd1 : NoDup (map fst (folder ++ [(name, f)])%list)) by (rewrite map_app; apply NoDup_snoc; assumption).
  destruct (IH1 Hnd1) as (added & E & N & P); exists ((name, f) :: added); rewrite <- app_assoc in E, N.
  split; [exact E | split; [exact N|]]; cbn [map filter fst]; rewrite P; reflexivity.
Qed.

Lemma captures_keep_photos_witness :
  NoDup (map fst (@nil (string * unit))) /\
  exists added, snd (captures unit [Shot true (Some tt); Shot false None; Shot true (Some tt)] []) = ([] ++ added)%list /\
    NoDup (map fst ([] ++ added)%list) /\
    map (fun e => Some (save_folder ++ "/" ++ fst e)) added =
    filter (fun p => match p with Some _ => true | None => false end)
      (fst (captures unit [Shot true (Some tt); Shot false None; Shot true (Some tt)] [])).
Proof.
  assert (H : NoDup (map fst (@nil (string * unit)))) by constructor.
  split; [exact H | exact (captures_keep_photos [Shot true (Some tt); Shot false None; Shot true (Some tt)] [] H)].
Defined.

