(* ===== verification/Generator.v ===== *)
(** * Random layouts ([src/main/core/ball_generator.py])

    [generate_layout] draws the cue ball, then target positions until one
    is more than [4*BALL_R] from the cue ball, then blocker positions
    until [n_blockers] of them are each more than [4*BALL_R] from the cue
    ball, the target and the blockers kept so far.  [random.uniform(a, b)]
    is [a + (b - a) * random.random()]; the model takes the values of
    [random.random()] as an explicit stream [us] (the seeded generator is
    the environment), and a loop that would need more values than the
    stream holds makes the result [None].  Every pass of a loop consumes
    two values, so [length us] passes bound each loop. *)

From Stdlib Require Import Reals Lra List Bool Arith Lia.
From S2P Require Import Prelude Geometry.
Import ListNotations.
Open Scope R_scope.

(** [random.uniform(a, b)] for the draw [u] of [random.random()]. *)
Definition uniform (a b u : R) : R := a + (b - a) * u.

(** [_rand(w, h)]: two draws. *)
Definition rand_pt (w h : R) (us : list R) : option (vec * list R) :=
  match us with
  | u1 :: u2 :: r => Some (Vec (uniform BALL_R (w - BALL_R) u1) (uniform BALL_R (h - BALL_R) u2), r)
  | _ => None
  end.

(** [np.linalg.norm(p - q) > 4*BALL_R]. *)
Definition far (p q : vec) : bool := (4 * BALL_R <? norm (p -v q))%geo.

(** [while True: tgt = _rand(w,h); if norm(tgt-cue) > 4*BALL_R: break]. *)
Fixpoint draw_target (w h : R) (cue : vec) (fuel : nat) (us : list R) : option (vec * list R) :=
  match fuel with
  | O => None
  | S f =>
      match rand_pt w h us with
      | None => None
      | Some (t, us') => if far t cue then Some (t, us') else draw_target w h cue f us'
      end
  end.

(** [while len(blockers) < n_blockers: p = _rand(w,h); if ...: blockers.append(p)]. *)
Fixpoint draw_blockers (w h : R) (cue tgt : vec) (n : nat) (blockers : list vec)
    (fuel : nat) (us : list R) : option (list vec * list R) :=
  match fuel with
  | O => None
  | S f =>
      if Nat.ltb (length blockers) n then
        match rand_pt w h us with
        | None => None
        | Some (p, us') =>
            if far p cue && far p tgt && forallb (far p) blockers
            then draw_blockers w h cue tgt n (blockers ++ [p]) f us'
            else draw_blockers w h cue tgt n blockers f us'
        end
      else Some (blockers, us)
  end.

Record layout := Layout { table : R * R; lcue : vec; ltarget : vec; lblockers : list vec }.

(** [generate_layout(table_size, n_blockers)] on the draws [us]. *)
Definition generate_layout (table_size : R * R) (n_blockers : nat) (us : list R) : option layout :=
  let '(w, h) := table_size in
  match rand_pt w h us with
  | None => None
  | Some (cue, us1) =>
      match draw_target w h cue (length us1) us1 with
      | None => None
      | Some (tgt, us2) =>
          match draw_blockers w h cue tgt n_blockers [] (S (length us2)) us2 with
          | None => None
          | Some (bl, _) => Some (Layout table_size cue tgt bl)
          end
      end
  end.

(** The default table of [generate_layout]. *)
Definition default_table : R * R := (0.73, 0.375).

(** ** Lemmas *)

(** The draws of [random.random()] lie in [[0, 1)]. *)
Definition unit_draw (u : R) : Prop := 0 <= u < 1.

Definition in_box (w h : R) (p : vec) : Prop :=
  BALL_R <= vx p <= w - BALL_R /\ BALL_R <= vy p <= h - BALL_R.

Lemma uniform_range (a b u : R) : a <= b -> unit_draw u -> a <= uniform a b u <= b.
Proof. unfold uniform, unit_draw; intros Hab [H0 H1]; split; nra. Qed.

Lemma far_sym (p q : vec) : far p q = far q p.
Proof. unfold far; rewrite norm_vsub_sym; reflexivity. Qed.

Section Draws.
Context (w h : R).
Hypothesis Hw : 2 * BALL_R <= w.
Hypothesis Hh : 2 * BALL_R <= h.

Lemma rand_pt_ok (us us' : list R) (p : vec) :
  Forall unit_draw us -> rand_pt w h us = Some (p, us') -> in_box w h p /\ Forall unit_draw us'.
Proof.
  destruct us as [|u1 [|u2 r]]; cbn; try discriminate; intros Hu E; injection E as <- <-.
  inversion Hu as [|? ? H1 Hu']; inversion Hu' as [|? ? H2 Hr]; subst.
  split; [split; cbn; apply uniform_range; auto; lra | exact Hr].
Qed.

Lemma draw_target_ok (cue t : vec) (f : nat) (us us' : list R) :
  Forall unit_draw us -> draw_target w h cue f us = Some (t, us') ->
  in_box w h t /\ far t cue = true /\ Forall unit_draw us'.
Proof.
  revert us; induction f as [|f IH]; intros us Hu E; cbn in E; [discriminate|].
  destruct (rand_pt w h us) as [[p r]|] eqn:R1; [|discriminate].
  destruct (rand_pt_ok _ _ _ Hu R1) as [Hp Hr].
  destruct (far p cue) eqn:F; [injection E as <- <-; auto | exact (IH _ Hr E)].
Qed.

(** What the blocker loop keeps: blockers in the table, each far from the
    cue ball, the target and the blockers before it, and no more than
    asked for. *)
Definition blockers_ok (cue tgt : vec) (n : nat) (bl : list vec) : Prop :=
  Forall (fun p => in_box w h p /\ far p cue = true /\ far p tgt = true) bl /\
  ForallOrdPairs (fun a b => far b a = true) bl /\ (length bl <= n)%nat.

Lemma draw_blockers_ok (cue tgt : vec) (n : nat) (bl bl' : list vec) (f : nat) (us us' : list R) :
  Forall unit_draw us -> blockers_ok cue tgt n bl ->
  draw_blockers w h cue tgt n bl f us = Some (bl', us') ->
  blockers_ok cue tgt n bl' /\ length bl' = n.
Proof.
  revert bl us; induction f as [|f IH]; intros bl us Hu Hbl E; cbn [draw_blockers] in E;
    [discriminate|].
  destruct (Nat.ltb_spec (length bl) n) as [Hlt|Hge].
  - destruct (rand_pt w h us) as [[p r]|] eqn:R1; [|discriminate].
    destruct (rand_pt_ok _ _ _ Hu R1) as [Hp Hr].
    destruct (far p cue && far p tgt && forallb (far p) bl) eqn:F; [|exact (IH _ _ Hr Hbl E)].
    apply (IH (bl ++ [p]) r Hr); [|exact E].
    apply andb_prop in F; destruct F as [F Hall]; apply andb_prop in F; destruct F as [Fc Ft].
    destruct Hbl as [Hin [Hpairs Hlen]]; repeat split.
    + apply Forall_app; split; [exact Hin | constructor; [auto | constructor]].
    + apply ForallOrdPairs_snoc; [exact Hpairs|].
      apply Forall_forall; intros b Hb.
      exact (proj1 (forallb_forall _ _) Hall b Hb).
    + rewrite length_app; cbn; lia.
  - injection E as <- <-; split; [exact Hbl | destruct Hbl as [_ [_ Hlen]]; lia].
Qed.

End Draws.

Lemma rand_pt_app (w h : R) (us e r : list R) (p : vec) :
  rand_pt w h us = Some (p, r) -> rand_pt w h (us ++ e) = Some (p, r ++ e).
Proof. destruct us as [|u1 [|u2 r']]; cbn; try discriminate; intros E; injection E as <- <-; reflexivity. Qed.

Lemma draw_target_ext (w h : R) (cue t : vec) (f f' : nat) (us e r : list R) :
  (f <= f')%nat -> draw_target w h cue f us = Some (t, r) ->
  draw_target w h cue f' (us ++ e) = Some (t, r ++ e).
Proof.
  revert f' us; induction f as [|f IH]; intros f' us Hf E; cbn in E; [discriminate|].
  destruct f' as [|f']; [lia|]; cbn.
  destruct (rand_pt w h us) as [[p r']|] eqn:R1; [|discriminate].
  rewrite (rand_pt_app _ _ _ e _ _ R1).
  destruct (far p cue); [injection E as <- <-; reflexivity | apply IH; [lia | exact E]].
Qed.

Lemma draw_blockers_ext (w h : R) (cue tgt : vec) (n : nat) (bl bl' : list vec) (f f' : nat)
    (us e r : list R) :
  (f <= f')%nat -> draw_blockers w h cue tgt n bl f us = Some (bl', r) ->
  draw_blockers w h cue tgt n bl f' (us ++ e) = Some (bl', r ++ e).
Proof.
  revert f' bl us; induction f as [|f IH]; intros f' bl us Hf E; cbn [draw_blockers] in E;
    [discriminate|].
  destruct f' as [|f']; [lia|]; cbn [draw_blockers].
  destruct (Nat.ltb (length bl) n); [|injection E as <- <-; reflexivity].
  destruct (rand_pt w h us) as [[p r']|] eqn:R1; [|discriminate].
  rewrite (rand_pt_app _ _ _ e _ _ R1).
  destruct (far p cue && far p tgt && forallb (far p) bl); apply IH; auto; lia.
Qed.

(** A layout without blockers on four draws. *)
Lemma layout_scenario :
  generate_layout (0.73, 0.375) 0 [0; 0; 0.5; 0.5] =
  Some (Layout (0.73, 0.375) (Vec 0.0125 0.0125) (Vec 0.365 0.1875) []).
Proof.
  unfold generate_layout; cbn [rand_pt length draw_target].
  assert (Hf : far (Vec (uniform BALL_R (0.73 - BALL_R) 0.5) (uniform BALL_R (0.375 - BALL_R) 0.5))
                   (Vec (uniform BALL_R (0.73 - BALL_R) 0) (uniform BALL_R (0.375 - BALL_R) 0)) = true).
  { unfold far; apply Rltb_true, norm_gt_of_sq; unfold BALL_R; [lra|].
    unfold norm2, dot, vsub, uniform; cbn [vx vy]; ring_simplify; lra. }
  rewrite Hf; cbn -[uniform BALL_R Rplus Rminus Rmult Rdiv IZR].
  unfold uniform, BALL_R; f_equal; f_equal; apply vec_eq; cbn [vx vy]; lra.
Qed.

(** ** Properties *)

(** C26: every layout [generate_layout] returns on draws of
    [random.random()] fits the table: the cue ball, the target and the
    blockers lie at least [BALL_R] inside the rails, the target is more
    than [4*BALL_R] from the cue ball, every blocker more than [4*BALL_R]
    from the cue ball, the target and the other blockers, and there are
    exactly [n_blockers] of them. *)
Theorem layout_valid (w h : R) (n : nat) (us : list R) (L : layout) :
  2 * BALL_R <= w -> 2 * BALL_R <= h -> Forall unit_draw us ->
  generate_layout (w, h) n us = Some L ->
  table L = (w, h) /\ in_box w h (lcue L) /\ in_box w h (ltarget L) /\
  far (ltarget L) (lcue L) = true /\ blockers_ok w h (lcue L) (ltarget L) n (lblockers L) /\
  length (lblockers L) = n.
Proof.
  intros Hw Hh Hu E; unfold generate_layout in E.
  destruct (rand_pt w h us) as [[cue us1]|] eqn:R1; [|discriminate].
  destruct (rand_pt_ok w h Hw Hh _ _ _ Hu R1) as [Hc Hu1].
  destruct (draw_target w h cue (length us1) us1) as [[tgt us2]|] eqn:R2; [|discriminate].
  destruct (draw_target_ok w h Hw Hh _ _ _ _ _ Hu1 R2) as [Ht [Hf Hu2]].
  destruct (draw_blockers w h cue tgt n [] (S (length us2)) us2) as [[bl us3]|] eqn:R3;
    [|discriminate]; injection E as <-.
  assert (H0 : blockers_ok w h cue tgt n []) by (split; [constructor | split; [constructor | cbn; lia]]).
  destruct (draw_blockers_ok w h Hw Hh cue tgt n [] bl _ us2 us3 Hu2 H0 R3) as [Hb Hl].
  cbn; auto 7.
Qed.

(** the layout depends only on the draws it consumes: drawing more
    random numbers after them does not change it (each loop stops as soon
    as the code's [break] or length test does). *)
Theorem layout_prefix (table_size : R * R) (n : nat) (us extra : list R) (L : layout) :
  generate_layout table_size n us = Some L -> generate_layout table_size n (us ++ extra) = Some L.
Proof.
  destruct table_size as [w h]; unfold generate_layout; intros E.
  destruct (rand_pt w h us) as [[cue us1]|] eqn:R1; [|discriminate].
  rewrite (rand_pt_app _ _ _ extra _ _ R1).
  destruct (draw_target w h cue (length us1) us1) as [[tgt us2]|] eqn:R2; [|discriminate].
  rewrite (draw_target_ext w h cue tgt (length us1) (length (us1 ++ extra)) us1 extra us2
             ltac:(rewrite length_app; lia) R2).
  destruct (draw_blockers w h cue tgt n [] (S (length us2)) us2) as [[bl us3]|] eqn:R3;
    [|discriminate].
  rewrite (draw_blockers_ext w h cue tgt n [] bl (S (length us2)) (S (length (us2 ++ extra)))
             us2 extra us3 ltac:(rewrite length_app; lia) R3).
  exact E.
Qed.

Lemma layout_valid_witness :
  table (Layout (0.73, 0.375) (Vec 0.0125 0.0125) (Vec 0.365 0.1875) []) = (0.73, 0.375) /\
  in_box 0.73 0.375 (Vec 0.0125 0.0125) /\ in_box 0.73 0.375 (Vec 0.365 0.1875) /\
  far (Vec 0.365 0.1875) (Vec 0.0125 0.0125) = true /\
  blockers_ok 0.73 0.375 (Vec 0.0125 0.0125) (Vec 0.365 0.1875) 0 [] /\ length (@nil vec) = 0%nat.
Proof.
  refine (layout_valid 0.73 0.375 0 [0; 0; 0.5; 0.5] _ _ _ _ layout_scenario);
    [unfold BALL_R; lra | unfold BALL_R; lra |].
  repeat constructor; unfold unit_draw; lra.
Defined.

Lemma layout_prefix_witness :
  generate_layout (0.73, 0.375) 0 ([0; 0; 0.5; 0.5] ++ [0.9]) =
  Some (Layout (0.73, 0.375) (Vec 0.0125 0.0125) (Vec 0.365 0.1875) []).
Proof. exact (layout_prefix (0.73, 0.375) 0 [0; 0; 0.5; 0.5] [0.9] _ layout_scenario). Defined.
