(* ===== verification/Render.v ===== *)
(** * The pygame views ([src/main/gui/simulator.py], [src/main/cli/shot_cli.py],
      [src/main/gui/visualize.py])

    The two demos draw one generated layout and the plan [compute_shot]
    returns for it; they differ in [SCALE] (800 and 400 pixels per metre)
    and in the coordinate grid only the simulator draws.  [visualize]'s
    [_render] draws any layout with the simulator's constants on
    [sim.TABLE], and ["NO  PATH"] when there is no plan ([render_frame],
    [show_frame]).  A round of their [while run] loops is modelled as the
    list of pygame calls it makes ([cmd]): the pixel map [px] with
    Python's [int] truncation, the dashed line helper [dashed] (a NaN end
    point, when both ends fall on one pixel, is its own command), the grid
    loops of [draw_grid] in binary64 floats (Rocq's primitive [float]),
    with fuel [grid_rounds], shown enough on the table drawn by
    [draw_grid_lines], and the pocket list each script rebuilds from its
    own table, which is not [billiard_api]'s.  The window and the event
    loop are in [Window]; fonts and the clock are not modelled; a label's
    text [f"{x:.2f}"] is kept as the float [x]. *)

From Stdlib Require Import Floats.
From Stdlib Require Import Reals Lra List Bool Arith ZArith Lia String.
From S2P Require Import Prelude Geometry Solver Json Api Generator.
Import ListNotations.
Open Scope R_scope.
#[local] Set Warnings "-inexact-float".

(** ** Constants *)

(** [SCALE] and [MARGIN]: simulator.py line 16, shot_cli.py line 7. *)
Record view := View { SCALE : R; MARGIN : R }.

Definition sim_view : view := View 800 20.
Definition cli_view : view := View 400 20.

Definition color : Type := (Z * Z * Z)%type.

Definition GRID_COLOR : color := (110, 110, 110)%Z.
Definition LABEL_COLOR : color := (230, 230, 230)%Z.
Definition GREEN : color := (18, 95, 29)%Z.
Definition RAIL : color := (60, 30, 10)%Z.
Definition PKCOL : color := (25, 12, 4)%Z.
Definition CUE : color := (245, 245, 245)%Z.
Definition TARGET : color := (255, 90, 40)%Z.
Definition OTH : color := (40, 120, 255)%Z.
Definition LINE1 : color := (250, 0, 0)%Z.
Definition LINE2 : color := (255, 255, 0)%Z.
Definition DASH : color := (185, 185, 185)%Z.

Definition GRID_STEP : float := 0.05.
Definition GRID_WIDTH : Z := 1%Z.

Definition R_BALL (v : view) : Z := py_trunc (BALL_R * SCALE v).
Definition R_PK (v : view) : Z := py_trunc (IZR (R_BALL v) * 1.6).
Definition DASH_W (v : view) : Z := py_trunc (2 * BALL_R * SCALE v).

(** [px = lambda p: (int(p[0]*SCALE+MARGIN), int(p[1]*SCALE+MARGIN))] *)
Definition px (v : view) (p : vec) : Z * Z :=
  (py_trunc (vx p * SCALE v + MARGIN v), py_trunc (vy p * SCALE v + MARGIN v)).

Definition pxR (v : view) (p : vec) : R * R := (IZR (fst (px v p)), IZR (snd (px v p))).

(** ** Drawing calls *)

(** The pygame calls of a frame: [scr.fill], [pygame.draw.rect],
    [pygame.draw.circle], [pygame.draw.line] (end points as numbers, or
    NaN), the [blit] of a grid label and of a rendered text. *)
Inductive cmd :=
| Fill (c : color)
| Rect (c : color) (x y w h : R)
| Circle (c : color) (center : Z * Z) (r : Z)
| Line (c : color) (a b : R * R) (w : Z)
| LineNaN (c : color) (w : Z)
| Label (text : float) (center : R * R)
| Text (s : string) (center : R * R).

(** [dashed(surf, col, a, b, w, dash=10, gap=6)]: the pixel vector of
    [a] to [b] is normalised by its length [L] ([0/0] is NaN when
    [L = 0]); [int(L // (dash+gap)) + 1] dashes of length [dash] start
    every [dash+gap] pixels. *)
Definition dashed (v : view) (col : color) (a b : vec) (w : Z) (dash gap : R) : list cmd :=
  let '(ax, ay) := px v a in
  let '(bx, by_) := px v b in
  let dx := IZR (bx - ax) in
  let dy := IZR (by_ - ay) in
  let L := sqrt (dx * dx + dy * dy) in
  let n := S (Z.to_nat (Int_part (L / (dash + gap)))) in
  if Reqb L 0 then repeat (LineNaN col w) n
  else
    map (fun i =>
           let s := INR i * (dash + gap) in
           let st := (IZR ax + dx / L * s, IZR ay + dy / L * s) in
           Line col st (fst st + dx / L * dash, snd st + dy / L * dash) w)
        (seq 0 n).

(** shot_cli.py's own constants and helpers (lines 8-22): those of the
    simulator at [SCALE = 400]. *)
Definition CLI_R_BALL : Z := R_BALL cli_view.
Definition CLI_R_PK : Z := R_PK cli_view.
Definition CLI_DASH_W : Z := DASH_W cli_view.
Definition cli_px : vec -> Z * Z := px cli_view.
Definition cli_dashed (col : color) (a b : vec) (w : Z) (dash gap : R) : list cmd :=
  dashed cli_view col a b w dash gap.

(** ** The grid of [draw_grid] (simulator.py lines 34-62)

    [draw_grid] computes in binary64 floats, as Python does: [x] starts at
    [0.0] and grows by [x += GRID_STEP], so that the [k]-th value is not
    [k * 0.05]; [px] is the simulator's own ([SCALE = 800],
    [MARGIN = 20]) whichever script calls it.  [float_trunc] is Python's
    [int()] of a finite float (towards zero); the grid values are finite. *)

Definition float_trunc (f : float) : Z :=
  match Prim2SF f with
  | S754_finite s m e =>
      let t := if (0 <=? e)%Z then Z.shiftl (Zpos m) e else Z.shiftr (Zpos m) (- e) in
      if s then (- t)%Z else t
  | _ => 0%Z
  end.

(** The real number a finite float stands for. *)
Definition float_R (f : float) : R :=
  match Prim2SF f with
  | S754_finite s m e => (if s then -1 else 1) * IZR (Zpos m) * powerRZ 2 e
  | _ => 0
  end.

(** [px((x, 0))[0]] and [px((0, y))[1]]: [int(x*SCALE+MARGIN)]. *)
Definition grid_px (x : float) : Z := float_trunc (x * 800 + 20)%float.

(** The values the loop variable takes: [while x <= t + 1e-6: ...;
    x += GRID_STEP] from [x]. *)
Fixpoint grid_steps (fuel : nat) (x t : float) : list float :=
  match fuel with
  | O => []
  | S f => if (x <=? t + 1e-6)%float then x :: grid_steps f (x + GRID_STEP)%float t else []
  end.

(** The body of the vertical loop (lines 39-47): a line over the height
    of the cloth and the label [f"{x:.2f}"] 12 pixels below it. *)
Definition vline (table_h x : float) : list cmd :=
  let px_x := IZR (grid_px x) in
  [Line GRID_COLOR (px_x, 20) (px_x, float_R (20 + table_h * 800)%float) GRID_WIDTH;
   Label x (px_x, float_R (20 + table_h * 800 + 12)%float)].

(** The body of the horizontal loop (lines 53-61), the label 15 pixels
    left of the cloth. *)
Definition hline (table_w y : float) : list cmd :=
  let px_y := IZR (grid_px y) in
  [Line GRID_COLOR (20, px_y) (float_R (20 + table_w * 800)%float, px_y) GRID_WIDTH;
   Label y (20 - 15, px_y)].

(** The fuel of a loop over [[0, t]]: [int((t + 1e-6) / GRID_STEP) + 1]
    rounds, the number of multiples of [GRID_STEP] in the range;
    [draw_grid_lines] shows that the loop test stops the loop there on
    the tables drawn. *)
Definition grid_rounds (t : float) : nat :=
  S (Z.to_nat (float_trunc ((t + 1e-6) / GRID_STEP)%float)).

(** [draw_grid(surface, table_w, table_h)]: the vertical lines, then the
    horizontal ones. *)
Definition draw_grid (table_w table_h : float) : list cmd :=
  flat_map (vline table_h) (grid_steps (grid_rounds table_w) 0 table_w) ++
  flat_map (hline table_w) (grid_steps (grid_rounds table_h) 0 table_h).

(** The table the grid is drawn on, as the float pair the code holds:
    [sim.TABLE] and [generate_layout]'s default [(0.73, 0.375)]. *)
Definition TABLE_F : float * float := (0.73, 0.375)%float.

(** ** A frame *)

(** [pockets = [...]] of simulator.py lines 74-75 (shot_cli.py 31-32),
    built from [layout['table']]. *)
Definition table_pockets (w h : R) : list vec :=
  [Vec 0 0; Vec (w / 2) 0; Vec w 0; Vec 0 h; Vec (w / 2) h; Vec w h].

(** Python's [l[i]] for [0 <= i]. *)
Definition py_index {A : Type} (l : list A) (i : nat) : py A :=
  match nth_error l i with Some x => ret x | None => raise IndexError end.

Definition vec_of (p : R * R) : vec := Vec (fst p) (snd p).

(** The [if plan:] block (lines 98-113): the aiming lines in red, the
    target's path in yellow, each over a grey dashed band. *)
Definition plan_cmds (v : view) (pockets : list vec) (cue tgt : vec) (r : shot) : py (list cmd) :=
  let G := vec_of (ghost_xy r) in
  (PK <- py_index pockets (pocket_id r) ;;
   red <- match stype r with
          | TDirect =>
              ret (dashed v DASH cue G (DASH_W v) 10 6 ++ [Line LINE1 (pxR v cue) (pxR v G) 2])
          | TBank1 =>
              match rail_xy r with
              | None => raise (KeyError "rail_pt"%string)
              | Some rp =>
                  let Rp := vec_of rp in
                  ret (dashed v DASH cue Rp (DASH_W v) 10 6 ++ dashed v DASH Rp G (DASH_W v) 10 6 ++
                       [Line LINE1 (pxR v cue) (pxR v Rp) 2; Line LINE1 (pxR v Rp) (pxR v G) 2])
              end
          end ;;
   ret (red ++ dashed v DASH tgt PK (DASH_W v) 10 6 ++
        [Line LINE2 (pxR v G) (pxR v tgt) 2; Line LINE2 (pxR v tgt) (pxR v PK) 2]))%py.

(** The background, the grid, the pockets and the balls (simulator.py
    lines 90-96, shot_cli.py 45-50, visualize.py 47-63). *)
Definition base_cmds (grid : option (float * float)) (v : view) (w h : R) (pockets : list vec)
    (cue tgt : vec) (blks : list vec) : list cmd :=
  [Fill RAIL; Rect GREEN (MARGIN v) (MARGIN v) (w * SCALE v) (h * SCALE v)] ++
  match grid with Some (gw, gh) => draw_grid gw gh | None => [] end ++
  map (fun pk => Circle PKCOL (px v pk) (R_PK v)) pockets ++
  [Circle CUE (px v cue) (R_BALL v); Circle TARGET (px v tgt) (R_BALL v)] ++
  map (fun b => Circle OTH (px v b) (R_BALL v)) blks.

(** One round of the [while run] loop after the events (lines 90-113 of
    simulator.py; shot_cli.py has no grid).  [grid] is the float table
    [draw_grid] is called on, if any. *)
Definition loop_body (grid : option (float * float)) (v : view) (L : layout) (plan : option shot) : py (list cmd) :=
  let '(w, h) := table L in
  let pockets := table_pockets w h in
  let base := base_cmds grid v w h pockets (lcue L) (ltarget L) (lblockers L) in
  match plan with
  | None => ret base
  | Some r => (pc <- plan_cmds v pockets (lcue L) (ltarget L) r ;; ret (base ++ pc))%py
  end.

(** [main()] up to the first frame: the plan of the layout, then the
    frame.  [grid] and [v] select the script. *)
Definition demo_frame (grid : option (float * float)) (v : view) (L : layout) : py (list cmd) :=
  (plan <- compute_shot (lcue L) (ltarget L) (lblockers L) ;; loop_body grid v L plan)%py.

Definition simulator_frame : layout -> py (list cmd) := demo_frame (Some TABLE_F) sim_view.
Definition shot_cli_frame : layout -> py (list cmd) := demo_frame None cli_view.

(** [sim.TABLE] of simulator.py line 16, which visualize.py draws on. *)
Definition SIM_TABLE : R * R := (0.73, 0.375).

(** A round of [_render(cue, target, blockers, info)] (visualize.py lines
    41-85): the simulator's drawing on [sim.TABLE], and ["NO  PATH"] at
    the centre of the window when [info] is [None]. *)
Definition render_frame (cue tgt : vec) (blockers : list vec) (info : option shot) : py (list cmd) :=
  let '(w, h) := SIM_TABLE in
  let v := sim_view in
  let pkts := table_pockets w h in
  let base := base_cmds (Some TABLE_F) v w h pkts cue tgt blockers in
  match info with
  | Some r => (pc <- plan_cmds v pkts cue tgt r ;; ret (base ++ pc))%py
  | None =>
      let width := IZR (py_trunc (w * SCALE v + MARGIN v * 2)) in
      let height := IZR (py_trunc (h * SCALE v + MARGIN v * 2)) in
      ret (base ++ [Text "NO  PATH" (width / 2, height / 2)])
  end.

(** The frame every round of the window of [show(cue, target, blockers,
    info=None)] draws (lines 103-106 and the drawing of [_render]): the
    plan is computed when none is given.  The window itself is
    [Window.show]. *)
Definition show_frame (cue tgt : vec) (blockers : list vec) (info : option shot) : py (list cmd) :=
  (info' <- match info with None => compute_shot cue tgt blockers | Some _ => ret info end ;;
   render_frame cue tgt blockers info')%py.

(** ** Lemmas *)

(** [int(r)] of a non-negative [r] between [z] and [z + 1]. *)
Lemma py_trunc_of (r : R) (z : Z) : 0 <= r -> IZR z <= r < IZR z + 1 -> py_trunc r = z.
Proof.
  intros H0 Hz; unfold py_trunc; destruct (Rle_dec 0 r) as [_|n]; [|lra].
  symmetry; apply Int_part_spec; lra.
Qed.

(** The pixel sizes of the two demos: balls of radius 10 and 5 pixels,
    pockets of 16 and 8, dashes 20 and 10 wide. *)
Lemma view_pixel_sizes :
  (R_BALL sim_view = 10 /\ R_PK sim_view = 16 /\ DASH_W sim_view = 20 /\
   CLI_R_BALL = 5 /\ CLI_R_PK = 8 /\ CLI_DASH_W = 10)%Z.
Proof.
  unfold CLI_R_BALL, CLI_R_PK, CLI_DASH_W, R_PK, DASH_W, R_BALL, sim_view, cli_view, BALL_R;
    cbn [SCALE].
  rewrite (py_trunc_of (0.0125 * 800) 10), (py_trunc_of (0.0125 * 400) 5) by lra.
  rewrite (py_trunc_of (IZR 10 * 1.6) 16), (py_trunc_of (IZR 5 * 1.6) 8) by (cbn; lra).
  rewrite (py_trunc_of (2 * 0.0125 * 800) 20), (py_trunc_of (2 * 0.0125 * 400) 10) by lra.
  repeat split.
Qed.

Lemma Int_part_nonneg (x : R) : 0 <= x -> (0 <= Int_part x)%Z.
Proof.
  intros Hx; destruct (Int_part_bounds x).
  assert (Hp : (0 < Int_part x + 1)%Z) by (apply lt_0_IZR; rewrite plus_IZR; lra); lia.
Qed.

(** A natural number is at most the floor of [x >= 0] exactly when it is
    at most [x]. *)
Lemma le_floor_iff (k : nat) (x : R) : 0 <= x -> (k <= Z.to_nat (Int_part x))%nat <-> INR k <= x.
Proof.
  intros Hx; pose proof (Int_part_nonneg x Hx) as Hn; destruct (Int_part_bounds x) as [H1 H2].
  rewrite INR_IZR_INZ; split; intros H.
  - apply Nat2Z.inj_le in H; rewrite Z2Nat.id in H by exact Hn; apply IZR_le in H; lra.
  - assert (Hk : (Z.of_nat k < Int_part x + 1)%Z) by (apply lt_IZR; rewrite plus_IZR; lra).
    apply Nat2Z.inj_le; rewrite Z2Nat.id by exact Hn; lia.
Qed.

(** The shape of every result of [compute_shot]: it never raises; a shot
    names one of the six pockets, the solver's, and a bank shot carries
    its mirror point. *)
Lemma compute_shot_result (cue tgt : vec) (blockers : list vec) :
  exists o, compute_shot cue tgt blockers = inr o /\
    match o with
    | None => True
    | Some r => exists p, solve _solver cue tgt blockers = Some p /\ (pocket_id r < 6)%nat /\
                  nth (pocket_id r) POCKETS (Vec 0 0) = plan_pocket p /\
                  (stype r = TBank1 -> exists rp, rail_xy r = Some rp)
    end.
Proof.
  unfold compute_shot; destruct (solve _solver cue tgt blockers) as [p|] eqn:Hs;
    [|eexists; split; [reflexivity | exact I]].
  destruct (pocket_lookup _ (solve_pocket_in _ _ _ _ Hs)) as (i & Hi & Hn & Hf).
  cbv zeta; rewrite Hf; eexists; split; [reflexivity|]; exists p; cbn.
  split; [reflexivity | split; [exact Hi | split; [exact Hn|]]].
  destruct p; cbn; [discriminate | eexists; reflexivity].
Qed.

Lemma py_index_lt {A : Type} (l : list A) (i : nat) (d : A) :
  (i < List.length l)%nat -> py_index l i = ret (nth i l d).
Proof. intros H; unfold py_index; rewrite (nth_error_nth' l d H); reflexivity. Qed.

Lemma last_app_two {A : Type} (l : list A) (x y d : A) : last (l ++ [x; y]) d = y.
Proof. replace (l ++ [x; y]) with ((l ++ [x]) ++ [y]) by (rewrite <- app_assoc; reflexivity); apply last_last. Qed.

(** The plan block draws its last line from the target into the pocket
    [pockets[pocket_id]], and raises nothing on a shot of [compute_shot]. *)
Lemma plan_cmds_last (v : view) (pockets : list vec) (cue tgt : vec) (r : shot) :
  (pocket_id r < List.length pockets)%nat ->
  (stype r = TBank1 -> exists rp, rail_xy r = Some rp) ->
  exists cs, plan_cmds v pockets cue tgt r = ret cs /\
    last cs (Fill RAIL) =
    Line LINE2 (pxR v tgt) (pxR v (nth (pocket_id r) pockets (Vec 0 0))) 2.
Proof.
  intros Hi Hb; unfold plan_cmds; rewrite (py_index_lt _ _ (Vec 0 0) Hi); cbn [bind ret].
  destruct (stype r); [| destruct (Hb eq_refl) as [rp ->]]; cbn [bind ret];
    eexists; (split; [reflexivity|]); rewrite app_assoc; apply last_app_two.
Qed.

(** The length of the pixel vector is zero exactly when both ends fall on
    one pixel. *)
Lemma pixel_norm_zero (dx dy : Z) : sqrt (IZR dx * IZR dx + IZR dy * IZR dy) = 0 <-> dx = 0%Z /\ dy = 0%Z.
Proof.
  split.
  - intros H; apply sqrt_eq_0 in H; [|nra].
    split; apply eq_IZR; nra.
  - intros [-> ->]; rewrite Rmult_0_l, Rplus_0_l; apply sqrt_0.
Qed.

(** A dash [i] of [floor(L / (dash + gap)) + 1] starts at most [L] from
    the first end. *)
Lemma dash_start_le (L p : R) (i : nat) :
  0 <= L -> 0 < p -> (i < S (Z.to_nat (Int_part (L / p))))%nat -> 0 <= INR i * p <= L.
Proof.
  intros HL Hp Hi; assert (Hx : 0 <= L / p) by (unfold Rdiv; apply Rmult_le_pos; [lra | apply Rlt_le, Rinv_0_lt_compat; lra]).
  assert (Hle : INR i <= L / p) by (apply (le_floor_iff i _ Hx); lia).
  split; [apply Rmult_le_pos; [apply pos_INR | lra]|].
  apply (Rmult_le_compat_r p) in Hle; [|lra].
  unfold Rdiv in Hle; rewrite Rmult_assoc, Rinv_l, Rmult_1_r in Hle by lra; exact Hle.
Qed.

Lemma last_app_ne {A : Type} (l m : list A) (d : A) : m <> [] -> last (l ++ m) d = last m d.
Proof.
  intros Hm; induction l as [|a l IH]; [reflexivity|]; rewrite <- app_comm_cons; cbn [last].
  destruct (l ++ m) as [|b r] eqn:E; [apply app_eq_nil in E; tauto | exact IH].
Qed.

(** The pixels of the pockets the demos draw for the default layout
    table, and of the pockets [compute_shot] aims at, in both scripts. *)
Lemma pocket_pixels :
  map (px sim_view) (table_pockets 0.73 0.375) =
    [(20, 20); (312, 20); (604, 20); (20, 320); (312, 320); (604, 320)]%Z /\
  map (px sim_view) POCKETS =
    [(20, 20); (314, 20); (608, 20); (20, 320); (314, 320); (608, 320)]%Z /\
  map (px cli_view) (table_pockets 0.73 0.375) =
    [(20, 20); (166, 20); (312, 20); (20, 170); (166, 170); (312, 170)]%Z /\
  map (px cli_view) POCKETS =
    [(20, 20); (167, 20); (314, 20); (20, 170); (167, 170); (314, 170)]%Z.
Proof.
  unfold px, table_pockets, POCKETS, TABLE, sim_view, cli_view;
    cbn [map SCALE MARGIN vx vy fst snd].
  repeat split; repeat f_equal; apply py_trunc_of; lra.
Qed.

(** On the default table the demos' pockets other than the two on the
    left rail fall on other pixels than the pockets of [billiard_api]. *)
Lemma pockets_differ (v : view) (i : nat) :
  In v [sim_view; cli_view] -> (i < 6)%nat -> i <> 0%nat -> i <> 3%nat ->
  px v (nth i (table_pockets 0.73 0.375) (Vec 0 0)) <> px v (nth i POCKETS (Vec 0 0)).
Proof.
  intros Hv Hi H0 H3; rewrite <- !(map_nth (px v)).
  destruct pocket_pixels as (E1 & E2 & E3 & E4).
  destruct Hv as [<- | [<- | []]]; [rewrite E1, E2 | rewrite E3, E4];
    do 6 (destruct i as [|i]; [cbn [nth]; congruence|]); lia.
Qed.

(** A frame after a shot of [compute_shot]: it raises nothing and ends
    with the yellow line from the target into the pocket of the demo's
    own list at the shot's index. *)
Lemma demo_frame_shot (grid : option (float * float)) (v : view) (L : layout) (r : shot) :
  compute_shot (lcue L) (ltarget L) (lblockers L) = inr (Some r) ->
  exists cs p, demo_frame grid v L = inr cs /\
    solve _solver (lcue L) (ltarget L) (lblockers L) = Some p /\
    (pocket_id r < 6)%nat /\ nth (pocket_id r) POCKETS (Vec 0 0) = plan_pocket p /\
    last cs (Fill RAIL) =
    Line LINE2 (pxR v (ltarget L))
      (pxR v (nth (pocket_id r) (table_pockets (fst (table L)) (snd (table L))) (Vec 0 0))) 2.
Proof.
  intros Hc; destruct (compute_shot_result (lcue L) (ltarget L) (lblockers L)) as [o [Ho Hs]].
  rewrite Hc in Ho; injection Ho as <-; destruct Hs as (p & Hp & Hi & Hn & Hb).
  destruct (table L) as [w h] eqn:Ht.
  destruct (plan_cmds_last v (table_pockets w h) (lcue L) (ltarget L) r) as [cs [Hcs Hl]];
    [cbn; lia | exact Hb|].
  unfold demo_frame, loop_body; rewrite Hc, Ht; cbn [bind fst snd]; rewrite Hcs; cbn [bind ret].
  eexists; exists p; split; [reflexivity | repeat split; auto].
  rewrite last_app_ne; [exact Hl|]; intros ->; discriminate Hl.
Qed.

(** The pixel length of a dash is [dash]: the unit vector scaled. *)
Lemma dash_length (dx dy L dash : R) :
  L = sqrt (dx * dx + dy * dy) -> L <> 0 -> 0 <= dash ->
  sqrt ((dx / L * dash) * (dx / L * dash) + (dy / L * dash) * (dy / L * dash)) = dash.
Proof.
  intros HL Hn Hd.
  assert (H2 : L * L = dx * dx + dy * dy) by (rewrite HL; apply sqrt_sqrt; nra).
  replace ((dx / L * dash) * (dx / L * dash) + (dy / L * dash) * (dy / L * dash))
    with (dash * dash * ((dx * dx + dy * dy) / (L * L))) by (field; exact Hn).
  rewrite <- H2; unfold Rdiv; rewrite Rinv_r, Rmult_1_r
    by (apply Rmult_integral_contrapositive; tauto).
  apply sqrt_square, Hd.
Qed.

Lemma div_unit (x L : R) : 0 <= x <= L -> 0 < L -> 0 <= x / L <= 1.
Proof.
  intros Hx HL; split.
  - unfold Rdiv; apply Rmult_le_pos; [lra | apply Rlt_le, Rinv_0_lt_compat, HL].
  - apply (Rmult_le_reg_r L); [exact HL|]; unfold Rdiv; rewrite Rmult_assoc, Rinv_l; lra.
Qed.

Lemma Int_part_zero : Int_part 0 = 0%Z.
Proof. symmetry; apply Int_part_spec; lra. Qed.

(** [visualize.show] after a shot of [compute_shot]: it raises nothing
    and ends with the yellow line into [pkts[pocket_id]], a pocket of
    [sim.TABLE]. *)
Lemma show_shot (cue tgt : vec) (blks : list vec) (r : shot) :
  compute_shot cue tgt blks = inr (Some r) ->
  exists cs p, show_frame cue tgt blks None = inr cs /\ solve _solver cue tgt blks = Some p /\
    (pocket_id r < 6)%nat /\ nth (pocket_id r) POCKETS (Vec 0 0) = plan_pocket p /\
    last cs (Fill RAIL) =
    Line LINE2 (pxR sim_view tgt) (pxR sim_view (nth (pocket_id r) (table_pockets 0.73 0.375) (Vec 0 0))) 2.
Proof.
  intros Hc; destruct (compute_shot_result cue tgt blks) as [o [Ho Hs]].
  rewrite Hc in Ho; injection Ho as <-; destruct Hs as (p & Hp & Hi & Hn & Hb).
  destruct (plan_cmds_last sim_view (table_pockets 0.73 0.375) cue tgt r) as [cs [Hcs Hl]];
    [cbn; lia | exact Hb|].
  unfold show_frame, render_frame, SIM_TABLE; rewrite Hc; cbn [bind]; rewrite Hcs; cbn [bind ret].
  eexists; exists p; split; [reflexivity | repeat split; auto].
  rewrite last_app_ne; [exact Hl|]; intros ->; discriminate Hl.
Qed.

Lemma compute_shot_none_solve (cue tgt : vec) (blks : list vec) :
  compute_shot cue tgt blks = inr None -> solve _solver cue tgt blks = None.
Proof.
  unfold compute_shot; destruct (solve _solver cue tgt blks); [|reflexivity].
  destruct (find_index _ _ _); discriminate.
Qed.

Definition is_text (c : cmd) : bool := match c with Text _ _ => true | _ => false end.

Lemma existsb_map_text {A : Type} (g : A -> cmd) (l : list A) :
  (forall x, is_text (g x) = false) -> existsb is_text (map g l) = false.
Proof. intros Hg; induction l as [|x l IH]; cbn; [reflexivity | rewrite Hg, IH; reflexivity]. Qed.

Lemma existsb_repeat_text (c : cmd) (n : nat) :
  is_text c = false -> existsb is_text (repeat c n) = false.
Proof. intros Hc; induction n as [|n IH]; cbn; [reflexivity | rewrite Hc, IH; reflexivity]. Qed.

Lemma dashed_text (v : view) (col : color) (a b : vec) (w : Z) (dash gap : R) :
  existsb is_text (dashed v col a b w dash gap) = false.
Proof.
  unfold dashed; destruct (px v a), (px v b); destruct (Reqb _ _);
    [apply existsb_repeat_text | apply existsb_map_text]; reflexivity.
Qed.

Lemma flat_map_text {A : Type} (g : A -> list cmd) (l : list A) :
  (forall x, existsb is_text (g x) = false) -> existsb is_text (flat_map g l) = false.
Proof. intros Hg; induction l as [|x l IH]; cbn [flat_map]; [reflexivity | rewrite existsb_app, Hg, IH; reflexivity]. Qed.

(** Once the loop test fails the loop stops, whatever fuel is left. *)
Lemma grid_steps_stop (f : nat) (x t : float) :
  (x <=? t + 1e-6)%float = false -> grid_steps f x t = [].
Proof. intros H; destruct f; cbn [grid_steps]; [|rewrite H]; reflexivity. Qed.

Lemma grid_steps_more (k f : nat) (x t : float) :
  grid_steps (S k) x t = grid_steps k x t -> grid_steps (k + f) x t = grid_steps k x t.
Proof.
  revert x; induction k as [|k IH]; intros x; cbn [grid_steps Nat.add].
  - intros H; destruct (x <=? t + 1e-6)%float eqn:E; [discriminate|]; apply grid_steps_stop, E.
  - destruct (x <=? t + 1e-6)%float; [|reflexivity].
    intros H; injection H as H; rewrite (IH _ H); reflexivity.
Qed.

Lemma grid_steps_x (f : nat) : (15 <= f)%nat -> grid_steps f 0 0.73 = grid_steps (grid_rounds 0.73) 0 0.73.
Proof.
  intros Hf; replace f with (15 + (f - 15))%nat by lia.
  rewrite grid_steps_more by (vm_compute; reflexivity); vm_compute; reflexivity.
Qed.

Lemma grid_steps_y (f : nat) : (8 <= f)%nat -> grid_steps f 0 0.375 = grid_steps (grid_rounds 0.375) 0 0.375.
Proof.
  intros Hf; replace f with (8 + (f - 8))%nat by lia.
  rewrite grid_steps_more by (vm_compute; reflexivity); vm_compute; reflexivity.
Qed.

Lemma grid_text (table_w table_h : float) : existsb is_text (draw_grid table_w table_h) = false.
Proof.
  unfold draw_grid; rewrite existsb_app, !flat_map_text by reflexivity; reflexivity.
Qed.

Create Rewrite HintDb render.
#[local] Hint Rewrite existsb_app grid_text dashed_text : render.

(** Only the ["NO  PATH"] branch draws text. *)
Lemma base_text (grid : option (float * float)) (v : view) (w h : R) (pockets : list vec) (cue tgt : vec)
    (blks : list vec) : existsb is_text (base_cmds grid v w h pockets cue tgt blks) = false.
Proof.
  unfold base_cmds; destruct grid as [[gw gh]|]; autorewrite with render;
    rewrite !existsb_map_text by reflexivity; reflexivity.
Qed.

Lemma plan_cmds_text (v : view) (pockets : list vec) (cue tgt : vec) (r : shot) (cs : list cmd) :
  plan_cmds v pockets cue tgt r = inr cs -> existsb is_text cs = false.
Proof.
  unfold plan_cmds; destruct (py_index pockets (pocket_id r)); [discriminate|]; cbn [bind].
  destruct (stype r); [|destruct (rail_xy r)]; cbn [bind ret]; try discriminate;
    intros [= <-]; autorewrite with render; reflexivity.
Qed.

Lemma text_in (s : string) (c : R * R) (l : list cmd) : In (Text s c) l -> existsb is_text l = true.
Proof. intros H; apply existsb_exists; exists (Text s c); split; [exact H | reflexivity]. Qed.

(** ** Properties *)

(** C29: the demos draw the pockets of the layout's table, 0.73 m wide
    ([ball_generator]'s default), and [visualize.show] those of
    [sim.TABLE], also 0.73 m, while [compute_shot] aims at the pockets of
    its own 0.735 m table: for every shot into a pocket off the left rail,
    the yellow line of each of the three scripts ends at a pixel other
    than the pocket the plan aims at. *)
Theorem demo_misdraws_pocket (grid : option (float * float)) (v : view) (L : layout) (r : shot) :
  In v [sim_view; cli_view] -> table L = default_table ->
  compute_shot (lcue L) (ltarget L) (lblockers L) = inr (Some r) ->
  pocket_id r <> 0%nat -> pocket_id r <> 3%nat ->
  exists cs cs' p, demo_frame grid v L = inr cs /\
    show_frame (lcue L) (ltarget L) (lblockers L) None = inr cs' /\
    solve _solver (lcue L) (ltarget L) (lblockers L) = Some p /\
    last cs (Fill RAIL) =
      Line LINE2 (pxR v (ltarget L))
        (pxR v (nth (pocket_id r) (table_pockets 0.73 0.375) (Vec 0 0))) 2 /\
    last cs' (Fill RAIL) =
      Line LINE2 (pxR sim_view (ltarget L))
        (pxR sim_view (nth (pocket_id r) (table_pockets 0.73 0.375) (Vec 0 0))) 2 /\
    px v (nth (pocket_id r) (table_pockets 0.73 0.375) (Vec 0 0)) <> px v (plan_pocket p) /\
    px sim_view (nth (pocket_id r) (table_pockets 0.73 0.375) (Vec 0 0)) <>
      px sim_view (plan_pocket p).
Proof.
  intros Hv Ht Hc H0 H3; destruct (demo_frame_shot grid v L r Hc) as (cs & p & Hf & Hp & Hi & Hn & Hl).
  destruct (show_shot _ _ _ r Hc) as (cs' & p' & Hf' & Hp' & _ & _ & Hl').
  rewrite Hp in Hp'; injection Hp' as <-; rewrite Ht in Hl.
  exists cs, cs', p; do 5 (split; [assumption|]).
  rewrite <- Hn; split; apply pockets_differ; auto; left; reflexivity.
Qed.

(** C34: [visualize.show] without a plan shows ["NO  PATH"], centred in its
    624 x 340 window, exactly when the solver finds no shot; it never
    raises. *)
Theorem show_no_path (cue tgt : vec) (blks : list vec) :
  exists cs, show_frame cue tgt blks None = inr cs /\
    (In (Text "NO  PATH" (312, 170)) cs <-> solve _solver cue tgt blks = None).
Proof.
  destruct (compute_shot_result cue tgt blks) as [[r|] [Ho Hs]].
  - destruct Hs as (p & Hp & Hi & _ & Hb).
    destruct (plan_cmds_last sim_view (table_pockets 0.73 0.375) cue tgt r) as [cs [Hcs _]];
      [cbn; lia | exact Hb|].
    unfold show_frame, render_frame, SIM_TABLE; rewrite Ho; cbn [bind]; rewrite Hcs; cbn [bind ret].
    eexists; split; [reflexivity|]; rewrite Hp; split; [|discriminate].
    intros Hin%text_in; rewrite existsb_app, base_text, (plan_cmds_text _ _ _ _ _ _ Hcs) in Hin.
    discriminate.
  - unfold show_frame, render_frame, SIM_TABLE; rewrite Ho; cbn [bind ret].
    eexists; split; [reflexivity|]; rewrite (compute_shot_none_solve _ _ _ Ho).
    split; [reflexivity|]; intros _; apply in_or_app; right; left.
    unfold sim_view; cbn [SCALE MARGIN].
    rewrite (py_trunc_of (0.73 * 800 + 20 * 2) 624), (py_trunc_of (0.375 * 800 + 20 * 2) 340) by lra.
    f_equal; f_equal; lra.
Qed.

(** no frame of the three scripts raises: in the demos and in
    [visualize.show] without a plan, [pockets[plan['pocket_id']]] always
    exists and a bank shot always has its ['rail_pt']. *)
Theorem demo_frame_total (grid : option (float * float)) (v : view) (L : layout) (cue tgt : vec) (blks : list vec) :
  (exists cs, demo_frame grid v L = inr cs) /\ (exists cs, show_frame cue tgt blks None = inr cs).
Proof.
  split.
  - destruct (compute_shot_result (lcue L) (ltarget L) (lblockers L)) as [[r|] [Ho _]].
    + destruct (demo_frame_shot grid v L r Ho) as (cs & _ & Hf & _); exists cs; exact Hf.
    + unfold demo_frame, loop_body; rewrite Ho; cbn [bind]; destruct (table L); eexists; reflexivity.
  - destruct (compute_shot_result cue tgt blks) as [[r|] [Ho _]].
    + destruct (show_shot cue tgt blks r Ho) as (cs & _ & Hf & _); exists cs; exact Hf.
    + unfold show_frame, render_frame; rewrite Ho; eexists; reflexivity.
Qed.

(** C30: the grid of the simulator and of [visualize] on their table
    [(0.73, 0.375)], computed in floats: given any fuel from 15 (resp. 8)
    rounds on the loops stop by their own test, after 15 vertical and 8
    horizontal lines, and [draw_grid] draws exactly these; the vertical
    lines fall on the pixels 20, 60, ..., 340, then 379, 419, 459 (one
    pixel left of [20 + 40 k], as [x += 0.05] drifts below [k * 0.05]),
    then 500, 540, 580; the horizontal ones on 20, 60, ..., 300. *)
Theorem draw_grid_lines (f g : nat) :
  (15 <= f)%nat -> (8 <= g)%nat ->
  draw_grid 0.73 0.375 =
    flat_map (vline 0.375) (grid_steps f 0 0.73) ++ flat_map (hline 0.73) (grid_steps g 0 0.375) /\
  map grid_px (grid_steps f 0 0.73) =
    [20; 60; 100; 140; 180; 220; 260; 300; 340; 379; 419; 459; 500; 540; 580]%Z /\
  map grid_px (grid_steps g 0 0.375) = [20; 60; 100; 140; 180; 220; 260; 300]%Z.
Proof.
  intros Hf Hg; rewrite (grid_steps_x f Hf), (grid_steps_y g Hg).
  split; [reflexivity | split; vm_compute; reflexivity].
Qed.

(** C35: [dashed] between two pixels: when both ends fall on one pixel it
    draws a single line with NaN end points (numpy's [0/0]); otherwise
    every dash starts on the segment between the pixels and is [dash]
    pixels long. *)
Theorem dashed_geometry (v : view) (col : color) (a b : vec) (w : Z) (dash gap : R)
    (ax ay bx by_ : Z) :
  px v a = (ax, ay) -> px v b = (bx, by_) -> 0 < dash -> 0 < gap ->
  ((ax, ay) = (bx, by_) -> dashed v col a b w dash gap = [LineNaN col w]) /\
  ((ax, ay) <> (bx, by_) -> forall c, In c (dashed v col a b w dash gap) ->
     exists st ed t, c = Line col st ed w /\ 0 <= t <= 1 /\
       st = (IZR ax + t * IZR (bx - ax), IZR ay + t * IZR (by_ - ay)) /\
       sqrt ((fst ed - fst st) * (fst ed - fst st) + (snd ed - snd st) * (snd ed - snd st)) = dash).
Proof.
  intros Ha Hb Hd Hg; unfold dashed; rewrite Ha, Hb; split.
  - intros E; injection E as <- <-; rewrite !Z.sub_diag, (proj2 (pixel_norm_zero 0 0) (conj eq_refl eq_refl)).
    destruct (Reqb_spec 0 0) as [_|n]; [|contradiction].
    unfold Rdiv; rewrite Rmult_0_l, Int_part_zero; reflexivity.
  - intros Hne c Hc; set (L := sqrt _) in *.
    assert (HL : L <> 0) by (unfold L; rewrite pixel_norm_zero; intros [E1 E2]; apply Hne; f_equal; lia).
    assert (HL0 : 0 < L) by (pose proof (sqrt_pos (IZR (bx - ax) * IZR (bx - ax) + IZR (by_ - ay) * IZR (by_ - ay))); fold L in H; lra).
    destruct (Reqb_spec L 0) as [E|_]; [contradiction|].
    apply in_map_iff in Hc as [i [<- Hi]]; apply in_seq in Hi.
    destruct (dash_start_le L (dash + gap) i) as [Hs1 Hs2]; [lra | lra | lia |].
    eexists _, _, (INR i * (dash + gap) / L); split; [reflexivity|].
    split; [apply div_unit; lra|].
    split; [f_equal; field; exact HL|].
    cbn [fst snd]; rewrite !(Rplus_comm (IZR ax + _)), !(Rplus_comm (IZR ay + _)), !Rplus_minus_r.
    apply dash_length; [reflexivity | exact HL | lra].
Qed.

(** ** Witnesses *)

Lemma demo_misdraws_pocket_witness :
  let L := Layout default_table (Vec 0.3675 0.3) (Vec 0.3675 0.1) [] in
  let r := Shot TDirect 1 (0.3675, 0.125) (-90) None in
  In sim_view [sim_view; cli_view] /\ table L = default_table /\
  compute_shot (lcue L) (ltarget L) (lblockers L) = inr (Some r) /\
  exists cs cs' p, demo_frame (Some TABLE_F) sim_view L = inr cs /\
    show_frame (lcue L) (ltarget L) (lblockers L) None = inr cs' /\
    solve _solver (lcue L) (ltarget L) (lblockers L) = Some p /\
    last cs (Fill RAIL) =
      Line LINE2 (pxR sim_view (ltarget L))
        (pxR sim_view (nth (pocket_id r) (table_pockets 0.73 0.375) (Vec 0 0))) 2 /\
    last cs' (Fill RAIL) =
      Line LINE2 (pxR sim_view (ltarget L))
        (pxR sim_view (nth (pocket_id r) (table_pockets 0.73 0.375) (Vec 0 0))) 2 /\
    px sim_view (nth (pocket_id r) (table_pockets 0.73 0.375) (Vec 0 0)) <> px sim_view (plan_pocket p) /\
    px sim_view (nth (pocket_id r) (table_pockets 0.73 0.375) (Vec 0 0)) <>
      px sim_view (plan_pocket p).
Proof.
  intros L r; split; [left; reflexivity | split; [reflexivity | split; [exact scenario_compute_shot|]]].
  apply (demo_misdraws_pocket (Some TABLE_F) sim_view L r (or_introl eq_refl) eq_refl scenario_compute_shot);
    discriminate.
Defined.

Lemma draw_grid_lines_witness :
  (15 <= 15)%nat /\ (8 <= 8)%nat /\
  draw_grid 0.73 0.375 =
    flat_map (vline 0.375) (grid_steps 15 0 0.73) ++ flat_map (hline 0.73) (grid_steps 8 0 0.375) /\
  map grid_px (grid_steps 15 0 0.73) =
    [20; 60; 100; 140; 180; 220; 260; 300; 340; 379; 419; 459; 500; 540; 580]%Z /\
  map grid_px (grid_steps 8 0 0.375) = [20; 60; 100; 140; 180; 220; 260; 300]%Z.
Proof. split; [lia | split; [lia | exact (draw_grid_lines 15 8 (le_n _) (le_n _))]]. Defined.

Lemma dashed_geometry_witness :
  px sim_view (Vec 0.1 0.1) = (100, 100)%Z /\ px sim_view (Vec 0.3 0.1) = (260, 100)%Z /\
  (((100, 100)%Z = (260, 100)%Z ->
    dashed sim_view DASH (Vec 0.1 0.1) (Vec 0.3 0.1) 20 10 6 = [LineNaN DASH 20]) /\
   ((100, 100)%Z <> (260, 100)%Z -> forall c, In c (dashed sim_view DASH (Vec 0.1 0.1) (Vec 0.3 0.1) 20 10 6) ->
     exists st ed t, c = Line DASH st ed 20 /\ 0 <= t <= 1 /\
       st = (IZR 100 + t * IZR (260 - 100), IZR 100 + t * IZR (100 - 100)) /\
       sqrt ((fst ed - fst st) * (fst ed - fst st) + (snd ed - snd st) * (snd ed - snd st)) = 10)).
Proof.
  assert (Ha : px sim_view (Vec 0.1 0.1) = (100, 100)%Z)
    by (unfold px, sim_view; cbn [SCALE MARGIN vx vy]; f_equal; apply py_trunc_of; lra).
  assert (Hb : px sim_view (Vec 0.3 0.1) = (260, 100)%Z)
    by (unfold px, sim_view; cbn [SCALE MARGIN vx vy]; f_equal; apply py_trunc_of; lra).
  split; [exact Ha | split; [exact Hb|]].
  apply (dashed_geometry sim_view DASH (Vec 0.1 0.1) (Vec 0.3 0.1) 20 10 6 100 100 260 100 Ha Hb); lra.
Defined.
