(* ===== verification/Window.v ===== *)
(** * The pygame event loops ([src/main/gui/simulator.py] [main],
      [src/main/cli/shot_cli.py] [main], [src/main/gui/visualize.py]
      [_render])

    The three scripts compute their plan once and then run
    [while run: for e in pygame.event.get(): if e.type == QUIT: run = False],
    drawing a frame and flipping the display in every round, the round
    that sees [QUIT] included.  The events of each round are the input
    ([list (list event)]: the batches [pygame.event.get()] returns); a
    list that ends before a [QUIT] is a window still open.  The frame of a
    round is the list of pygame calls of [Render]; nothing in the loop
    changes the plan or the layout, so every round draws the same frame.
    [_render] opens its window with [pygame.display.set_mode], which
    raises [pygame.error] (a [RuntimeError]) when there is no display
    ([display]); [visualize.show] computes the plan when none is given and
    calls [_render], so it returns only once the window is closed.  The
    fonts and the clock's 60 Hz pacing are not modelled. *)

From Stdlib Require Import Floats.
From Stdlib Require Import Reals List Bool Arith Lia String.
From S2P Require Import Prelude Geometry Solver Json Api Generator Render.
Import ListNotations.
Open Scope R_scope.

(** The events the loops look at: [pygame.QUIT] and any other. *)
Inductive event := Quit | OtherEvent.

Definition is_quit (e : event) : bool := match e with Quit => true | OtherEvent => false end.

(** [for e in pygame.event.get(): if e.type == pygame.QUIT: run = False]. *)
Definition has_quit (batch : list event) : bool := existsb is_quit batch.

(** [while run:] with the events, the frame and [pygame.display.flip()]:
    the frames drawn, and whether the loop has ended. *)
Fixpoint event_loop {A : Type} (frame : py A) (batches : list (list event)) : py (list A * bool) :=
  match batches with
  | [] => ret ([], false)
  | b :: r =>
      (f <- frame ;;
       if has_quit b then ret ([f], true)
       else (res <- event_loop frame r ;; ret (f :: fst res, snd res)))%py
  end.

(** [main()] of [simulator.py] (grid, 800 px/m) and [shot_cli.py] (no
    grid, 400 px/m) on the layout [generate_layout] gave: the plan, then
    the loop. *)
Definition demo_main (grid : option (float * float)) (v : view) (L : layout) (batches : list (list event))
    : py (list (list cmd) * bool) :=
  (plan <- compute_shot (lcue L) (ltarget L) (lblockers L) ;;
   event_loop (loop_body grid v L plan) batches)%py.

Definition simulator_main : layout -> list (list event) -> py (list (list cmd) * bool) :=
  demo_main (Some TABLE_F) sim_view.
Definition shot_cli_main : layout -> list (list event) -> py (list (list cmd) * bool) :=
  demo_main None cli_view.

(** Whether [pygame.display.set_mode] finds a display to open its
    window on. *)
Inductive display := HasDisplay | NoDisplay.

(** [pygame.display.set_mode(..)]: without a video device it raises
    [pygame.error], which subclasses [RuntimeError]. *)
Definition set_mode (d : display) : py unit :=
  match d with
  | HasDisplay => ret tt
  | NoDisplay => raise (RuntimeError "pygame.error")
  end.

(** [_render(cue, target, blockers, info)] of [visualize.py] (lines
    19-90): the window, then the loop. *)
Definition render_main (d : display) (cue tgt : vec) (blockers : list vec) (info : option shot)
    (batches : list (list event)) : py (list (list cmd) * bool) :=
  (_ <- set_mode d ;; event_loop (render_frame cue tgt blockers info) batches)%py.

(** [visualize.show(cue, target, blockers, info=None)] (lines 97-106):
    the plan of [compute_shot] when none is given, then [_render]. *)
Definition show (d : display) (cue tgt : vec) (blockers : list vec) (info : option shot)
    (batches : list (list event)) : py (list (list cmd) * bool) :=
  (info' <- match info with None => compute_shot cue tgt blockers | Some _ => ret info end ;;
   render_main d cue tgt blockers info' batches)%py.

(** ** Lemmas *)

Lemma event_loop_open {A : Type} (frame : py A) (f : A) (bs : list (list event)) :
  frame = ret f -> Forall (fun b => has_quit b = false) bs ->
  event_loop frame bs = ret (repeat f (List.length bs), false).
Proof.
  intros ->; induction 1 as [|b bs Hb _ IH]; [reflexivity|]; cbn [event_loop bind ret].
  rewrite Hb, IH; reflexivity.
Qed.

Lemma event_loop_quit {A : Type} (frame : py A) (f : A) (pre : list (list event))
    (b : list event) (post : list (list event)) :
  frame = ret f -> Forall (fun b => has_quit b = false) pre -> has_quit b = true ->
  event_loop frame (pre ++ b :: post) = ret (repeat f (S (List.length pre)), true).
Proof.
  intros -> Hpre Hb; induction Hpre as [|b' pre Hb' _ IH]; cbn [event_loop app bind ret].
  - rewrite Hb; reflexivity.
  - rewrite Hb', IH; reflexivity.
Qed.

(** The loop has ended exactly when some round saw [QUIT]. *)
Lemma event_loop_ends {A : Type} (frame : py A) (f : A) (bs : list (list event)) :
  frame = ret f -> exists fs, event_loop frame bs = ret (fs, existsb has_quit bs).
Proof.
  intros ->; induction bs as [|b bs [fs IH]]; cbn [event_loop bind ret existsb];
    [eexists; reflexivity|].
  destruct (has_quit b); cbn [orb]; [eexists; reflexivity|]; rewrite IH; eexists; reflexivity.
Qed.

(** [show] with a plan of [compute_shot]: no window without a display;
    otherwise it has returned exactly when a [QUIT] came. *)
Lemma show_plan (d : display) (cue tgt : vec) (blks : list vec) (r : shot)
    (bs : list (list event)) :
  compute_shot cue tgt blks = ret (Some r) ->
  match d with
  | NoDisplay => show d cue tgt blks (Some r) bs = raise (RuntimeError "pygame.error")
  | HasDisplay => exists fs, show d cue tgt blks (Some r) bs = ret (fs, existsb has_quit bs)
  end.
Proof.
  intros Hc; destruct (show_shot cue tgt blks r Hc) as [cs [_ [Hs _]]].
  unfold show_frame in Hs; rewrite Hc in Hs; cbn [bind] in Hs.
  unfold show, render_main; cbn [bind ret]; destruct d; cbn [set_mode bind]; [|reflexivity].
  exact (event_loop_ends _ _ bs Hs).
Qed.

Lemma loop_body_total (grid : option (float * float)) (v : view) (L : layout) :
  exists plan cs, compute_shot (lcue L) (ltarget L) (lblockers L) = ret plan /\
    loop_body grid v L plan = ret cs.
Proof.
  destruct (demo_frame_total grid v L (lcue L) (ltarget L) (lblockers L)) as [[cs Hcs] _].
  destruct (compute_shot_returns (lcue L) (ltarget L) (lblockers L)) as [plan Hp].
  exists plan, cs; split; [exact Hp|]; unfold demo_frame in Hcs; rewrite Hp in Hcs; exact Hcs.
Qed.

(** ** Properties *)

(** C31: the demos' window loop ends exactly at the first round whose
    events hold [QUIT]: it draws the frame of the layout's plan once per
    round up to and including that round, never raises, and keeps
    running, one frame per round, while no [QUIT] comes. *)
Theorem demo_main_quits (grid : option (float * float)) (v : view) (L : layout)
    (pre : list (list event)) (b : list event) (post : list (list event)) :
  Forall (fun b => has_quit b = false) pre -> has_quit b = true ->
  exists cs, demo_frame grid v L = ret cs /\
    demo_main grid v L (pre ++ b :: post) = ret (repeat cs (S (List.length pre)), true) /\
    demo_main grid v L pre = ret (repeat cs (List.length pre), false).
Proof.
  intros Hpre Hb; destruct (loop_body_total grid v L) as [plan [cs [Hp Hl]]].
  exists cs; unfold demo_main, demo_frame; rewrite Hp; cbn [bind].
  split; [exact Hl | split; [apply event_loop_quit | apply event_loop_open]; assumption].
Qed.

(** [visualize._render] raises [pygame.error] without a display;
    with one it keeps the window open, redrawing the same frame, until
    the first [QUIT]. *)
Theorem render_main_quits (cue tgt : vec) (blks : list vec) (info : option shot) (cs : list cmd)
    (pre : list (list event)) (b : list event) (post : list (list event)) :
  render_frame cue tgt blks info = ret cs ->
  Forall (fun b => has_quit b = false) pre -> has_quit b = true ->
  render_main NoDisplay cue tgt blks info (pre ++ b :: post) = raise (RuntimeError "pygame.error") /\
  render_main HasDisplay cue tgt blks info (pre ++ b :: post) = ret (repeat cs (S (List.length pre)), true) /\
  render_main HasDisplay cue tgt blks info pre = ret (repeat cs (List.length pre), false).
Proof.
  intros Hf Hpre Hb; split; [reflexivity|]; unfold render_main; cbn [set_mode bind].
  split; [apply event_loop_quit | apply event_loop_open]; assumption.
Qed.

Local Abbreviation L0 :=
  (Layout (0.73, 0.375) (Vec 0.3675 0.3) (Vec 0.3675 0.1) []).

Lemma demo_main_quits_witness :
  Forall (fun b => has_quit b = false) [[OtherEvent]] /\ has_quit [OtherEvent; Quit] = true /\
  exists cs, demo_frame (Some TABLE_F) sim_view L0 = ret cs /\
    demo_main (Some TABLE_F) sim_view L0 ([[OtherEvent]] ++ [OtherEvent; Quit] :: [[Quit]]) =
      ret (repeat cs (S (List.length [[OtherEvent]])), true) /\
    demo_main (Some TABLE_F) sim_view L0 [[OtherEvent]] = ret (repeat cs (List.length [[OtherEvent]]), false).
Proof.
  assert (H1 : Forall (fun b => has_quit b = false) [[OtherEvent]]) by (repeat constructor).
  assert (H2 : has_quit [OtherEvent; Quit] = true) by reflexivity.
  split; [exact H1 | split; [exact H2 |]].
  exact (demo_main_quits (Some TABLE_F) sim_view L0 [[OtherEvent]] [OtherEvent; Quit] [[Quit]] H1 H2).
Defined.
