(* ===== verification/Visualize.v ===== *)
(** * The command line of [src/main/gui/visualize.py]

    Run as a script, [visualize.py] reads [--cue x y], [--target x y] and
    [--blockers x1 y1 x2 y2 ...] with argparse, pairs the blocker values
    by [zip(args.blockers[::2], args.blockers[1::2])], prints the result
    of [compute_shot] and opens the window of [_render].  The parsed
    arguments are the input ([cli_args]: argparse's own checks, such as
    exactly two numbers after [--cue], are not modelled); the print is
    the [option shot] returned with what [_render] did: its window on
    the display [d] and the frames of the event batches [bs].  The pairing keeps
    [length / 2] blockers: an odd number of blocker values loses the last
    one without a message. *)

From Stdlib Require Import Reals Lra List Bool Arith ZArith Lia String.
From S2P Require Import Prelude Geometry Solver Json Api RunShot Render Window.
Import ListNotations.
Open Scope R_scope.

(** [l[::2]] and [l[1::2]]. *)
Fixpoint slice_even {A : Type} (l : list A) : list A :=
  match l with [] => [] | x :: r => x :: slice_odd r end
with slice_odd {A : Type} (l : list A) : list A :=
  match l with [] => [] | _ :: r => slice_even r end.

(** [list(zip(args.blockers[::2], args.blockers[1::2]))] (line 122):
    [zip] stops at the shorter list, as [combine] does. *)
Definition cli_blockers (l : list R) : list vec :=
  map (fun '(x, y) => Vec x y) (combine (slice_even l) (slice_odd l)).

Record cli_args := CliArgs { arg_cue : R * R; arg_target : R * R; arg_blockers : list R }.

(** Lines 120-128: the tuples of the arguments, [compute_shot] on them
    (printed), and [_render] with the plan. *)
Definition visualize_main (a : cli_args) (d : display) (bs : list (list event))
    : py (option shot * (list (list cmd) * bool)) :=
  let cue := vec_of (arg_cue a) in
  let target := vec_of (arg_target a) in
  let blockers := cli_blockers (arg_blockers a) in
  (info <- compute_shot cue target blockers ;;
   res <- render_main d cue target blockers info bs ;;
   ret (info, res))%py.

(** Where a call stands after the window's events: it has returned
    [Done a], or it is still [Waiting] in [show]'s loop for a [QUIT]. *)
Inductive pending (A : Type) := Done (a : A) | Waiting.
Arguments Done {A} a.
Arguments Waiting {A}.

(** [plan_shot_from_json(json_path, target_id, show)] of [run_shot.py]
    with its [--show] branch (lines 81-82): [visualize.show(cue_xy,
    target, blocks, info)] is called inside the [try] before the result is
    returned, on the display [d] with the events [bs]: the result comes
    only once the window is closed, and an exception of the window is
    caught by [except Exception]. *)
Definition plan_shot_body_show (doc : py jval) (t : target_arg) (show_flag : bool)
    (d : display) (bs : list (list event)) : py (pending (R * vec)) :=
  (sel <- select_balls doc t ;;
   let '(cue_b, tgt_b, blk_bs) := sel in
   cue_xy <- ball_xy cue_b ;;
   target <- ball_xy tgt_b ;;
   blocks <- py_map ball_xy blk_bs ;;
   info <- compute_shot cue_xy target blocks ;;
   match info with
   | None => raise (RuntimeError "no feasible path")
   | Some sh =>
       if show_flag then
         (res <- show d cue_xy target blocks (Some sh) bs ;;
          if snd res then ret (Done (angle_deg sh, cue_xy)) else ret Waiting)
       else ret (Done (angle_deg sh, cue_xy))
   end)%py.

Definition plan_shot_show (doc : py jval) (t : target_arg) (show_flag : bool)
    (d : display) (bs : list (list event)) : pending (option (R * vec)) :=
  match plan_shot_body_show doc t show_flag d bs with
  | inl _ => Done None
  | inr (Done r) => Done (Some r)
  | inr Waiting => Waiting
  end.

(** The coordinates of a list of points, as the command line lists them. *)
Definition coords (ps : list vec) : list R := flat_map (fun p => [vx p; vy p]) ps.

(** ** Lemmas *)

Lemma list_pair_ind {A : Type} (P : list A -> Prop) :
  P [] -> (forall x, P [x]) -> (forall x y r, P r -> P (x :: y :: r)) -> forall l, P l.
Proof. intros H0 H1 H2; fix IH 1; intros [|x [|y r]]; [exact H0 | exact (H1 x) | exact (H2 x y r (IH r))]. Qed.

Lemma cli_blockers_cons (x y : R) (r : list R) :
  cli_blockers (x :: y :: r) = Vec x y :: cli_blockers r.
Proof. reflexivity. Qed.

(** The command line draws what [show] draws without a plan, and prints
    the plan that [show] computes. *)
Lemma visualize_main_show (a : cli_args) (d : display) (bs : list (list event)) :
  exists info, compute_shot (vec_of (arg_cue a)) (vec_of (arg_target a)) (cli_blockers (arg_blockers a)) = ret info /\
  match show d (vec_of (arg_cue a)) (vec_of (arg_target a)) (cli_blockers (arg_blockers a)) None bs with
  | inr res => visualize_main a d bs = ret (info, res)
  | inl e => visualize_main a d bs = raise e
  end.
Proof.
  destruct (compute_shot_returns (vec_of (arg_cue a)) (vec_of (arg_target a))
              (cli_blockers (arg_blockers a))) as [info Hc].
  exists info; split; [exact Hc|]; unfold visualize_main, show; cbv zeta; rewrite Hc; cbn [bind].
  destruct (render_main d _ _ _ info bs); reflexivity.
Qed.

(** ** Properties *)

(** C33: the pairing of [--blockers] is a round trip up to parity: the
    blockers read back as [x1 y1 x2 y2 ...] are the first [2 * (n / 2)]
    of the [n] values given, one blocker per pair, so an odd last value
    is dropped. *)
Theorem cli_blockers_pairs (l : list R) :
  coords (cli_blockers l) = firstn (2 * (List.length l / 2)) l /\
  List.length (cli_blockers l) = (List.length l / 2)%nat.
Proof.
  induction l as [|x|x y r [IHc IHl]] using list_pair_ind; [split; reflexivity | split; reflexivity|].
  rewrite cli_blockers_cons; cbn [coords flat_map List.length] in *.
  replace (S (S (List.length r)) / 2)%nat with (S (List.length r / 2))
    by (replace (S (S (List.length r))) with (1 * 2 + List.length r)%nat by lia;
        rewrite Nat.div_add_l by lia; reflexivity).
  replace (2 * S (List.length r / 2))%nat with (S (S (2 * (List.length r / 2)))) by lia.
  cbn [firstn app]; rewrite <- IHc, IHl; split; reflexivity.
Qed.

(** C16: the [--show] window of [run_shot.py]: without [--show] the
    result is that of [plan_shot_from_json]; with it, a failed plan still
    gives [None], and a plan is returned only after the window is closed
    by a [QUIT], and is lost ([None]) when [set_mode] finds no display. *)
Theorem plan_shot_show_window (doc : py jval) (t : target_arg) (d : display)
    (bs : list (list event)) :
  plan_shot_show doc t false d bs = Done (plan_shot_from_json doc t) /\
  plan_shot_show doc t true d bs =
    match plan_shot_from_json doc t with
    | None => Done None
    | Some r =>
        match d with
        | NoDisplay => Done None
        | HasDisplay => if existsb has_quit bs then Done (Some r) else Waiting
        end
    end.
Proof.
  unfold plan_shot_show, plan_shot_from_json, plan_shot_body_show, plan_shot_body.
  destruct (select_balls doc t) as [e|[[c tg] blk]]; [split; reflexivity|]; cbn [bind].
  destruct (ball_xy c) as [e|cue_xy]; [split; reflexivity|]; cbn [bind].
  destruct (ball_xy tg) as [e|target]; [split; reflexivity|]; cbn [bind].
  destruct (py_map ball_xy blk) as [e|blocks]; [split; reflexivity|]; cbn [bind].
  destruct (compute_shot cue_xy target blocks) as [e|[sh|]] eqn:Hc; [split; reflexivity| |split; reflexivity].
  cbn [bind ret]; split; [reflexivity|].
  pose proof (show_plan d cue_xy target blocks sh bs Hc) as Hs; destruct d.
  - destruct Hs as [fs ->]; cbn [bind snd]; destruct (existsb has_quit bs); reflexivity.
  - rewrite Hs; reflexivity.
Qed.
