(* ===== verification/Camera.v ===== *)
(** * The capture front ends of the two detectors
      ([src/main/vision/yoloball.py] [capture_balls], [_load_homography],
      [_snap]; [src/main/vision/houghball.py] [capture_balls])

    Both open the camera, show a countdown during which Esc cancels, read
    the last frame, detect and write a JSON file.  The clock decides how
    many rounds the countdown loop makes: a run of the camera is given as
    the list of its rounds ([round]: the frame [cap.read()] returned and
    the key code of [cv2.waitKey(30)]) and the final read.  The
    third-party calls are the variables of the section [Capture]: the
    frame type, [np.array(.., dtype=float32)] of one JSON entry,
    [cv2.getPerspectiveTransform], the intrinsics loader and
    [cv2.undistort], YOLO, [cv2.HoughCircles] and the HSV statistics of a
    disc.  The previews, windows and prints are not modelled. *)

From Stdlib Require Import List Bool String ZArith Lia Reals.
From S2P Require Import Prelude Json Vision Hough.
Import ListNotations.
Open Scope string_scope.

Section Capture.

Variable img : Type.

(** One round of a countdown loop. *)
Record round := Round { read_frame : option img; key : Z }.

(** [cv2.waitKey(30) & 0xFF == 27] *)
Definition esc (k : Z) : bool := Z.eqb (Z.land k 255) 27.

(** ** yoloball.py *)

(** [np.array(x, dtype=np.float32)] of one corner coordinate. *)
Variable f32 : jval -> py R.
(** [cv2.getPerspectiveTransform(src, dst)] *)
Variable getPerspectiveTransform : list (R * R) -> list (R * R) -> mat3.
(** The camera matrix and distortion of [_load_intrinsics], and
    [_undistort]. *)
Variable intrinsics : Type.
Variable load_intrinsics : string -> py intrinsics.
Variable undistort : img -> intrinsics -> img.
(** The boxes YOLO finds on a frame. *)
Variable yolo : img -> list raw_det.

(** [[c[k]['x'], c[k]['y']]] of one corner (lines 61-64). *)
Definition corner_pt (c : jval) (k : string) : py (R * R) :=
  (p <- getitem c k ;; x <- getitem p "x" ;; y <- getitem p "y" ;;
   fx <- f32 x ;; fy <- f32 y ;; ret (fx, fy))%py.

(** [_load_homography(corner_json)] on the document [json.load] gives
    (lines 57-67). *)
Definition load_homography (doc : py jval) : py mat3 :=
  (c <- doc ;;
   tl <- corner_pt c "top_left" ;; tr <- corner_pt c "top_right" ;;
   br <- corner_pt c "bottom_right" ;; bl <- corner_pt c "bottom_left" ;;
   ret (getPerspectiveTransform [tl; tr; br; bl]
          [(0, 0); (TABLE_W_CM, 0); (TABLE_W_CM, TABLE_H_CM); (0, TABLE_H_CM)]%R))%py.

(** The [while time.time() < end] loop of [_snap] and the final read
    (lines 86-94): every round tests the key, read or not. *)
Fixpoint snap_rounds (rs : list round) (final : option img) : py (option img) :=
  match rs with
  | [] => match final with
          | None => raise (RuntimeError "Snap fail")
          | Some i => ret (Some i)
          end
  | r :: rs' => if esc (key r) then ret None else snap_rounds rs' final
  end.

(** [_snap(wait)] (lines 81-94). *)
Definition snap (opened : bool) (rs : list round) (final : option img) : py (option img) :=
  if negb opened then raise (RuntimeError "Camera open fail") else snap_rounds rs final.

Definition YOLO_OUT : string := "captures_json/cords.json".

(** [capture_balls(wait_sec, show=False, intrinsics_path)] (lines 31-53):
    [None] for the [(None, None)] of a cancelled countdown, otherwise the
    path written and the document. *)
Definition yolo_capture_balls (corner_doc : py jval) (intrinsics_path : option string)
    (opened : bool) (rs : list round) (final : option img) (ts : string)
    : py (option (string * jval)) :=
  (H <- load_homography corner_doc ;;
   K <- match intrinsics_path with
        | Some p => if String.eqb p "" then ret None
                    else (k <- load_intrinsics p ;; ret (Some k))
        | None => ret None
        end ;;
   im <- snap opened rs final ;;
   match im with
   | None => ret None
   | Some im0 =>
       let im1 := match K with Some k => undistort im0 k | None => im0 end in
       (data <- detect_and_convert H ts (yolo im1) ;; ret (Some (YOLO_OUT, data)))
   end)%py.

(** ** houghball.py *)

(** [frame0.shape[:2]], as [(H_img, W_img)]. *)
Variable shape : img -> Z * Z.
(** [np.round(circles[0]).astype(int)], or [None] when there is none. *)
Variable hough_circles : img -> option (list (Z * Z * Z)).
(** The HSV statistics of the disc of a circle ([hsv[mask == 255]]). *)
Variable disc_stats : img -> Z * Z * Z -> HoughBall.hsv_stats.

(** The countdown of lines 86-97: a round whose read failed [continue]s
    before the key test. *)
Fixpoint countdown (rs : list round) (final : option img) : py (option img) :=
  match rs with
  | [] => match final with
          | None => raise (RuntimeError "capture failed")
          | Some i => ret (Some i)
          end
  | r :: rs' =>
      match read_frame r with
      | None => countdown rs' final
      | Some _ => if esc (key r) then ret None else countdown rs' final
      end
  end.

Definition HOUGH_OUT : string := "CORDS.json".

(** [capture_balls(countdown, show=False)] (lines 63-137); the messages
    of the two [RuntimeError]s are given in English. *)
Definition hough_capture_balls (opened : bool) (first : option img) (rs : list round)
    (final : option img) (ts : string) : py (option (string * jval)) :=
  if negb opened then raise (RuntimeError "cannot open camera")
  else
    match first with
    | None => raise (RuntimeError "cannot read frame")
    | Some f0 =>
        let '(H_img, W_img) := shape f0 in
        (im <- countdown rs final ;;
         match im with
         | None => ret None
         | Some im0 =>
             let circles := match hough_circles im0 with Some cs => cs | None => [] end in
             (out <- HoughBall.hough_doc W_img H_img (disc_stats im0) circles ts ;;
              ret (Some (HOUGH_OUT, out)))
         end)%py
    end.

End Capture.

Arguments Round {img}.
Arguments read_frame {img}.
Arguments key {img}.

(** ** Lemmas *)

(** The Esc test reads the low byte of the key code. *)
Lemma esc_iff (k : Z) : esc k = true <-> (k mod 256 = 27)%Z.
Proof.
  unfold esc; change 255%Z with (Z.ones 8); rewrite Z.land_ones by lia.
  rewrite Z.eqb_eq; reflexivity.
Qed.

(** [_snap] cancels exactly when a round reads Esc. *)
Lemma snap_rounds_cancel {img : Type} (rs : list (round img)) (final : option img) :
  snap_rounds img rs final = ret None <-> existsb (fun r => esc (key r)) rs = true.
Proof.
  induction rs as [|r rs IH]; cbn [snap_rounds existsb].
  - destruct final; split; discriminate.
  - destruct (esc (key r)); cbn [orb]; [split; reflexivity | exact IH].
Qed.

(** What a [capture_balls] of yoloball that returns a file has written:
    the detector's document, at [captures_json/cords.json]. *)
Lemma yolo_capture_some {img intrinsics : Type} f32 gpt (li : string -> py intrinsics) und
    (yolo : img -> list raw_det) doc ip opened rs final ts p d :
  yolo_capture_balls img f32 gpt intrinsics li und yolo doc ip opened rs final ts = ret (Some (p, d)) ->
  p = YOLO_OUT /\ exists H ds, detect_and_convert H ts ds = ret d.
Proof.
  unfold yolo_capture_balls; destruct (load_homography f32 gpt doc) as [|H]; [discriminate|].
  cbn [bind]; destruct ip as [ip|]; [destruct (String.eqb ip "")|]; cbn [bind ret];
    [| destruct (li ip) as [|k]; cbn [bind ret]; [discriminate|] |];
    destruct (snap img opened rs final) as [|[im|]]; cbn [bind ret]; try discriminate;
    match goal with |- bind (detect_and_convert H ts ?ds) _ = _ -> _ =>
      destruct (detect_and_convert H ts ds) eqn:E; cbn [bind ret]; [discriminate|];
      intros [= <- <-]; split; [reflexivity | exists H, ds; exact E] end.
Qed.
