(* ===== verification/Snap.v ===== *)
(** * The camera helpers of [src/main/vision/yoloball.py] with their
      clock ([_snap], [_draw_preview], [_undistort], and [capture_balls]
      with the calibration of [Intrinsics])

    [Camera] models [_snap] on the list of the rounds its loop makes, the
    clock deciding how many there are.  Here the clock is explicit: each
    round carries the reading of [time.time()] in the loop test and the
    one [_draw_preview] shows ([int(end - time.time()) + 1]), and the
    loop runs while the test reading is below [end = t0 + wait].
    [untime] forgets the readings, giving [Camera]'s rounds;
    [preview_countdown] bounds the seconds shown.  [_undistort] composes [getOptimalNewCameraMatrix] and
    [cv2.undistort], variables of the section, and [capture_balls_calib]
    is [capture_balls] with [_load_intrinsics] of [Intrinsics] on the YAML
    file's document. *)

From Stdlib Require Import Reals Lra List Bool String ZArith Lia.
From S2P Require Import Prelude Json Intrinsics Vision Camera.
Import ListNotations.
Open Scope R_scope.

Section Snap.
Variable img : Type.

(** A round of the loop of lines 86-91 with its clock readings. *)
Record tround := TRound { t_test : R; t_frame : option img; t_preview : R; t_key : Z }.

(** The seconds [_draw_preview] shows (line 89). *)
Definition preview_sec (end_ t : R) : Z := (py_trunc (end_ - t) + 1)%Z.

(** The final [cap.read()] (lines 92-94). *)
Definition final_read (final : option img) : py (option img) :=
  match final with None => raise (RuntimeError "Snap fail") | Some i => ret (Some i) end.

(** The loop: its result and the previews drawn (frame and seconds). *)
Fixpoint snap_timed_rounds (end_ : R) (rs : list tround) (final : option img)
    : py (option img) * list (img * Z) :=
  match rs with
  | [] => (final_read final, [])
  | r :: rs' =>
      if (t_test r <? end_)%geo then
        let pv := match t_frame r with Some f => [(f, preview_sec end_ (t_preview r))] | None => [] end in
        if esc (t_key r) then (ret None, pv)
        else let '(res, pvs) := snap_timed_rounds end_ rs' final in (res, (pv ++ pvs)%list)
      else (final_read final, [])
  end.

(** [_snap(wait)] (lines 81-94), [end = time.time() + wait] read at [t0]. *)
Definition snap_timed (opened : bool) (t0 : R) (wait : Z) (rs : list tround) (final : option img)
    : py (option img) * list (img * Z) :=
  if negb opened then (raise (RuntimeError "Camera open fail"), [])
  else snap_timed_rounds (t0 + IZR wait) rs final.

(** The rounds of [Camera] a timed run makes: those whose test reading is
    before [end]. *)
Fixpoint untime (end_ : R) (rs : list tround) : list (round img) :=
  match rs with
  | [] => []
  | r :: rs' => if (t_test r <? end_)%geo then Round (t_frame r) (t_key r) :: untime end_ rs' else []
  end.

(** [_undistort(img, K, D)] (lines 102-105). *)
Variable shape : img -> Z * Z.
Variable getOptimalNewCameraMatrix : list R -> nd -> Z * Z -> R -> list R.
Variable cv_undistort : img -> list R -> nd -> list R -> img.

Definition undistort_img (i : img) (KD : list R * nd) : img :=
  let '(h, w) := shape i in
  let '(K, D) := KD in
  cv_undistort i K D (getOptimalNewCameraMatrix K D (w, h) 0).

(** [capture_balls(wait_sec, intrinsics_path=p)] with [_load_intrinsics]
    on the document [yaml.safe_load] gives for [p]. *)
Variable f32 : jval -> py R.
Variable getPerspectiveTransform : list (R * R) -> list (R * R) -> mat3.
Variable yaml : string -> py jval.
Variable yolo : img -> list raw_det.

Definition capture_balls_calib (corner_doc : py jval) (intrinsics_path : option string)
    (opened : bool) (rs : list (round img)) (final : option img) (ts : string)
    : py (option (string * jval)) :=
  yolo_capture_balls img f32 getPerspectiveTransform (list R * nd)
    (fun p => load_intrinsics f32 (yaml p)) undistort_img yolo corner_doc intrinsics_path
    opened rs final ts.
End Snap.

Arguments TRound {img}.
Arguments t_test {img}.
Arguments t_frame {img}.
Arguments t_preview {img}.
Arguments t_key {img}.

(** ** Lemmas *)

(** [int(x)] of a float above [-1] is not negative. *)
Lemma trunc_nonneg_gt (x : R) : -1 < x -> (0 <= py_trunc x)%Z.
Proof.
  intros Hx; unfold py_trunc; destruct (Rle_dec 0 x) as [H0|H0].
  - destruct (base_Int_part x) as [_ H2]; apply Z.lt_succ_r, lt_IZR; rewrite succ_IZR; lra.
  - rewrite <- (Int_part_spec (- x) 0) by (cbn; lra); reflexivity.
Qed.

Lemma trunc_eq (x : R) (n : Z) : (1 <= n)%Z -> x <= IZR n -> (py_trunc x = n <-> x = IZR n).
Proof.
  intros Hn Hx; split.
  - unfold py_trunc; destruct (Rle_dec 0 x) as [H0|H0]; intros E.
    + destruct (base_Int_part x) as [H1 _]; rewrite E in H1; lra.
    + destruct (base_Int_part (- x)) as [_ H2].
      assert (0 <= Int_part (- x))%Z by (apply Z.lt_succ_r, lt_IZR; rewrite succ_IZR; lra); lia.
  - intros ->; unfold py_trunc; destruct (Rle_dec 0 (IZR n)) as [_|H0];
      [symmetry; apply Int_part_spec; lra | apply IZR_le in Hn; lra].
Qed.

(** The seconds shown by a preview drawn within the countdown, the read
    taking less than a second. *)
Lemma preview_sec_bounds (t0 : R) (wait : Z) (t p : R) :
  (1 <= wait)%Z -> t0 <= t <= p -> p < t + 1 -> t < t0 + IZR wait ->
  (1 <= preview_sec (t0 + IZR wait) p <= wait + 1)%Z /\
  (preview_sec (t0 + IZR wait) p = (wait + 1)%Z <-> p = t0).
Proof.
  intros Hw Ht Hp He; unfold preview_sec.
  assert (Hx : t0 + IZR wait - p <= IZR wait) by lra.
  pose proof (trunc_nonneg_gt (t0 + IZR wait - p) ltac:(lra)).
  pose proof (trunc_le (t0 + IZR wait - p) wait ltac:(lia) Hx).
  pose proof (trunc_eq _ _ Hw Hx) as [E1 E2].
  split; [lia|]; split; intros Hs.
  - assert (Hw' : py_trunc (t0 + IZR wait - p) = wait) by lia; apply E1 in Hw'; lra.
  - rewrite E2 by lra; reflexivity.
Qed.

Lemma snap_timed_rounds_refines {img : Type} (e : R) (rs : list (tround img)) (final : option img) :
  fst (snap_timed_rounds img e rs final) = snap_rounds img (untime img e rs) final.
Proof.
  induction rs as [|r rs IH]; [destruct final; reflexivity|]; cbn [snap_timed_rounds untime].
  destruct (t_test r <? e)%geo; [|destruct final; reflexivity]; cbn [snap_rounds key].
  destruct (esc (t_key r)); [reflexivity|].
  destruct (snap_timed_rounds img e rs final) as [res pvs]; exact IH.
Qed.

Lemma snap_timed_rounds_previews {img : Type} (e : R) (rs : list (tround img)) (final : option img)
    (f : img) (sec : Z) :
  In (f, sec) (snd (snap_timed_rounds img e rs final)) ->
  exists r, In r rs /\ t_test r < e /\ t_frame r = Some f /\ sec = preview_sec e (t_preview r).
Proof.
  induction rs as [|r rs IH]; cbn [snap_timed_rounds]; [destruct final; intros []|].
  destruct (Rltb_spec (t_test r) e) as [Ht|Ht]; [|destruct final; intros []].
  assert (Hpv : In (f, sec) (match t_frame r with
                             | Some f' => [(f', preview_sec e (t_preview r))] | None => [] end) ->
                exists r', In r' (r :: rs) /\ t_test r' < e /\ t_frame r' = Some f /\
                           sec = preview_sec e (t_preview r')).
  { destruct (t_frame r) as [f'|] eqn:Ef; [intros [[= <- <-]|[]] | intros []].
    exists r; repeat split; auto; left; reflexivity. }
  destruct (esc (t_key r)); [exact Hpv|].
  destruct (snap_timed_rounds img e rs final) as [res pvs]; cbn [snd]; intros [H|H]%in_app_or;
    [exact (Hpv H)|].
  destruct (IH H) as [r' [Hin Hr']]; exists r'; split; [right; exact Hin | exact Hr'].
Qed.

(** ** Properties *)

(** C32: every countdown preview [_snap] draws comes from a round of the
    countdown and shows a number of seconds from 1 to [wait + 1], when the
    clock moves forward and a read takes less than a second; it shows
    [wait + 1] (4 on the default 3-second countdown) exactly when the clock
    has not advanced since [end] was computed. *)
Theorem preview_countdown {img : Type} (opened : bool) (t0 : R) (wait : Z)
    (rs : list (tround img)) (final : option img) (f : img) (sec : Z) :
  (1 <= wait)%Z ->
  Forall (fun r => t0 <= t_test r <= t_preview r /\ t_preview r < t_test r + 1) rs ->
  In (f, sec) (snd (snap_timed img opened t0 wait rs final)) ->
  exists r, In r rs /\ t_frame r = Some f /\ sec = preview_sec (t0 + IZR wait) (t_preview r) /\
    (1 <= sec <= wait + 1)%Z /\ (sec = (wait + 1)%Z <-> t_preview r = t0).
Proof.
  intros Hw Hrs; unfold snap_timed; destruct opened; cbn [negb]; [|intros []].
  intros H; destruct (snap_timed_rounds_previews _ _ _ _ _ H) as [r [Hin [Ht [Hf ->]]]].
  rewrite Forall_forall in Hrs; destruct (Hrs r Hin) as [Hr1 Hr2].
  exists r; split; [exact Hin|]; split; [exact Hf|]; split; [reflexivity|].
  apply (preview_sec_bounds t0 wait (t_test r)); auto; lra.
Qed.

(** C39: [capture_balls] loads the calibration before it opens the
    camera: an intrinsics file [_load_intrinsics] rejects makes it raise
    that error whatever the camera would have done. *)
Theorem calib_error_first {img : Type} shape gonc cv_und f32 gpt yaml (yolo : img -> list raw_det)
    (corner_doc : py jval) (H : mat3) (p : string) (e : exn) (opened : bool)
    (rs : list (round img)) (final : option img) (ts : string) :
  p <> EmptyString -> load_homography f32 gpt corner_doc = ret H ->
  load_intrinsics f32 (yaml p) = raise e ->
  capture_balls_calib img shape gonc cv_und f32 gpt yaml yolo corner_doc (Some p) opened rs final ts = raise e.
Proof.
  intros Hp HH He; unfold capture_balls_calib, yolo_capture_balls; rewrite HH; cbn [bind ret].
  destruct (String.eqb_spec p EmptyString) as [->|_]; [contradiction|]; rewrite He; reflexivity.
Qed.

Local Abbreviation rs0 := [TRound 0 (Some tt) 0 0%Z].

Lemma preview_countdown_witness :
  (1 <= 3)%Z /\ Forall (fun r => 0 <= t_test r <= t_preview r /\ t_preview r < t_test r + 1) rs0 /\
  In (tt, preview_sec (0 + IZR 3) 0) (snd (snap_timed unit true 0 3 rs0 None)) /\
  exists r, In r rs0 /\ t_frame r = Some tt /\
    preview_sec (0 + IZR 3) 0 = preview_sec (0 + IZR 3) (t_preview r) /\
    (1 <= preview_sec (0 + IZR 3) 0 <= 3 + 1)%Z /\ (preview_sec (0 + IZR 3) 0 = (3 + 1)%Z <-> t_preview r = 0).
Proof.
  assert (H1 : Forall (fun r => 0 <= t_test r <= t_preview r /\ t_preview r < t_test r + 1) rs0)
    by (repeat constructor; cbn; lra).
  assert (H2 : In (tt, preview_sec (0 + IZR 3) 0) (snd (snap_timed unit true 0 3 rs0 None))).
  { cbn [snap_timed negb snap_timed_rounds t_test]; rewrite Rltb_true by (cbn; lra).
    left; reflexivity. }
  split; [lia | split; [exact H1 | split; [exact H2|]]].
  exact (preview_countdown true 0 3 rs0 None tt _ ltac:(lia) H1 H2).
Defined.

Local Abbreviation corners0 :=
  (JObj [("top_left", JObj [("x", JNum 0); ("y", JNum 0)]);
         ("top_right", JObj [("x", JNum 1); ("y", JNum 0)]);
         ("bottom_right", JObj [("x", JNum 1); ("y", JNum 1)]);
         ("bottom_left", JObj [("x", JNum 0); ("y", JNum 1)])])%string.

Lemma calib_error_first_witness :
  capture_balls_calib unit (fun _ => (720, 1280)%Z) (fun K _ _ _ => K) (fun i _ _ _ => i) f32_num
    (fun _ _ => Mat3 1 0 0 0 1 0 0 0 1) (fun _ => ret JNull) (fun _ => [])
    (ret corners0) (Some "intrinsics.yaml"%string) true [] (Some tt) "20250101_000000"%string =
  raise AttributeError.
Proof.
  apply (calib_error_first (fun _ => (720, 1280)%Z) (fun K _ _ _ => K) (fun i _ _ _ => i) f32_num
           (fun _ _ => Mat3 1 0 0 0 1 0 0 0 1) (fun _ => ret JNull) (fun _ => []) (ret corners0)
           (Mat3 1 0 0 0 1 0 0 0 1)); [discriminate | reflexivity | reflexivity].
Defined.
