(* ===== verification/CapTest.v ===== *)
(** * The capture test script ([src/tools/cap_test.py])

    [cap_test.py] is a second YOLO front end: at import it reads
    [corner.json] and computes a homography onto a rectangle of
    [DST_W x DST_H] pixels (the longer of each pair of opposite sides);
    [capture_balls] opens the camera, reads one frame, warps it, runs the
    model, drops the boxes whose centre lies within 50 pixels of one of six
    pocket points, and writes the records [type] ([CLASS_NAMES[cls]]),
    [conf], [cx_cm], [cy_cm] (pixels over [SCALE_PX_PER_CM]) and [bbox_px]
    to [captured_json/<ts>.json].  The OpenCV calls and the model are the
    variables of the section [CapTest]; [np.float32] of a corner
    coordinate is [f32], as in [Camera].  Unlike [yoloball], this script
    writes the keys the driver reads, and its class table names the balls
    as [yolo.py] does. *)

From Stdlib Require Import Reals Lra List Bool String ZArith Lia.
From S2P Require Import Prelude Api Json RunShot Vision Schema Camera YoloPreview.
Import ListNotations.
Open Scope R_scope.
Local Open Scope string_scope.

Module CapTest.

(** ** Constants (lines 6-14) *)

Definition JSON_CORNERS : string := "main/vision/corner.json".
Definition CLASS_NAMES : list string :=
  ["8"; "10"; "2"; "15"; "7"; "14"; "6"; "13"; "5"; "12"; "4"; "11"; "3"; "0"; "1"; "9"].
Definition SCALE_PX_PER_CM : R := 22.11.
Definition CONF_THRES : R := 0.25.
Definition SAVE_DIR : string := "main/vision/captured_json".
Definition POCKET_RADIUS_PX : Z := 50.

(** What the import computes (lines 17-39). *)
Record setup := Setup { homog : mat3; DST_W : Z; DST_H : Z }.

Definition POCKETS (st : setup) : list (Z * Z) :=
  [(50, 50); (DST_W st - 50, 50); (DST_W st - 50, DST_H st - 50); (50, DST_H st - 50);
   (DST_W st / 2, 30); (DST_W st / 2, DST_H st - 30)]%Z.

(** [any((cx-px)**2 + (cy-py)**2 <= POCKET_RADIUS_PX**2 for px,py in POCKETS)]. *)
Definition cap_in_pocket (pockets : list (Z * Z)) (c : Z * Z) : bool :=
  existsb (fun p => ((fst c - fst p) ^ 2 + (snd c - snd p) ^ 2 <=? POCKET_RADIUS_PX ^ 2)%Z) pockets.

(** The record of a kept box (lines 88-94). *)
Definition cap_record (d : raw_det) : py jval :=
  let c := center d in
  (name <- YoloPreview.py_list_index CLASS_NAMES (py_trunc (rcls d)) ;;
   ret (JObj [("type", JStr name); ("conf", JNum (py_round (rconf d) 3));
              ("cx_cm", JNum (py_round (IZR (fst c) / SCALE_PX_PER_CM) 2));
              ("cy_cm", JNum (py_round (IZR (snd c) / SCALE_PX_PER_CM) 2));
              ("bbox_px", JArr (map (fun r => JNum (IZR (py_trunc r))) [bx1 d; by1 d; bx2 d; by2 d]))]))%py.

Section CapTest.
Variable img : Type.
Variable f32 : jval -> py R.
Variable findHomography : list (R * R) -> list (R * R) -> mat3.
Variable warpPerspective : img -> mat3 -> Z * Z -> img.
(** [model.predict(warped, imgsz=640, conf=conf_thres)[0].boxes]. *)
Variable predict : img -> R -> list raw_det.

(** Lines 17-30 on the document of [corner.json]. *)
Definition cap_setup (doc : py jval) : py setup :=
  (d <- doc ;;
   tl <- corner_pt f32 d "top_left" ;; tr <- corner_pt f32 d "top_right" ;;
   br <- corner_pt f32 d "bottom_right" ;; bl <- corner_pt f32 d "bottom_left" ;;
   let w := py_trunc (Rmax (pdist tr tl) (pdist br bl)) in
   let h := py_trunc (Rmax (pdist bl tl) (pdist br tr)) in
   let dst := [(0, 0); (IZR w - 1, 0); (IZR w - 1, IZR h - 1); (0, IZR h - 1)] in
   ret (Setup (findHomography [tl; tr; br; bl] dst) w h))%py.

(** [capture_balls()] (lines 44-102) after the import: the camera opens
    or not and gives a frame or not; the result is the path written and
    the document. *)
Definition cap_capture_balls (st : setup) (opened : bool) (read : option img) (ts : string)
    : py (string * jval) :=
  if negb opened then raise (RuntimeError "camera open failed")
  else
    match read with
    | None => raise (RuntimeError "capture failed")
    | Some frame =>
        let warped := warpPerspective frame (homog st) (DST_W st, DST_H st) in
        let kept := filter (fun d => negb (cap_in_pocket (POCKETS st) (center d)))
                      (predict warped CONF_THRES) in
        (balls <- py_map cap_record kept ;;
         ret (SAVE_DIR ++ "/" ++ ts ++ ".json",
              JObj [("timestamp", JStr ts); ("balls", JArr balls)]))%py
    end.
End CapTest.

(** ** Lemmas *)

Lemma CLASS_NAMES_int (s : string) : In s CLASS_NAMES -> exists n, py_int_of_string s = ret n.
Proof. revert s; apply Forall_forall; repeat constructor; eexists; reflexivity. Qed.

Lemma py_list_index_in {A : Type} (l : list A) (i : Z) (x : A) :
  YoloPreview.py_list_index l i = ret x -> In x l.
Proof.
  unfold YoloPreview.py_list_index; destruct (_ && _)%bool; [|discriminate].
  destruct (nth_error l _) as [y|] eqn:E; [intros [= <-]; eapply nth_error_In, E | discriminate].
Qed.

Lemma cap_record_typed (d : raw_det) (b : jval) : cap_record d = ret b -> jtyped b shot_ball_ty.
Proof.
  unfold cap_record; destruct (YoloPreview.py_list_index CLASS_NAMES _) as [e|name] eqn:E;
    [discriminate|]; intros [= <-].
  destruct (CLASS_NAMES_int name (py_list_index_in _ _ _ E)) as [n Hn].
  apply jcheck_spec; cbn -[py_int_of_string]; rewrite Hn; reflexivity.
Qed.

Lemma py_map_typed {A : Type} (f : A -> py jval) (l : list A) (bs : list jval) :
  (forall x b, f x = ret b -> jtyped b shot_ball_ty) -> py_map f l = ret bs ->
  Forall (fun b => jtyped b shot_ball_ty) bs.
Proof.
  intros Hf; revert bs; induction l as [|x l IH]; intros bs; cbn [py_map].
  - intros [= <-]; constructor.
  - destruct (f x) as [e|b] eqn:Ex; [discriminate|]; cbn [bind].
    destruct (py_map f l) as [e|r]; [discriminate|]; intros [= <-].
    constructor; [exact (Hf _ _ Ex) | apply IH; reflexivity].
Qed.

(** ** Properties *)

(** every document [cap_test.capture_balls] writes has the type the
    driver reads (its records carry [cx_cm]/[cy_cm], a ball number of
    [CLASS_NAMES] under ["type"], and an extra [bbox_px]), so
    [plan_shot_from_json] on it raises only its own errors. *)
Theorem cap_test_doc_typed (img : Type) (warp : img -> mat3 -> Z * Z -> img)
    (predict : img -> R -> list raw_det) (st : setup) (opened : bool) (read : option img)
    (ts path : string) (doc : jval) (t : target_arg) :
  cap_capture_balls img warp predict st opened read ts = ret (path, doc) ->
  jtyped doc shot_doc_ty /\
  py_spec (fun e => driver_error e = true) (fun _ => True) (plan_shot_body (ret doc) t).
Proof.
  unfold cap_capture_balls; destruct opened; [|discriminate]; destruct read as [frame|]; [|discriminate].
  cbn [negb]; destruct (py_map cap_record _) as [e|bs] eqn:E; [discriminate|]; intros [= _ <-].
  assert (Ht : jtyped (JObj [("timestamp", JStr ts); ("balls", JArr bs)]) shot_doc_ty).
  { constructor; constructor; [|constructor]; eexists; split; [reflexivity|].
    constructor; exact (py_map_typed _ _ _ cap_record_typed E). }
  split; [exact Ht|].
  apply plan_shot_body_typed; [intros; reflexivity | reflexivity | reflexivity | exact Ht].
Qed.

(** [cap_test.py]'s table names every class as the labels of [yolo.py]
    do, where [yoloball.py]'s table, for the same weights [best2.pt],
    agrees on eight classes only ([YoloPreview.class_tables_agree]). *)
Theorem cap_test_names_as_yolo :
  map YoloPreview.label_ball YoloPreview.class_names =
  map (fun s => match py_int_of_string s with inr n => Some n | inl _ => None end) CLASS_NAMES.
Proof. vm_compute; reflexivity. Qed.

Lemma cap_test_doc_typed_witness :
  cap_capture_balls unit (fun _ _ _ => tt) (fun _ _ => []) (Setup (Mat3 1 0 0 0 1 0 0 0 1) 1600 800)
    true (Some tt) "20250101_000000" =
    ret ("main/vision/captured_json/20250101_000000.json",
         JObj [("timestamp", JStr "20250101_000000"); ("balls", JArr [])]) /\
  (jtyped (JObj [("timestamp", JStr "20250101_000000"); ("balls", JArr [])]) shot_doc_ty /\
   py_spec (fun e => driver_error e = true) (fun _ => True)
     (plan_shot_body (ret (JObj [("timestamp", JStr "20250101_000000"); ("balls", JArr [])])) TargetNone)).
Proof.
  split; [reflexivity|].
  exact (cap_test_doc_typed unit (fun _ _ _ => tt) (fun _ _ => []) (Setup (Mat3 1 0 0 0 1 0 0 0 1) 1600 800)
           true (Some tt) "20250101_000000" _ _ TargetNone eq_refl).
Defined.

End CapTest.
