(* ===== verification/Pipeline.v ===== *)
(** * The capture-and-plan pipeline of [src/main/main.py]

    [Main] takes what happens during a turn as an environment: whether
    [capture_balls] raises and what [json.load] then reads from
    [CORD_JSON].  Here the turn runs on a world of files: on ["MOVING"],
    [yoloball.capture_balls] reads [main/vision/corner.json] relative to
    the working directory, runs the camera ([Camera]) and writes
    [captures_json/cords.json], again relative to the working directory;
    [plan_shot_from_json] then reads the absolute path [CORD_JSON].
    [handle_w] is main.py's [try] block on that world; [handle_w_refines]
    shows that [Main.handle] with the environment the world induces
    ([env_of]) is its abstraction, so every theorem of [Main] holds of
    the pipeline.  The file system maps absolute paths to the JSON
    documents they hold; the YAML intrinsics file is read by the
    [load_intrinsics] variable of [Camera]. *)

From Stdlib Require Import Reals Lra List Bool String ZArith Lia.
From S2P Require Import Prelude Json RunShot Vision Net Main Camera.
Import ListNotations.
Open Scope string_scope.

Definition files : Type := string -> option jval.

(** The paths of main.py (lines 14 and 41) and of yoloball.py (line 27). *)
Definition CORD_JSON : string := "/Users/caiminhan/Projects/HIWIN_MAIN/captures_json/cords.json".
Definition INTRINSICS_PATH : string := "/Users/caiminhan/Projects/HIWIN_MAIN/main/vision/intrinsics.yaml".
Definition CORNER_JSON : string := "main/vision/corner.json".

(** [open(p)] resolves a relative path against the working directory. *)
Definition resolve (cwd p : string) : string :=
  if String.prefix "/" p then p else (cwd ++ "/" ++ p).

(** [json.load(open(p))]: a missing file raises [FileNotFoundError]. *)
Definition read_json (fs : files) (p : string) : py jval :=
  match fs p with Some d => ret d | None => raise OSError end.

(** [json.dump(data, open(p, "w"))] *)
Definition write_json (fs : files) (p : string) (d : jval) : files :=
  fun q => if String.eqb q p then Some d else fs q.

Record world := World { wfiles : files; cwd : string }.

Section Pipeline.

Variable img : Type.
Variable f32 : jval -> py R.
Variable getPerspectiveTransform : list (R * R) -> list (R * R) -> mat3.
Variable intrinsics : Type.
Variable load_intrinsics : string -> py intrinsics.
Variable undistort : img -> intrinsics -> img.
Variable yolo : img -> list raw_det.

(** What the camera does during the call: whether it opens, the rounds
    of the countdown, the last read, and the timestamp of the file. *)
Record cam_run := CamRun { opened : bool; rounds : list (round img); final : option img; stamp : string }.

Definition capture (w : world) (c : cam_run) : py (option (string * jval)) :=
  yolo_capture_balls img f32 getPerspectiveTransform intrinsics load_intrinsics undistort yolo
    (read_json (wfiles w) (resolve (cwd w) CORNER_JSON)) (Some INTRINSICS_PATH)
    (opened c) (rounds c) (final c) (stamp c).

(** Line 41 on the world: the result of [capture_balls] and the files
    after it. *)
Definition capture_in (w : world) (c : cam_run) : py (option (string * jval) * files) :=
  (res <- capture w c ;;
   ret (res, match res with
             | Some (p, d) => write_json (wfiles w) (resolve (cwd w) p) d
             | None => wfiles w
             end))%py.

(** The [try] block of main.py (lines 28-85) on a connected socket, with
    the capture and the file read on the world. *)
Definition handle_w (w : world) (c : cam_run) (s : sock) (d : nat) : mstate * nat * files :=
  match receive_message s with
  | inl SocketTimeout => (MState (Some s) ((d + 1) mod 4), 0%nat, wfiles w)
  | inl _ => (MState None d, 5%nat, wfiles w)
  | inr (None, s') => (MState (Some s') ((d + 1) mod 4), 0%nat, wfiles w)
  | inr (Some msg, s') =>
      if String.eqb msg "MOVING" then
        match capture_in w c with
        | inl _ => (MState None d, 5%nat, wfiles w)
        | inr (_, fs') =>
            match plan_shot_from_json (read_json fs' CORD_JSON) (TargetStr "min") with
            | None => (MState (Some (send_message s' "200")) d, 0%nat, fs')
            | Some (angle, cue_xy) =>
                (MState (Some (send_message (send_message s' "100") (arm_payload angle cue_xy))) d,
                 0%nat, fs')
            end
        end
      else if String.eqb msg "EXIT" then (MState None d, 5%nat, wfiles w)
      else (MState (Some s') d, 0%nat, wfiles w)
  end.

(** The environment of [Main] a world and a camera run induce. *)
Definition env_of (conn : nat -> bool) (fresh : sock) (w : world) (c : cam_run) : menv :=
  match capture_in w c with
  | inl e => MEnv conn fresh false (inl e)
  | inr (_, fs') => MEnv conn fresh true (read_json fs' CORD_JSON)
  end.

(** One turn of the [while True] loop on the world (lines 18-85): the
    connection attempts [conn] and the socket [fresh] they yield as in
    [Main.main_step]. *)
Definition main_step_w (conn : nat -> bool) (fresh : sock) (w : world) (c : cam_run) (st : mstate)
    : mstate * nat * files :=
  match msock st with
  | Some s => handle_w w c s (dots st)
  | None =>
      match create_connection conn 3 5 with
      | (None, t) => (MState None (dots st), (t + 5)%nat, wfiles w)
      | (Some _, t) => let '(st', t', fs) := handle_w w c fresh (dots st) in (st', (t + t')%nat, fs)
      end
  end.

(** Turns in sequence, the files of each turn those the previous one
    left, in the same working directory. *)
Fixpoint run_w (turns : list ((nat -> bool) * sock * cam_run)) (w : world) (st : mstate)
    : mstate * files :=
  match turns with
  | [] => (st, wfiles w)
  | (conn, fresh, c) :: rest =>
      let '(st', _, fs') := main_step_w conn fresh w c st in
      run_w rest (World fs' (cwd w)) st'
  end.

End Pipeline.

(** ** Lemmas *)

Lemma read_write (fs : files) (p q : string) (d : jval) :
  read_json (write_json fs p d) q = if String.eqb q p then ret d else read_json fs q.
Proof. unfold read_json, write_json; destruct (String.eqb q p); reflexivity. Qed.

(** What [capture_in] leaves: nothing written after a cancelled
    countdown, the detector's document at [cwd/captures_json/cords.json]
    otherwise. *)
Lemma capture_in_files {img intrinsics : Type} f32 gpt (li : string -> py intrinsics) und
    (yolo : img -> list raw_det) (w : world) (c : cam_run img) res fs' :
  capture_in img f32 gpt intrinsics li und yolo w c = inr (res, fs') ->
  (res = None /\ fs' = wfiles w) \/
  (exists d0, res = Some (YOLO_OUT, d0) /\ fs' = write_json (wfiles w) (resolve (cwd w) YOLO_OUT) d0 /\
     exists H ds, detect_and_convert H (stamp img c) ds = ret d0).
Proof.
  unfold capture_in; destruct (capture img f32 gpt intrinsics li und yolo w c) as [|[[p d0]|]] eqn:E;
    cbn [bind ret]; intros [= <- <-]; [right | left; split; reflexivity].
  unfold capture in E; destruct (yolo_capture_some _ _ _ _ _ _ _ _ _ _ _ p d0 E) as [-> Hd].
  exists d0; split; [reflexivity | split; [reflexivity | exact Hd]].
Qed.

(** The ["MOVING"] branch of [handle_w] once the capture returned: the
    reply of [Main.handle] on the file the planner then reads. *)
Lemma handle_w_moving {img intrinsics : Type} f32 gpt (li : string -> py intrinsics) und
    (yolo : img -> list raw_det) conn fresh (w : world) (c : cam_run img) s d res fs' :
  rx s = frame "MOVING" ->
  capture_in img f32 gpt intrinsics li und yolo w c = inr (res, fs') ->
  handle_w img f32 gpt intrinsics li und yolo w c s d =
  (fst (handle (MEnv conn fresh true (read_json fs' CORD_JSON)) s d),
   snd (handle (MEnv conn fresh true (read_json fs' CORD_JSON)) s d), fs').
Proof.
  intros Hr Hc; rewrite handle_moving by (auto || reflexivity).
  unfold handle_w; rewrite (receive_frame "MOVING" s) by (auto; cbn; lia).
  cbn [String.eqb Ascii.eqb Bool.eqb]; rewrite Hc; cbn [cords].
  destruct (plan_shot_from_json (read_json fs' CORD_JSON) (TargetStr "min")) as [[a cxy]|];
    unfold send_message; cbn [rx tx peer_open fst snd]; rewrite ?str_app_assoc; reflexivity.
Qed.

Section Refinement.

Context {img intrinsics : Type} (f32 : jval -> py R) (gpt : list (R * R) -> list (R * R) -> mat3)
  (li : string -> py intrinsics) (und : img -> intrinsics -> img) (yolo : img -> list raw_det).

Let handle_w' := handle_w img f32 gpt intrinsics li und yolo.
Let env_of' := env_of img f32 gpt intrinsics li und yolo.
Let main_step_w' := main_step_w img f32 gpt intrinsics li und yolo.

Lemma env_of_conn conn fresh w c : conn_ok (env_of' conn fresh w c) = conn /\ Main.fresh (env_of' conn fresh w c) = fresh.
Proof. unfold env_of', env_of; destruct (capture_in _ _ _ _ _ _ _ w c) as [|[]]; split; reflexivity. Qed.

Lemma handle_w_refines conn fresh w c s d :
  let '(st, t, _) := handle_w' w c s d in (st, t) = handle (env_of' conn fresh w c) s d.
Proof.
  unfold handle_w', handle_w, handle, env_of', env_of.
  destruct (receive_message s) as [[]|[[msg|] s']]; try reflexivity.
  destruct (String.eqb msg "MOVING"); [| destruct (String.eqb msg "EXIT"); reflexivity].
  destruct (capture_in _ _ _ _ _ _ _ w c) as [e|[res fs']]; cbn [cap_ok cords]; [reflexivity|].
  destruct (plan_shot_from_json _ _) as [[]|]; reflexivity.
Qed.

Lemma main_step_w_refines_l conn fresh w c st :
  let '(st', t, _) := main_step_w' conn fresh w c st in (st', t) = main_step (env_of' conn fresh w c) st.
Proof.
  unfold main_step_w', main_step_w, main_step; destruct (env_of_conn conn fresh w c) as [-> ->].
  destruct (msock st) as [s|]; [apply handle_w_refines|].
  destruct (create_connection conn 3 5) as [[s0|] t]; [|reflexivity].
  pose proof (handle_w_refines conn fresh w c fresh (dots st)) as Hh; unfold handle_w' in Hh.
  destruct (handle_w img f32 gpt intrinsics li und yolo w c fresh (dots st)) as [[st' t'] fs].
  rewrite <- Hh; reflexivity.
Qed.

End Refinement.

(** ** Properties *)

(** C11: main.py never plans on the photo it has just taken: on
    ["MOVING"] the loop either drops the connection (the capture raised),
    or answers as [Main.handle] on the file [CORD_JSON] held before the
    capture, or answers ["200"] (the capture wrote [CORD_JSON], a file the
    planner rejects). *)
Theorem moving_never_plans_current_photo {img intrinsics : Type} f32 gpt (li : string -> py intrinsics)
    und (yolo : img -> list raw_det) conn fresh (w : world) (c : cam_run img) s d :
  rx s = frame "MOVING" ->
  let '(st, t, _) := handle_w img f32 gpt intrinsics li und yolo w c s d in
  (st, t) = (MState None d, 5%nat) \/
  (st, t) = handle (MEnv conn fresh true (read_json (wfiles w) CORD_JSON)) s d \/
  (st, t) = (MState (Some {| rx := ""; peer_open := peer_open s; tx := tx s ++ frame "200" |}) d, 0%nat).
Proof.
  intros Hr; destruct (capture_in img f32 gpt intrinsics li und yolo w c) as [e|[res fs']] eqn:Hc.
  - unfold handle_w; rewrite (receive_frame "MOVING" s) by (auto; cbn; lia).
    cbn [String.eqb Ascii.eqb Bool.eqb]; rewrite Hc; cbn beta iota; left; reflexivity.
  - rewrite (handle_w_moving f32 gpt li und yolo conn fresh w c s d res fs' Hr Hc); cbn beta iota.
    destruct (capture_in_files f32 gpt li und yolo w c res fs' Hc) as [[_ ->]|(d0 & _ & -> & H & ds & Hd)];
      [right; left; symmetry; apply surjective_pairing|].
    rewrite read_write; destruct (String.eqb CORD_JSON (resolve (cwd w) YOLO_OUT));
      [right; right | right; left; symmetry; apply surjective_pairing].
    rewrite handle_moving by (auto || reflexivity); cbn [cords fst snd].
    rewrite (detector_doc_rejected H _ ds d0 _ Hd); reflexivity.
Qed.

(** a countdown cancelled with Esc makes [capture_balls] return
    [(None, None)] without writing, and main.py still plans on
    [CORD_JSON]: the arm receives the answer computed on the previous
    photo's file. *)
Theorem cancelled_capture_plans_old_file {img intrinsics : Type} f32 gpt (li : string -> py intrinsics)
    und (yolo : img -> list raw_det) conn fresh (w : world) (c : cam_run img) s d :
  rx s = frame "MOVING" -> opened img c = true -> existsb (fun r => esc (key r)) (rounds img c) = true ->
  (exists H, load_homography f32 gpt (read_json (wfiles w) (resolve (cwd w) CORNER_JSON)) = ret H) ->
  (exists k, li INTRINSICS_PATH = ret k) ->
  handle_w img f32 gpt intrinsics li und yolo w c s d =
  (fst (handle (MEnv conn fresh true (read_json (wfiles w) CORD_JSON)) s d),
   snd (handle (MEnv conn fresh true (read_json (wfiles w) CORD_JSON)) s d), wfiles w).
Proof.
  intros Hr Ho He [H HH] [k Hk]; apply (handle_w_moving f32 gpt li und yolo conn fresh w c s d None).
  - exact Hr.
  - unfold capture_in, capture, yolo_capture_balls; rewrite HH; cbn [bind].
    replace (String.eqb INTRINSICS_PATH "") with false by reflexivity; rewrite Hk; cbn [bind ret].
    unfold snap; rewrite Ho; cbn [negb]; rewrite (proj2 (snap_rounds_cancel _ _) He); reflexivity.
Qed.

(** ** Witnesses: a world whose working directory is [/home/pool], with
    a corner file, and a camera run cancelled by Esc. *)

Local Abbreviation corner_doc :=
  (JObj [("top_left", JObj [("x", JNum 0); ("y", JNum 0)]);
         ("top_right", JObj [("x", JNum 1); ("y", JNum 0)]);
         ("bottom_right", JObj [("x", JNum 1); ("y", JNum 1)]);
         ("bottom_left", JObj [("x", JNum 0); ("y", JNum 1)])]).
Local Abbreviation w0 :=
  (World (fun p => if String.eqb p "/home/pool/main/vision/corner.json" then Some corner_doc else None)
         "/home/pool").
Local Abbreviation f32_0 := (fun v : jval => match v with JNum r => inr r | _ => inl ValueError end).
Local Abbreviation gpt0 := (fun _ _ : list (R * R) => Mat3 1 0 0 0 1 0 0 0 1).
Local Abbreviation li0 := (fun _ : string => @inr exn unit tt).
Local Abbreviation und0 := (fun (i : unit) (_ : unit) => i).
Local Abbreviation yolo0 := (fun _ : unit => @nil raw_det).
Local Abbreviation c0 := (CamRun unit true [Round None 27%Z] None "20250101_000000").
Local Abbreviation s0 := {| rx := frame "MOVING"; peer_open := true; tx := "" |}.

Lemma cancelled_capture_plans_old_file_witness :
  rx s0 = frame "MOVING" /\ opened unit c0 = true /\ existsb (fun r => esc (key r)) (rounds unit c0) = true /\
  handle_w unit f32_0 gpt0 unit li0 und0 yolo0 w0 c0 s0 0 =
  (fst (handle (MEnv (fun _ => false) s0 true (read_json (wfiles w0) CORD_JSON)) s0 0),
   snd (handle (MEnv (fun _ => false) s0 true (read_json (wfiles w0) CORD_JSON)) s0 0), wfiles w0).
Proof.
  split; [reflexivity | split; [reflexivity | split; [reflexivity|]]].
  apply (cancelled_capture_plans_old_file f32_0 gpt0 li0 und0 yolo0 (fun _ => false) s0 w0 c0 s0 0);
    [reflexivity | reflexivity | reflexivity | eexists; reflexivity | eexists; reflexivity].
Defined.

Lemma moving_never_plans_current_photo_witness :
  rx s0 = frame "MOVING" /\
  let '(st, t, _) := handle_w unit f32_0 gpt0 unit li0 und0 yolo0 w0 c0 s0 0 in
  (st, t) = (MState None 0, 5%nat) \/
  (st, t) = handle (MEnv (fun _ => false) s0 true (read_json (wfiles w0) CORD_JSON)) s0 0 \/
  (st, t) = (MState (Some {| rx := ""; peer_open := true; tx := "" ++ frame "200" |}) 0, 0%nat).
Proof.
  split; [reflexivity|].
  exact (moving_never_plans_current_photo f32_0 gpt0 li0 und0 yolo0 (fun _ => false) s0 w0 c0 s0 0 eq_refl).
Defined.
