(* ===== verification/Corners.v ===== *)
(** * The corner finder ([src/tools/auto_corners.py])

    [auto_corners.py] writes the [corner.json] that [yoloball] reads to
    build its homography: either from the green cloth (the largest
    contour, its 4-point polygon or its minimal rectangle, ordered by
    [argmin]/[argmax] of [x + y] and [y - x], then moved inwards by the
    rail thickness) or from four ArUco markers with ids 0 to 3.  The
    OpenCV calls (contours, areas, polygon approximation, minimal
    rectangle, marker detection) are the variables of the section [Hsv]
    or inputs; numpy's [argmin]/[argmax] return the first index of the
    extremum, which [first_best] of [Json] states; [float32] rounding is
    not modelled.  A NaN coordinate (a corner at the centre, divided by a
    zero norm) is made explicit as [None]. *)

From Stdlib Require Import Reals Lra List Bool String ZArith Lia Permutation.
From S2P Require Import Prelude Json Vision Camera.
Import ListNotations.
Open Scope R_scope.

Module AutoCorners.

Definition TABLE_W_CM : R := 73.5.
Definition TABLE_H_CM : R := 37.5.

(** ** [save_json] (lines 43-54) *)

Definition pt_json (p : vec) : jval := JObj [("x"%string, JNum (vx p)); ("y"%string, JNum (vy p))].

(** [tl, tr, br, bl = pts.astype(float)] and the dict: unpacking other
    than four rows raises [ValueError]. *)
Definition corner_json (pts : list vec) : py jval :=
  match pts with
  | [tl; tr; br; bl] =>
      ret (JObj [("top_left"%string, pt_json tl); ("top_right"%string, pt_json tr);
                 ("bottom_right"%string, pt_json br); ("bottom_left"%string, pt_json bl)])
  | _ => raise ValueError
  end.

Definition save_json (pts : list vec) (out_path : string) : py (string * jval) :=
  (d <- corner_json pts ;; ret (out_path, d))%py.

(** ** Ordering the corners (lines 88-95) *)

(** [np.argmin]/[np.argmax]: a scan that moves to a later row only when it
    is strictly better; an empty array raises [ValueError]. *)
Fixpoint arg_loop (better : R -> R -> bool) (f : vec -> R) (best : vec) (l : list vec) : vec :=
  match l with
  | [] => best
  | x :: r => arg_loop better f (if better (f x) (f best) then x else best) r
  end.

Definition arg_first (better : R -> R -> bool) (f : vec -> R) (l : list vec) : py vec :=
  match l with
  | [] => raise ValueError
  | x :: r => ret (arg_loop better f x r)
  end.

Definition lt_b (a b : R) : bool := (a <? b)%geo.
Definition gt_b (a b : R) : bool := (b <? a)%geo.

(** [pts.sum(axis=1)] and [np.diff(pts, axis=1)] of one row. *)
Definition psum (p : vec) : R := vx p + vy p.
Definition pdiff (p : vec) : R := vy p - vx p.

Definition order_corners (pts : list vec) : py (list vec) :=
  (tl <- arg_first lt_b psum pts ;; br <- arg_first gt_b psum pts ;;
   tr <- arg_first lt_b pdiff pts ;; bl <- arg_first gt_b pdiff pts ;;
   ret [tl; tr; br; bl])%py.

(** ** [detect_by_hsv] (lines 61-105) *)

Section Hsv.

Variable contour : Type.
Variable contourArea : contour -> R.
(** [cv2.approxPolyDP(cnt, 0.02 * cv2.arcLength(cnt, True), True)] *)
Variable approx_poly : contour -> list vec.
(** [cv2.boxPoints(cv2.minAreaRect(cnt))] *)
Variable box_points : contour -> list vec.

(** [max(cnts, key=cv2.contourArea)]: the first of the largest. *)
Fixpoint max_area (best : contour) (l : list contour) : contour :=
  match l with
  | [] => best
  | x :: r => max_area (if (contourArea best <? contourArea x)%geo then x else best) r
  end.

Definition detect_by_hsv (cnts : list contour) : py (list vec) :=
  match cnts with
  | [] => raise (RuntimeError "no green cloth")
  | c0 :: r =>
      let cnt := max_area c0 r in
      let poly := approx_poly cnt in
      let pts := if Nat.eqb (List.length poly) 4 then poly else box_points cnt in
      order_corners pts
  end.

End Hsv.

(** ** [shrink_to_inner] (lines 108-127) *)

(** [pts.mean(axis=0)] *)
Definition centroid (l : list vec) : vec :=
  Vec (fold_right (fun p s => vx p + s) 0 l / INR (List.length l))
      (fold_right (fun p s => vy p + s) 0 l / INR (List.length l)).

Definition shrink_to_inner (pts : list vec) (inner_cm : R) : py (option (list vec)) :=
  if (inner_cm <=? 0)%geo then ret (Some pts)
  else
    match pts with
    | p0 :: p1 :: p2 :: _ =>
        let c := centroid pts in
        let w_px := norm (p1 -v p0) in
        let h_px := norm (p2 -v p1) in
        let px_per_cm := (w_px / TABLE_W_CM + h_px / TABLE_H_CM) / 2 in
        let delta := inner_cm * px_per_cm in
        if existsb (fun p => Reqb (norm (c -v p)) 0) pts then ret None
        else ret (Some (map (fun p => p +v delta *v vdiv (c -v p) (norm (c -v p))) pts))
    | _ => raise IndexError
    end.

(** ** [detect_by_aruco] (lines 134-156) *)

(** [c[0].mean(axis=0)] of the four corners of a marker. *)
Definition marker_center (cs : list vec) : vec := centroid cs.

(** [centers[i]] of the dict comprehension: the last marker of an id
    wins. *)
Definition center_of (centers : list (Z * vec)) (i : Z) : option vec :=
  fold_left (fun acc e => if Z.eqb (fst e) i then Some (snd e) else acc) centers None.

(** The markers [detectMarkers] found ([None] for [ids is None]), as ids
    with their corners. *)
Definition detect_by_aruco (markers : option (list (Z * list vec))) : py (list vec) :=
  match markers with
  | None => raise (RuntimeError "not enough markers")
  | Some ms =>
      if Nat.ltb (List.length ms) 4 then raise (RuntimeError "not enough markers")
      else
        let centers := map (fun m => (fst m, marker_center (snd m))) ms in
        match center_of centers 0, center_of centers 1, center_of centers 2, center_of centers 3 with
        | Some tl, Some tr, Some br, Some bl => ret [tl; tr; br; bl]
        | _, _, _, _ => raise (RuntimeError "markers 0 to 3 needed")
        end
  end.

(** ** [main] (lines 163-190) *)

(** [--method aruco] or the default [hsv] with [--inner-cm], on the image
    if [cv2.imread] found it: the path and document [save_json] writes,
    or [None] for the file of NaN coordinates it writes when an inner
    corner is NaN, which the reals of the model cannot hold. *)
Definition main (img_found : bool) (method : string) (inner_cm : R) (hsv_outer : py (list vec))
    (markers : option (list (Z * list vec))) (out : string) : py (option (string * jval)) :=
  if negb img_found then raise (SystemExit "image not found")
  else if String.eqb method "aruco" then
    (pts <- detect_by_aruco markers ;; r <- save_json pts out ;; ret (Some r))%py
  else
    (outer <- hsv_outer ;; o <- shrink_to_inner outer inner_cm ;;
     match o with
     | None => ret None
     | Some pts => (r <- save_json pts out ;; ret (Some r))
     end)%py.

End AutoCorners.

(** The position of a point in a list. *)
Fixpoint idx (a : vec) (l : list vec) : nat :=
  match l with
  | [] => 0
  | x :: r => if vec_eq_dec a x then 0 else S (idx a r)
  end.

Import AutoCorners.
Local Open Scope list_scope.

(** ** numpy's first extremum *)

Lemma nodup_app_both {A : Type} (l1 l2 : list A) (a : A) : NoDup (l1 ++ l2) -> In a l1 -> In a l2 -> False.
Proof.
  induction l1 as [|x l1 IH]; [intros _ []|]; intros Hnd [->|H] H2; inversion Hnd as [|? ? Hx Hnd']; subst.
  - apply Hx, in_app_iff; right; exact H2.
  - exact (IH Hnd' H H2).
Qed.

Lemma idx_app_in (a : vec) (l r : list vec) : In a l -> idx a (l ++ r) = idx a l.
Proof.
  induction l as [|x l IH]; [intros []|]; intros H; cbn [app idx].
  destruct (vec_eq_dec a x); [reflexivity|]; destruct H as [->|H]; [congruence | f_equal; auto].
Qed.

Lemma idx_in_lt (a : vec) (l : list vec) : In a l -> (idx a l < List.length l)%nat.
Proof.
  induction l as [|x l IH]; [intros []|]; intros H; cbn [idx List.length].
  destruct (vec_eq_dec a x); [lia|]; destruct H as [->|H]; [congruence | specialize (IH H); lia].
Qed.

Lemma idx_app_out (a : vec) (l r : list vec) : ~ In a l -> idx a (l ++ r) = (List.length l + idx a r)%nat.
Proof.
  induction l as [|x l IH]; intros H; [reflexivity|]; cbn [app idx List.length].
  destruct (vec_eq_dec a x) as [->|_]; [exfalso; apply H; left; reflexivity|].
  rewrite IH; [reflexivity | intros Hin; apply H; right; exact Hin].
Qed.

Section First.

Variable better : R -> R -> bool.
Hypothesis better_irrefl : forall a, better a a = false.
Hypothesis better_trans : forall a b c, better a b = true -> better b c = true -> better a c = true.
Hypothesis better_mixed : forall a b c, better a b = true -> better c b = false -> better a c = true.
Variable f : vec -> R.

Lemma better_asym (a b : R) : better a b = true -> better b a = false.
Proof.
  intros H; destruct (better b a) eqn:E; [|reflexivity].
  rewrite <- (better_irrefl a); symmetry; exact (better_trans _ _ _ H E).
Qed.

(** The scan keeps the first best row of what it has read. *)
Lemma arg_loop_first (p r : list vec) (b : vec) :
  first_best better f p b -> first_best better f (p ++ r) (arg_loop better f b r).
Proof.
  revert p b; induction r as [|x r IH]; intros p b Hb; [rewrite app_nil_r; exact Hb|].
  cbn [arg_loop]; replace (p ++ x :: r)%list with ((p ++ [x]) ++ r)%list by (rewrite <- app_assoc; reflexivity).
  apply IH; destruct Hb as (pre & post & -> & Hpre & Hpost).
  destruct (better (f x) (f b)) eqn:E.
  - exists (pre ++ b :: post), []; split; [reflexivity | split; [|constructor]].
    apply Forall_app; split; [|constructor].
    + eapply Forall_impl; [|exact Hpre]; intros y Hy; exact (better_trans _ _ _ E Hy).
    + exact E.
    + eapply Forall_impl; [|exact Hpost]; intros y Hy; exact (better_mixed _ _ _ E Hy).
  - exists pre, (post ++ [x]); split; [rewrite <- app_assoc; reflexivity | split; [exact Hpre|]].
    apply Forall_app; split; [exact Hpost | constructor; [exact E | constructor]].
Qed.

Lemma arg_first_spec (l : list vec) :
  l <> [] -> exists y, arg_first better f l = ret y /\ first_best better f l y.
Proof.
  destruct l as [|x r]; [contradiction|]; intros _; eexists; split; [reflexivity|].
  apply (arg_loop_first [x] r x); exists [], []; repeat constructor.
Qed.

(** A strictly best row is the one chosen. *)
Lemma first_best_strict (l : list vec) (x y : vec) :
  In x l -> (forall z, In z l -> z <> x -> better (f x) (f z) = true) ->
  first_best better f l y -> y = x.
Proof.
  intros Hx Hb (pre & post & -> & Hpre & Hpost).
  destruct (vec_eq_dec y x) as [|Hne]; [assumption | exfalso].
  assert (Hxy : better (f x) (f y) = true) by (apply Hb; [apply in_elt | exact Hne]).
  apply in_app_iff in Hx as [Hx|[E|Hx]]; [| congruence |].
  - rewrite Forall_forall in Hpre; rewrite (better_asym _ _ (Hpre x Hx)) in Hxy; discriminate.
  - rewrite Forall_forall in Hpost; rewrite (Hpost x Hx) in Hxy; discriminate.
Qed.

(** Of two rows as good as the chosen one, the chosen one comes first. *)
Lemma first_best_before (l : list vec) (v y : vec) :
  NoDup l -> first_best better f l y -> In v l -> v <> y -> f v = f y -> (idx y l < idx v l)%nat.
Proof.
  intros Hnd (pre & post & -> & Hpre & Hpost) Hv Hvy Hf.
  apply in_app_iff in Hv as [Hv|[E|Hv]]; [| congruence |].
  - rewrite Forall_forall in Hpre; specialize (Hpre v Hv); rewrite Hf, better_irrefl in Hpre; discriminate.
  - assert (Hy : ~ In y pre) by (intros H; apply (NoDup_remove_2 _ _ _ Hnd), in_app_iff; left; exact H).
    assert (Hv' : ~ In v pre) by (intros H; exact (nodup_app_both _ _ _ Hnd H (or_intror Hv))).
    rewrite !idx_app_out by assumption; cbn [idx].
    destruct (vec_eq_dec y y) as [_|n]; [|congruence]; destruct (vec_eq_dec v y); [congruence | lia].
Qed.

(** Two rows tie for the best, all others worse: the first of them is
    chosen. *)
Lemma first_best_tie (l : list vec) (u w y : vec) :
  NoDup l -> In u l -> In w l -> u <> w -> f u = f w ->
  (forall z, In z l -> z <> u -> z <> w -> better (f u) (f z) = true) ->
  first_best better f l y ->
  (y = u /\ (idx u l < idx w l)%nat) \/ (y = w /\ (idx w l < idx u l)%nat).
Proof.
  intros Hnd Hu Hw Huw Hf Hb Hy.
  destruct (vec_eq_dec y u) as [->|Hyu]; [left; split; [reflexivity|] | destruct (vec_eq_dec y w) as [->|Hyw]].
  - apply (first_best_before l w u Hnd Hy Hw); congruence.
  - right; split; [reflexivity|]; apply (first_best_before l u w Hnd Hy Hu Huw Hf).
  - exfalso; destruct Hy as (pre & post & E & Hpre & Hpost); subst l.
    assert (Hby : better (f u) (f y) = true) by (apply Hb; [apply in_elt | assumption..]).
    apply in_app_iff in Hu as [Hu|[E|Hu]]; [| congruence |].
    + rewrite Forall_forall in Hpre; rewrite (better_asym _ _ (Hpre u Hu)) in Hby; discriminate.
    + rewrite Forall_forall in Hpost; rewrite (Hpost u Hu) in Hby; discriminate.
Qed.

End First.



(** [<] and [>] on floats are strict weak orders. *)
Lemma lt_b_irrefl (a : R) : lt_b a a = false.
Proof. unfold lt_b; apply Rltb_false; lra. Qed.

Lemma lt_b_trans (a b c : R) : lt_b a b = true -> lt_b b c = true -> lt_b a c = true.
Proof. unfold lt_b; destruct (Rltb_spec a b), (Rltb_spec b c); try discriminate; intros _ _; apply Rltb_true; lra. Qed.

Lemma lt_b_mixed (a b c : R) : lt_b a b = true -> lt_b c b = false -> lt_b a c = true.
Proof. unfold lt_b; destruct (Rltb_spec a b), (Rltb_spec c b); try discriminate; intros _ _; apply Rltb_true; lra. Qed.

Lemma gt_b_irrefl (a : R) : gt_b a a = false.
Proof. unfold gt_b; apply Rltb_false; lra. Qed.

Lemma gt_b_trans (a b c : R) : gt_b a b = true -> gt_b b c = true -> gt_b a c = true.
Proof. unfold gt_b; destruct (Rltb_spec b a), (Rltb_spec c b); try discriminate; intros _ _; apply Rltb_true; lra. Qed.

Lemma gt_b_mixed (a b c : R) : gt_b a b = true -> gt_b c b = false -> gt_b a c = true.
Proof. unfold gt_b; destruct (Rltb_spec b a), (Rltb_spec b c); try discriminate; intros _ _; apply Rltb_true; lra. Qed.

Lemma vec_neq (x1 y1 x2 y2 : R) : x1 <> x2 \/ y1 <> y2 -> Vec x1 y1 <> Vec x2 y2.
Proof. intros [H|H] E; injection E; intros; contradiction. Qed.

(** The two scans of [order_corners]. *)
Lemma arg_lt_spec (f : vec -> R) (l : list vec) :
  l <> [] -> exists y, arg_first lt_b f l = ret y /\ first_best lt_b f l y.
Proof. apply arg_first_spec; eauto using lt_b_irrefl, lt_b_trans, lt_b_mixed. Qed.

Lemma arg_gt_spec (f : vec -> R) (l : list vec) :
  l <> [] -> exists y, arg_first gt_b f l = ret y /\ first_best gt_b f l y.
Proof. apply arg_first_spec; eauto using gt_b_irrefl, gt_b_trans, gt_b_mixed. Qed.

(** [choose spec f pts H] runs one scan on a permutation [H] of four
    points and names the chosen row. *)
Ltac choose spec f pts H :=
  let y := fresh "y" in let E := fresh "E" in let F := fresh "F" in
  destruct (spec f pts) as [y [E F]];
  [intros ->; apply Permutation_nil in H; discriminate | rewrite E; cbn [bind ret]].

(** The rows other than the expected ones lose, on a permutation of four
    points: each is one of the four and is compared by [lra]. *)
Ltac others H :=
  let z := fresh "z" in let Hz := fresh "Hz" in
  intros z Hz; intros; apply (Permutation_in _ H) in Hz;
  destruct Hz as [<-|[<-|[<-|[<-|[]]]]]; try congruence;
  unfold lt_b, gt_b, psum, pdiff; cbn [vx vy]; apply Rltb_true; lra.

Ltac side H :=
  first [ exact lt_b_irrefl | exact gt_b_irrefl | exact lt_b_trans | exact gt_b_trans
        | exact lt_b_mixed | exact gt_b_mixed
        | apply (Permutation_in _ (Permutation_sym H)); cbn [In]; tauto | others H ].

(** On the corners of an axis-parallel rectangle, listed in any order,
    the ordering finds each corner. *)
Lemma order_rect (x0 x1 y0 y1 : R) (pts : list vec) :
  x0 < x1 -> y0 < y1 -> Permutation pts [Vec x0 y0; Vec x1 y0; Vec x1 y1; Vec x0 y1] ->
  order_corners pts = ret [Vec x0 y0; Vec x1 y0; Vec x1 y1; Vec x0 y1].
Proof.
  intros Hx Hy H; unfold order_corners.
  choose arg_lt_spec psum pts H.
  apply first_best_strict with (x := Vec x0 y0) in F; try side H; subst.
  choose arg_gt_spec psum pts H.
  apply first_best_strict with (x := Vec x1 y1) in F; try side H; subst.
  choose arg_lt_spec pdiff pts H.
  apply first_best_strict with (x := Vec x1 y0) in F; try side H; subst.
  choose arg_gt_spec pdiff pts H.
  apply first_best_strict with (x := Vec x0 y1) in F; try side H; subst.
  reflexivity.
Qed.

Lemma nodup4 {A : Type} (p q u v : A) : NoDup [p; q; u; v] -> p <> q /\ q <> u /\ u <> v /\ v <> p.
Proof.
  intros Hn; rewrite !NoDup_cons_iff in Hn; cbn [In] in Hn.
  destruct Hn as (H1 & H2 & H3 & _); repeat split; intros E; subst; tauto.
Qed.

(** The side conditions of [first_best_tie] on four listed points. *)
Ltac tie_side H :=
  first [ assumption | apply (Permutation_in _ (Permutation_sym H)); cbn [In]; tauto
        | apply vec_neq; first [left; lra | right; lra]
        | unfold psum, pdiff; cbn [vx vy]; ring | others H ].

(** On the corners of a square turned by 45 degrees, listed in any order,
    the two corners of each tie are chosen by their positions; the four
    choices cannot all differ, since that would order the positions in a
    cycle. *)
Lemma order_diamond_cases (a b r : R) (pts : list vec) :
  0 < r -> Permutation pts [Vec a (b - r); Vec (a + r) b; Vec a (b + r); Vec (a - r) b] ->
  exists tl tr br bl, order_corners pts = ret [tl; tr; br; bl] /\
    let T := Vec a (b - r) in let Rt := Vec (a + r) b in let B := Vec a (b + r) in let L := Vec (a - r) b in
    ((tl = T /\ (idx T pts < idx L pts)%nat) \/ (tl = L /\ (idx L pts < idx T pts)%nat)) /\
    ((tr = T /\ (idx T pts < idx Rt pts)%nat) \/ (tr = Rt /\ (idx Rt pts < idx T pts)%nat)) /\
    ((br = Rt /\ (idx Rt pts < idx B pts)%nat) \/ (br = B /\ (idx B pts < idx Rt pts)%nat)) /\
    ((bl = B /\ (idx B pts < idx L pts)%nat) \/ (bl = L /\ (idx L pts < idx B pts)%nat)).
Proof.
  intros Hr H; cbv zeta.
  assert (Hnd : NoDup pts).
  { apply (Permutation_NoDup (Permutation_sym H)).
    repeat constructor; cbn [In]; intros Hin; repeat destruct Hin as [Hin|Hin];
      try contradiction; injection Hin; intros; lra. }
  assert (Hne : pts <> []) by (intros ->; apply Permutation_nil in H; discriminate).
  destruct (arg_lt_spec psum pts Hne) as [tl [Etl Ftl]], (arg_gt_spec psum pts Hne) as [br [Ebr Fbr]],
    (arg_lt_spec pdiff pts Hne) as [tr [Etr Ftr]], (arg_gt_spec pdiff pts Hne) as [bl [Ebl Fbl]].
  exists tl, tr, br, bl; unfold order_corners; rewrite Etl, Ebr, Etr, Ebl; cbn [bind ret].
  split; [reflexivity|].
  cbv zeta; split; [|split; [|split]].
  - apply (first_best_tie lt_b lt_b_irrefl lt_b_trans psum _ _ _ _ Hnd); tie_side H.
  - apply (first_best_tie lt_b lt_b_irrefl lt_b_trans pdiff _ _ _ _ Hnd); tie_side H.
  - apply (first_best_tie gt_b gt_b_irrefl gt_b_trans psum _ _ _ _ Hnd); tie_side H.
  - apply (first_best_tie gt_b gt_b_irrefl gt_b_trans pdiff _ _ _ _ Hnd); tie_side H.
Qed.

(** The centre of four points. *)
Lemma centroid4 (p q u v : vec) :
  centroid [p; q; u; v] = Vec ((vx p + vx q + vx u + vx v) / 4) ((vy p + vy q + vy u + vy v) / 4).
Proof. unfold centroid; cbn [fold_right List.length INR]; apply vec_eq; cbn [vx vy]; field. Qed.

(** A vector whose squared length is a quarter of [S] has length
    [sqrt S / 2]. *)
Lemma norm_quarter (s t S : R) : 0 <= S -> s * s + t * t = S / 4 -> norm (Vec s t) = sqrt S / 2.
Proof.
  intros HS H; unfold norm, norm2, dot; cbn [vx vy]; rewrite H.
  replace (S / 4) with ((sqrt S / 2) * (sqrt S / 2))
    by (replace (sqrt S / 2 * (sqrt S / 2)) with (sqrt S * sqrt S / 4) by field; rewrite sqrt_sqrt; lra).
  apply sqrt_square; pose proof (sqrt_pos S); lra.
Qed.

Lemma norm_axis (u : R) : 0 <= u -> norm (Vec u 0) = u.
Proof. intros Hu; unfold norm, norm2, dot; cbn [vx vy]; rewrite Rmult_0_l, Rplus_0_r; apply sqrt_square, Hu. Qed.

Lemma norm_axis_y (u : R) : 0 <= u -> norm (Vec 0 u) = u.
Proof. intros Hu; unfold norm, norm2, dot; cbn [vx vy]; rewrite Rmult_0_l, Rplus_0_l; apply sqrt_square, Hu. Qed.

(** ** The dictionary of marker centres *)

Lemma center_of_fold (centers : list (Z * vec)) (i : Z) (acc : option vec) :
  fold_left (fun acc e => if Z.eqb (fst e) i then Some (snd e) else acc) centers acc =
  match center_of centers i with Some v => Some v | None => acc end.
Proof.
  unfold center_of; revert acc; induction centers as [|[j v] r IH]; intros acc; [reflexivity|].
  cbn [fold_left fst snd]; rewrite IH, (IH (if Z.eqb j i then Some v else None)).
  destruct (fold_left _ r None), (Z.eqb j i); reflexivity.
Qed.

Lemma center_of_some (centers : list (Z * vec)) (i : Z) (v : vec) :
  center_of centers i = Some v -> In (i, v) centers.
Proof.
  induction centers as [|[j w] r IH]; [discriminate|]; unfold center_of; cbn [fold_left fst snd].
  rewrite center_of_fold; destruct (center_of r i) as [u|] eqn:E.
  - intros [= <-]; right; apply IH; congruence.
  - destruct (Z.eqb_spec j i) as [<-|]; [intros [= <-]; left; reflexivity | discriminate].
Qed.

Lemma center_of_none (centers : list (Z * vec)) (i : Z) :
  center_of centers i = None <-> ~ In i (map fst centers).
Proof.
  induction centers as [|[j w] r IH]; [split; [intros _ []|reflexivity]|]; unfold center_of; cbn [fold_left fst snd map].
  rewrite center_of_fold; destruct (center_of r i) as [u|] eqn:E.
  - split; [discriminate|]; intros H; exfalso; destruct (in_dec Z.eq_dec i (map fst r)) as [Hin|Hn];
      [apply H; right; exact Hin | apply IH in Hn; discriminate].
  - destruct (Z.eqb_spec j i) as [<-|Hji]; [split; [discriminate|]; intros H; exfalso; apply H; left; reflexivity|].
    split; [intros _ [?|H]; [congruence|]; apply IH in H; [exact H|reflexivity] | reflexivity].
Qed.

Lemma aruco_center (ms : list (Z * list vec)) (i : Z) (v : vec) :
  center_of (map (fun m => (fst m, marker_center (snd m))) ms) i = Some v ->
  exists cs, In (i, cs) ms /\ v = marker_center cs.
Proof.
  intros E; apply center_of_some, in_map_iff in E as ([j cs] & [= <- <-] & H); exists cs; split; [exact H | reflexivity].
Qed.

Lemma aruco_ids (ms : list (Z * list vec)) (i : Z) :
  center_of (map (fun m => (fst m, marker_center (snd m))) ms) i = None <-> ~ In i (map fst ms).
Proof. rewrite center_of_none, map_map; reflexivity. Qed.

(** ** Properties *)

(** C18: [auto_corners] orders the corners by [argmin]/[argmax] of [x + y]
    and [y - x]; on a table seen turned by 45 degrees the corners tie two
    by two, and whatever order the contour lists them in, the four
    corners written to [corner.json] repeat one corner and lose
    another. *)
Theorem order_diamond_repeats (a b r : R) (pts : list vec) :
  0 < r -> Permutation pts [Vec a (b - r); Vec (a + r) b; Vec a (b + r); Vec (a - r) b] ->
  exists cs, order_corners pts = ret cs /\ ~ NoDup cs.
Proof.
  intros Hr H; destruct (order_diamond_cases a b r pts Hr H) as (tl & tr & br & bl & E & Htl & Htr & Hbr & Hbl).
  exists [tl; tr; br; bl]; split; [exact E|]; intros Hn; apply nodup4 in Hn as (N1 & N2 & N3 & N4).
  destruct Htl as [[-> ?]|[-> ?]], Htr as [[-> ?]|[-> ?]], Hbr as [[-> ?]|[-> ?]], Hbl as [[-> ?]|[-> ?]];
    first [congruence | lia].
Qed.

(** [shrink_to_inner] moves each corner of an axis-parallel
    rectangle by [delta = inner_cm * px_per_cm] along the diagonal
    towards the centre, so the sides move in by [delta * w / d] and
    [delta * h / d] ([d] the diagonal), both less than the rail
    thickness [delta] the tool means to remove. *)
Theorem shrink_rect_inset (x0 x1 y0 y1 inner : R) :
  x0 < x1 -> y0 < y1 -> 0 < inner ->
  let w := x1 - x0 in let h := y1 - y0 in let d := sqrt (w * w + h * h) in
  let delta := inner * ((w / TABLE_W_CM + h / TABLE_H_CM) / 2) in
  shrink_to_inner [Vec x0 y0; Vec x1 y0; Vec x1 y1; Vec x0 y1] inner =
  ret (Some [Vec (x0 + delta * w / d) (y0 + delta * h / d); Vec (x1 - delta * w / d) (y0 + delta * h / d);
             Vec (x1 - delta * w / d) (y1 - delta * h / d); Vec (x0 + delta * w / d) (y1 - delta * h / d)]) /\
  delta * w / d < delta /\ delta * h / d < delta.
Proof.
  intros Hx Hy Hi w h d delta.
  assert (HS : 0 <= w * w + h * h) by (unfold w, h; nra).
  assert (Hd : 0 < d) by (apply sqrt_lt_R0; unfold w, h; nra).
  assert (Hdel : 0 < delta) by (unfold delta, w, h, TABLE_W_CM, TABLE_H_CM; apply Rmult_lt_0_compat; [lra|];
                                 unfold Rdiv; apply Rmult_lt_0_compat; [|lra]; apply Rplus_lt_0_compat; apply Rmult_lt_0_compat; lra).
  assert (Hwd : w < d) by (unfold d; rewrite <- (sqrt_square w) at 1 by (unfold w; lra);
                           apply sqrt_lt_1; [unfold w; nra | exact HS | unfold h; nra]).
  assert (Hhd : h < d) by (unfold d; rewrite <- (sqrt_square h) at 1 by (unfold h; lra);
                           apply sqrt_lt_1; [unfold h; nra | exact HS | unfold w; nra]).
  assert (Hlt : forall a, a < d -> delta * a / d < delta).
  { intros a Ha; apply (Rmult_lt_reg_r d); [exact Hd|].
    replace (delta * a / d * d) with (delta * a) by (field; lra); nra. }
  split; [|split; apply Hlt; assumption].
  unfold shrink_to_inner; rewrite Rleb_false by lra; cbv zeta; rewrite centroid4; cbn [vx vy].
  assert (N1 : norm (Vec x1 y0 -v Vec x0 y0) = w)
    by (unfold vsub; cbn [vx vy]; replace (y0 - y0) with 0 by ring; apply norm_axis; unfold w; lra).
  assert (N2 : norm (Vec x1 y1 -v Vec x1 y0) = h)
    by (unfold vsub; cbn [vx vy]; replace (x1 - x1) with 0 by ring; apply norm_axis_y; unfold h; lra).
  rewrite N1, N2; unfold vsub; cbn [vx vy existsb].
  repeat rewrite (norm_quarter _ _ (w * w + h * h) HS) by (unfold w, h; field).
  fold d; destruct (Reqb_spec (d / 2) 0) as [E|_]; [lra|]; cbn [orb map].
  unfold vadd, vscale, vdiv; cbn [vx vy]; fold delta.
  repeat rewrite (norm_quarter _ _ (w * w + h * h) HS) by (unfold w, h; field); fold d.
  do 2 f_equal; repeat (apply f_equal2; [apply vec_eq; cbn [vx vy]; unfold w, h; field; lra|]); reflexivity.
Qed.

(** [detect_by_aruco] returns the centres of markers 0, 1, 2 and 3,
    in this order, each the mean of the corners of a marker of that id;
    it raises [RuntimeError] exactly when fewer than four markers are
    seen or one of the ids 0 to 3 is missing. *)
Theorem detect_by_aruco_spec (ms : list (Z * list vec)) :
  match detect_by_aruco (Some ms) with
  | inr cs => (4 <= List.length ms)%nat /\
              Forall2 (fun i p => exists m, In (i, m) ms /\ p = marker_center m) [0; 1; 2; 3]%Z cs
  | inl e => (exists msg, e = RuntimeError msg) /\
             ((List.length ms < 4)%nat \/ Exists (fun i => ~ In i (map fst ms)) [0; 1; 2; 3]%Z)
  end.
Proof.
  unfold detect_by_aruco; destruct (Nat.ltb_spec (List.length ms) 4) as [Hl|Hl].
  { split; [eexists; reflexivity | left; exact Hl]. }
  destruct (center_of _ 0%Z) as [tl|] eqn:E0;
    [destruct (center_of _ 1%Z) as [tr|] eqn:E1;
     [destruct (center_of _ 2%Z) as [br|] eqn:E2;
      [destruct (center_of _ 3%Z) as [bl|] eqn:E3|]|]|];
    cbn [ret]; try (split; [eexists; reflexivity | right]);
    repeat match goal with H : center_of _ _ = None |- _ => apply aruco_ids in H end;
    repeat match goal with H : center_of _ _ = Some _ |- _ => apply aruco_center in H end;
    eauto 10 using Exists_cons_hd, Exists_cons_tl, Forall2_cons, Forall2_nil.
Qed.

(** ** Witnesses *)

Local Abbreviation diamond := [Vec 0 (0 - 1); Vec (0 + 1) 0; Vec 0 (0 + 1); Vec (0 - 1) 0].
Local Abbreviation square := [Vec 0 0; Vec 1 0; Vec 1 1; Vec 0 1].

Lemma order_diamond_repeats_witness :
  0 < 1 /\ Permutation diamond diamond /\ exists cs, order_corners diamond = ret cs /\ ~ NoDup cs.
Proof.
  split; [lra|]; split; [apply Permutation_refl|].
  apply (order_diamond_repeats 0 0 1 diamond); [lra | apply Permutation_refl].
Defined.

Lemma shrink_rect_inset_witness :
  0 < 1 /\ 0 < 1 /\ 0 < 1 /\
  let w := 1 - 0 in let h := 1 - 0 in let d := sqrt (w * w + h * h) in
  let delta := 1 * ((w / TABLE_W_CM + h / TABLE_H_CM) / 2) in
  shrink_to_inner square 1 =
  ret (Some [Vec (0 + delta * w / d) (0 + delta * h / d); Vec (1 - delta * w / d) (0 + delta * h / d);
             Vec (1 - delta * w / d) (1 - delta * h / d); Vec (0 + delta * w / d) (1 - delta * h / d)]) /\
  delta * w / d < delta /\ delta * h / d < delta.
Proof.
  split; [lra|]; split; [lra|]; split; [lra|].
  exact (shrink_rect_inset 0 1 0 1 1 ltac:(lra) ltac:(lra) ltac:(lra)).
Defined.
