(* ===== verification/CornerTool.v ===== *)
(** * The interactive corner editor ([src/tools/test_corner.py])

    [test_corner.py] loads [corner.json], shows the four corners on the
    photo and lets the user drag them with the mouse: a left press
    selects the nearest corner when it is closer than [HIT_RADIUS], a
    move drags the selected corner, a release drops it; Space rewrites
    [corner.json] and shows "Saved!" for 800 ms, Esc or q leaves without
    saving.  The state of the script is the array [pts] and the global
    [selected_idx]; [mouse_cb] is its callback, [loop] its [while True]
    over the [cv2.waitKey] calls, each of which delivers the mouse events
    that arrived during it and then a key code.  The file [corner.json]
    is relative to the working directory, on the files of [Pipeline].
    The drawing is not modelled. *)

From Stdlib Require Import Reals Lra List ZArith Lia Bool String.
From S2P Require Import Prelude Json Vision Camera Pipeline Corners.
Import ListNotations.
Open Scope R_scope.

Module AdjustCorners.

Definition IMG_PATH : string := "photo_000.jpg".
Definition CORNER_JSON : string := "corner.json".
Definition HIT_RADIUS : R := 15.

(** [cv2.EVENT_MOUSEMOVE], [cv2.EVENT_LBUTTONDOWN], [cv2.EVENT_LBUTTONUP] *)
Definition EVENT_MOUSEMOVE : Z := 0.
Definition EVENT_LBUTTONDOWN : Z := 1.
Definition EVENT_LBUTTONUP : Z := 4.

(** The globals [pts] and [selected_idx]. *)
Record state := St { pts : list vec; selected_idx : option nat }.

(** ** Loading (lines 27-40) *)

Section Tool.

(** The conversion of one JSON value by [np.array(.., dtype=float)]. *)
Variable to_float : jval -> py R.

(** [[c[k]["x"], c[k]["y"]]] before the conversion. *)
Definition corner_xy (c : jval) (k : string) : py (jval * jval) :=
  (p <- getitem c k ;; x <- getitem p "x"%string ;; y <- getitem p "y"%string ;; ret (x, y))%py.

Definition to_vec (xy : jval * jval) : py vec :=
  (x <- to_float (fst xy) ;; y <- to_float (snd xy) ;; ret (Vec x y))%py.

(** The array of lines 33-38: every subscription, then the conversion. *)
Definition load_pts (c : jval) : py (list vec) :=
  (tl <- corner_xy c "top_left" ;; tr <- corner_xy c "top_right" ;;
   br <- corner_xy c "bottom_right" ;; bl <- corner_xy c "bottom_left" ;;
   p0 <- to_vec tl ;; p1 <- to_vec tr ;; p2 <- to_vec br ;; p3 <- to_vec bl ;;
   ret [p0; p1; p2; p3])%py.

(** Lines 27-40: the photo must exist, then [corner.json] is read. *)
Definition init (img_found : bool) (fs : files) (cwd : string) : py state :=
  if negb img_found then raise (SystemExit "image not found")
  else (c <- read_json fs (resolve cwd CORNER_JSON) ;; p <- load_pts c ;; ret (St p None))%py.

End Tool.

(** ** The mouse callback (lines 44-55) *)

(** [np.argmin]: the first index of the minimum; [ValueError] when
    empty. *)
Fixpoint argmin_loop (bi : nat) (b : R) (i : nat) (l : list R) : nat :=
  match l with
  | [] => bi
  | x :: r => if (x <? b)%geo then argmin_loop i x (S i) r else argmin_loop bi b (S i) r
  end.

Definition argmin (l : list R) : py nat :=
  match l with
  | [] => raise ValueError
  | x :: r => ret (argmin_loop 0 x 1 r)
  end.

(** [a[i] = v] of a numpy row index: [None] out of range. *)
Fixpoint set_nth {A : Type} (l : list A) (i : nat) (v : A) : option (list A) :=
  match l, i with
  | [], _ => None
  | _ :: r, O => Some (v :: r)
  | x :: r, S j => option_map (cons x) (set_nth r j v)
  end.

(** [a[i]] and [a[i] = v]: out of range raises [IndexError]. *)
Definition py_get {A : Type} (l : list A) (i : nat) : py A :=
  match nth_error l i with Some v => ret v | None => raise IndexError end.

Definition py_set {A : Type} (l : list A) (i : nat) (v : A) : py (list A) :=
  match set_nth l i v with Some l' => ret l' | None => raise IndexError end.

(** [np.linalg.norm(pts - np.array([x, y]), axis=1)] *)
Definition dists (ps : list vec) (x y : Z) : list R :=
  map (fun p => dist p (Vec (IZR x) (IZR y))) ps.

Definition mouse_cb (event x y : Z) (st : state) : py state :=
  if Z.eqb event EVENT_LBUTTONDOWN then
    let ds := dists (pts st) x y in
    (i <- argmin ds ;; d <- py_get ds i ;;
     ret (if (d <? HIT_RADIUS)%geo then St (pts st) (Some i) else st))%py
  else if Z.eqb event EVENT_MOUSEMOVE then
    match selected_idx st with
    | Some i => (p <- py_set (pts st) i (Vec (IZR x) (IZR y)) ;; ret (St p (Some i)))%py
    | None => ret st
    end
  else if Z.eqb event EVENT_LBUTTONUP then ret (St (pts st) None)
  else ret st.

(** The callbacks of the events that arrive during one [waitKey]. *)
Fixpoint callbacks (evs : list (Z * Z * Z)) (st : state) : py state :=
  match evs with
  | [] => ret st
  | (e, x, y) :: r => (st' <- mouse_cb e x y st ;; callbacks r st')%py
  end.

(** ** Saving and the key loop (lines 74-93) *)

(** The dict of lines 80-85. *)
Definition save_doc (ps : list vec) : py jval :=
  match ps with
  | p0 :: p1 :: p2 :: p3 :: _ =>
      ret (JObj [("top_left"%string, AutoCorners.pt_json p0); ("top_right"%string, AutoCorners.pt_json p1);
                 ("bottom_right"%string, AutoCorners.pt_json p2); ("bottom_left"%string, AutoCorners.pt_json p3)])
  | _ => raise IndexError
  end.

(** One [cv2.waitKey]: the mouse events it dispatches, then its key code
    ([-1] when no key was pressed). *)
Record wait := Wait { events : list (Z * Z * Z); wkey : Z }.

Inductive outcome := Quit (fs : files) | Running (st : state) (fs : files).

(** The [while True] loop: [waitKey(20)], then Esc or q breaks, Space
    writes the file and waits 800 ms more, whose key is dropped. *)
Fixpoint loop (cwd : string) (ws : list wait) (st : state) (fs : files) : py outcome :=
  match ws with
  | [] => ret (Running st fs)
  | w :: ws' =>
      (st1 <- callbacks (events w) st ;;
       let k := Z.land (wkey w) 255 in
       if Z.eqb k 27 || Z.eqb k 113 then ret (Quit fs)
       else if Z.eqb k 32 then
         (d <- save_doc (pts st1) ;;
          let fs' := write_json fs (resolve cwd CORNER_JSON) d in
          match ws' with
          | [] => ret (Running st1 fs')
          | w2 :: ws'' => (st2 <- callbacks (events w2) st1 ;; loop cwd ws'' st2 fs')
          end)
       else loop cwd ws' st1 fs)%py
  end.

(** The files after a run of the loop. *)
Definition files_of (o : outcome) : files :=
  match o with Quit fs => fs | Running _ fs => fs end.

(** The shape of the globals: four rows, and a selected index among
    them. *)
Definition wf (st : state) : Prop :=
  List.length (pts st) = 4%nat /\ forall i, selected_idx st = Some i -> (i < 4)%nat.

(** The states of a session: the loaded corners, then any callback. *)
Inductive reachable (to_float : jval -> py R) : state -> Prop :=
| reach_init (fs : files) (cwd : string) (st : state) :
    init to_float true fs cwd = ret st -> reachable to_float st
| reach_cb (st st' : state) (e x y : Z) :
    reachable to_float st -> mouse_cb e x y st = ret st' -> reachable to_float st'.

End AdjustCorners.

Import AdjustCorners.

(** ** [np.argmin] *)

Lemma argmin_loop_bound (bi i : nat) (b : R) (l : list R) :
  (bi < i)%nat -> (argmin_loop bi b i l < i + List.length l)%nat.
Proof.
  revert bi i b; induction l as [|x l IH]; intros bi i b H; cbn [argmin_loop List.length]; [lia|].
  destruct (x <? b)%geo; [specialize (IH i (S i) x) | specialize (IH bi (S i) b)]; lia.
Qed.

Lemma argmin_lt (l : list R) (i : nat) : argmin l = ret i -> (i < List.length l)%nat.
Proof.
  destruct l as [|x l]; [discriminate|]; intros [= <-]; cbn [List.length].
  pose proof (argmin_loop_bound 0 1 x l); lia.
Qed.

Lemma argmin_loop_keep (bi i : nat) (b : R) (l : list R) :
  Forall (fun x => b < x) l -> argmin_loop bi b i l = bi.
Proof.
  revert i; induction l as [|x l IH]; intros i H; [reflexivity|]; inversion_clear H as [|? ? Hx Hl].
  cbn [argmin_loop]; rewrite Rltb_false by lra; apply IH, Hl.
Qed.

(** A strict minimum is found at its index, whatever came before. *)
Lemma argmin_loop_unique (bi i : nat) (b m : R) (pre post : list R) :
  m < b -> Forall (fun x => m < x) pre -> Forall (fun x => m < x) post ->
  argmin_loop bi b i (pre ++ m :: post) = (i + List.length pre)%nat.
Proof.
  revert bi i b; induction pre as [|x pre IH]; intros bi i b Hb Hpre Hpost; cbn [app argmin_loop List.length].
  - rewrite Rltb_true by exact Hb; rewrite argmin_loop_keep by exact Hpost; lia.
  - inversion_clear Hpre as [|? ? Hx Hp]; destruct (x <? b)%geo;
      rewrite IH by (try exact Hp; try exact Hpost; lra); lia.
Qed.

Lemma argmin_unique (pre post : list R) (m : R) :
  Forall (fun x => m < x) pre -> Forall (fun x => m < x) post ->
  argmin (pre ++ m :: post) = ret (List.length pre).
Proof.
  intros Hpre Hpost; destruct pre as [|x pre]; cbn [app argmin List.length].
  - rewrite argmin_loop_keep by exact Hpost; reflexivity.
  - inversion_clear Hpre as [|? ? Hx Hp]; rewrite argmin_loop_unique by assumption; reflexivity.
Qed.

(** ** Row updates *)

Lemma set_nth_some {A : Type} (l : list A) (i : nat) (v : A) :
  (i < List.length l)%nat -> exists l', set_nth l i v = Some l' /\ List.length l' = List.length l.
Proof.
  revert i; induction l as [|x l IH]; intros [|i] H; cbn [List.length set_nth] in *; try lia.
  - eexists; split; reflexivity.
  - destruct (IH i ltac:(lia)) as (l' & -> & E); eexists; split; [reflexivity|]; cbn; lia.
Qed.

Lemma set_nth_length {A : Type} (l l' : list A) (i : nat) (v : A) :
  set_nth l i v = Some l' -> List.length l' = List.length l.
Proof.
  revert i l'; induction l as [|x l IH]; intros [|i] l' H; cbn [set_nth] in H; try discriminate.
  - injection H as <-; reflexivity.
  - destruct (set_nth l i v) eqn:E; cbn in H; [injection H as <-; cbn; f_equal; apply (IH i); exact E | discriminate].
Qed.

Lemma set_nth_nth {A : Type} (l l' : list A) (i : nat) (v : A) :
  set_nth l i v = Some l' ->
  nth_error l' i = Some v /\ forall k, k <> i -> nth_error l' k = nth_error l k.
Proof.
  revert i l'; induction l as [|x l IH]; intros [|i] l' H; cbn [set_nth] in H; try discriminate.
  - injection H as <-; split; [reflexivity|]; intros [|k] Hk; [lia | reflexivity].
  - destruct (set_nth l i v) as [r|] eqn:E; cbn in H; [injection H as <- | discriminate].
    destruct (IH i r E) as [H1 H2]; split; [exact H1|]; intros [|k] Hk; [reflexivity | apply H2; lia].
Qed.

Lemma set_nth_twice {A : Type} (l l' : list A) (i : nat) (v w : A) :
  set_nth l i v = Some l' -> set_nth l' i w = set_nth l i w.
Proof.
  revert i l'; induction l as [|x l IH]; intros [|i] l' H; cbn [set_nth] in H |- *; try discriminate.
  - injection H as <-; reflexivity.
  - destruct (set_nth l i v) as [r|] eqn:E; cbn in H; [injection H as <- | discriminate].
    cbn [set_nth]; rewrite (IH i r E); reflexivity.
Qed.

Lemma argmin_some (l : list R) : l <> [] -> exists i, argmin l = ret i /\ (i < List.length l)%nat.
Proof.
  intros H; destruct l as [|x l]; [contradiction|]; eexists; split; [reflexivity|].
  apply argmin_lt; reflexivity.
Qed.

Lemma py_get_some {A : Type} (l : list A) (i : nat) :
  (i < List.length l)%nat -> exists v, py_get l i = ret v /\ nth_error l i = Some v.
Proof.
  intros H; apply nth_error_Some in H; unfold py_get.
  destruct (nth_error l i) as [v|]; [exists v; split; reflexivity | contradiction].
Qed.

Lemma length_dists (ps : list vec) (x y : Z) : List.length (dists ps x y) = List.length ps.
Proof. apply length_map. Qed.

(** ** The shape invariant *)

Lemma mouse_cb_wf (st : state) (e x y : Z) :
  wf st -> exists st', mouse_cb e x y st = ret st' /\ wf st'.
Proof.
  intros [Hl Hs]; unfold mouse_cb.
  destruct (Z.eqb e EVENT_LBUTTONDOWN).
  - assert (Hd : List.length (dists (pts st) x y) = 4%nat) by (rewrite length_dists; exact Hl).
    cbv zeta; destruct (argmin_some (dists (pts st) x y)) as (i & -> & Hi); [intros E; rewrite E in Hd; discriminate|].
    cbn [bind ret]. destruct (py_get_some _ i Hi) as (d & -> & _); cbn [bind ret].
    eexists; split; [reflexivity|]; destruct (d <? HIT_RADIUS)%geo; [|split; assumption].
    split; [exact Hl|]; cbn; intros j [= <-]; lia.
  - destruct (Z.eqb e EVENT_MOUSEMOVE); [destruct (selected_idx st) as [i|] eqn:Ei|].
    + destruct (set_nth_some (pts st) i (Vec (IZR x) (IZR y))) as (l' & E & El); [rewrite Hl; exact (Hs i eq_refl)|].
      unfold py_set; rewrite E; cbn [bind ret]; eexists; split; [reflexivity|].
      split; cbn; [rewrite El; exact Hl | intros j [= <-]; exact (Hs i eq_refl)].
    + eexists; split; [reflexivity | split; [exact Hl | rewrite Ei; exact Hs]].
    + destruct (Z.eqb e EVENT_LBUTTONUP); eexists; (split; [reflexivity|]);
        [split; [exact Hl | discriminate] | split; assumption].
Qed.

Lemma callbacks_wf (evs : list (Z * Z * Z)) (st : state) :
  wf st -> exists st', callbacks evs st = ret st' /\ wf st'.
Proof.
  revert st; induction evs as [|[[e x] y] evs IH]; intros st H; [exists st; split; [reflexivity | exact H]|].
  destruct (mouse_cb_wf st e x y H) as (st1 & E & H1); cbn [callbacks]; rewrite E; cbn [bind ret]; exact (IH st1 H1).
Qed.

Lemma save_doc_wf (st : state) : wf st -> exists d, save_doc (pts st) = ret d.
Proof.
  intros [Hl _]; destruct (pts st) as [|p0 [|p1 [|p2 [|p3 r]]]]; cbn in Hl; try discriminate.
  eexists; reflexivity.
Qed.

(** Splits the first computation of a chain of binds. *)
Ltac py_step :=
  match goal with
  | |- context [bind ?c _] =>
      lazymatch c with bind _ _ => fail | ret _ => fail | _ => destruct c; cbn [bind ret]; [try discriminate|] end
  end.

Lemma load_pts_length (tf : jval -> py R) (c : jval) (l : list vec) :
  load_pts tf c = ret l -> List.length l = 4%nat.
Proof. unfold load_pts; repeat py_step; intros [= <-]; reflexivity. Qed.

Lemma init_wf (tf : jval -> py R) (fs : files) (cwd : string) (st : state) :
  init tf true fs cwd = ret st -> wf st.
Proof.
  unfold init; cbn [negb]; destruct (read_json fs _) as [|c]; cbn [bind ret]; [discriminate|].
  destruct (load_pts tf c) as [|l] eqn:E; cbn [bind ret]; [discriminate|].
  intros [= <-]; split; [exact (load_pts_length tf c l E) | discriminate].
Qed.

Lemma reachable_wf (tf : jval -> py R) (st : state) : reachable tf st -> wf st.
Proof.
  induction 1 as [fs cwd st E | st st' e x y _ IH E].
  - exact (init_wf tf fs cwd st E).
  - destruct (mouse_cb_wf st e x y IH) as (st'' & E' & H); rewrite E in E'; injection E' as ->; exact H.
Qed.

Lemma callbacks_reach (tf : jval -> py R) (evs : list (Z * Z * Z)) (st : state) :
  reachable tf st -> exists st', callbacks evs st = ret st' /\ reachable tf st'.
Proof.
  revert st; induction evs as [|[[e x] y] evs IH]; intros st H; [exists st; split; [reflexivity | exact H]|].
  destruct (mouse_cb_wf st e x y (reachable_wf tf st H)) as (st1 & E & _).
  cbn [callbacks]; rewrite E; cbn [bind ret]; exact (IH st1 (reach_cb tf st st1 e x y H E)).
Qed.

(** ** Runs of the key loop *)

(** Induction along the loop, which consumes one or two waits a round. *)
Lemma waits_ind (P : list wait -> Prop) :
  P [] -> (forall w ws, P ws -> (forall w2 ws', ws = w2 :: ws' -> P ws') -> P (w :: ws)) ->
  forall ws, P ws.
Proof.
  intros H0 HS ws; remember (List.length ws) as n eqn:En; revert ws En.
  induction n as [n IH] using lt_wf_ind; intros [|w ws] En; [exact H0|].
  cbn [List.length] in En; apply HS; [apply (IH (List.length ws)); [lia | reflexivity]|].
  intros w2 ws' ->; apply (IH (List.length ws')); [cbn [List.length] in En; lia | reflexivity].
Qed.

(** One round of the loop, after the callbacks of its first wait. *)
Lemma loop_cons (cwd : string) (w : wait) (ws : list wait) (st : state) (fs : files) :
  loop cwd (w :: ws) st fs =
  (st1 <- callbacks (events w) st ;;
   let k := Z.land (wkey w) 255 in
   if Z.eqb k 27 || Z.eqb k 113 then ret (Quit fs)
   else if Z.eqb k 32 then
     (d <- save_doc (pts st1) ;;
      let fs' := write_json fs (resolve cwd CORNER_JSON) d in
      match ws with
      | [] => ret (Running st1 fs')
      | w2 :: ws'' => (st2 <- callbacks (events w2) st1 ;; loop cwd ws'' st2 fs')
      end)
   else loop cwd ws st1 fs)%py.
Proof. reflexivity. Qed.

(** Every file the loop writes is [corner.json] of the working
    directory. *)
Lemma loop_frame (cwd : string) (ws : list wait) :
  forall st fs o, loop cwd ws st fs = ret o ->
  forall q, q <> resolve cwd CORNER_JSON -> files_of o q = fs q.
Proof.
  induction ws as [|w ws IH1 IH2] using waits_ind; intros st fs o E q Hq.
  - injection E as <-; reflexivity.
  - rewrite loop_cons in E; destruct (callbacks (events w) st) as [|st1]; cbn [bind ret] in E; [discriminate|].
    destruct (_ || _); [injection E as <-; reflexivity|].
    destruct (Z.eqb _ 32); [|exact (IH1 st1 fs o E q Hq)].
    destruct (save_doc (pts st1)) as [|d]; cbn [bind ret] in E; [discriminate|].
    assert (Hw : write_json fs (resolve cwd CORNER_JSON) d q = fs q)
      by (unfold write_json; destruct (String.eqb_spec q (resolve cwd CORNER_JSON)); [contradiction | reflexivity]).
    destruct ws as [|w2 ws'']; [injection E as <-; exact Hw|].
    destruct (callbacks (events w2) st1) as [|st2]; cbn [bind ret] in E; [discriminate|].
    rewrite (IH2 w2 ws'' eq_refl st2 _ o E q Hq); exact Hw.
Qed.

(** From one working directory, the editor's [corner.json] is never the
    [main/vision/corner.json] that [yoloball] reads. *)
Lemma editor_path_ne (cwd : string) : resolve cwd CORNER_JSON <> resolve cwd Pipeline.CORNER_JSON.
Proof. unfold resolve; cbn [String.prefix]; intros H; apply append_cancel_l in H; discriminate. Qed.

Lemma callbacks_app (a b : list (Z * Z * Z)) (st : state) :
  callbacks (a ++ b) st = (st' <- callbacks a st ;; callbacks b st')%py.
Proof.
  revert st; induction a as [|[[e x] y] a IH]; intros st; [reflexivity|]; cbn [app callbacks].
  destruct (mouse_cb e x y st); [reflexivity | apply IH].
Qed.

(** A strict nearest row is the one [np.argmin] returns. *)
Lemma argmin_strict_at (l : list R) (i : nat) (m : R) :
  nth_error l i = Some m -> (forall j y, j <> i -> nth_error l j = Some y -> m < y) -> argmin l = ret i.
Proof.
  intros Hi Hb; destruct (nth_error_split l i Hi) as (pre & post & -> & <-).
  apply argmin_unique; apply Forall_forall; intros y Hy; apply In_nth_error in Hy as [j Hj].
  - assert (Hl : (j < List.length pre)%nat) by (apply nth_error_Some; congruence).
    apply (Hb j); [lia|]; rewrite nth_error_app1 by exact Hl; exact Hj.
  - apply (Hb (List.length pre + S j)%nat); [lia|]; rewrite nth_error_app2 by lia.
    replace (List.length pre + S j - List.length pre)%nat with (S j) by lia; exact Hj.
Qed.

(** A press on a corner strictly nearest and within [HIT_RADIUS] selects
    it. *)
Lemma press_selects (st : state) (i : nat) (x y : Z) (p : vec) :
  nth_error (pts st) i = Some p -> dist p (Vec (IZR x) (IZR y)) < HIT_RADIUS ->
  (forall j q, j <> i -> nth_error (pts st) j = Some q -> dist p (Vec (IZR x) (IZR y)) < dist q (Vec (IZR x) (IZR y))) ->
  mouse_cb EVENT_LBUTTONDOWN x y st = ret (St (pts st) (Some i)).
Proof.
  intros Hp Hr Hb; unfold mouse_cb; cbn [Z.eqb EVENT_LBUTTONDOWN Pos.eqb]; cbv zeta.
  assert (Hd : nth_error (dists (pts st) x y) i = Some (dist p (Vec (IZR x) (IZR y))))
    by (unfold dists; rewrite nth_error_map, Hp; reflexivity).
  rewrite (argmin_strict_at _ i _ Hd); cbn [bind ret].
  2: { intros j d Hj E; unfold dists in E; rewrite nth_error_map in E.
       destruct (nth_error (pts st) j) as [q|] eqn:Eq; cbn in E; [injection E as <- | discriminate].
       exact (Hb j q Hj Eq). }
  unfold py_get; rewrite Hd; cbn [bind ret]; rewrite Rltb_true by exact Hr; reflexivity.
Qed.

(** Moving with a corner selected drags it: the last position wins. *)
Lemma moves_drag (ms : list (Z * Z)) (mx my : Z) (i : nat) (ps : list vec) :
  (i < List.length ps)%nat ->
  exists ps', callbacks (map (fun m => (EVENT_MOUSEMOVE, fst m, snd m)) (ms ++ [(mx, my)])) (St ps (Some i)) =
              ret (St ps' (Some i)) /\ set_nth ps i (Vec (IZR mx) (IZR my)) = Some ps'.
Proof.
  revert ps; induction ms as [|[a b] ms IH]; intros ps Hi; cbn [app map callbacks fst snd];
    unfold mouse_cb; cbn [Z.eqb EVENT_LBUTTONDOWN EVENT_MOUSEMOVE selected_idx pts Pos.eqb]; unfold py_set.
  - destruct (set_nth_some ps i (Vec (IZR mx) (IZR my)) Hi) as (ps' & -> & _); cbn [bind ret].
    exists ps'; split; reflexivity.
  - destruct (set_nth_some ps i (Vec (IZR a) (IZR b)) Hi) as (ps1 & E1 & L1); rewrite E1; cbn [bind ret].
    destruct (IH ps1 ltac:(rewrite L1; exact Hi)) as (ps' & H1 & H2); exists ps'; split; [exact H1|].
    rewrite <- H2; symmetry; exact (set_nth_twice ps ps1 i _ _ E1).
Qed.

(** What Space writes, the next start reads back. *)
Lemma load_save (tf : jval -> py R) (ps : list vec) (d : jval) :
  (forall r, tf (JNum r) = ret r) -> List.length ps = 4%nat -> save_doc ps = ret d -> load_pts tf d = ret ps.
Proof.
  intros Hf Hl; destruct ps as [|p0 [|p1 [|p2 [|p3 [|q r]]]]]; cbn in Hl; try discriminate.
  intros [= <-]; unfold load_pts, to_vec; cbn; rewrite !Hf; cbn; destruct p0, p1, p2, p3; reflexivity.
Qed.

(** ** Properties *)

(** C21: a session of the editor never raises: from the loaded corners,
    any sequence of mouse events and keys runs every callback and every
    save without an exception, and each state it is left in is again a
    state of the session (four corners, a selection among them). *)
Theorem loop_never_raises (tf : jval -> py R) (cwd : string) (ws : list wait) :
  forall st fs, reachable tf st ->
  exists o, loop cwd ws st fs = ret o /\ forall st' fs', o = Running st' fs' -> reachable tf st' /\ wf st'.
Proof.
  induction ws as [|w ws IH1 IH2] using waits_ind; intros st fs H.
  { exists (Running st fs); split; [reflexivity|]; intros st' fs' [= <- <-]; split; [exact H | exact (reachable_wf tf st H)]. }
  rewrite loop_cons; destruct (callbacks_reach tf (events w) st H) as (st1 & -> & H1); cbn [bind ret]; cbv zeta.
  destruct (_ || _); [eexists; split; [reflexivity | discriminate]|].
  destruct (Z.eqb _ 32); [|exact (IH1 st1 fs H1)].
  destruct (save_doc_wf st1 (reachable_wf tf st1 H1)) as [d ->]; cbn [bind ret].
  destruct ws as [|w2 ws''].
  - eexists; split; [reflexivity|]; intros st' fs' [= <- <-]; split; [exact H1 | exact (reachable_wf tf st1 H1)].
  - destruct (callbacks_reach tf (events w2) st1 H1) as (st2 & -> & H2); cbn [bind ret]; exact (IH2 w2 ws'' eq_refl st2 _ H2).
Qed.

(** C37: dragging a corner: a left press within [HIT_RADIUS] of a corner
    strictly nearer to it than the others, then any moves, then the
    release, leaves the corner at the last position of the mouse, the
    other corners where they were and nothing selected. *)
Theorem drag_corner (tf : jval -> py R) (st : state) (i : nat) (p : vec) (x y mx my ux uy : Z) (ms : list (Z * Z)) :
  reachable tf st -> nth_error (pts st) i = Some p -> dist p (Vec (IZR x) (IZR y)) < HIT_RADIUS ->
  (forall j q, j <> i -> nth_error (pts st) j = Some q -> dist p (Vec (IZR x) (IZR y)) < dist q (Vec (IZR x) (IZR y))) ->
  exists ps, callbacks ((EVENT_LBUTTONDOWN, x, y) :: map (fun m => (EVENT_MOUSEMOVE, fst m, snd m)) (ms ++ [(mx, my)])
                        ++ [(EVENT_LBUTTONUP, ux, uy)]) st = ret (St ps None) /\
             nth_error ps i = Some (Vec (IZR mx) (IZR my)) /\ forall k, k <> i -> nth_error ps k = nth_error (pts st) k.
Proof.
  intros H Hp Hr Hb; assert (Hi : (i < List.length (pts st))%nat) by (apply nth_error_Some; congruence).
  cbn [callbacks]; rewrite (press_selects st i x y p Hp Hr Hb); cbn [bind ret]; rewrite callbacks_app.
  destruct (moves_drag ms mx my i (pts st) Hi) as (ps & -> & E); cbn [bind ret callbacks].
  exists ps; split; [reflexivity | exact (set_nth_nth _ _ _ _ E)].
Qed.

(** C22: round trip of the editor's file: after a wait ending in Space the
    file [corner.json] of the working directory holds the corners as they
    are, and starting the editor again loads exactly these corners, when
    [float] keeps a number. *)
Theorem save_load_roundtrip (tf : jval -> py R) (cwd : string) (evs : list (Z * Z * Z)) (k : Z) (st : state)
    (fs : files) (o : outcome) :
  (forall r, tf (JNum r) = ret r) -> reachable tf st -> Z.land k 255 = 32%Z ->
  loop cwd [Wait evs k] st fs = ret o ->
  exists st1, o = Running st1 (files_of o) /\ init tf true (files_of o) cwd = ret (St (pts st1) None).
Proof.
  intros Hf H Hk E; rewrite loop_cons in E; cbn [events wkey] in E.
  destruct (callbacks_reach tf evs st H) as (st1 & E1 & H1); rewrite E1 in E; cbn [bind ret] in E; cbv zeta in E.
  rewrite Hk in E; cbn [Z.eqb orb Pos.eqb] in E.
  destruct (save_doc_wf st1 (reachable_wf tf st1 H1)) as [d Ed]; rewrite Ed in E; cbn [bind ret] in E.
  injection E as <-; exists st1; split; [reflexivity|]; cbn [files_of].
  unfold init; cbn [negb]; rewrite read_write, String.eqb_refl; cbn [bind ret].
  rewrite (load_save tf (pts st1) d Hf (proj1 (reachable_wf tf st1 H1)) Ed); reflexivity.
Qed.

(** the key pressed while "Saved!" is shown is lost: after a wait
    ending in Space the next [waitKey(800)] dispatches its mouse events
    but its key is never read, so Esc or q pressed then does not end the
    session. *)
Theorem save_swallows_key (tf : jval -> py R) (cwd : string) (evs evs' : list (Z * Z * Z)) (k : Z)
    (ws : list wait) (st : state) (fs : files) :
  reachable tf st -> Z.land k 255 = 32%Z ->
  (forall k1 k2, loop cwd (Wait evs k :: Wait evs' k1 :: ws) st fs = loop cwd (Wait evs k :: Wait evs' k2 :: ws) st fs) /\
  exists st' fs', loop cwd [Wait evs k; Wait evs' 27] st fs = ret (Running st' fs').
Proof.
  intros H Hk; split.
  { intros k1 k2; rewrite !loop_cons; cbn [events wkey]; destruct (callbacks evs st); cbn [bind ret]; [reflexivity|].
    cbv zeta; rewrite Hk; reflexivity. }
  rewrite loop_cons; cbn [events wkey].
  destruct (callbacks_reach tf evs st H) as (st1 & -> & H1); cbn [bind ret]; cbv zeta; rewrite Hk; cbn [Z.eqb orb Pos.eqb].
  destruct (save_doc_wf st1 (reachable_wf tf st1 H1)) as [d ->]; cbn [bind ret].
  destruct (callbacks_reach tf evs' st1 H1) as (st2 & -> & _); cbn [bind ret loop]; eexists; eexists; reflexivity.
Qed.

(** leaving without Space writes nothing: when no wait of a session
    ends in Space, the files after it are the files before it, edits
    included. *)
Theorem no_space_no_write (cwd : string) (ws : list wait) :
  Forall (fun w => Z.land (wkey w) 255 <> 32%Z) ws ->
  forall st fs o, loop cwd ws st fs = ret o -> files_of o = fs.
Proof.
  induction ws as [|w ws IH1 _] using waits_ind; intros Hn st fs o E; [injection E as <-; reflexivity|].
  inversion_clear Hn as [|? ? Hw Hn']; rewrite loop_cons in E.
  destruct (callbacks (events w) st) as [|st1]; cbn [bind ret] in E; [discriminate|]; cbv zeta in E.
  destruct (_ || _); [injection E as <-; reflexivity|].
  rewrite (proj2 (Z.eqb_neq _ _) Hw) in E; exact (IH1 Hn' st1 fs o E).
Qed.

(** C20: the editor and the detector do not meet: run from the working
    directory of [main.py], whatever the session does, the capture of
    [yoloball.capture_balls] reads the same [main/vision/corner.json]
    and computes the same result as before it. *)
Theorem editor_invisible_to_capture {img intr : Type} f32 gpt (li : string -> py intr) und (yolo : img -> list raw_det)
    (cwd : string) (ws : list wait) (st : state) (fs : files) (o : outcome) (c : cam_run img) :
  loop cwd ws st fs = ret o ->
  capture img f32 gpt intr li und yolo (World (files_of o) cwd) c = capture img f32 gpt intr li und yolo (World fs cwd) c.
Proof.
  intros E; unfold capture; cbn [wfiles Pipeline.cwd]; unfold read_json.
  rewrite (loop_frame cwd ws st fs o E); [reflexivity|].
  intros Heq; apply (editor_path_ne cwd); symmetry; exact Heq.
Qed.

(** ** Witnesses: an editor started in [/home/pool] on a 100 by 50
    rectangle. *)

Local Abbreviation tf0 := (fun v : jval => match v with JNum r => @inr exn R r | _ => inl ValueError end).
Local Abbreviation cwd0 := "/home/pool"%string.
Local Abbreviation pts0 := [Vec 0 0; Vec 100 0; Vec 100 50; Vec 0 50].
Local Abbreviation doc0 :=
  (JObj [("top_left"%string, AutoCorners.pt_json (Vec 0 0)); ("top_right"%string, AutoCorners.pt_json (Vec 100 0));
         ("bottom_right"%string, AutoCorners.pt_json (Vec 100 50)); ("bottom_left"%string, AutoCorners.pt_json (Vec 0 50))]).
Local Abbreviation fs0 := (fun q : string => if String.eqb q "/home/pool/corner.json" then Some doc0 else None).
Local Abbreviation st0 := (St pts0 None).
Local Abbreviation ws0 := [Wait [(EVENT_LBUTTONDOWN, 0%Z, 0%Z); (EVENT_MOUSEMOVE, 5%Z, 5%Z)] 32%Z; Wait [] (-1)%Z].

(** Compares two distances of the witnesses. *)
Ltac dist_lt := unfold dist, norm, norm2, dot, vsub; cbn [vx vy]; apply sqrt_lt_1_alt; split; nra.

Lemma loop_never_raises_witness :
  reachable tf0 st0 /\
  exists o, loop cwd0 ws0 st0 fs0 = ret o /\ forall st' fs', o = Running st' fs' -> reachable tf0 st' /\ wf st'.
Proof.
  assert (H : reachable tf0 st0) by (apply (reach_init tf0 fs0 cwd0); reflexivity).
  split; [exact H | exact (loop_never_raises tf0 cwd0 ws0 st0 fs0 H)].
Defined.

Lemma drag_corner_witness :
  reachable tf0 st0 /\ nth_error pts0 0 = Some (Vec 0 0) /\ dist (Vec 0 0) (Vec (IZR 0) (IZR 0)) < HIT_RADIUS /\
  (forall j q, j <> 0%nat -> nth_error pts0 j = Some q -> dist (Vec 0 0) (Vec (IZR 0) (IZR 0)) < dist q (Vec (IZR 0) (IZR 0))) /\
  exists ps, callbacks ((EVENT_LBUTTONDOWN, 0%Z, 0%Z) :: map (fun m => (EVENT_MOUSEMOVE, fst m, snd m)) ([(3%Z, 3%Z)] ++ [(5%Z, 7%Z)])%list
                        ++ [(EVENT_LBUTTONUP, 5%Z, 7%Z)]) st0 = ret (St ps None) /\
             nth_error ps 0 = Some (Vec (IZR 5) (IZR 7)) /\ forall k, k <> 0%nat -> nth_error ps k = nth_error pts0 k.
Proof.
  assert (H : reachable tf0 st0) by (apply (reach_init tf0 fs0 cwd0); reflexivity).
  assert (Hr : dist (Vec 0 0) (Vec (IZR 0) (IZR 0)) < HIT_RADIUS)
    by (unfold dist, norm, norm2, dot, vsub, HIT_RADIUS; cbn [vx vy];
        replace (_ * _ + _ * _) with 0 by ring; rewrite sqrt_0; lra).
  assert (Hb : forall j q, j <> 0%nat -> nth_error pts0 j = Some q ->
                 dist (Vec 0 0) (Vec (IZR 0) (IZR 0)) < dist q (Vec (IZR 0) (IZR 0)))
    by (intros [|[|[|[|j]]]] q Hj E; cbn in E; first [lia | destruct j; discriminate | injection E as <-; dist_lt]).
  split; [exact H | split; [reflexivity | split; [exact Hr | split; [exact Hb|]]]].
  exact (drag_corner tf0 st0 0 (Vec 0 0) 0 0 5 7 5 7 [(3, 3)]%Z H eq_refl Hr Hb).
Defined.

Lemma save_load_roundtrip_witness :
  let o := Running st0 (write_json fs0 "/home/pool/corner.json" doc0) in
  (forall r, tf0 (JNum r) = ret r) /\ reachable tf0 st0 /\ Z.land 32 255 = 32%Z /\
  loop cwd0 [Wait [] 32%Z] st0 fs0 = ret o /\
  exists st1, o = Running st1 (files_of o) /\ init tf0 true (files_of o) cwd0 = ret (St (pts st1) None).
Proof.
  intros o; assert (H : reachable tf0 st0) by (apply (reach_init tf0 fs0 cwd0); reflexivity).
  assert (Hf : forall r, tf0 (JNum r) = ret r) by reflexivity.
  split; [exact Hf | split; [exact H | split; [reflexivity | split; [reflexivity|]]]].
  exact (save_load_roundtrip tf0 cwd0 [] 32 st0 fs0 o Hf H eq_refl eq_refl).
Defined.

Lemma save_swallows_key_witness :
  reachable tf0 st0 /\ Z.land 32 255 = 32%Z /\
  (forall k1 k2, loop cwd0 (Wait [] 32 :: Wait [] k1 :: []) st0 fs0 = loop cwd0 (Wait [] 32 :: Wait [] k2 :: []) st0 fs0) /\
  exists st' fs', loop cwd0 [Wait [] 32%Z; Wait [] 27%Z] st0 fs0 = ret (Running st' fs').
Proof.
  assert (H : reachable tf0 st0) by (apply (reach_init tf0 fs0 cwd0); reflexivity).
  split; [exact H | split; [reflexivity|]].
  exact (save_swallows_key tf0 cwd0 [] [] 32 [] st0 fs0 H eq_refl).
Defined.

Lemma no_space_no_write_witness :
  Forall (fun w => Z.land (wkey w) 255 <> 32%Z) [Wait [(EVENT_LBUTTONDOWN, 0%Z, 0%Z)] 27%Z] /\
  loop cwd0 [Wait [(EVENT_LBUTTONDOWN, 0%Z, 0%Z)] 27%Z] st0 fs0 = ret (Quit fs0) /\ files_of (Quit fs0) = fs0.
Proof.
  assert (Hn : Forall (fun w => Z.land (wkey w) 255 <> 32%Z) [Wait [(EVENT_LBUTTONDOWN, 0%Z, 0%Z)] 27%Z])
    by (repeat constructor; cbn; discriminate).
  assert (E : loop cwd0 [Wait [(EVENT_LBUTTONDOWN, 0%Z, 0%Z)] 27%Z] st0 fs0 = ret (Quit fs0)).
  { cbn [loop callbacks events wkey]; rewrite (press_selects st0 0 0 0 (Vec 0 0)); [reflexivity | reflexivity | |].
    - unfold dist, norm, norm2, dot, vsub, HIT_RADIUS; cbn [vx vy]; replace (_ * _ + _ * _) with 0 by ring; rewrite sqrt_0; lra.
    - intros [|[|[|[|j]]]] q Hj Eq; cbn in Eq; first [lia | destruct j; discriminate | injection Eq as <-; dist_lt]. }
  split; [exact Hn | split; [exact E | exact (no_space_no_write cwd0 _ Hn st0 fs0 (Quit fs0) E)]].
Defined.

Lemma editor_invisible_to_capture_witness :
  let o := Running st0 (write_json fs0 "/home/pool/corner.json" doc0) in
  let c0 := CamRun unit true [Round (Some tt) (-1)%Z] (Some tt) "20250101_000000" in
  loop cwd0 [Wait [] 32%Z] st0 fs0 = ret o /\
  capture unit tf0 (fun _ _ => Mat3 1 0 0 0 1 0 0 0 1) unit (fun _ => ret tt) (fun i _ => i) (fun _ => [])
    (World (files_of o) cwd0) c0 =
  capture unit tf0 (fun _ _ => Mat3 1 0 0 0 1 0 0 0 1) unit (fun _ => ret tt) (fun i _ => i) (fun _ => [])
    (World fs0 cwd0) c0.
Proof.
  intros o c0; assert (E : loop cwd0 [Wait [] 32%Z] st0 fs0 = ret o) by reflexivity.
  split; [exact E | exact (editor_invisible_to_capture tf0 _ (fun _ => ret tt) _ _ cwd0 _ st0 fs0 o c0 E)].
Defined.
