(* ===== verification/CamMan.v ===== *)
(** * The undistorted camera feed with snapshots ([src/tools/cam_man.py])

    [cam_man.py] loads the camera matrix and distortion from
    [intrinsics.yaml], opens the camera, computes the undistortion maps
    from the size of a first frame, then shows the undistorted feed: q
    leaves, Space writes the current frame as [photo_<count:03d>.jpg] in
    the working directory and counts it.  The YAML loading is one
    computation that may raise, the maps and [cv2.remap] are the variable
    [undistort] of the first frame and the current one; a round of the
    loop is the frame [cap.read()] returned and the key of
    [cv2.waitKey(1)].  The photos go through [Capture.imwrite], which
    overwrites a name already in the folder.  [test_corner.py] opens
    [photo_000.jpg], the first photo of a session. *)

From Stdlib Require Import List Bool String Ascii ZArith Lia.
From S2P Require Import Prelude Json Capture CornerTool.
Import ListNotations.
Open Scope string_scope.

(** ** [f"{n:03d}"] *)

Fixpoint zeros (k : nat) : string :=
  match k with O => EmptyString | S k => String "0" (zeros k) end.

(** Zeros on the left up to width [w]. *)
Definition zpad (w : nat) (s : string) : string := zeros (w - String.length s) ++ s.

(** Width 3 with zero padding: the sign comes first and counts in the
    width. *)
Definition fmt03 (n : Z) : string :=
  if (n <? 0)%Z then "-" ++ zpad 2 (py_str_Z (- n)) else zpad 3 (py_str_Z n).

(** [f"photo_{img_count:03d}.jpg"] (line 48) *)
Definition photo_name (n : Z) : string := "photo_" ++ fmt03 n ++ ".jpg".

(** ** The feed (lines 6-54) *)

Section Feed.

Variable img : Type.
(** [cv2.remap] with the maps computed from the first frame (lines
    26-28 and 40). *)
Variable undistort : img -> img -> img.

(** One round of the [while True] loop. *)
Record cam_round := CamRound { frame_read : option img; key_code : Z }.

(** The loop of lines 31-51 from [img_count]: the [cv2.imwrite] calls
    it makes, in order. *)
Fixpoint cam_loop (f0 : img) (rs : list cam_round) (count : Z) : list (string * img) :=
  match rs with
  | [] => []
  | r :: rs' =>
      match frame_read r with
      | None => []
      | Some f =>
          let u := undistort f0 f in
          let k := Z.land (key_code r) 255 in
          if Z.eqb k 113 then []
          else if Z.eqb k 32 then (photo_name count, u) :: cam_loop f0 rs' (count + 1)
          else cam_loop f0 rs' count
      end
  end.

(** The [cv2.imwrite] calls of a session, in order, on the folder. *)
Definition write_all (ws : list (string * img)) (fo : list (string * img)) : list (string * img) :=
  fold_left (fun fo w => imwrite img fo (fst w) (snd w)) ws fo.

(** The script on the folder of the working directory: the calibration
    file is read first, [exit()] follows a camera that does not open, a
    missing first frame ends it before the loop. *)
Definition cam_man (calib : py unit) (opened : bool) (first : option img) (rs : list cam_round)
    (folder : list (string * img)) : py (list (string * img)) :=
  (_ <- calib ;;
   if negb opened then raise (SystemExit "Could not open webcam")
   else match first with
        | None => raise (SystemExit "Failed to grab initial frame")
        | Some f0 => ret (write_all (cam_loop f0 rs 0) folder)
        end)%py.

End Feed.

Arguments CamRound {img}.

(** [c, c + 1, ..., c + n - 1]: the counts a session uses. *)
Fixpoint zrange (c : Z) (n : nat) : list Z :=
  match n with O => [] | S n => c :: zrange (c + 1) n end.

(** ** [int()] of padded decimals *)

Lemma zeros_ascii (k : nat) : list_ascii_of_string (zeros k) = repeat "0"%char k.
Proof. induction k as [|k IH]; cbn; [reflexivity | rewrite IH; reflexivity]. Qed.

Lemma zeros_digits (k : nat) : Forall (fun c => is_digit c = true) (repeat "0"%char k).
Proof. induction k; constructor; [reflexivity | assumption]. Qed.

Lemma zeros_value (k : nat) : fold_left digit_step (repeat "0"%char k) 0%N = 0%N.
Proof.
  induction k as [|k IH]; cbn [repeat fold_left]; [reflexivity|].
  replace (digit_step 0 "0") with 0%N by reflexivity; exact IH.
Qed.

Lemma N_digits_value (n : N) : fold_left digit_step (N_digits n) 0%N = n.
Proof.
  destruct (N_digits_shape n) as [Hne Hd]; pose proof (parse_N_digits n) as H.
  rewrite parse_digits_all in H by assumption; injection H; auto.
Qed.

(** [int()] of a nonempty run of digits, with or without a minus sign. *)
Lemma int_of_digits (l : list ascii) :
  Forall (fun c => is_digit c = true) l -> l <> [] ->
  py_int_of_string (string_of_list_ascii l) = ret (Z.of_N (fold_left digit_step l 0%N)) /\
  py_int_of_string (string_of_list_ascii ("-"%char :: l)) = ret (- Z.of_N (fold_left digit_step l 0%N))%Z.
Proof.
  intros Hd Hne; assert (Hs : Forall (fun c => is_space c = false) l)
    by (eapply Forall_impl; [|exact Hd]; intros c; apply digit_not_space).
  unfold py_int_of_string; rewrite !list_ascii_of_string_of_list_ascii; split.
  - rewrite strip_nospace by exact Hs; destruct l as [|c d]; [congruence|].
    inversion Hd as [|? ? Hc _]; subst; destruct (digit_not_sign c Hc) as [-> ->].
    rewrite parse_digits_all by assumption; reflexivity.
  - rewrite strip_nospace by (constructor; [reflexivity | exact Hs]); cbn [Ascii.eqb].
    cbn -[parse_digits]; rewrite parse_digits_all by assumption; reflexivity.
Qed.

Lemma zpad_ascii (w : nat) (n : N) :
  exists k, list_ascii_of_string (zpad w (string_of_list_ascii (N_digits n))) = (repeat "0"%char k ++ N_digits n)%list.
Proof.
  unfold zpad; eexists; rewrite list_ascii_of_string_app, zeros_ascii, list_ascii_of_string_of_list_ascii; reflexivity.
Qed.

Lemma padded_digits (k : nat) (n : N) :
  Forall (fun c => is_digit c = true) (repeat "0"%char k ++ N_digits n)%list /\
  (repeat "0"%char k ++ N_digits n)%list <> [] /\
  fold_left digit_step (repeat "0"%char k ++ N_digits n)%list 0%N = n.
Proof.
  destruct (N_digits_shape n) as [Hne Hd]; split; [apply Forall_app; split; [apply zeros_digits | exact Hd]|].
  split; [intros H; apply app_eq_nil in H; tauto|].
  rewrite fold_left_app, zeros_value; apply N_digits_value.
Qed.

(** The text of [f"{n:03d}"] as characters. *)
Lemma fmt03_ascii (n : Z) :
  exists k, list_ascii_of_string (fmt03 n) =
    (if (n <? 0)%Z then "-"%char :: repeat "0"%char k ++ N_digits (Z.to_N (- n))
     else repeat "0"%char k ++ N_digits (Z.to_N n))%list.
Proof.
  unfold fmt03, py_str_Z; destruct (Z.ltb_spec n 0) as [H|H].
  - rewrite (proj2 (Z.ltb_ge (- n) 0)) by lia; destruct (zpad_ascii 2 (Z.to_N (- n))) as [k Ek].
    exists k; rewrite list_ascii_of_string_app, Ek; reflexivity.
  - exact (zpad_ascii 3 (Z.to_N n)).
Qed.

Lemma fmt03_int (n : Z) : py_int_of_string (fmt03 n) = ret n.
Proof.
  destruct (fmt03_ascii n) as [k E]; rewrite <- (string_of_list_ascii_of_string (fmt03 n)), E.
  destruct (Z.ltb_spec n 0) as [H|H].
  - destruct (padded_digits k (Z.to_N (- n))) as (Hd & Hne & Hv).
    rewrite (proj2 (int_of_digits _ Hd Hne)), Hv; f_equal; lia.
  - destruct (padded_digits k (Z.to_N n)) as (Hd & Hne & Hv).
    rewrite (proj1 (int_of_digits _ Hd Hne)), Hv; f_equal; lia.
Qed.

Lemma photo_name_inj (a b : Z) : photo_name a = photo_name b -> a = b.
Proof.
  unfold photo_name; intros H; apply append_cancel_l, append_cancel_r in H.
  apply (f_equal py_int_of_string) in H; rewrite !fmt03_int in H; injection H; auto.
Qed.

(** ** The names of a session *)

Lemma zrange_ge (c x : Z) (n : nat) : In x (zrange c n) -> (c <= x)%Z.
Proof.
  revert c; induction n as [|n IH]; intros c H; [destruct H|].
  destruct H as [<-|H]; [lia | specialize (IH _ H); lia].
Qed.

Lemma zrange_nodup (c : Z) (n : nat) : NoDup (zrange c n).
Proof.
  revert c; induction n as [|n IH]; intros c; constructor; [|apply IH].
  intros H; apply zrange_ge in H; lia.
Qed.

Lemma cam_loop_names {img : Type} (und : img -> img -> img) (f0 : img) (rs : list (cam_round img)) :
  forall c, map fst (cam_loop img und f0 rs c) = map photo_name (zrange c (List.length (cam_loop img und f0 rs c))).
Proof.
  induction rs as [|r rs IH]; intros c; [reflexivity|]; cbn [cam_loop].
  destruct (frame_read img r) as [f|]; [|reflexivity]; cbv zeta.
  destruct (Z.eqb _ 113); [reflexivity|]; destruct (Z.eqb _ 32); [|apply IH].
  cbn [map fst List.length zrange]; rewrite IH; reflexivity.
Qed.

Lemma cam_loop_nodup {img : Type} (und : img -> img -> img) (f0 : img) (rs : list (cam_round img)) (c : Z) :
  NoDup (map fst (cam_loop img und f0 rs c)).
Proof.
  rewrite cam_loop_names; apply Finite.Injective_map_NoDup; [intros a b; apply photo_name_inj | apply zrange_nodup].
Qed.

(** ** [cv2.imwrite] into a folder *)

Section Folder.

Context {img : Type}.

Lemma imwrite_names (fo : list (string * img)) (n : string) (i : img) :
  map fst (imwrite img fo n i) = if in_dec string_dec n (map fst fo) then map fst fo else (map fst fo ++ [n])%list.
Proof.
  induction fo as [|[m j] r IH]; [reflexivity|]; cbn [imwrite map fst].
  destruct (String.eqb_spec m n) as [->|Hmn]; cbn [map fst].
  - destruct (in_dec string_dec n (n :: map fst r)) as [_|H]; [reflexivity | exfalso; apply H; left; reflexivity].
  - rewrite IH; destruct (in_dec string_dec n (map fst r)), (in_dec string_dec n (m :: map fst r)) as [|H'];
      try reflexivity; exfalso; [apply H'; right; assumption | destruct i0 as [E|E]; [congruence | contradiction]].
Qed.

Lemma imwrite_nodup (fo : list (string * img)) (n : string) (i : img) :
  NoDup (map fst fo) -> NoDup (map fst (imwrite img fo n i)).
Proof. intros H; rewrite imwrite_names; destruct (in_dec _ _ _); [exact H | apply NoDup_snoc; assumption]. Qed.

Lemma imwrite_in (fo : list (string * img)) (n : string) (i : img) : In (n, i) (imwrite img fo n i).
Proof.
  induction fo as [|[m j] r IH]; cbn [imwrite]; [left; reflexivity|].
  destruct (String.eqb_spec m n) as [->|_]; [left; reflexivity | right; exact IH].
Qed.

Lemma imwrite_other (fo : list (string * img)) (n m : string) (i j : img) :
  m <> n -> In (m, j) (imwrite img fo n i) <-> In (m, j) fo.
Proof.
  intros Hmn; induction fo as [|[k v] r IH]; cbn [imwrite].
  - split; [intros [E|[]]; congruence | intros []].
  - destruct (String.eqb_spec k n) as [->|_]; cbn [In].
    + split; intros [E|E]; try (injection E as E; congruence); right; exact E.
    + rewrite IH; reflexivity.
Qed.

(** Two photos of one name in a folder without duplicate names are one. *)
Lemma nodup_same_name (fo : list (string * img)) (n : string) (a b : img) :
  NoDup (map fst fo) -> In (n, a) fo -> In (n, b) fo -> a = b.
Proof.
  induction fo as [|[m v] r IH]; [intros _ []|]; cbn [map fst]; intros H Ha Hb; inversion H as [|? ? Hm Hr]; subst.
  destruct Ha as [Ea|Ha], Hb as [Eb|Hb].
  - injection Ea as <- <-; injection Eb as <-; reflexivity.
  - injection Ea as -> <-; exfalso; apply Hm; exact (in_map fst _ _ Hb).
  - injection Eb as -> <-; exfalso; apply Hm; exact (in_map fst _ _ Ha).
  - exact (IH Hr Ha Hb).
Qed.

Lemma write_all_nodup (ws fo : list (string * img)) : NoDup (map fst fo) -> NoDup (map fst (write_all img ws fo)).
Proof.
  unfold write_all; revert fo; induction ws as [|w ws IH]; intros fo H; [exact H|]; apply IH, imwrite_nodup, H.
Qed.

Lemma write_all_keep (ws fo : list (string * img)) (n : string) (u : img) :
  ~ In n (map fst ws) -> In (n, u) fo -> In (n, u) (write_all img ws fo).
Proof.
  unfold write_all; revert fo; induction ws as [|[m v] ws IH]; intros fo Hn H; [exact H|]; cbn [fold_left fst snd map] in *.
  apply IH; [intros Hin; apply Hn; right; exact Hin|]; apply imwrite_other; [intros E; apply Hn; left; congruence | exact H].
Qed.

Lemma write_all_in (ws fo : list (string * img)) (n : string) (u : img) :
  NoDup (map fst ws) -> In (n, u) ws -> In (n, u) (write_all img ws fo).
Proof.
  unfold write_all; revert fo; induction ws as [|[m v] ws IH]; intros fo Hnd H; [destruct H|]; cbn [fold_left fst snd map] in *.
  inversion Hnd as [|? ? Hm Hr]; subst; destruct H as [E|H].
  - injection E as -> ->; apply write_all_keep; [exact Hm | apply imwrite_in].
  - exact (IH _ Hr H).
Qed.

End Folder.

Lemma cam_loop_first {img : Type} (und : img -> img -> img) (f0 : img) (rs : list (cam_round img)) n u r :
  cam_loop img und f0 rs 0 = (n, u) :: r -> n = photo_name 0.
Proof.
  intros E; pose proof (cam_loop_names und f0 rs 0) as H; rewrite E in H; cbn [map fst List.length zrange] in H.
  injection H as -> _; reflexivity.
Qed.

Lemma cam_man_ret {img : Type} und calib (f0 : img) rs folder folder' :
  cam_man img und calib true (Some f0) rs folder = ret folder' -> folder' = write_all img (cam_loop img und f0 rs 0) folder.
Proof. unfold cam_man; destruct calib as [|[]]; cbn [bind ret negb]; [discriminate | intros [= <-]; reflexivity]. Qed.

(** ** Properties *)

(** the photos of one session of [cam_man.py] are named
    [photo_000.jpg], [photo_001.jpg], ... in the order of the Space
    presses and are pairwise distinct, so no photo of a session replaces
    another; the first is [photo_000.jpg], the image [test_corner.py]
    opens. *)
Theorem cam_session_names {img : Type} (und : img -> img -> img) (f0 : img) (rs : list (cam_round img)) :
  let ws := cam_loop img und f0 rs 0 in
  map fst ws = map photo_name (zrange 0 (List.length ws)) /\ NoDup (map fst ws) /\
  forall n u r, ws = (n, u) :: r -> n = AdjustCorners.IMG_PATH.
Proof.
  intros ws; split; [apply cam_loop_names | split; [apply cam_loop_nodup|]].
  intros n u r E; rewrite (cam_loop_first und f0 rs n u r E); reflexivity.
Qed.

(** C28: every session starts again from [img_count = 0]: when two
    sessions each save a photo, the second writes its first photo under
    the name of the first session's first photo, [photo_000.jpg], and
    that earlier photo is gone from the folder. *)
Theorem second_session_overwrites {img : Type} (und : img -> img -> img) (calib calib' : py unit) (f0 f0' : img)
    (rs1 rs2 : list (cam_round img)) (folder folder1 folder2 : list (string * img))
    (n1 n2 : string) (u1 u2 : img) (r1 r2 : list (string * img)) :
  NoDup (map fst folder) ->
  cam_man img und calib true (Some f0) rs1 folder = ret folder1 ->
  cam_man img und calib' true (Some f0') rs2 folder1 = ret folder2 ->
  cam_loop img und f0 rs1 0 = (n1, u1) :: r1 -> cam_loop img und f0' rs2 0 = (n2, u2) :: r2 ->
  n1 = n2 /\ In (n1, u1) folder1 /\ In (n1, u2) folder2 /\ (u1 <> u2 -> ~ In (n1, u1) folder2).
Proof.
  intros Hnd E1 E2 W1 W2; apply cam_man_ret in E1, E2; subst folder1 folder2.
  assert (Hn : n1 = n2) by (rewrite (cam_loop_first und f0 rs1 n1 u1 r1 W1), (cam_loop_first und f0' rs2 n2 u2 r2 W2); reflexivity).
  subst n2; assert (H1 : In (n1, u1) (write_all img (cam_loop img und f0 rs1 0) folder))
    by (apply write_all_in; [apply cam_loop_nodup | rewrite W1; left; reflexivity]).
  assert (H2 : In (n1, u2) (write_all img (cam_loop img und f0' rs2 0) (write_all img (cam_loop img und f0 rs1 0) folder)))
    by (apply write_all_in; [apply cam_loop_nodup | rewrite W2; left; reflexivity]).
  split; [reflexivity | split; [exact H1 | split; [exact H2|]]].
  intros Hu Hin; apply Hu; apply (nodup_same_name _ n1 u1 u2 (write_all_nodup _ _ (write_all_nodup _ _ Hnd)) Hin H2).
Qed.

Lemma second_session_overwrites_witness :
  NoDup (map fst (@nil (string * nat))) /\
  cam_man nat (fun _ f => f) (ret tt) true (Some 0%nat) [CamRound (Some 1%nat) 32%Z] [] = ret [("photo_000.jpg", 1%nat)] /\
  cam_man nat (fun _ f => f) (ret tt) true (Some 0%nat) [CamRound (Some 2%nat) 32%Z] [("photo_000.jpg", 1%nat)] =
    ret [("photo_000.jpg", 2%nat)] /\
  cam_loop nat (fun _ f => f) 0%nat [CamRound (Some 1%nat) 32%Z] 0 = [("photo_000.jpg", 1%nat)] /\
  cam_loop nat (fun _ f => f) 0%nat [CamRound (Some 2%nat) 32%Z] 0 = [("photo_000.jpg", 2%nat)] /\
  ("photo_000.jpg" = "photo_000.jpg" /\ In ("photo_000.jpg", 1%nat) [("photo_000.jpg", 1%nat)] /\
   In ("photo_000.jpg", 2%nat) [("photo_000.jpg", 2%nat)] /\
   (1%nat <> 2%nat -> ~ In ("photo_000.jpg", 1%nat) [("photo_000.jpg", 2%nat)])).
Proof.
  assert (H0 : NoDup (map fst (@nil (string * nat)))) by constructor.
  assert (E1 : cam_man nat (fun _ f => f) (ret tt) true (Some 0%nat) [CamRound (Some 1%nat) 32%Z] [] =
               ret [("photo_000.jpg", 1%nat)]) by reflexivity.
  assert (E2 : cam_man nat (fun _ f => f) (ret tt) true (Some 0%nat) [CamRound (Some 2%nat) 32%Z] [("photo_000.jpg", 1%nat)] =
               ret [("photo_000.jpg", 2%nat)]) by reflexivity.
  assert (W1 : cam_loop nat (fun _ f => f) 0%nat [CamRound (Some 1%nat) 32%Z] 0 = [("photo_000.jpg", 1%nat)]) by reflexivity.
  assert (W2 : cam_loop nat (fun _ f => f) 0%nat [CamRound (Some 2%nat) 32%Z] 0 = [("photo_000.jpg", 2%nat)]) by reflexivity.
  do 5 (split; [assumption|]).
  exact (second_session_overwrites (fun _ f => f) (ret tt) (ret tt) 0%nat 0%nat _ _ [] _ _ _ _ 1%nat 2%nat [] [] H0 E1 E2 W1 W2).
Defined.
