(* ===== verification/CornerFile.v ===== *)
(** * The [corner.json] format shared by the corner tools and the detector

    Two programs write [corner.json] ([auto_corners.save_json] and the
    Space key of [test_corner.py]) and two read it
    ([yoloball._load_homography] and the start of [test_corner.py]).  The
    class [CornerWriter] states what a writer promises: a document it
    writes is the dict of four points under [top_left], [top_right],
    [bottom_right] and [bottom_left], taken from the first four rows it
    was given.  The readers' lemmas are proved once against the class;
    the two instances discharge it from the code of each writer. *)

From Stdlib Require Import Reals Lra List Bool String ZArith.
From S2P Require Import Prelude Json Vision Camera Pipeline Corners CornerTool.
Import ListNotations.
Open Scope R_scope.

(** The document of four corners. *)
Definition corner_doc (p0 p1 p2 p3 : vec) : jval :=
  JObj [("top_left"%string, AutoCorners.pt_json p0); ("top_right"%string, AutoCorners.pt_json p1);
        ("bottom_right"%string, AutoCorners.pt_json p2); ("bottom_left"%string, AutoCorners.pt_json p3)].

(** What a writer of [corner.json] promises its readers. *)
Class CornerWriter := {
  cw_write : list vec -> py jval;
  cw_doc : forall pts d, cw_write pts = ret d ->
    exists p0 p1 p2 p3 rest, pts = p0 :: p1 :: p2 :: p3 :: rest /\ d = corner_doc p0 p1 p2 p3
}.

(** [auto_corners.save_json] unpacks exactly four rows. *)
#[export] Program Instance auto_corners_writer : CornerWriter := { cw_write := AutoCorners.corner_json }.
Next Obligation.
  revert H; destruct pts as [|p0 [|p1 [|p2 [|p3 [|q r]]]]]; cbn; try discriminate.
  intros [= <-]; exists p0, p1, p2, p3, []; split; reflexivity.
Qed.

(** [test_corner.py] indexes the rows 0 to 3. *)
#[export] Program Instance editor_writer : CornerWriter := { cw_write := AdjustCorners.save_doc }.
Next Obligation.
  revert H; destruct pts as [|p0 [|p1 [|p2 [|p3 r]]]]; cbn; try discriminate.
  intros [= <-]; exists p0, p1, p2, p3, r; split; reflexivity.
Qed.

(** ** The readers *)

Section Readers.

Context `{W : CornerWriter}.

(** [_load_homography] maps the four written corners to the table. *)
Lemma writer_to_yolo (f32 : jval -> py R) (gpt : list (R * R) -> list (R * R) -> mat3) (pts : list vec) (d : jval) :
  (forall r, f32 (JNum r) = ret r) -> cw_write pts = ret d ->
  exists p0 p1 p2 p3 rest, pts = p0 :: p1 :: p2 :: p3 :: rest /\
    load_homography f32 gpt (ret d) =
    ret (gpt [(vx p0, vy p0); (vx p1, vy p1); (vx p2, vy p2); (vx p3, vy p3)]
             [(0, 0); (TABLE_W_CM, 0); (TABLE_W_CM, TABLE_H_CM); (0, TABLE_H_CM)]).
Proof.
  intros Hf E; destruct (cw_doc pts d E) as (p0 & p1 & p2 & p3 & rest & -> & ->).
  exists p0, p1, p2, p3, rest; split; [reflexivity|].
  unfold load_homography, corner_pt, corner_doc, AutoCorners.pt_json; cbn; rewrite !Hf; reflexivity.
Qed.

(** The editor loads the four written corners. *)
Lemma writer_to_editor (tf : jval -> py R) (pts : list vec) (d : jval) :
  (forall r, tf (JNum r) = ret r) -> cw_write pts = ret d ->
  exists p0 p1 p2 p3 rest, pts = p0 :: p1 :: p2 :: p3 :: rest /\ AdjustCorners.load_pts tf d = ret [p0; p1; p2; p3].
Proof.
  intros Hf E; destruct (cw_doc pts d E) as (p0 & p1 & p2 & p3 & rest & -> & ->).
  exists p0, p1, p2, p3, rest; split; [reflexivity|].
  unfold AdjustCorners.load_pts, AdjustCorners.corner_xy, AdjustCorners.to_vec, corner_doc, AutoCorners.pt_json; cbn.
  rewrite !Hf; destruct p0, p1, p2, p3; reflexivity.
Qed.

End Readers.

(** What [auto_corners.main] returns is what [save_json] wrote. *)
Lemma main_saves (found : bool) (method : string) (inner : R) (outer : py (list vec))
    (markers : option (list (Z * list vec))) (out : string) (r : string * jval) :
  AutoCorners.main found method inner outer markers out = ret (Some r) -> exists pts, AutoCorners.save_json pts out = ret r.
Proof.
  unfold AutoCorners.main; destruct found; cbn [negb]; [|discriminate].
  destruct (String.eqb method "aruco").
  - destruct (AutoCorners.detect_by_aruco markers) as [|pts]; cbn [bind ret]; [discriminate|].
    destruct (AutoCorners.save_json pts out) as [|r'] eqn:E; cbn [bind ret]; [discriminate|].
    intros [= <-]; exists pts; exact E.
  - destruct outer as [|o]; cbn [bind ret]; [discriminate|].
    destruct (AutoCorners.shrink_to_inner o inner) as [|[pts|]]; cbn [bind ret]; try discriminate.
    destruct (AutoCorners.save_json pts out) as [|r'] eqn:E; cbn [bind ret]; [discriminate|].
    intros [= <-]; exists pts; exact E.
Qed.

(** What [auto_corners.save_json] returns: the path it was given and the
    document of exactly four corners. *)
Lemma save_json_doc (pts : list vec) (out p : string) (doc : jval) :
  AutoCorners.save_json pts out = ret (p, doc) ->
  p = out /\ exists p0 p1 p2 p3, pts = [p0; p1; p2; p3] /\ doc = corner_doc p0 p1 p2 p3.
Proof.
  unfold AutoCorners.save_json; destruct (AutoCorners.corner_json pts) as [|d] eqn:Ec; cbn [bind ret]; [discriminate|].
  intros [= <- <-]; split; [reflexivity|].
  destruct (cw_doc (CornerWriter := auto_corners_writer) pts d Ec) as (p0 & p1 & p2 & p3 & rest & -> & ->).
  destruct rest; [exists p0, p1, p2, p3; split; reflexivity | discriminate Ec].
Qed.

(** ** Properties *)

(** the corner finder feeds the editor: when [auto_corners.py]
    writes its default [corner.json], [test_corner.py] started in the
    same directory loads exactly the four corners it wrote, with nothing
    selected, when [float] keeps a number. *)
Theorem auto_corners_feeds_editor (tf : jval -> py R) (found : bool) (method : string) (inner : R)
    (outer : py (list vec)) (markers : option (list (Z * list vec))) (fs : files) (cwd : string)
    (p : string) (doc : jval) :
  (forall r, tf (JNum r) = ret r) ->
  AutoCorners.main found method inner outer markers AdjustCorners.CORNER_JSON = ret (Some (p, doc)) ->
  exists p0 p1 p2 p3, doc = corner_doc p0 p1 p2 p3 /\
    AutoCorners.save_json [p0; p1; p2; p3] p = ret (p, doc) /\
    AdjustCorners.init tf true (write_json fs (resolve cwd p) doc) cwd = ret (AdjustCorners.St [p0; p1; p2; p3] None).
Proof.
  intros Hf Hm; destruct (main_saves _ _ _ _ _ _ _ Hm) as [pts E].
  destruct (save_json_doc pts _ p doc E) as [-> (p0 & p1 & p2 & p3 & -> & ->)].
  destruct (writer_to_editor (W := auto_corners_writer) tf [p0; p1; p2; p3] _ Hf eq_refl)
    as (q0 & q1 & q2 & q3 & rest & Eq & Hl); injection Eq as <- <- <- <- <-.
  exists p0, p1, p2, p3; split; [reflexivity | split; [exact E|]].
  unfold AdjustCorners.init; cbn [negb]; rewrite read_write, String.eqb_refl; cbn [bind ret].
  unfold corner_doc in Hl |- *; rewrite Hl; reflexivity.
Qed.

(** C19: round trip from the corner finder to the detector: the file
    [save_json] writes is read back by [yoloball._load_homography] as the
    same four points, in the order [top_left], [top_right],
    [bottom_right], [bottom_left], mapped to the corners of the 73.5 by
    37.5 cm table, when [float32] keeps a number. *)
Theorem corner_json_roundtrip (f32 : jval -> py R) (gpt : list (R * R) -> list (R * R) -> mat3)
    (pts : list vec) (out : string) (p : string) (doc : jval) :
  (forall r, f32 (JNum r) = ret r) -> AutoCorners.save_json pts out = ret (p, doc) ->
  p = out /\ exists p0 p1 p2 p3, pts = [p0; p1; p2; p3] /\ doc = corner_doc p0 p1 p2 p3 /\
  load_homography f32 gpt (ret doc) =
  ret (gpt [(vx p0, vy p0); (vx p1, vy p1); (vx p2, vy p2); (vx p3, vy p3)]
           [(0, 0); (TABLE_W_CM, 0); (TABLE_W_CM, TABLE_H_CM); (0, TABLE_H_CM)]).
Proof.
  intros Hf E; destruct (save_json_doc pts out p doc E) as [-> (p0 & p1 & p2 & p3 & -> & ->)].
  destruct (writer_to_yolo (W := auto_corners_writer) f32 gpt [p0; p1; p2; p3] _ Hf eq_refl)
    as (q0 & q1 & q2 & q3 & rest & Eq & H); injection Eq as <- <- <- <- <-.
  split; [reflexivity | exists p0, p1, p2, p3; split; [reflexivity | split; [reflexivity | exact H]]].
Qed.

Lemma auto_corners_feeds_editor_witness :
  let ms := [(0%Z, [Vec 0 0]); (1%Z, [Vec 4 0]); (2%Z, [Vec 4 2]); (3%Z, [Vec 0 2])] in
  let doc := corner_doc (AutoCorners.marker_center [Vec 0 0]) (AutoCorners.marker_center [Vec 4 0])
                        (AutoCorners.marker_center [Vec 4 2]) (AutoCorners.marker_center [Vec 0 2]) in
  let tf := fun v : jval => match v with JNum r => @inr exn R r | _ => inl ValueError end in
  (forall r, tf (JNum r) = ret r) /\
  AutoCorners.main true "aruco" 0 (ret []) (Some ms) AdjustCorners.CORNER_JSON = ret (Some ("corner.json"%string, doc)) /\
  exists p0 p1 p2 p3, doc = corner_doc p0 p1 p2 p3 /\
    AutoCorners.save_json [p0; p1; p2; p3] "corner.json" = ret ("corner.json"%string, doc) /\
    AdjustCorners.init tf true (write_json (fun _ => None) (resolve "/home/pool" "corner.json") doc) "/home/pool" =
    ret (AdjustCorners.St [p0; p1; p2; p3] None).
Proof.
  intros ms doc tf.
  assert (Hf : forall r, tf (JNum r) = ret r) by reflexivity.
  assert (Hm : AutoCorners.main true "aruco" 0 (ret []) (Some ms) AdjustCorners.CORNER_JSON =
               ret (Some ("corner.json"%string, doc))) by reflexivity.
  split; [exact Hf | split; [exact Hm|]].
  exact (auto_corners_feeds_editor tf true "aruco" 0 (ret []) (Some ms) (fun _ => None) "/home/pool" _ doc Hf Hm).
Defined.

Lemma corner_json_roundtrip_witness :
  let sq := [Vec 0 0; Vec 1 0; Vec 1 1; Vec 0 1] in
  let f32 := fun v : jval => match v with JNum r => @inr exn R r | _ => inl ValueError end in
  let gpt := fun _ _ : list (R * R) => Mat3 1 0 0 0 1 0 0 0 1 in
  let doc := corner_doc (Vec 0 0) (Vec 1 0) (Vec 1 1) (Vec 0 1) in
  (forall r, f32 (JNum r) = ret r) /\
  AutoCorners.save_json sq "corner.json" = ret ("corner.json"%string, doc) /\
  ("corner.json"%string = "corner.json"%string /\
   exists p0 p1 p2 p3, sq = [p0; p1; p2; p3] /\ doc = corner_doc p0 p1 p2 p3 /\
   load_homography f32 gpt (ret doc) =
   ret (gpt [(vx p0, vy p0); (vx p1, vy p1); (vx p2, vy p2); (vx p3, vy p3)]
            [(0, 0); (TABLE_W_CM, 0); (TABLE_W_CM, TABLE_H_CM); (0, TABLE_H_CM)])).
Proof.
  intros sq f32 gpt doc; assert (Hf : forall r, f32 (JNum r) = ret r) by reflexivity.
  assert (E : AutoCorners.save_json sq "corner.json" = ret ("corner.json"%string, doc)) by reflexivity.
  split; [exact Hf | split; [exact E | exact (corner_json_roundtrip f32 gpt sq _ _ _ Hf E)]].
Defined.
