(* ===== verification/Stitch.v ===== *)
(** * Photo stitching ([src/tools/size.py], [src/tools/stinch.py])

    [size.py] stitches two photos: SIFT matches filtered by the ratio
    test, a homography from the second photo to the first, a canvas made
    from the bounding box of the first photo and the warped corners of
    the second (rounded outwards with [np.int32]), and the first photo
    pasted at the translation that makes the box start at [(0, 0)].
    SIFT, the matcher, [findHomography], [warpPerspective] and the paste
    are variables of the section [Sift]; their pixels are not modelled,
    the shapes and coordinates are.  [np.int32] of a float is truncation
    toward zero ([py_trunc]) inside the int32 range, and [-2^31] outside
    it (the x86 conversion); the sums on the int32 results wrap modulo
    [2^32] ([wrap32]).  The corners are kept as real numbers: their
    rounding to float32 is not modelled.

    [stinch.py] places three photos side by side at fixed offsets on a
    canvas 960 rows high; the photos are given by their shapes, and the
    model follows numpy's slicing and broadcasting rules to decide which
    assignments raise. *)

From Stdlib Require Import Reals Lra List Bool String ZArith Lia.
From S2P Require Import Prelude Json Vision.
Import ListNotations.
Open Scope R_scope.

Module SiftStitch.

(** The least and the greatest coordinate of a point list along [f]
    ([all_corners.min(axis=0)] and [.max(axis=0)]). *)
Definition pmin (f : R * R -> R) (l : list (R * R)) : R :=
  match l with [] => 0 | p :: r => fold_left (fun m q => Rmin m (f q)) r (f p) end.
Definition pmax (f : R * R -> R) (l : list (R * R)) : R :=
  match l with [] => 0 | p :: r => fold_left (fun m q => Rmax m (f q)) r (f p) end.

Definition INT32_MIN : Z := (- 2 ^ 31)%Z.

(** numpy's int32 arithmetic: the result modulo [2^32], in
    [[-2^31, 2^31)]. *)
Definition wrap32 (z : Z) : Z := ((z + 2 ^ 31) mod 2 ^ 32 - 2 ^ 31)%Z.

(** [np.int32] of an array of floats (lines 33-34): the C conversion,
    truncation toward zero; a value out of the int32 range (undefined in
    C) gives [INT32_MIN], as x86's conversion instruction does. *)
Definition np_int32 (x : R) : Z :=
  let t := py_trunc x in
  if ((INT32_MIN <=? t) && (t <? 2 ^ 31))%Z then t else INT32_MIN.

(** [H_translation] of line 37. *)
Definition translation (tx ty : Z) : mat3 := Mat3 1 0 (IZR tx) 0 1 (IZR ty) 0 0 1.

(** The matrix product [A @ B]. *)
Definition mat_mul (A B : mat3) : mat3 :=
  Mat3 (m00 A * m00 B + m01 A * m10 B + m02 A * m20 B) (m00 A * m01 B + m01 A * m11 B + m02 A * m21 B)
       (m00 A * m02 B + m01 A * m12 B + m02 A * m22 B)
       (m10 A * m00 B + m11 A * m10 B + m12 A * m20 B) (m10 A * m01 B + m11 A * m11 B + m12 A * m21 B)
       (m10 A * m02 B + m11 A * m12 B + m12 A * m22 B)
       (m20 A * m00 B + m21 A * m10 B + m22 A * m20 B) (m20 A * m01 B + m21 A * m11 B + m22 A * m21 B)
       (m20 A * m02 B + m21 A * m12 B + m22 A * m22 B).

(** [[[0, 0], [0, h], [w, h], [w, 0]]] *)
Definition img_corners (h w : Z) : list (R * R) := [(0, 0); (0, IZR h); (IZR w, IZR h); (IZR w, 0)].

Section Sift.

Variable img : Type.
(** [img.shape[:2]], as [(h, w)]. *)
Variable shape : img -> Z * Z.

(** One pair of [bf.knnMatch(des1, des2, k=2)]: the distances of the two
    nearest descriptors and the points [kp1[m.queryIdx].pt] and
    [kp2[m.trainIdx].pt]. *)
Record knn := Knn { m_dist : R; n_dist : R; src_pt : R * R; dst_pt : R * R }.

(** SIFT and the matcher on two photos. *)
Variable matches : img -> img -> list knn.
(** [cv2.findHomography(dst_pts, src_pts, cv2.RANSAC, 5.0)]; [None] when
    it finds no homography. *)
Variable find_homography : list (R * R) -> list (R * R) -> option mat3.
(** [cv2.warpPerspective(img2, M, (w, h))] *)
Variable warp : img -> mat3 -> Z * Z -> img.
(** [result[t1:h1 + t1, t0:w1 + t0] = img1] on a canvas that holds it. *)
Variable paste : img -> img -> Z -> Z -> img.

(** The ratio test of line 12. *)
Definition good (ms : list knn) : list knn := filter (fun m => (m_dist m <? 0.75 * n_dist m)%geo) ms.

(** [stitch_images(img1, img2)] (lines 4-42).  [perspectiveTransform]
    with no homography raises; a paste outside the canvas raises
    [ValueError] (numpy cannot broadcast the photo into the shorter
    slice). *)
Definition stitch_images (img1 img2 : img) : py (option img) :=
  let gd := good (matches img1 img2) in
  if Nat.ltb (List.length gd) 4 then ret None
  else
    match find_homography (map dst_pt gd) (map src_pt gd) with
    | None => raise TypeError
    | Some H =>
        let '(h1, w1) := shape img1 in
        let '(h2, w2) := shape img2 in
        let all := img_corners h1 w1 ++ map (hom_apply H) (img_corners h2 w2) in
        let xmin := np_int32 (pmin fst all - 0.5) in
        let ymin := np_int32 (pmin snd all - 0.5) in
        let xmax := np_int32 (pmax fst all + 0.5) in
        let ymax := np_int32 (pmax snd all + 0.5) in
        let t0 := wrap32 (- xmin) in
        let t1 := wrap32 (- ymin) in
        let W := wrap32 (xmax - xmin) in
        let Hc := wrap32 (ymax - ymin) in
        let result := warp img2 (mat_mul (translation t0 t1) H) (W, Hc) in
        if ((0 <=? t0) && (0 <=? t1) && (w1 + t0 <=? W) && (h1 + t1 <=? Hc))%Z
        then ret (Some (paste result img1 t0 t1))
        else raise ValueError
    end.

(** Lines 48-59: the first two photos, then the result with the third. *)
Definition stitch_three (img1 img2 img3 : img) : py (option img) :=
  (step1 <- stitch_images img1 img2 ;;
   match step1 with
   | None => ret None
   | Some s => stitch_images s img3
   end)%py.

End Sift.

End SiftStitch.

Module FixedStitch.

Definition offset1_cm : R := 12.7264.
Definition offset2_cm : R := 12.4668.
Definition scale : R := 16.62.
Definition offset1 : Z := py_trunc (offset1_cm * scale).
Definition offset2 : Z := py_trunc (offset2_cm * scale).
Definition h : Z := 960.

(** numpy's broadcasting of two lengths. *)
Definition bcast (a b : Z) : option Z :=
  if Z.eqb a b then Some a else if Z.eqb a 1 then Some b else if Z.eqb b 1 then Some a else None.

(** The width of [canvas[:, a:b]] on a canvas [W] wide, for [0 <= a]. *)
Definition slice_width (W a b : Z) : Z := Z.max 0 (Z.min b W - Z.min a W).

(** [canvas[:, a:a + w] = img] for a photo of shape [(hi, w)]: it must
    broadcast to the slice. *)
Definition assign (W a hi w : Z) : py unit :=
  let s := slice_width W a (a + w) in
  if (Z.eqb hi h || Z.eqb hi 1) && (Z.eqb w s || Z.eqb w 1) then ret tt else raise ValueError.

(** [canvas[:, a:a + w] = np.maximum(canvas[:, a:a + w], img)]. *)
Definition assign_max (W a hi w : Z) : py unit :=
  let s := slice_width W a (a + w) in
  match bcast h hi, bcast s w with
  | Some hr, Some wr => if Z.eqb hr h && (Z.eqb wr s || Z.eqb wr 1) then ret tt else raise ValueError
  | _, _ => raise ValueError
  end.

(** The script (lines 10-27) on the shapes of the three photos
    ([None] when [cv2.imread] found none): the width of the canvas it
    fills. *)
Definition stinch (s1 s2 s3 : option (Z * Z)) : py Z :=
  match s1 with
  | None => raise AttributeError
  | Some (h1, w1) =>
      let W := (w1 + offset1 + offset2)%Z in
      (_ <- assign W 0 h1 w1 ;;
       match s2 with
       | None => raise AttributeError
       | Some (h2, w2) =>
           (_ <- assign_max W offset1 h2 w2 ;;
            match s3 with
            | None => raise AttributeError
            | Some (h3, w3) => (_ <- assign_max W (offset1 + offset2) h3 w3 ;; ret W)
            end)
       end)%py
  end.

End FixedStitch.

Import SiftStitch FixedStitch.

(** ** Lemmas *)

Lemma int_part_ge (z : Z) (y : R) : IZR z <= y -> (z <= Int_part y)%Z.
Proof.
  intros H; destruct (base_Int_part y) as [H1 H2].
  assert (IZR z - 1 < IZR (Int_part y)) by lra; rewrite <- minus_IZR in H0; apply lt_IZR in H0; lia.
Qed.

(** [np.int32] of a value at most [-1/2] is at most [0]. *)
Lemma trunc_nonpos (y : R) : y <= - / 2 -> (py_trunc y <= 0)%Z.
Proof.
  intros H; unfold py_trunc; destruct (Rle_dec 0 y) as [|_]; [lra|].
  assert (0 <= Int_part (- y))%Z by (apply int_part_ge; lra); lia.
Qed.

(** [np.int32] of a value at least [z + 1/2] is at least [z], for
    [0 <= z]. *)
Lemma trunc_ge (z : Z) (y : R) : (0 <= z)%Z -> IZR z + / 2 <= y -> (z <= py_trunc y)%Z.
Proof.
  intros Hz H; apply IZR_le in Hz; unfold py_trunc; destruct (Rle_dec 0 y) as [_|n]; [|lra].
  apply int_part_ge; lra.
Qed.

Lemma pfold_min_le (f : R * R -> R) (l : list (R * R)) (m : R) :
  fold_left (fun m q => Rmin m (f q)) l m <= m /\ forall p, In p l -> fold_left (fun m q => Rmin m (f q)) l m <= f p.
Proof.
  revert m; induction l as [|q l IH]; intros m; cbn [fold_left]; [split; [lra | intros _ []]|].
  destruct (IH (Rmin m (f q))) as [H1 H2]; split; [pose proof (Rmin_l m (f q)); lra|].
  intros p [<-|Hp]; [pose proof (Rmin_r m (f q)); lra | exact (H2 p Hp)].
Qed.

Lemma pfold_max_ge (f : R * R -> R) (l : list (R * R)) (m : R) :
  m <= fold_left (fun m q => Rmax m (f q)) l m /\ forall p, In p l -> f p <= fold_left (fun m q => Rmax m (f q)) l m.
Proof.
  revert m; induction l as [|q l IH]; intros m; cbn [fold_left]; [split; [lra | intros _ []]|].
  destruct (IH (Rmax m (f q))) as [H1 H2]; split; [pose proof (Rmax_l m (f q)); lra|].
  intros p [<-|Hp]; [pose proof (Rmax_r m (f q)); lra | exact (H2 p Hp)].
Qed.

Lemma pmin_le (f : R * R -> R) (l : list (R * R)) (p : R * R) : In p l -> pmin f l <= f p.
Proof.
  destruct l as [|q l]; [intros []|]; cbn [pmin]; intros [<-|Hp];
    [apply (proj1 (pfold_min_le _ _ _)) | apply (proj2 (pfold_min_le _ _ _)), Hp].
Qed.

Lemma pmax_ge (f : R * R -> R) (l : list (R * R)) (p : R * R) : In p l -> f p <= pmax f l.
Proof.
  destruct l as [|q l]; [intros []|]; cbn [pmax]; intros [<-|Hp];
    [apply (proj1 (pfold_max_ge _ _ _)) | apply (proj2 (pfold_max_ge _ _ _)), Hp].
Qed.

Lemma pfold_min_ge (f : R * R -> R) (lo : R) (l : list (R * R)) (m : R) :
  lo <= m -> (forall p, In p l -> lo <= f p) -> lo <= fold_left (fun m q => Rmin m (f q)) l m.
Proof.
  revert m; induction l as [|q l IH]; intros m Hm Hl; cbn [fold_left]; [exact Hm|].
  apply IH; [apply Rmin_glb; [exact Hm | apply Hl; left; reflexivity] | intros p Hp; apply Hl; right; exact Hp].
Qed.

Lemma pfold_max_le (f : R * R -> R) (hi : R) (l : list (R * R)) (m : R) :
  m <= hi -> (forall p, In p l -> f p <= hi) -> fold_left (fun m q => Rmax m (f q)) l m <= hi.
Proof.
  revert m; induction l as [|q l IH]; intros m Hm Hl; cbn [fold_left]; [exact Hm|].
  apply IH; [apply Rmax_lub; [exact Hm | apply Hl; left; reflexivity] | intros p Hp; apply Hl; right; exact Hp].
Qed.

(** A bound on every point bounds the least and the greatest coordinate. *)
Lemma pmin_pmax_bounds (f : R * R -> R) (B : R) (l : list (R * R)) :
  0 <= B -> (forall p, In p l -> - B <= f p <= B) -> - B <= pmin f l /\ pmax f l <= B.
Proof.
  intros HB Hl; destruct l as [|q l]; cbn [pmin pmax]; [lra|].
  destruct (Hl q (or_introl eq_refl)) as [H1 H2]; split;
    [apply pfold_min_ge | apply pfold_max_le]; try assumption;
    intros p Hp; apply Hl; right; exact Hp.
Qed.

Lemma np_int32_in (x : R) :
  (INT32_MIN <= py_trunc x < 2 ^ 31)%Z -> np_int32 x = py_trunc x.
Proof.
  intros [H1 H2]; unfold np_int32; rewrite (proj2 (Z.leb_le _ _) H1), (proj2 (Z.ltb_lt _ _) H2); reflexivity.
Qed.

Lemma wrap32_id (z : Z) : (- 2 ^ 31 <= z < 2 ^ 31)%Z -> wrap32 z = z.
Proof. intros Hz; unfold wrap32; rewrite Z.mod_small by lia; lia. Qed.

(** The offsets in pixels of lines 10-11. *)
Lemma offsets : offset1 = 211%Z /\ offset2 = 207%Z.
Proof.
  unfold offset1, offset2, offset1_cm, offset2_cm, scale, py_trunc.
  split; (destruct (Rle_dec 0 _) as [_|n]; [symmetry; apply Int_part_spec; lra | lra]).
Qed.

Lemma slice_width_at (W a w : Z) : (0 <= a)%Z -> (0 <= w)%Z -> (a <= W)%Z -> slice_width W a (a + w) = Z.min w (W - a).
Proof. intros; unfold slice_width; lia. Qed.

(** A photo at least two columns wide is merged into its slice exactly
    when its height broadcasts to the canvas and it fits in the slice. *)
Lemma assign_max_ok (W a hi w : Z) : (2 <= w)%Z -> (2 <= W - a)%Z -> (0 <= a)%Z ->
  assign_max W a hi w = if (Z.eqb hi h || Z.eqb hi 1) && (w <=? W - a)%Z then ret tt else raise ValueError.
Proof.
  intros Hw Ha H0; unfold assign_max, bcast, h; rewrite slice_width_at by lia.
  destruct (Z.leb_spec w (W - a)) as [L|L]; [rewrite Z.min_l by lia | rewrite Z.min_r by lia];
    repeat match goal with |- context [Z.eqb ?x ?y] => destruct (Z.eqb_spec x y) end;
    cbn [orb andb]; try reflexivity; lia.
Qed.

Lemma assign_first (h1 w1 : Z) : (2 <= w1)%Z ->
  assign (w1 + 418) 0 h1 w1 = if Z.eqb h1 960 || Z.eqb h1 1 then ret tt else raise ValueError.
Proof.
  intros Hw; unfold assign, h; rewrite slice_width_at by lia; rewrite Z.min_l by lia; rewrite Z.eqb_refl.
  destruct (Z.eqb h1 960 || Z.eqb h1 1); reflexivity.
Qed.

(** ** Properties *)

(** C36: [stinch.py] on three photos at least two columns wide fills a
    canvas [w1 + 418] wide (the offsets are 211 and 207 pixels), and it
    raises [ValueError] unless every photo is 960 rows high (or one row,
    which numpy broadcasts), the second fits in [w1 + 207] columns and
    the third in [w1]: the fixed height 960 is assumed, not ensured. *)
Theorem stinch_shapes (h1 w1 h2 w2 h3 w3 : Z) :
  (2 <= w1)%Z -> (2 <= w2)%Z -> (2 <= w3)%Z ->
  stinch (Some (h1, w1)) (Some (h2, w2)) (Some (h3, w3)) =
  if (Z.eqb h1 960 || Z.eqb h1 1) && (Z.eqb h2 960 || Z.eqb h2 1) && (Z.eqb h3 960 || Z.eqb h3 1) &&
     (w2 <=? w1 + 207)%Z && (w3 <=? w1)%Z
  then ret (w1 + 418)%Z else raise ValueError.
Proof.
  intros H1 H2 H3; unfold stinch; destruct offsets as [-> ->]; cbv zeta.
  replace (w1 + 211 + 207)%Z with (w1 + 418)%Z by lia; rewrite assign_first by exact H1.
  rewrite (assign_max_ok (w1 + 418) 211 h2 w2), (assign_max_ok (w1 + 418) (211 + 207) h3 w3) by lia.
  replace (w1 + 418 - 211)%Z with (w1 + 207)%Z by lia; replace (w1 + 418 - (211 + 207))%Z with w1 by lia; unfold h.
  destruct (Z.eqb h1 960 || Z.eqb h1 1), (Z.eqb h2 960 || Z.eqb h2 1), (Z.eqb h3 960 || Z.eqb h3 1),
    (w2 <=? w1 + 207)%Z, (w3 <=? w1)%Z; reflexivity.
Qed.

(** C17: the canvas of [stitch_images] holds the first photo: once four
    matches pass the ratio test and a homography is found, and the first
    photo and the warped corners of the second stay within [2^29] pixels
    of the origin (so that no [np.int32] conversion or sum leaves the
    int32 range), the bounding box rounded outwards by [np.int32]
    contains [(0, 0)] and [(w1, h1)], so the translation is non-negative,
    the first photo fits in the canvas and the paste of line 40 never
    raises. *)
Theorem stitch_canvas_holds_first {img : Type} (shape : img -> Z * Z) (matches : img -> img -> list knn)
    (find_h : list (R * R) -> list (R * R) -> option mat3) (warp : img -> mat3 -> Z * Z -> img)
    (paste : img -> img -> Z -> Z -> img) (img1 img2 : img) (H : mat3) :
  (4 <= List.length (good (matches img1 img2)))%nat ->
  find_h (map dst_pt (good (matches img1 img2))) (map src_pt (good (matches img1 img2))) = Some H ->
  (0 <= fst (shape img1) <= 2 ^ 29)%Z -> (0 <= snd (shape img1) <= 2 ^ 29)%Z ->
  Forall (fun p => -536870912 <= fst p <= 536870912 /\ -536870912 <= snd p <= 536870912)
    (map (hom_apply H) (img_corners (fst (shape img2)) (snd (shape img2)))) ->
  exists t0 t1 W Hc,
    stitch_images img shape matches find_h warp paste img1 img2 =
      ret (Some (paste (warp img2 (mat_mul (translation t0 t1) H) (W, Hc)) img1 t0 t1)) /\
    (0 <= t0)%Z /\ (0 <= t1)%Z /\ (snd (shape img1) + t0 <= W)%Z /\ (fst (shape img1) + t1 <= Hc)%Z.
Proof.
  intros Hn Hf; unfold stitch_images; cbv zeta.
  rewrite (proj2 (Nat.ltb_ge _ _) Hn), Hf.
  destruct (shape img1) as [h1 w1], (shape img2) as [h2 w2]; cbn [fst snd]; intros Hh Hw HB.
  replace (2 ^ 29)%Z with 536870912%Z in Hh, Hw by reflexivity.
  assert (Rh : 0 <= IZR h1 <= 536870912) by (split; apply IZR_le; lia).
  assert (Rw : 0 <= IZR w1 <= 536870912) by (split; apply IZR_le; lia).
  set (all := (img_corners h1 w1 ++ map (hom_apply H) (img_corners h2 w2))%list).
  assert (Hall : forall p, In p all -> -536870912 <= fst p <= 536870912 /\ -536870912 <= snd p <= 536870912).
  { intros p Hp; apply in_app_or in Hp as [Hp|Hp]; [|exact (proj1 (Forall_forall _ _) HB p Hp)].
    destruct Hp as [<-|[<-|[<-|[<-|[]]]]]; cbn [fst snd]; lra. }
  assert (I0 : In (0, 0) all) by (left; reflexivity).
  assert (I1 : In (IZR w1, IZR h1) all) by (right; right; left; reflexivity).
  pose proof (pmin_le fst all _ I0) as A; pose proof (pmin_le snd all _ I0) as B.
  pose proof (pmax_ge fst all _ I1) as C; pose proof (pmax_ge snd all _ I1) as D; cbn [fst snd] in A, B, C, D.
  destruct (pmin_pmax_bounds fst 536870912 all) as [Fx Gx]; [lra | intros p Hp; apply Hall, Hp|].
  destruct (pmin_pmax_bounds snd 536870912 all) as [Fy Gy]; [lra | intros p Hp; apply Hall, Hp|].
  assert (X0 : (-536870913 <= py_trunc (pmin fst all - 0.5) <= 0)%Z)
    by (split; [apply trunc_ge_neg; [lia | lra] | apply trunc_nonpos; lra]).
  assert (Y0 : (-536870913 <= py_trunc (pmin snd all - 0.5) <= 0)%Z)
    by (split; [apply trunc_ge_neg; [lia | lra] | apply trunc_nonpos; lra]).
  assert (X1 : (w1 <= py_trunc (pmax fst all + 0.5) <= 536870913)%Z)
    by (split; [apply trunc_ge; [lia | lra] | apply trunc_le; [lia | lra]]).
  assert (Y1 : (h1 <= py_trunc (pmax snd all + 0.5) <= 536870913)%Z)
    by (split; [apply trunc_ge; [lia | lra] | apply trunc_le; [lia | lra]]).
  rewrite !np_int32_in by (unfold INT32_MIN; lia).
  set (xmin := py_trunc (pmin fst all - 0.5)) in *; set (ymin := py_trunc (pmin snd all - 0.5)) in *.
  set (xmax := py_trunc (pmax fst all + 0.5)) in *; set (ymax := py_trunc (pmax snd all + 0.5)) in *.
  rewrite !wrap32_id by lia.
  exists (- xmin)%Z, (- ymin)%Z, (xmax - xmin)%Z, (ymax - ymin)%Z; split; [|lia].
  rewrite (proj2 (Z.leb_le 0 (- xmin))), (proj2 (Z.leb_le 0 (- ymin))), (proj2 (Z.leb_le (w1 + - xmin) _)),
    (proj2 (Z.leb_le (h1 + - ymin) _)) by lia; reflexivity.
Qed.

Lemma stinch_shapes_witness :
  (2 <= 1280)%Z /\ (2 <= 1280)%Z /\ (2 <= 1280)%Z /\
  stinch (Some (960, 1280)%Z) (Some (960, 1280)%Z) (Some (960, 1280)%Z) =
  if (Z.eqb 960 960 || Z.eqb 960 1) && (Z.eqb 960 960 || Z.eqb 960 1) && (Z.eqb 960 960 || Z.eqb 960 1) &&
     (1280 <=? 1280 + 207)%Z && (1280 <=? 1280)%Z
  then ret (1280 + 418)%Z else raise ValueError.
Proof.
  split; [lia | split; [lia | split; [lia|]]].
  exact (stinch_shapes 960 1280 960 1280 960 1280 ltac:(lia) ltac:(lia) ltac:(lia)).
Defined.

Lemma hom_apply_id (p : R * R) : hom_apply (Mat3 1 0 0 0 1 0 0 0 1) p = p.
Proof. destruct p as [x y]; unfold hom_apply; cbn [m00 m01 m02 m10 m11 m12 m20 m21 m22]; f_equal; field. Qed.

Lemma stitch_canvas_holds_first_witness :
  let ms := repeat (Knn 1 2 (0, 0) (0, 0)) 4 in
  let id3 := Mat3 1 0 0 0 1 0 0 0 1 in
  let shape := fun _ : unit => (960, 1280)%Z in
  (4 <= List.length (good ms))%nat /\
  (fun _ _ : list (R * R) => Some id3) (map dst_pt (good ms)) (map src_pt (good ms)) = Some id3 /\
  (0 <= fst (shape tt) <= 2 ^ 29)%Z /\ (0 <= snd (shape tt) <= 2 ^ 29)%Z /\
  Forall (fun p => -536870912 <= fst p <= 536870912 /\ -536870912 <= snd p <= 536870912)
    (map (hom_apply id3) (img_corners (fst (shape tt)) (snd (shape tt)))) /\
  exists t0 t1 W Hc,
    stitch_images unit shape (fun _ _ => ms) (fun _ _ => Some id3) (fun i _ _ => i) (fun i _ _ _ => i) tt tt =
      ret (Some ((fun i _ _ _ => i) ((fun i _ _ => i) tt (mat_mul (translation t0 t1) id3) (W, Hc)) tt t0 t1)) /\
    (0 <= t0)%Z /\ (0 <= t1)%Z /\ (snd (shape tt) + t0 <= W)%Z /\ (fst (shape tt) + t1 <= Hc)%Z.
Proof.
  intros ms id3 shape.
  assert (Hg : (4 <= List.length (good ms))%nat)
    by (unfold good, ms; cbn [repeat filter m_dist n_dist]; rewrite Rltb_true by lra; cbn; lia).
  assert (Hh : (0 <= fst (shape tt) <= 2 ^ 29)%Z) by (cbn; lia).
  assert (Hw : (0 <= snd (shape tt) <= 2 ^ 29)%Z) by (cbn; lia).
  assert (HB : Forall (fun p => -536870912 <= fst p <= 536870912 /\ -536870912 <= snd p <= 536870912)
    (map (hom_apply id3) (img_corners (fst (shape tt)) (snd (shape tt))))).
  { unfold id3; rewrite (map_ext _ (fun p => p) hom_apply_id), map_id; cbn.
    repeat constructor; cbn [fst snd]; lra. }
  split; [exact Hg | split; [reflexivity | split; [exact Hh | split; [exact Hw | split; [exact HB|]]]]].
  exact (stitch_canvas_holds_first shape (fun _ _ => ms) (fun _ _ => Some id3) (fun i _ _ => i) (fun i _ _ _ => i)
           tt tt id3 Hg eq_refl Hh Hw HB).
Defined.
